(** * StorymapCreator: document-to-block extraction and publish protocol

    A shallow embedding of the list engine, the block classifier, the image
    display rule, the code language detector and the two-phase publish
    protocol of [StorymapCreator_v1.py], with the properties of the design
    document stated and settled against it.

    Conventions of the embedding.
    - A Python [str] is a [string]; only ASCII text is modelled, so
      [lower], [strip], [isupper] and the regular-expression classes
      [\s], [\w], [\d] range over ASCII.
    - A Python [int] is a [Z]; a length or a counter is a [nat].
    - A Python [dict] is an association list in insertion order ([dict]),
      with [dict_set] overwriting in place or appending, as [d[k] = v] does.
    - A font size ([w:sz], in half-points) is an exact rational; the
      rounding of Python's floats, from 2^53 half-points on, and its
      OverflowError, from 309 digits on, are not modelled.
    - [log_message] calls have no effect on results and are left out,
      except in the debug settings, where the call can raise. *)

From Stdlib Require Import ZArith List String Ascii Bool Lia QArith Arith.
From Stdlib Require Import DecimalString DecimalNat.
Import ListNotations.

Set Implicit Arguments.

(* ================================================================== *)
(** * Python strings and dictionaries *)
(* ================================================================== *)

Module Py.

Open Scope string_scope.

(** [str.lower] on ASCII. *)
Definition lower_ascii (c : ascii) : ascii :=
  let n := nat_of_ascii c in
  if (65 <=? n)%nat && (n <=? 90)%nat then ascii_of_nat (n + 32) else c.

Definition upper_ascii (c : ascii) : ascii :=
  let n := nat_of_ascii c in
  if (97 <=? n)%nat && (n <=? 122)%nat then ascii_of_nat (n - 32) else c.

Definition is_upper_ascii (c : ascii) : bool :=
  let n := nat_of_ascii c in (65 <=? n)%nat && (n <=? 90)%nat.

Definition is_lower_ascii (c : ascii) : bool :=
  let n := nat_of_ascii c in (97 <=? n)%nat && (n <=? 122)%nat.

Definition is_digit (c : ascii) : bool :=
  let n := nat_of_ascii c in (48 <=? n)%nat && (n <=? 57)%nat.

(** Whitespace as [str.isspace] sees it below code point 128. *)
Definition is_space (c : ascii) : bool :=
  let n := nat_of_ascii c in
  ((9 <=? n)%nat && (n <=? 13)%nat) || ((28 <=? n)%nat && (n <=? 32)%nat).

(** A word character of [\w]. *)
Definition is_word (c : ascii) : bool :=
  is_upper_ascii c || is_lower_ascii c || is_digit c || Ascii.eqb c "_"%char.

Fixpoint lower (s : string) : string :=
  match s with
  | EmptyString => EmptyString
  | String c t => String (lower_ascii c) (lower t)
  end.

Fixpoint lstrip (s : string) : string :=
  match s with
  | EmptyString => EmptyString
  | String c t => if is_space c then lstrip t else s
  end.

(** [rstrip] keeps a character when it is not a space or when something
    survives to its right. *)
Fixpoint rstrip (s : string) : string :=
  match s with
  | EmptyString => EmptyString
  | String c t =>
      match rstrip t with
      | EmptyString => if is_space c then EmptyString else String c EmptyString
      | r => String c r
      end
  end.

Definition strip (s : string) : string := rstrip (lstrip s).

Fixpoint startswith (s p : string) : bool :=
  match p, s with
  | EmptyString, _ => true
  | String a p', String b s' => Ascii.eqb a b && startswith s' p'
  | String _ _, EmptyString => false
  end.

(** [sub in s] for strings. *)
Fixpoint contains (sub s : string) : bool :=
  startswith s sub ||
  match s with
  | EmptyString => false
  | String _ t => contains sub t
  end.

Fixpoint rev_string (s acc : string) : string :=
  match s with
  | EmptyString => acc
  | String c t => rev_string t (String c acc)
  end.

Definition endswith (s p : string) : bool :=
  startswith (rev_string s "") (rev_string p "").

(** [s.count(c)] for a one-character needle. *)
Fixpoint count_char (c : ascii) (s : string) : nat :=
  match s with
  | EmptyString => 0
  | String a t => (if Ascii.eqb a c then 1 else 0) + count_char c t
  end.

(** [str.isupper]: some cased character, and no lower-case one. *)
Fixpoint has_upper (s : string) : bool :=
  match s with
  | EmptyString => false
  | String c t => is_upper_ascii c || has_upper t
  end.

Fixpoint has_lower (s : string) : bool :=
  match s with
  | EmptyString => false
  | String c t => is_lower_ascii c || has_lower t
  end.

Definition isupper (s : string) : bool := has_upper s && negb (has_lower s).

(** [s * n]: the empty string when [n <= 0]. *)
Fixpoint repeat_nat (s : string) (n : nat) : string :=
  match n with
  | O => ""
  | S k => s ++ repeat_nat s k
  end.

Definition repeat (s : string) (n : Z) : string := repeat_nat s (Z.to_nat n).

(** [str(n)] for a non-negative integer. *)
Definition str_of_nat (n : nat) : string :=
  NilEmpty.string_of_uint (Nat.to_uint n).

(** Truthiness of a string: [if s:]. *)
Definition truthy (s : string) : bool :=
  match s with EmptyString => false | _ => true end.

(** ** Dictionaries *)

Definition dict (V : Type) : Type := list (string * V).

Fixpoint dict_get {V} (k : string) (d : dict V) : option V :=
  match d with
  | [] => None
  | (k', v) :: t => if String.eqb k k' then Some v else dict_get k t
  end.

Definition dict_mem {V} (k : string) (d : dict V) : bool :=
  match dict_get k d with Some _ => true | None => false end.

(** [d[k] = v]: overwrite where the key sits, or append. *)
Fixpoint dict_set {V} (k : string) (v : V) (d : dict V) : dict V :=
  match d with
  | [] => [(k, v)]
  | (k', v') :: t =>
      if String.eqb k k' then (k', v) :: t else (k', v') :: dict_set k v t
  end.

(** [d.pop(k, None)]. *)
Fixpoint dict_pop {V} (k : string) (d : dict V) : dict V :=
  match d with
  | [] => []
  | (k', v') :: t =>
      if String.eqb k k' then t else (k', v') :: dict_pop k t
  end.

Definition keys {V} (d : dict V) : list string := map fst d.
Definition values {V} (d : dict V) : list V := map snd d.

(** [list.sort(key=...)]: a stable sort, here by insertion. *)
Fixpoint insert_by {A} (key : A -> Z) (x : A) (l : list A) : list A :=
  match l with
  | [] => [x]
  | y :: t => if (key x <=? key y)%Z then x :: y :: t
              else y :: insert_by key x t
  end.

Fixpoint sort_by {A} (key : A -> Z) (l : list A) : list A :=
  match l with
  | [] => []
  | x :: t => insert_by key x (sort_by key t)
  end.

End Py.

(* ================================================================== *)
(** * List engine: Stage A grouping and Stage B flattening *)
(* ================================================================== *)

Module ListEngine.

Import Py.
Open Scope string_scope.
Open Scope Z_scope.

(** A pending list item, a dictionary whose keys may be missing:
    the code reads each with [item.get(key, default)]. *)
Record list_item := mk_list_item {
  li_text : option string;
  li_level : option Z;
  li_type : option string;
  li_element_index : option Z
}.

(** [flat_item = item.copy(); flat_item['num_id'] = num_id]. *)
Record flat_item := mk_flat_item {
  fi_item : list_item;
  num_id : string
}.

Definition item_text (it : flat_item) : string :=
  match li_text (fi_item it) with Some t => t | None => "" end.
Definition item_level (it : flat_item) : Z :=
  match li_level (fi_item it) with Some l => l | None => 0 end.
Definition item_type (it : flat_item) : string :=
  match li_type (fi_item it) with Some t => t | None => "bullet-list" end.
Definition element_index (it : flat_item) : Z :=
  match li_element_index (fi_item it) with Some i => i | None => 0 end.

(** An item of a group, as [new_item] builds it. *)
Record group_item := mk_group_item {
  text : string;
  level : Z;
  original_type : string;
  group_index : nat
}.

Record group := mk_group {
  type : option string;
  document_position : Z;
  items : list group_item
}.

Definition group_id (n : nat) : string := "group_" ++ str_of_nat n.

(** The variables the grouping loop updates. *)
Record loop_state := mk_loop_state {
  grouped_lists : dict group;
  group_counter : nat;
  current_group : group;
  current_num_id : option string;
  last_level : option Z
}.

Definition nonempty {A} (l : list A) : bool :=
  match l with [] => false | _ => true end.

Definition opt_Z_is (o : option Z) (z : Z) : bool :=
  match o with Some x => x =? z | None => false end.

Definition opt_string_is (o : option string) (s : string) : bool :=
  match o with Some x => String.eqb x s | None => false end.

(** The decision of lines 893-910. *)
Definition start_new_group (st : loop_state) (item : flat_item) : bool :=
  if (item_level item =? 0) && nonempty (items (current_group st)) then
    if opt_Z_is (last_level st) 0 then
      negb (opt_string_is (current_num_id st) (num_id item))
    else false
  else false.

(** One iteration of [for item in flat_items]. *)
Definition group_step (st : loop_state) (item : flat_item) : loop_state :=
  let lvl := item_level item in
  let item_ty := item_type item in
  (* finalize the current group and open a new one *)
  let '(gl, gc, cur) :=
    if start_new_group st item then
      let '(gl, gc) :=
        if nonempty (items (current_group st)) then
          (dict_set (group_id (group_counter st)) (current_group st)
                    (grouped_lists st),
           S (group_counter st))
        else (grouped_lists st, group_counter st) in
      (gl, gc, mk_group None (element_index item) [])
    else (grouped_lists st, group_counter st, current_group st) in
  let new_item :=
    mk_group_item (item_text item) lvl item_ty (List.length (items cur)) in
  let cur1 := mk_group (type cur) (document_position cur)
                       (items cur ++ [new_item])%list in
  let cur2 :=
    match type cur1 with
    | None => if lvl =? 0
              then mk_group (Some item_ty) (document_position cur1) (items cur1)
              else cur1
    | Some _ => cur1
    end in
  mk_loop_state gl gc cur2 (Some (num_id item)) (Some lvl).

Definition initial_state (first : flat_item) : loop_state :=
  mk_loop_state [] 0%nat (mk_group None (element_index first) []) None None.

(** "Add the last group if it has items". *)
Definition finish (st : loop_state) : dict group :=
  if nonempty (items (current_group st)) then
    dict_set (group_id (group_counter st)) (current_group st)
             (grouped_lists st)
  else grouped_lists st.

(** The loop over the sorted items, with the early return on no items. *)
Definition group_flat_items (flat_items : list flat_item) : dict group :=
  match flat_items with
  | [] => []
  | first :: _ => finish (fold_left group_step flat_items (initial_state first))
  end.

(** Lines 857-862: every item of every numbering id, tagged with its id. *)
Definition flatten_items (all_list_items : dict (list list_item))
  : list flat_item :=
  flat_map (fun '(nid, its) => map (fun it => mk_flat_item it nid) its)
           all_list_items.

Definition group_list_items (all_list_items : dict (list list_item))
  : dict group :=
  group_flat_items (sort_by element_index (flatten_items all_list_items)).

(** [total_items], as line 858 counts it. *)
Definition total_items (all_list_items : dict (list list_item)) : nat :=
  fold_left (fun acc e => (acc + List.length (snd e))%nat) all_list_items 0%nat.

(** [sum(len(group['items']) for group in grouped_lists.values())]. *)
Definition total_items_in_groups (gl : dict group) : nat :=
  fold_left (fun acc g => (acc + List.length (items g))%nat) (values gl) 0%nat.

(** ** Stage B *)

(** [min(item['level'] for item in group['items']) if group['items'] else 0]. *)
Definition min_level (its : list group_item) : Z :=
  match its with
  | [] => 0
  | i :: t => fold_left (fun m j => Z.min m (level j)) t (level i)
  end.

Definition flatten_item (min_lvl : Z) (item : group_item) : group_item :=
  let relative_level := level item - min_lvl in
  if 1 <? relative_level then
    let excess_depth := relative_level - 1 in
    let prefix := repeat "--- " excess_depth in
    mk_group_item (prefix ++ text item) (min_lvl + 1)
                  (original_type item) (group_index item)
  else item.

Definition flatten_group (g : group) : group :=
  let min_lvl := min_level (items g) in
  mk_group (type g) (document_position g)
           (map (flatten_item min_lvl) (items g)).

(** [for group_id, group in grouped_lists.items(): ...
     flattened_lists[group_id] = flattened_group]. *)
Definition flatten_list_hierarchy (grouped : dict group) : dict group :=
  fold_left (fun acc e => dict_set (fst e) (flatten_group (snd e)) acc)
            grouped [].

(** ** Vocabulary of the statements *)

(** What grouping keeps of an input item. *)
Definition flat_core (it : flat_item) : string * Z * string :=
  (item_text it, item_level it, item_type it).

Definition group_core (it : group_item) : string * Z * string :=
  (text it, level it, original_type it).

(** One flag per grouped item, in order: [true] on the first item of a
    group. *)
Definition group_flags (gs : list group) : list bool :=
  flat_map (fun g => match items g with
                     | [] => []
                     | _ :: t => true :: map (fun _ => false) t
                     end) gs.

(** The code's rule: an item opens a group when it and the item right
    before it are both at level 0 and their numbering ids differ. *)
Definition starts_after (prev cur : flat_item) : bool :=
  (item_level cur =? 0) && (item_level prev =? 0)
  && negb (String.eqb (num_id cur) (num_id prev)).

Fixpoint boundaries_from (prev : flat_item) (l : list flat_item) : list bool :=
  match l with
  | [] => []
  | x :: t => starts_after prev x :: boundaries_from x t
  end.

Definition boundaries (l : list flat_item) : list bool :=
  match l with
  | [] => []
  | x :: t => true :: boundaries_from x t
  end.

(** The rule as the design document words it: a level-0 item opens a group
    when its numbering id differs from that of the last level-0 item seen,
    whatever deeper items came in between. *)
Fixpoint claimed_boundaries_from (last0 : option string) (l : list flat_item)
  : list bool :=
  match l with
  | [] => []
  | x :: t =>
      if item_level x =? 0 then
        match last0 with
        | Some i => negb (String.eqb (num_id x) i)
        | None => false
        end :: claimed_boundaries_from (Some (num_id x)) t
      else false :: claimed_boundaries_from last0 t
  end.

Definition claimed_boundaries (l : list flat_item) : list bool :=
  match l with
  | [] => []
  | x :: t =>
      true :: claimed_boundaries_from
                (if item_level x =? 0 then Some (num_id x) else None) t
  end.

(** The groups of a loop state: the finalized ones, then the open one. *)
Definition all_groups (st : loop_state) : list group :=
  (values (grouped_lists st) ++ [current_group st])%list.

Definition core_items (gs : list group) : list (string * Z * string) :=
  map group_core (List.concat (map items gs)).

(** The loop invariant once an item [prev] has been consumed. *)
Definition wf_state (st : loop_state) (prev : flat_item) : Prop :=
  keys (grouped_lists st) = map group_id (seq 0 (group_counter st))
  /\ items (current_group st) <> []
  /\ current_num_id st = Some (num_id prev)
  /\ last_level st = Some (item_level prev).

(** The worked example of the design document: levels 0,1,2,1. *)
Definition example_group : group :=
  mk_group (Some "numbered-list") 1
    [ mk_group_item "A" 0 "numbered-list" 0;
      mk_group_item "B" 1 "numbered-list" 1;
      mk_group_item "C" 2 "numbered-list" 2;
      mk_group_item "D" 1 "numbered-list" 3 ].

(** A group whose root level is 1, with items three, two and one level
    below it. *)
Definition deep_group : group :=
  mk_group (Some "bullet-list") 7
    [ mk_group_item "A" 1 "bullet-list" 0;
      mk_group_item "B" 4 "bullet-list" 1;
      mk_group_item "C" 3 "bullet-list" 2;
      mk_group_item "D" 2 "bullet-list" 3;
      mk_group_item "E" 1 "bullet-list" 4 ].

(** Three numbering ids: a root item, a nested item, a root item. *)
Definition interleaved_lists : dict (list list_item) :=
  [ ("1", [mk_list_item (Some "a") (Some 0) (Some "bullet-list") (Some 1)]);
    ("2", [mk_list_item (Some "b") (Some 1) (Some "bullet-list") (Some 2)]);
    ("3", [mk_list_item (Some "c") (Some 0) (Some "bullet-list") (Some 3)]) ].

End ListEngine.

(* ================================================================== *)
(** * Regular expressions: the fragment of Python's [re] the code uses *)
(* ================================================================== *)

Module Regex.

Import Py.
Open Scope string_scope.

(** An item of a bracketed set. *)
Inductive citem :=
| CChar (c : ascii)
| CRange (lo hi : ascii)
| CSpace                      (* \s *)
| CWord                       (* \w *)
| CDigit.                     (* \d *)

Inductive regex :=
| Eps
| Lit (c : ascii)
| Any                          (* .  : any character but a newline *)
| Set_ (items : list citem)    (* [...]  *)
| NotSet (items : list citem)  (* [^...] *)
| Seq (r1 r2 : regex)
| Alt (r1 r2 : regex)
| Star (greedy : bool) (r : regex)
| Opt (greedy : bool) (r : regex)
| WordB                        (* \b *)
| Bol                          (* ^ *)
| Eol.                         (* $ *)

Record flags := mk_flags { IGNORECASE : bool; MULTILINE : bool }.

Definition no_flags := mk_flags false false.
Definition flags_I := mk_flags true false.
Definition flags_IM := mk_flags true true.

Definition newline : ascii := ascii_of_nat 10.

Definition citem_matches (c : ascii) (i : citem) : bool :=
  match i with
  | CChar a => Ascii.eqb a c
  | CRange lo hi =>
      (nat_of_ascii lo <=? nat_of_ascii c)%nat
      && (nat_of_ascii c <=? nat_of_ascii hi)%nat
  | CSpace => is_space c
  | CWord => is_word c
  | CDigit => is_digit c
  end.

(** Under IGNORECASE a character matches when it or its other case does. *)
Definition in_set (f : flags) (c : ascii) (items : list citem) : bool :=
  existsb (citem_matches c) items
  || (IGNORECASE f
      && (existsb (citem_matches (lower_ascii c)) items
          || existsb (citem_matches (upper_ascii c)) items)).

Definition lit_matches (f : flags) (a c : ascii) : bool :=
  Ascii.eqb a c
  || (IGNORECASE f && Ascii.eqb (lower_ascii a) (lower_ascii c)).

Definition is_word_opt (o : option ascii) : bool :=
  match o with Some c => is_word c | None => false end.

Definition head (s : string) : option ascii :=
  match s with EmptyString => None | String c _ => Some c end.

Definition or_else {R} (a b : option R) : option R :=
  match a with Some x => Some x | None => b end.

(** The backtracking matcher.  [prev] is the character before the current
    position, [s] the text from the current position on; the continuation
    [k] receives the position after the match.  Alternatives are tried in
    the order Python tries them, so the first success is Python's match.
    A starred body must consume a character to be repeated. *)
Fixpoint run {R} (f : flags) (r : regex) (prev : option ascii) (s : string)
         (k : option ascii -> string -> option R) {struct r} : option R :=
  match r with
  | Eps => k prev s
  | Lit c =>
      match s with
      | String a t => if lit_matches f a c then k (Some a) t else None
      | EmptyString => None
      end
  | Any =>
      match s with
      | String a t => if Ascii.eqb a newline then None else k (Some a) t
      | EmptyString => None
      end
  | Set_ items =>
      match s with
      | String a t => if in_set f a items then k (Some a) t else None
      | EmptyString => None
      end
  | NotSet items =>
      match s with
      | String a t => if in_set f a items then None else k (Some a) t
      | EmptyString => None
      end
  | Seq r1 r2 => run f r1 prev s (fun p t => run f r2 p t k)
  | Alt r1 r2 => or_else (run f r1 prev s k) (run f r2 prev s k)
  | Star greedy r1 =>
      (fix loop (fuel : nat) (prev : option ascii) (s : string) : option R :=
         match fuel with
         | O => k prev s
         | S fuel' =>
             let more :=
               run f r1 prev s
                   (fun p t => if (String.length t <? String.length s)%nat
                               then loop fuel' p t else None) in
             if greedy then or_else more (k prev s)
             else or_else (k prev s) more
         end) (S (String.length s)) prev s
  | Opt greedy r1 =>
      if greedy then or_else (run f r1 prev s k) (k prev s)
      else or_else (k prev s) (run f r1 prev s k)
  | WordB =>
      if xorb (is_word_opt prev) (is_word_opt (head s)) then k prev s else None
  | Bol =>
      match prev with
      | None => k prev s
      | Some c => if MULTILINE f && Ascii.eqb c newline then k prev s else None
      end
  | Eol =>
      match s with
      | EmptyString => k prev s
      | String c t =>
          if Ascii.eqb c newline
             && (MULTILINE f || match t with EmptyString => true | _ => false end)
          then k prev s else None
      end
  end.

(** The text left after the match that starts at the current position. *)
Definition match_here (f : flags) (r : regex) (prev : option ascii)
           (s : string) : option string :=
  run f r prev s (fun _ t => Some t).

(** [re.search(pattern, s, flags)] as a truth value. *)
Fixpoint search_from (f : flags) (r : regex) (prev : option ascii)
         (s : string) : bool :=
  match match_here f r prev s with
  | Some _ => true
  | None =>
      match s with
      | EmptyString => false
      | String c t => search_from f r (Some c) t
      end
  end.

Definition search (f : flags) (r : regex) (s : string) : bool :=
  search_from f r None s.

(** The first [n] characters of [s]. *)
Fixpoint take (n : nat) (s : string) : string :=
  match n, s with
  | S n', String c t => String c (take n' t)
  | _, _ => EmptyString
  end.

Fixpoint last_char (prev : option ascii) (s : string) : option ascii :=
  match s with
  | EmptyString => prev
  | String c t => last_char (Some c) t
  end.

(** [re.findall(pattern, s, flags)] for patterns with at most one group that
    spans the whole match: the matched texts, leftmost first, not
    overlapping.  After an empty match the scan moves one character on. *)
Fixpoint findall_from (fuel : nat) (f : flags) (r : regex)
         (prev : option ascii) (s : string) : list string :=
  match fuel with
  | O => []
  | S fuel' =>
      match match_here f r prev s with
      | Some rest =>
          let n := (String.length s - String.length rest)%nat in
          let found := take n s in
          match n, s with
          | O, EmptyString => [found]
          | O, String c t => found :: findall_from fuel' f r (Some c) t
          | _, _ => found :: findall_from fuel' f r (last_char prev found) rest
          end
      | None =>
          match s with
          | EmptyString => []
          | String c t => findall_from fuel' f r (Some c) t
          end
      end
  end.

Definition findall (f : flags) (r : regex) (s : string) : list string :=
  findall_from (S (String.length s)) f r None s.

(** ** Pattern-building shorthands *)

Fixpoint Str (s : string) : regex :=
  match s with
  | EmptyString => Eps
  | String c EmptyString => Lit c
  | String c t => Seq (Lit c) (Str t)
  end.

Definition cat (l : list regex) : regex := fold_right Seq Eps l.

Fixpoint alts (l : list regex) : regex :=
  match l with
  | [] => NotSet [CRange (ascii_of_nat 0) (ascii_of_nat 255)]
  | [r] => r
  | r :: t => Alt r (alts t)
  end.

Definition star (r : regex) : regex := Star true r.        (* r*  *)
Definition star_lazy (r : regex) : regex := Star false r.  (* r*? *)
Definition plus (r : regex) : regex := Seq r (Star true r).       (* r+  *)
Definition plus_lazy (r : regex) : regex := Seq r (Star false r). (* r+? *)
Definition opt (r : regex) : regex := Opt true r.          (* r?  *)

Definition cls_s : regex := Set_ [CSpace].   (* \s *)
Definition cls_w : regex := Set_ [CWord].     (* \w *)
Definition cls_d : regex := Set_ [CDigit].    (* \d *)
Definition ch (c : ascii) : citem := CChar c.

End Regex.

(* ================================================================== *)
(** * [json.loads] as a recognizer *)
(* ================================================================== *)

Module Json.

Import Py Regex.
Open Scope string_scope.

Definition quote : ascii := ascii_of_nat 34.
Definition backslash : ascii := ascii_of_nat 92.

(** JSON whitespace: space, tab, line feed, carriage return. *)
Definition is_ws (c : ascii) : bool :=
  let n := nat_of_ascii c in
  (n =? 32)%nat || (n =? 9)%nat || (n =? 10)%nat || (n =? 13)%nat.

Fixpoint skip_ws (s : string) : string :=
  match s with
  | String c t => if is_ws c then skip_ws t else s
  | EmptyString => s
  end.

Definition is_hex (c : ascii) : bool :=
  let n := nat_of_ascii c in
  is_digit c || ((65 <=? n)%nat && (n <=? 70)%nat)
  || ((97 <=? n)%nat && (n <=? 102)%nat).

Definition is_escape (c : ascii) : bool :=
  existsb (Ascii.eqb c)
          [quote; backslash; "/"; "b"; "f"; "n"; "r"; "t"]%char.

(** The text after the closing quote of a string whose opening quote has
    been read; control characters are refused (strict mode). *)
Fixpoint scan_string (s : string) : option string :=
  match s with
  | EmptyString => None
  | String c t =>
      if Ascii.eqb c quote then Some t
      else if Ascii.eqb c backslash then
        match t with
        | String e t' =>
            if is_escape e then scan_string t'
            else if Ascii.eqb e "u" then
              match t' with
              | String h1 (String h2 (String h3 (String h4 t''))) =>
                  if is_hex h1 && is_hex h2 && is_hex h3 && is_hex h4
                  then scan_string t'' else None
              | _ => None
              end
            else None
        | EmptyString => None
        end
      else if (nat_of_ascii c <? 32)%nat then None
      else scan_string t
  end.

(** The decoder's number pattern: an optional sign, [0] or a digit run
    that does not start with 0, an optional fraction, an optional
    exponent. *)
Definition NUMBER_RE : regex :=
  cat [ opt (Lit "-");
        Alt (Lit "0") (Seq (Set_ [CRange "1" "9"]) (star cls_d));
        opt (Seq (Lit ".") (plus cls_d));
        opt (cat [Set_ [ch "e"; ch "E"]; opt (Set_ [ch "-"; ch "+"]); plus cls_d]) ].

Fixpoint drop (n : nat) (s : string) : string :=
  match n, s with
  | S n', String _ t => drop n' t
  | _, _ => s
  end.

Definition literal (word s : string) : option string :=
  if startswith s word then Some (drop (String.length word) s) else None.

(** The scanner: the text left after one JSON value at the head of [s].
    [members] and [elements] run after the opening bracket and its
    whitespace have been read. *)
Fixpoint scan_once (fuel : nat) (s : string) : option string :=
  match fuel with
  | O => None
  | S n =>
      match s with
      | EmptyString => None
      | String c t =>
          if Ascii.eqb c quote then scan_string t
          else if Ascii.eqb c "{" then
            match skip_ws t with
            | String c' t' =>
                if Ascii.eqb c' "}" then Some t' else members n (String c' t')
            | EmptyString => None
            end
          else if Ascii.eqb c "[" then
            match skip_ws t with
            | String c' t' =>
                if Ascii.eqb c' "]" then Some t' else elements n (String c' t')
            | EmptyString => None
            end
          else
            or_else (literal "null" s)
            (or_else (literal "true" s)
            (or_else (literal "false" s)
            (or_else (match_here no_flags NUMBER_RE None s)
            (or_else (literal "NaN" s)
            (or_else (literal "Infinity" s)
                     (literal "-Infinity" s))))))
      end
  end
with members (fuel : nat) (s : string) : option string :=
  match fuel with
  | O => None
  | S n =>
      match s with
      | String c t =>
          if Ascii.eqb c quote then
            match scan_string t with
            | Some after_key =>
                match skip_ws after_key with
                | String colon t1 =>
                    if Ascii.eqb colon ":" then
                      match scan_once n (skip_ws t1) with
                      | Some after_value =>
                          match skip_ws after_value with
                          | String c2 t2 =>
                              if Ascii.eqb c2 "}" then Some t2
                              else if Ascii.eqb c2 ","
                                   then members n (skip_ws t2)
                                   else None
                          | EmptyString => None
                          end
                      | None => None
                      end
                    else None
                | EmptyString => None
                end
            | None => None
            end
          else None
      | EmptyString => None
      end
  end
with elements (fuel : nat) (s : string) : option string :=
  match fuel with
  | O => None
  | S n =>
      match scan_once n s with
      | Some after_value =>
          match skip_ws after_value with
          | String c2 t2 =>
              if Ascii.eqb c2 "]" then Some t2
              else if Ascii.eqb c2 "," then elements n (skip_ws t2)
              else None
          | EmptyString => None
          end
      | None => None
      end
  end.

(** [json.loads(s)] succeeds: one value, then only whitespace. *)
Definition loads_ok (s : string) : bool :=
  match scan_once (2 * S (String.length s)) (skip_ws s) with
  | Some rest => match skip_ws rest with EmptyString => true | _ => false end
  | None => false
  end.

End Json.

(* ================================================================== *)
(** * Code language detector *)
(* ================================================================== *)

Module CodeDetector.

Import Py Regex.
Open Scope string_scope.

Definition dq : ascii := Json.quote.
Definition sq : ascii := "'"%char.

(** The counting loop shared by the checks:
    [for pattern, description in patterns: if re.search(...): matches += 1]. *)
Definition count_matches (f : flags) (patterns : list regex) (s : string)
  : nat :=
  List.length (filter (fun p => search f p s) patterns).

Definition sql_patterns : list regex :=
  [ cat [Str "SELECT"; plus cls_s; plus_lazy Any; plus cls_s; Str "FROM"];
    cat [Str "INSERT"; plus cls_s; Str "INTO"];
    cat [Str "UPDATE"; plus cls_s; plus_lazy Any; plus cls_s; Str "SET"];
    cat [Str "CREATE"; plus cls_s; Str "TABLE"];
    cat [Str "ALTER"; plus cls_s; Str "TABLE"];
    cat [Str "DROP"; plus cls_s; Str "TABLE"];
    cat [Str "JOIN"; plus cls_s; plus cls_w; plus cls_s; Str "ON"];
    cat [Str "WHERE"; plus cls_s; plus cls_w; star cls_s; Set_ [ch "="; ch "<"; ch ">"]];
    cat [Str "ORDER"; plus cls_s; Str "BY"; plus cls_s; plus cls_w];
    cat [Str "GROUP"; plus cls_s; Str "BY"; plus cls_s; plus cls_w] ].

Definition check_sql (code code_lower : string) : option string :=
  let matches := count_matches flags_IM sql_patterns code_lower in
  if (1 <=? matches)%nat then Some "sql" else None.

Definition arcade_patterns : list regex :=
  [ Str "Geometry(";
    Seq (alts [Str "Feature"; Str "FeatureSet"]) (Lit "(");
    Str "When(";
    Seq (alts [Str "Text"; Str "Count"; Str "Concatenate"; Str "IIf";
               Str "IsEmpty"]) (Lit "(");
    Str "$feature";
    Str "$map";
    cat [Str "//"; star Any; Eol] ].

Definition check_arcade (code code_lower : string) : option string :=
  let matches := count_matches flags_IM arcade_patterns code in
  if (1 <=? matches)%nat then Some "arcade" else None.

Definition check_json (code : string) : option string :=
  if (startswith (strip code) "{" && endswith (strip code) "}")
     || (startswith (strip code) "[" && endswith (strip code) "]")
  then if Json.loads_ok code then Some "json" else None
  else None.

Definition python_patterns : list regex :=
  [ cat [WordB; Str "def"; plus cls_s; plus cls_w; star cls_s; Lit "("];
    cat [WordB; Str "class"; plus cls_s; plus cls_w; star cls_s; Lit ":"];
    cat [Str "import"; plus cls_s; plus (Set_ [CWord; ch "."])];
    cat [Str "from"; plus cls_s; plus (Set_ [CWord; ch "."]); plus cls_s;
         Str "import"];
    cat [Str "if"; plus cls_s; Str "__name__"; star cls_s; Str "=="; star cls_s;
         Set_ [ch sq; ch dq]; Str "__main__"; Set_ [ch sq; ch dq]];
    cat [Str "arcpy."; plus cls_w];
    cat [Lit "#"; star_lazy Any; Eol] ].

Definition check_python (code code_lower : string) : option string :=
  let matches := count_matches flags_IM python_patterns code in
  if (1 <=? matches)%nat then Some "py" else None.

Definition access : regex :=
  alts [Str "public"; Str "private"; Str "protected"].

Definition csharp_patterns : list regex :=
  [ cat [Str "using"; plus cls_s; Str "System;"];
    cat [Str "namespace"; plus cls_s; plus cls_w];
    cat [access; plus cls_s; alts [Str "class"; Str "interface"]];
    cat [access; plus cls_s; plus cls_w; plus cls_s; plus cls_w; star cls_s; Lit "("];
    Seq (Str "Console.") (alts [Str "Write"; Str "WriteLine"]) ].

Definition check_csharp (code code_lower : string) : option string :=
  let matches := count_matches flags_IM csharp_patterns code in
  if (1 <=? matches)%nat then Some "cs" else None.

Definition js_patterns : list regex :=
  [ cat [Str "function"; plus cls_s; plus cls_w; star cls_s; Lit "("];
    cat [alts [Str "const"; Str "let"; Str "var"]; plus cls_s; plus cls_w; star cls_s;
         Lit "="];
    Str "=>";
    Seq (Str "console.") (alts [Str "log"; Str "warn"; Str "error"]);
    Seq (Str "document.get")
        (alts [Str "Element"; Str "ElementsByTagName"]);
    cat [Str "window."; plus cls_w];
    cat [Str "new"; plus cls_s; plus cls_w; Lit "("] ].

Definition ts_patterns : list regex :=
  [ cat [Str "interface"; plus cls_s; plus cls_w];
    cat [Str "type"; plus cls_s; plus cls_w; star cls_s; Lit "="];
    cat [Lit ":"; star cls_s; plus cls_w;
         star (Set_ [ch "["; ch "]"; ch "<"; ch ">"]);
         Alt (Seq (star cls_s) (Lit "=")) (Lit ")")];
    cat [Lit "<"; plus cls_w; Lit ">"; Set_ [ch "("; ch "["]];
    cat [Str "as"; plus cls_s; plus cls_w] ].

(** A tag with quoted attributes, searched without flags. *)
Definition html_like : regex :=
  cat [Lit "<"; plus cls_w;
       star (cat [plus cls_s; plus cls_w; Lit "="; Set_ [ch dq; ch sq];
                  plus_lazy Any; Set_ [ch dq; ch sq]]);
       Lit ">"].

Definition check_javascript_typescript (code code_lower : string)
  : option string :=
  let js_matches := count_matches flags_IM js_patterns code in
  let ts_matches := count_matches flags_IM ts_patterns code in
  if (1 <=? js_matches)%nat || (1 <=? ts_matches)%nat then
    let has_html := search no_flags html_like code in
    if has_html then
      if (1 <=? ts_matches)%nat then Some "tsx" else Some "jsx"
    else if (1 <=? ts_matches)%nat then Some "ts"
    else Some "js"
  else None.

Definition css_patterns : list regex :=
  [ cat [plus (Set_ [CWord; ch "-"]); star cls_s; Lit ":"; star cls_s;
         plus (NotSet [ch ";"]); Lit ";"];
    cat [Lit "."; plus cls_w; star (Set_ [CWord; ch "-"]); star cls_s; Lit "{"];
    cat [Lit "#"; plus cls_w; star (Set_ [CWord; ch "-"]); star cls_s; Lit "{"];
    Seq (Lit "@")
        (alts [Str "media"; Str "keyframes"; Str "import"; Str "font-face"]);
    Seq (alts [Str "margin"; Str "padding"; Str "color"; Str "background";
               Str "font"; Str "display"]) (Lit ":") ].

Definition check_css (code code_lower : string) : option string :=
  if contains "{" code && (contains "}" code || contains ";" code) then
    let matches := count_matches flags_I css_patterns code in
    if (2 <=? matches)%nat
       || ((1 <=? matches)%nat && (String.length code <? 100)%nat)
    then Some "css" else None
  else None.

Definition tag_pattern : regex :=
  cat [Lit "<"; opt (Lit "/"); Set_ [CRange "a" "z"];
       star (Set_ [CRange "a" "z"; CRange "0" "9"]); WordB;
       star (NotSet [ch ">"]); Lit ">"].

Definition attr_pattern : regex :=
  cat [plus cls_s;
       alts [Str "href"; Str "src"; Str "alt"; Str "class"; Str "id";
             Str "style"];
       Lit "="; Set_ [ch dq; ch sq; ch dq];
       star (NotSet [ch sq; ch dq]); Set_ [ch dq; ch sq]].

Definition html_patterns : list regex :=
  [ cat [Str "<!DOCTYPE"; plus cls_s; Str "html"];
    Alt (Str "<html>") (Seq (Str "<html") (plus cls_s));
    cat [Lit "<";
         alts [Str "div"; Str "span"; Str "p"; Str "a"; Str "img";
               Seq (Lit "h") (Set_ [CRange "1" "6"])];
         opt (Seq (plus cls_s) (star (NotSet [ch ">"])));
         Lit ">"] ].

(** [abs(a - b) <= 2] on counts. *)
Definition close_counts (a b : nat) : bool :=
  ((a - b) + (b - a) <=? 2)%nat.

Definition check_html (code code_lower : string) : option string :=
  if contains "<" code && contains ">" code then
    let tags := findall flags_I tag_pattern code in
    let open_brackets := count_char "<" code in
    let close_brackets := count_char ">" code in
    let attrs := findall flags_I attr_pattern code in
    if ((2 <=? List.length tags)%nat
        || ((1 <=? List.length tags)%nat && (1 <=? List.length attrs)%nat))
       && close_counts open_brackets close_brackets
    then Some "html"
    else if existsb (fun p => search flags_I p code) html_patterns
    then Some "html"
    else None
  else None.

Definition keyword_sets : list (string * list string) :=
  [ ("py", ["def"; "import"; "class"; "self"; "None"; "True"; "False"; "if";
            "elif"; "else"; "for"; "in"; "try"; "except"]);
    ("js", ["function"; "const"; "let"; "var"; "return"; "true"; "false";
            "null"; "undefined"; "this"; "new"]);
    ("sql", ["select"; "from"; "where"; "insert"; "update"; "delete";
             "create"; "drop"; "alter"; "join"]);
    ("cs", ["using"; "namespace"; "public"; "private"; "class"; "void";
            "string"; "int"; "bool"]);
    ("html", ["div"; "span"; "class"; "id"; "style"; "href"; "src"]);
    ("css", ["margin"; "padding"; "color"; "background"; "width"; "height";
             "font"]);
    ("arcade", ["when"; "feature"; "geometry"; "text"; "count"; "iif"]) ].

Definition in_list (x : string) (l : list string) : bool :=
  existsb (String.eqb x) l.

(** [max(items, key=lambda x: x[1])]: the first entry of greatest score. *)
Fixpoint max_by_score (best : string * nat) (l : list (string * nat))
  : string * nat :=
  match l with
  | [] => best
  | e :: t => if (snd best <? snd e)%nat then max_by_score e t
              else max_by_score best t
  end.

Definition check_keywords (code code_lower : string) : option string :=
  let words := findall no_flags (cat [WordB; plus cls_w; WordB]) code_lower in
  let language_scores :=
    flat_map (fun '(lang, keywords) =>
                let matches :=
                  List.length (filter (fun word => in_list word keywords) words) in
                if (0 <? matches)%nat then [(lang, matches)] else [])
             keyword_sets in
  match language_scores with
  | [] => None
  | e :: t =>
      let '(lang, score) := max_by_score e t in
      if (2 <=? score)%nat then Some lang else None
  end.

Definition check_text_about_code (code code_lower : string) : option string :=
  if (contains "code" code_lower
      && (contains "style" code_lower || contains "add" code_lower))
     || (contains "syntax" code_lower || contains "example" code_lower)
  then
    if contains "python" code_lower then Some "py"
    else if contains "javascript" code_lower then Some "js"
    else if contains "html" code_lower then Some "html"
    else if contains "css" code_lower then Some "css"
    else if contains "sql" code_lower then Some "sql"
    else if contains "c#" code_lower || contains "csharp" code_lower
    then Some "cs"
    else None
  else None.

(** The cascade: the first check that answers decides. *)
Definition detect_code_language (code_content : string) : string :=
  if negb (truthy code_content)
     || (String.length (strip code_content) <? 3)%nat
  then "txt"
  else
    let code := strip code_content in
    let code_lower := lower code in
    match check_sql code code_lower with Some lang => lang | None =>
    match check_arcade code code_lower with Some lang => lang | None =>
    match check_json code with Some lang => lang | None =>
    match check_python code code_lower with Some lang => lang | None =>
    match check_csharp code code_lower with Some lang => lang | None =>
    match check_javascript_typescript code code_lower with
    | Some lang => lang | None =>
    match check_css code code_lower with Some lang => lang | None =>
    match check_html code code_lower with Some lang => lang | None =>
    match check_keywords code code_lower with Some lang => lang | None =>
    match check_text_about_code code code_lower with
    | Some lang => lang | None => "txt"
    end end end end end end end end end end.

(** The four snippets of the design document. *)
Definition nl : string := String newline "".
Definition q : string := String dq "".

Definition sql_snippet : string := "SELECT * FROM t WHERE id=1".
Definition json_snippet : string := "{" ++ q ++ "a" ++ q ++ ":1}".
Definition python_snippet : string := "def f():" ++ nl ++ "    pass".
Definition plain_snippet : string := "hello world".

End CodeDetector.

(* ================================================================== *)
(** * Content blocks *)
(* ================================================================== *)

Module Blocks.

Import Py.
Open Scope string_scope.

(** The dictionaries the [create_*_block] functions build, one constructor
    per value of their ['type'] key. *)
Inductive block :=
| Text (text_type : string) (text : string) (alignment : option string)
       (data_textAlignment : option string)
| Image (path : string) (caption : option string) (display : option string)
        (float_alignment : option string) (dimensions : option (Z * Z))
| Table (rows : list (list string)) (caption : option string)
| Code (code : string) (language : string)
| Separator.

(** [block.get('type')]. *)
Definition block_type (b : block) : string :=
  match b with
  | Text _ _ _ _ => "text"
  | Image _ _ _ _ _ => "image"
  | Table _ _ => "table"
  | Code _ _ => "code"
  | Separator => "separator"
  end.

(** Truthiness of an optional string: neither [None] nor empty. *)
Definition truthy_opt (o : option string) : bool :=
  match o with Some s => truthy s | None => false end.

Definition create_text_block (text_type : string) (text_content : string)
           (alignment : option string) : block :=
  Text text_type text_content alignment
       (if truthy_opt alignment then alignment else None).

Definition create_code_block (code_content : string) : block :=
  Code code_content (CodeDetector.detect_code_language code_content).

End Blocks.

(* ================================================================== *)
(** * Image resolver: display mode *)
(* ================================================================== *)

Module ImageResolver.

Import Py.
Open Scope string_scope.
Open Scope Z_scope.

(** What [determine_image_display] reads of a [wp:positionH] element: the
    text of its [wp:align] child, if there is one, and its [relativeFrom]
    attribute, if present. *)
Record positionH := mk_positionH {
  align : option (option string);
  relativeFrom : option string
}.

(** What it reads of the drawing: whether one of [wrapSquare], [wrapTight],
    [wrapThrough], [wrapTopBottom] occurs in it, and its first
    [positionH]. *)
Record drawing := mk_drawing {
  wrap_elems : bool;
  pos_h : option positionH
}.

Definition in_list (x : string) (l : list string) : bool :=
  existsb (String.eqb x) l.

(** Lines 1934-1958, run when a wrapping element was found. *)
Definition wrapped_alignment (dr : drawing) : string :=
  let float_alignment := "end" in
  match pos_h dr with
  | None => float_alignment
  | Some ph =>
      let float_alignment :=
        match align ph with
        | Some (Some txt) =>
            if truthy txt then
              let align_val := lower txt in
              if String.eqb align_val "left" then "start"
              else if String.eqb align_val "right" then "end"
              else float_alignment
            else float_alignment
        | _ => float_alignment
        end in
      match relativeFrom ph with
      | Some rel_from =>
          if in_list rel_from ["right"; "rightMargin"] then "end"
          else if in_list rel_from ["left"; "leftMargin"] then "start"
          else float_alignment
      | None => float_alignment
      end
  end.

(** [aspect_ratio = width / height] when [height > 0], else 0.  The
    quotient of two pixel counts is kept exact; comparing it with 16/9 in
    double precision gives the same answer for every image size below
    2^49 pixels a side. *)
Definition aspect_ratio (width height : Z) : Q :=
  if 0 <? height then Qmake width (Z.to_pos height) else 0%Q.

(** [determine_image_display] on an image file that opens, of size
    [width] x [height], with an optional drawing element. *)
Definition determine_image_display (width height : Z) (dr : option drawing)
  : string * option string :=
  let '(is_wrapped, float_alignment) :=
    match dr with
    | Some d0 =>
        if wrap_elems d0 then (true, Some (wrapped_alignment d0))
        else (false, None)
    | None => (false, None)
    end in
  let display_type :=
    if (1200 <? width) && Qle_bool (16 # 9) (aspect_ratio width height)
    then "wide"
    else if (width <? 800) || is_wrapped then "float"
    else "standard" in
  (display_type, float_alignment).

(** The rule of the design document for the alignment of a floating image:
    [end] unless an explicit left alignment or a left-relative position
    says [start]. *)
Definition claimed_float_alignment (dr : option drawing) : string :=
  match dr with
  | Some d0 => wrapped_alignment d0
  | None => "end"
  end.

End ImageResolver.

(* ================================================================== *)
(** * Run formatter and block classifier *)
(* ================================================================== *)

Module Classifier.

Import Py Regex Blocks.
Open Scope string_scope.

(** What the code reads of a [w:r] element.  [sz] holds the outcome of
    [int(sz.get(val, '0'))]: [Some None] when [int] raises.  [hyperlink] is
    the [r:id] of the [w:hyperlink] element the run sits in, if any
    (hyperlinks inside hyperlinks are not modelled). *)
Record run := mk_run {
  bold : bool;
  italic : bool;
  underline : bool;
  strike : bool;
  vertAlign : option (option string);
  color : option (option string);
  texts : list (option string);
  br : bool;
  sz : option (option Z);
  hyperlink : option (option string)
}.

(** What the code reads of a [w:p] element: the first [pStyle], [drawing],
    [jc], [outlineLvl] (its value through [int], [Some None] when [int]
    raises) and [spacing] elements below it, and all its runs. *)
Record paragraph := mk_paragraph {
  pStyle : option (option string);
  drawing : option ImageResolver.drawing;
  jc : option (option string);
  outlineLvl : option (option Z);
  spacing : bool;
  runs : list run
}.

Definition dq : string := String Json.quote "".

(** Lines 2099-2110: the text of the run, and whether a [w:t] had text. *)
Definition run_text (x : run) : string :=
  let txt :=
    fold_left (fun acc e => match e with Some s => acc ++ s | None => acc end)
              (texts x) "" in
  if br x then txt ++ String newline "" else txt.

Definition run_has_text (x : run) : bool :=
  existsb (fun e => match e with Some _ => true | None => false end) (texts x).

(** The target of the hyperlink a run belongs to, when its relationship id
    is known. *)
Definition hyperlink_target (hyperlink_rels : dict string) (x : run)
  : option string :=
  match hyperlink x with
  | Some (Some rel_id) =>
      if truthy rel_id then dict_get rel_id hyperlink_rels else None
  | _ => None
  end.

Definition wrap (tag body : string) : string :=
  "<" ++ tag ++ ">" ++ body ++ "</" ++ tag ++ ">".

Definition on (flag : bool) (f : string -> string) (s : string) : string :=
  if flag then f s else s.

(** Lines 2113-2146: the markup of one run with text. *)
Definition format_run (hyperlink_rels : dict string) (x : run) : string :=
  let formatted_text := run_text x in
  let formatted_text :=
    match hyperlink_target hyperlink_rels x with
    | Some url =>
        let url :=
          if truthy url
             && negb (startswith url "http://" || startswith url "https://"
                      || startswith url "#")
          then "https://" ++ url else url in
        "<a href=" ++ dq ++ url ++ dq ++ " rel=" ++ dq
        ++ "noopener noreferrer" ++ dq ++ " target=" ++ dq ++ "_blank" ++ dq
        ++ ">" ++ formatted_text ++ "</a>"
    | None => formatted_text
    end in
  let is_val v := match vertAlign x with
                  | Some (Some s) => String.eqb s v
                  | _ => false
                  end in
  let formatted_text := on (is_val "subscript") (wrap "sub") formatted_text in
  let formatted_text := on (is_val "superscript") (wrap "sup") formatted_text in
  let formatted_text := on (italic x) (wrap "em") formatted_text in
  let formatted_text := on (bold x) (wrap "strong") formatted_text in
  let formatted_text := on (underline x) (wrap "u") formatted_text in
  let formatted_text := on (strike x) (wrap "s") formatted_text in
  match color x with
  | Some (Some color_val) =>
      if truthy color_val && negb (String.eqb (lower color_val) "auto")
      then "<span class=" ++ dq ++ "sm-text-color-" ++ color_val ++ dq ++ ">"
           ++ formatted_text ++ "</span>"
      else formatted_text
  | _ => formatted_text
  end.

Definition paragraph_alignment (p : paragraph) : option string :=
  match jc p with
  | Some (Some alignment_val) =>
      if truthy alignment_val then Some alignment_val else None
  | _ => None
  end.

Definition extract_formatted_text (hyperlink_rels : dict string)
           (p : paragraph) : string * option string :=
  let text_parts :=
    flat_map (fun x => if truthy (run_text x)
                       then [format_run hyperlink_rels x] else [])
             (runs p) in
  let has_text := existsb run_has_text (runs p) in
  match paragraph_alignment p with
  | Some a =>
      if negb has_text then (" ", Some a)
      else (String.concat "" text_parts, Some a)
  | None => (String.concat "" text_parts, None)
  end.

Definition get_paragraph_outline_level (p : paragraph) : option Z :=
  match outlineLvl p with
  | Some (Some level) => Some level
  | _ => None
  end.

(** [bold_runs > len(runs) / 2], false without runs. *)
Definition check_is_bold (p : paragraph) : bool :=
  match runs p with
  | [] => false
  | rs =>
      let bold_runs := List.length (filter bold rs) in
      negb (Qle_bool (inject_Z (Z.of_nat bold_runs))
                     (Qmake (Z.of_nat (List.length rs)) 2))
  end.

Fixpoint add_size (q : Q) (sizes : list Q) : list Q :=
  match sizes with
  | [] => [q]
  | x :: rest => if Qeq_bool x q then sizes else x :: add_size q rest
  end.

(** The one font size, in points, that all sized runs share. *)
Definition get_font_size (p : paragraph) : option Q :=
  let sizes :=
    fold_left (fun acc x => match sz x with
                            | Some (Some size_half_points) =>
                                add_size (Qmake size_half_points 2) acc
                            | _ => acc
                            end) (runs p) [] in
  match sizes with
  | [q] => Some q
  | _ => None
  end.

(** Truthiness of an optional number: neither [None] nor zero. *)
Definition truthy_size (o : option Q) : bool :=
  match o with Some q => negb (Qeq_bool q 0) | None => false end.

Definition size_at_least (o : option Q) (n : Z) : bool :=
  match o with Some q => Qle_bool (inject_Z n) q | None => false end.

Definition check_heading_formatting (p : paragraph) : bool :=
  let is_bold := check_is_bold p in
  let font_size := get_font_size p in
  let has_large_font := truthy_size font_size && size_at_least font_size 14 in
  let has_special_spacing := spacing p in
  is_bold || has_large_font || has_special_spacing.

(** [int(s)] for a run of ASCII digits. *)
Definition int_of_digits (s : string) : Z :=
  fold_left (fun acc c => (10 * acc + Z.of_nat (nat_of_ascii c - 48))%Z)
            (list_ascii_of_string s) 0%Z.

(** [int(re.findall(r'\d+', style_id)[0])], when there is a digit. *)
Definition style_number (style_id : string) : option Z :=
  match findall no_flags (plus cls_d) style_id with
  | first :: _ => Some (int_of_digits first)
  | [] => None
  end.

Definition ends_with_punctuation (s : string) : bool :=
  search no_flags (Seq (Set_ [ch "."; ch "!"; ch "?"]) Eol) s.

Section Paragraph.

(** The image resolver, which reads and copies files. *)
Variable process_docx_image : ImageResolver.drawing -> option block.
Variable hyperlink_rels : dict string.

Definition process_docx_paragraph (p : paragraph) : option block :=
  let style := match pStyle p with Some v => v | None => None end in
  let style_id := style in
  match drawing p with
  | Some dr => process_docx_image dr
  | None =>
  let '(text, alignment) := extract_formatted_text hyperlink_rels p in
  if negb (truthy text) || negb (truthy (strip text)) then
    if truthy_opt alignment
    then Some (create_text_block "paragraph" "" alignment)
    else None
  else
  let by_outline :=
    match get_paragraph_outline_level p with
    | Some outline_level =>
        if (outline_level =? 0)%Z then Some "h2"
        else if (outline_level =? 1)%Z then Some "h3"
        else if (outline_level =? 2)%Z then Some "h4"
        else None
    | None => None
    end in
  match by_outline with
  | Some ty => Some (create_text_block ty text alignment)
  | None =>
  let by_style_number :=
    match style_id with
    | Some sid =>
        if truthy sid then
          match style_number sid with
          | Some heading_level =>
              if (heading_level =? 1)%Z then Some "h2"
              else if (heading_level =? 2)%Z then Some "h3"
              else if (heading_level =? 3)%Z then Some "h4"
              else None
          | None => None
          end
        else None
    | None => None
    end in
  match by_style_number with
  | Some ty => Some (create_text_block ty text alignment)
  | None =>
  let by_font_size :=
    if check_heading_formatting p then
      let font_size := get_font_size p in
      if truthy_size font_size then
        if size_at_least font_size 20 then Some "h2"
        else if size_at_least font_size 16 then Some "h3"
        else if size_at_least font_size 14 then Some "h4"
        else None
      else None
    else None in
  match by_font_size with
  | Some ty => Some (create_text_block ty text alignment)
  | None =>
  let by_style_keyword :=
    match style with
    | Some st =>
        if truthy st then
          let style_lower := lower st in
          if contains "title" style_lower || contains "heading" style_lower
             || contains "nadpis" style_lower
          then Some (create_text_block "h2" text alignment)
          else if contains "quote" style_lower
                  || contains "citation" style_lower
          then Some (create_text_block "quote" text alignment)
          else if contains "code" style_lower || contains "source" style_lower
          then Some (create_code_block text)
          else None
        else None
    | None => None
    end in
  match by_style_keyword with
  | Some blk => Some blk
  | None =>
  let by_content :=
    if (String.length (strip text) <? 50)%nat then
      if isupper (strip text) then Some "h2"
      else if negb (ends_with_punctuation (strip text)) && check_is_bold p
      then Some "h3"
      else None
    else None in
  match by_content with
  | Some ty => Some (create_text_block ty text alignment)
  | None => Some (create_text_block "paragraph" text alignment)
  end end end end end end.

End Paragraph.

(** ** The cascade as a rule table *)

(** A rule looks at the paragraph, its extracted text and its alignment,
    and answers with a block or stays silent. *)
Definition rule : Type := paragraph -> string -> option string -> option block.

Definition outline_rule : rule := fun p text alignment =>
  match get_paragraph_outline_level p with
  | Some l =>
      if (l =? 0)%Z then Some (create_text_block "h2" text alignment)
      else if (l =? 1)%Z then Some (create_text_block "h3" text alignment)
      else if (l =? 2)%Z then Some (create_text_block "h4" text alignment)
      else None
  | None => None
  end.

Definition style_of (p : paragraph) : option string :=
  match pStyle p with
  | Some (Some st) => if truthy st then Some st else None
  | _ => None
  end.

Definition style_number_rule : rule := fun p text alignment =>
  match style_of p with
  | Some st =>
      match style_number st with
      | Some n =>
          if (n =? 1)%Z then Some (create_text_block "h2" text alignment)
          else if (n =? 2)%Z then Some (create_text_block "h3" text alignment)
          else if (n =? 3)%Z then Some (create_text_block "h4" text alignment)
          else None
      | None => None
      end
  | None => None
  end.

(** Heading-like formatting and one common font size of 14pt or more. *)
Definition font_size_rule : rule := fun p text alignment =>
  if check_heading_formatting p && truthy_size (get_font_size p) then
    if size_at_least (get_font_size p) 20
    then Some (create_text_block "h2" text alignment)
    else if size_at_least (get_font_size p) 16
    then Some (create_text_block "h3" text alignment)
    else if size_at_least (get_font_size p) 14
    then Some (create_text_block "h4" text alignment)
    else None
  else None.

Definition style_keyword_rule : rule := fun p text alignment =>
  match style_of p with
  | Some st =>
      let style_lower := lower st in
      if contains "title" style_lower || contains "heading" style_lower
         || contains "nadpis" style_lower
      then Some (create_text_block "h2" text alignment)
      else if contains "quote" style_lower || contains "citation" style_lower
      then Some (create_text_block "quote" text alignment)
      else if contains "code" style_lower || contains "source" style_lower
      then Some (create_code_block text)
      else None
  | None => None
  end.

(** Short text: all capitals, or bold without closing punctuation. *)
Definition content_rule : rule := fun p text alignment =>
  if (String.length (strip text) <? 50)%nat then
    if isupper (strip text) then Some (create_text_block "h2" text alignment)
    else if negb (ends_with_punctuation (strip text)) && check_is_bold p
    then Some (create_text_block "h3" text alignment)
    else None
  else None.

Fixpoint first_match (rules : list rule) (p : paragraph) (text : string)
         (alignment : option string) : option block :=
  match rules with
  | [] => None
  | rl :: rest =>
      match rl p text alignment with
      | Some blk => Some blk
      | None => first_match rest p text alignment
      end
  end.

(** A classifier that delegates drawings, drops or keeps blank paragraphs,
    and otherwise lets the first answering rule of [rules] decide, with
    [paragraph] as the default. *)
Definition cascade (rules : list rule)
           (process_docx_image : ImageResolver.drawing -> option block)
           (hyperlink_rels : dict string) (p : paragraph) : option block :=
  match drawing p with
  | Some dr => process_docx_image dr
  | None =>
      let '(text, alignment) := extract_formatted_text hyperlink_rels p in
      if negb (truthy text) || negb (truthy (strip text)) then
        if truthy_opt alignment
        then Some (create_text_block "paragraph" "" alignment)
        else None
      else
        match first_match rules p text alignment with
        | Some blk => Some blk
        | None => Some (create_text_block "paragraph" text alignment)
        end
  end.

(** The order in which the code asks the rules. *)
Definition code_order : list rule :=
  [outline_rule; style_number_rule; font_size_rule; style_keyword_rule;
   content_rule].

(** The order of the design document: style-name keywords before the
    formatting heuristics. *)
Definition documented_order : list rule :=
  [outline_rule; style_number_rule; style_keyword_rule; font_size_rule;
   content_rule].

(** ** Vocabulary of the statements *)

Definition outline_silent (p : paragraph) : bool :=
  match get_paragraph_outline_level p with
  | Some l => negb ((l =? 0)%Z || (l =? 1)%Z || (l =? 2)%Z)
  | None => true
  end.

Definition style_number_silent (st : string) : bool :=
  match style_number st with
  | Some n => negb ((n =? 1)%Z || (n =? 2)%Z || (n =? 3)%Z)
  | None => true
  end.

Definition has_heading_keyword (st : string) : bool :=
  contains "title" (lower st) || contains "heading" (lower st)
  || contains "nadpis" (lower st).

Definition has_quote_keyword (st : string) : bool :=
  contains "quote" (lower st) || contains "citation" (lower st).


(** The type of the text block a classification yields, if it is one. *)
Definition text_type_of (o : option block) : option string :=
  match o with
  | Some (Text ty _ _ _) => Some ty
  | _ => None
  end.

(** A paragraph styled [Quote] whose single run is set in 14pt. *)
Definition quote_14pt : paragraph :=
  mk_paragraph (Some (Some "Quote")) None None None false
    [ mk_run false false false false None None [Some "To be"] false
             (Some (Some 28%Z)) None ].

(** A paragraph styled [Quote] whose single run is bold, 12pt. *)
Definition quote_bold_12pt : paragraph :=
  mk_paragraph (Some (Some "Quote")) None None None false
    [ mk_run true false false false None None [Some "To be"] false
             (Some (Some 24%Z)) None ].

(** An empty centred paragraph, and an empty paragraph. *)
Definition empty_centered : paragraph :=
  mk_paragraph None None (Some (Some "center")) None false
    [ mk_run false false false false None None [] false None None ].


End Classifier.

(* ================================================================== *)
(** * Publish protocol *)
(* ================================================================== *)

Module Publish.

Import Py Blocks.
Open Scope string_scope.

(** "Skip empty text blocks":
    [not text_content or text_content.strip() == "" or text_content == "..."]. *)
Definition is_empty_content (text_content : string) : bool :=
  negb (truthy text_content)
  || String.eqb (strip text_content) ""
  || String.eqb text_content "...".

(** ** Phase 1: placeholder nodes *)

Inductive TextStyles :=
| PARAGRAPH | LARGEPARAGRAPH | BULLETLIST | NUMBERLIST
| HEADING | HEADING2 | HEADING3 | QUOTE.

(** What is handed to [story.add]. *)
Inductive content :=
| TextContent (text : string) (style : TextStyles)
| ImageContent (path : string) (caption : option string) (alt_text : string)
               (display : option string)
| TableContent (num_rows num_cols : nat) (caption : option string)
| SeparatorContent.

(** The state Phase 1 builds: the nodes added to the story, with the ids
    the platform gave them, and the three dictionaries of
    [create_storymap]. *)
Record phase1 := mk_phase1 {
  story : list (string * content);
  placeholder_ids : dict string;
  parsed_blocks : dict block;
  image_dimensions : dict (Z * Z)
}.

Definition placeholder_key (block_type : string) (i : nat) : string :=
  block_type ++ "_" ++ str_of_nat i.

Definition text_style_of (text_type : string) : TextStyles :=
  if String.eqb text_type "bullet-list" then BULLETLIST
  else if String.eqb text_type "numbered-list" then NUMBERLIST
  else if String.eqb text_type "h2" then HEADING
  else if String.eqb text_type "h3" then HEADING2
  else if String.eqb text_type "h4" then HEADING3
  else if String.eqb text_type "quote" then QUOTE
  else if String.eqb text_type "large-paragraph" then LARGEPARAGRAPH
  else PARAGRAPH.

Definition max_row_length (rows : list (list string)) : nat :=
  fold_left (fun m row => Nat.max m (List.length row)) rows 0%nat.

Section Phase1.

(** The platform names the n-th node it creates; reading the size of an
    image file may fail. *)
Variable node_id_of : nat -> string.
Variable extract_image_dimensions : string -> option (Z * Z).

(** [node_id = story.add(...)], then the two bookkeeping assignments. *)
Definition add_node (c : content) (placeholder_key : string) (b : block)
           (st : phase1) : phase1 :=
  let node_id := node_id_of (List.length (story st)) in
  mk_phase1 (story st ++ [(node_id, c)])%list
            (dict_set placeholder_key node_id (placeholder_ids st))
            (dict_set node_id b (parsed_blocks st))
            (image_dimensions st).

Definition add_separator_block (b : block) (key : string) (st : phase1)
  : phase1 :=
  add_node SeparatorContent key b st.

(** The image block is stored with the dimensions just read, when the
    file could be read. *)
Definition add_image_block (path : string) (caption display float_alignment
           : option string) (dimensions : option (Z * Z)) (key : string)
           (st : phase1) : phase1 :=
  let read := extract_image_dimensions path in
  let dims := match read with
              | Some wh => dict_set path wh (image_dimensions st)
              | None => image_dimensions st
              end in
  let stored :=
    Image path caption display float_alignment
          (match read with Some wh => Some wh | None => dimensions end) in
  add_node (ImageContent path caption "" display) key stored
           (mk_phase1 (story st) (placeholder_ids st) (parsed_blocks st) dims).

Definition add_text_block (text_type text_content : string)
           (alignment : option string) (i : nat) (key : string) (st : phase1)
  : phase1 :=
  if is_empty_content text_content then st
  else
    let placeholder_text := "PLACEHOLDER_TEXT_" ++ str_of_nat i in
    add_node (TextContent placeholder_text (text_style_of text_type)) key
             (Text text_type text_content alignment None) st.

Definition add_table_block (rows : list (list string))
           (caption : option string) (key : string) (st : phase1) : phase1 :=
  let num_rows := List.length rows in
  let num_cols := match rows with [] => 2%nat | _ => max_row_length rows end in
  add_node (TableContent num_rows num_cols caption) key (Table rows caption) st.

Definition add_code_block (code_content language : string) (i : nat)
           (key : string) (st : phase1) : phase1 :=
  let placeholder_text := "PLACEHOLDER_CODE_" ++ str_of_nat i in
  add_node (TextContent placeholder_text PARAGRAPH) key
           (Code code_content language) st.

(** The body of [for i, block in enumerate(content_blocks)]. *)
Definition add_content_block (i : nat) (b : block) (st : phase1) : phase1 :=
  let key := placeholder_key (block_type b) i in
  match b with
  | Separator => add_separator_block b key st
  | Image path caption display float_alignment dimensions =>
      add_image_block path caption display float_alignment dimensions key st
  | Text text_type text_content alignment _ =>
      if is_empty_content text_content then st
      else add_text_block text_type text_content alignment i key st
  | Table rows caption => add_table_block rows caption key st
  | Code code_content language => add_code_block code_content language i key st
  end.

Fixpoint add_content_blocks (i : nat) (content_blocks : list block)
         (st : phase1) : phase1 :=
  match content_blocks with
  | [] => st
  | b :: rest => add_content_blocks (S i) rest (add_content_block i b st)
  end.

Definition add_description_block (description : string) (st : phase1)
  : phase1 :=
  add_node (TextContent description PARAGRAPH) "description"
           (Text "paragraph" description None None) st.

(** [create_storymap] up to [story.save]; [cover_dimensions] is what
    [process_cover_image] recorded for the cover, if anything. *)
Definition create_storymap (cover_dimensions : option (Z * Z))
           (description : string) (content_blocks : list block) : phase1 :=
  let st0 :=
    mk_phase1 [] [] []
              (match cover_dimensions with
               | Some wh => [("cover_image", wh)]
               | None => []
               end) in
  let st1 := if truthy description then add_description_block description st0
             else st0 in
  add_content_blocks 0 content_blocks st1.

End Phase1.

(** A text block that Phase 1 passes over. *)
Definition skipped (b : block) : bool :=
  match b with
  | Text _ text_content _ _ => is_empty_content text_content
  | _ => false
  end.

(** The platform's numbering in the examples. *)
Definition numbered (n : nat) : string := "n-" ++ str_of_nat n.

(** ** Phase 2: content patch *)

(** A JSON value of the remote document. *)
#[local] Set Warnings "-register-all".
Inductive json :=
| JNull
| JBool (b : bool)
| JNum (n : Z)
| JStr (s : string)
| JList (l : list json)
| JDict (d : list (string * json)).

(** A node is a JSON object. *)
Definition node := dict json.

Definition is_str (k : string) (j : json) : bool :=
  match j with JStr s => String.eqb s k | _ => false end.

(** [k in j] for a string [k]: a key test on an object, a substring test
    on a string, a membership test on an array; [None] stands for the
    TypeError the other values raise. *)
Definition py_in (k : string) (j : json) : option bool :=
  match j with
  | JDict d => Some (dict_mem k d)
  | JStr s => Some (contains k s)
  | JList l => Some (existsb (is_str k) l)
  | _ => None
  end.

(** [j[k] = v] for a string [k]: only an object accepts it. *)
Definition py_setitem (k : string) (v : json) (j : json) : option json :=
  match j with
  | JDict d => Some (JDict (dict_set k v d))
  | _ => None
  end.

(** [j[k]] for a string [k]: only an object with that key answers. *)
Definition py_getitem (k : string) (j : json) : option json :=
  match j with
  | JDict d => dict_get k d
  | _ => None
  end.

Definition language_mapping : dict string :=
  [ ("text", "txt"); ("python", "py"); ("javascript", "js");
    ("typescript", "ts"); ("java", "java"); ("csharp", "cs");
    ("html", "html"); ("css", "css"); ("ruby", "rb"); ("php", "php");
    ("c", "c"); ("cpp", "cpp"); ("go", "go"); ("sql", "sql");
    ("shell", "sh"); ("xml", "xml"); ("json", "json"); ("yaml", "yaml");
    ("markdown", "md"); ("r", "r"); ("swift", "swift"); ("kotlin", "kt") ].

Definition alignment_map : dict string :=
  [ ("center", "center"); ("right", "end"); ("justify", "justify");
    ("left", "start") ].

(** How the body of the loop over the nodes ends for one node, when it
    does not raise: it goes on to the next node having counted [n]
    replacements, or it has popped the node from the dictionary being
    iterated. *)
Inductive step_end :=
| Next (n : nat)
| Popped.

(** Computations on the node at hand that may raise after having changed
    it. *)
Definition M (A : Type) : Type := node -> node * option A.

Definition ret {A} (a : A) : M A := fun nd => (nd, Some a).
Definition raise {A} : M A := fun nd => (nd, None).
Definition bind {A B} (c : M A) (k : A -> M B) : M B :=
  fun nd => match c nd with
            | (nd', Some a) => k a nd'
            | (nd', None) => (nd', None)
            end.
Definition get_node : M node := fun nd => (nd, Some nd).
Definition put_node (nd' : node) : M unit := fun _ => (nd', Some tt).
Definition lift {A} (o : option A) : M A :=
  match o with Some a => ret a | None => raise end.

Notation "x <- c ;; k" := (bind c (fun x => k))
  (at level 61, c at next level, right associativity).
Notation "c ;;; k" := (bind c (fun _ => k))
  (at level 61, right associativity).

(** [node['data'][k] = v]. *)
Definition set_data (k : string) (v : json) : M unit :=
  nd <- get_node ;;
  data <- lift (dict_get "data" nd) ;;
  data' <- lift (py_setitem k v data) ;;
  put_node (dict_set "data" data' nd).

(** [node['data'][k]]. *)
Definition get_data (k : string) : M json :=
  nd <- get_node ;;
  data <- lift (dict_get "data" nd) ;;
  lift (py_getitem k data).

(** [node['config'][k] = v]. *)
Definition set_config (k : string) (v : json) : M unit :=
  nd <- get_node ;;
  config <- lift (dict_get "config" nd) ;;
  config' <- lift (py_setitem k v config) ;;
  put_node (dict_set "config" config' nd).

(** Line 2701: [node['data']['cells'][row][col] = {"value": cell_value}]. *)
Definition set_cell (row col : string) (cell_value : string) : M unit :=
  cells <- get_data "cells" ;;
  row_obj <- lift (py_getitem row cells) ;;
  row_obj' <- lift (py_setitem col (JDict [("value", JStr cell_value)])
                               row_obj) ;;
  cells' <- lift (py_setitem row row_obj' cells) ;;
  set_data "cells" cells'.

(** [for col_idx, cell_value in enumerate(row): if col_idx < num_cols: ...] *)
Fixpoint set_cells (num_cols : nat) (row : string) (col_idx : nat)
         (cell_values : list string) : M unit :=
  match cell_values with
  | [] => ret tt
  | cell_value :: rest =>
      (if (col_idx <? num_cols)%nat
       then set_cell row (str_of_nat col_idx) cell_value
       else ret tt) ;;;
      set_cells num_cols row (S col_idx) rest
  end.

(** Lines 2695-2703. *)
Fixpoint set_rows (num_cols : nat) (row_idx : nat) (rows : list (list string))
  : M unit :=
  match rows with
  | [] => ret tt
  | row :: rest =>
      cells <- get_data "cells" ;;
      present <- lift (py_in (str_of_nat row_idx) cells) ;;
      (if present then ret tt
       else cells' <- lift (py_setitem (str_of_nat row_idx) (JDict []) cells) ;;
            set_data "cells" cells') ;;;
      set_cells num_cols (str_of_nat row_idx) 0 row ;;;
      set_rows num_cols (S row_idx) rest
  end.

(** ['caption' in block and block['caption']]. *)
Definition block_caption (b : block) : option string :=
  match b with
  | Image _ caption _ _ _ => if truthy_opt caption then caption else None
  | Table _ caption => if truthy_opt caption then caption else None
  | _ => None
  end.

(** [block.get('display') == 'float' and block.get('float_alignment')]. *)
Definition block_float (b : block) : option string :=
  match b with
  | Image _ _ (Some display) float_alignment _ =>
      if String.eqb display "float" && truthy_opt float_alignment
      then float_alignment else None
  | _ => None
  end.

(** Lines 2679-2711: a tracked table node is rebuilt from the rows. *)
Definition update_table (rows : list (list string)) (caption : option string)
  : M nat :=
  let num_rows := List.length rows in
  let num_cols := max_row_length rows in
  set_data "numRows" (JNum (Z.of_nat num_rows)) ;;;
  set_data "numColumns" (JNum (Z.of_nat num_cols)) ;;;
  nd <- get_node ;;
  data <- lift (dict_get "data" nd) ;;
  present <- lift (py_in "cells" data) ;;
  (if present then ret tt else set_data "cells" (JDict [])) ;;;
  set_rows num_cols 0 rows ;;;
  (match block_caption (Table rows caption) with
   | Some c => set_data "caption" (JStr c)
   | None => ret tt
   end) ;;;
  ret 1%nat.

(** Lines 2603-2623: a text node tracked by a code block becomes a code
    node. *)
Definition to_code (code_content language : string) : M step_end :=
  nd <- get_node ;;
  let mapped_language :=
    match dict_get (lower language) language_mapping with
    | Some l => l
    | None => "txt"
    end in
  put_node (dict_set "data"
              (JDict [("content", JStr code_content);
                      ("lang", JStr mapped_language);
                      ("lineNumbers", JBool true)])
              (dict_set "type" (JStr "code") nd)) ;;;
  ret (Next 1).

(** Lines 2629-2672, entered when the node has a ['text'] in its data. *)
Definition patch_text (tracked : option block) : M step_end :=
  current_text <- get_data "text" ;;
  match current_text with
  | JStr s =>
      if startswith s "PLACEHOLDER_TEXT_" then
        match tracked with
        | Some (Text _ text_content alignment _) =>
            if is_empty_content text_content then ret Popped
            else
              let text_content :=
                if negb (truthy text_content)
                   || String.eqb (strip text_content) ""
                then " " else text_content in
              set_data "text" (JStr text_content) ;;;
              (match alignment with
               | Some a =>
                   match (if truthy a then dict_get a alignment_map else None)
                   with
                   | Some v => set_data "textAlignment" (JStr v)
                   | None => ret tt
                   end
               | None => ret tt
               end) ;;;
              ret (Next 1)
        | _ => ret (Next 0)
        end
      else ret (Next 0)
  | _ => raise
  end.

Definition patch_table (tracked : option block) : M step_end :=
  match tracked with
  | Some (Table rows caption) =>
      n <- update_table rows caption ;; ret (Next n)
  | _ => ret (Next 0)
  end.

(** Lines 2715-2731. *)
Definition patch_image (tracked : option block) : M step_end :=
  match tracked with
  | Some b =>
      n1 <- (match block_caption b with
             | Some c => set_data "caption" (JStr c) ;;; ret 1%nat
             | None => ret 0%nat
             end) ;;
      n2 <- (match block_float b with
             | Some fa =>
                 nd <- get_node ;;
                 (if dict_mem "config" nd then ret tt
                  else put_node (dict_set "config" (JDict []) nd)) ;;;
                 set_config "size" (JStr "float") ;;;
                 set_config "floatAlignment" (JStr fa) ;;;
                 ret 1%nat
             | None => ret 0%nat
             end) ;;
      ret (Next (n1 + n2))
  | None => ret (Next 0)
  end.

(** [node.get('type') == ty]. *)
Definition node_type_is (nd : node) (ty : string) : bool :=
  match dict_get "type" nd with
  | Some j => is_str ty j
  | None => false
  end.

(** The body of [for node_id, node in main_data['nodes'].items()]. *)
Definition update_node (parsed_blocks : dict block) (node_id : string)
  : M step_end :=
  nd <- get_node ;;
  let tracked := dict_get node_id parsed_blocks in
  match (if node_type_is nd "text" then tracked else None) with
  | Some (Code code_content language) => to_code code_content language
  | _ =>
      has_text <-
        (if node_type_is nd "text" && dict_mem "data" nd
         then data <- lift (dict_get "data" nd) ;; lift (py_in "text" data)
         else ret false) ;;
      if has_text then patch_text tracked
      else if node_type_is nd "table" && dict_mem "data" nd
           then patch_table tracked
      else if node_type_is nd "image" && dict_mem "data" nd
           then patch_image tracked
      else ret (Next 0)
  end.

(** How the whole pass ends. *)
Inductive outcome :=
| Returned (replacements : nat)
| Raised.

(** The loop over the nodes.  [done] holds the entries already visited,
    as the visit left them.  Popping the node at hand changes the size of
    the dictionary being iterated, so the next step of the iteration
    raises RuntimeError, whether or not an entry is left to visit. *)
Fixpoint update_nodes (parsed_blocks : dict block) (done todo : dict node)
         (replacements : nat) : dict node * outcome :=
  match todo with
  | [] => (done, Returned replacements)
  | (node_id, nd) :: rest =>
      match update_node parsed_blocks node_id nd with
      | (nd', Some (Next n)) =>
          update_nodes parsed_blocks (done ++ [(node_id, nd')])%list rest
                       (replacements + n)
      | (nd', Some Popped) =>
          (dict_pop node_id (done ++ (node_id, nd') :: rest)%list, Raised)
      | (nd', None) => ((done ++ (node_id, nd') :: rest)%list, Raised)
      end
  end.

(** [update_storymap_content(main_data, parsed_blocks)]: the nodes of
    [main_data] after the pass, and how it ended. *)
Definition update_storymap_content (nodes : dict node)
           (parsed_blocks : dict block) : dict node * outcome :=
  update_nodes parsed_blocks [] nodes 0.

(** ** Vocabulary of the statements *)

(** The node holds final content: it is not a text node still waiting to
    become a code node, and its text, if any, is no placeholder marker. *)
Definition final_node (parsed_blocks : dict block) (node_id : string)
           (nd : node) : bool :=
  if node_type_is nd "text" then
    match dict_get node_id parsed_blocks with
    | Some (Code _ _) => false
    | _ =>
        match dict_get "data" nd with
        | None => true
        | Some (JDict data) =>
            match dict_get "text" data with
            | None => true
            | Some (JStr s) => negb (startswith s "PLACEHOLDER_TEXT_")
            | Some _ => false
            end
        | Some _ => false
        end
    end
  else true.

Definition final_content (parsed_blocks : dict block) (nodes : dict node)
  : Prop :=
  Forall (fun e => final_node parsed_blocks (fst e) (snd e) = true) nodes.

(** The node is a table node tracked by a table block, or an image node
    tracked by a block with a caption or a float alignment. *)
Definition tracked_media (parsed_blocks : dict block) (node_id : string)
           (nd : node) : bool :=
  (node_type_is nd "table" && dict_mem "data" nd
   && match dict_get node_id parsed_blocks with
      | Some (Table _ _) => true
      | _ => false
      end)
  || (node_type_is nd "image" && dict_mem "data" nd
      && match dict_get node_id parsed_blocks with
         | Some b =>
             match block_caption b, block_float b with
             | None, None => false
             | _, _ => true
             end
         | None => false
         end).

(** [f i x] for every element [x] of the list, [i] counting from
    [start]. *)
Fixpoint all_from {A} (f : nat -> A -> bool) (start : nat) (l : list A)
  : bool :=
  match l with
  | [] => true
  | x :: t => f start x && all_from f (S start) t
  end.

Definition is_num (n : nat) (j : option json) : bool :=
  match j with Some (JNum z) => Z.eqb z (Z.of_nat n) | _ => false end.

Definition is_text (s : string) (j : option json) : bool :=
  match j with Some (JStr t) => String.eqb t s | _ => false end.

(** The row object has, under the column index, the cell object
    [{"value": v}]. *)
Definition holds_cell (row_obj : dict json) (col_idx : nat) (v : string)
  : bool :=
  match dict_get (str_of_nat col_idx) row_obj with
  | Some (JDict [(k, JStr s)]) => String.eqb k "value" && String.eqb s v
  | _ => false
  end.

(** The cells have, under the row index, a row object with every cell of
    the row. *)
Definition holds_row (cells : dict json) (row_idx : nat) (row : list string)
  : bool :=
  match dict_get (str_of_nat row_idx) cells with
  | Some (JDict row_obj) => all_from (holds_cell row_obj) 0 row
  | _ => false
  end.

(** The table node already shows the table: the numbers of rows and of
    columns, every cell, and the caption when there is one. *)
Definition holds_table (rows : list (list string)) (caption : option string)
           (nd : node) : bool :=
  match dict_get "data" nd with
  | Some (JDict data) =>
      is_num (List.length rows) (dict_get "numRows" data)
      && is_num (max_row_length rows) (dict_get "numColumns" data)
      && match dict_get "cells" data with
         | Some (JDict cells) => all_from (holds_row cells) 0 rows
         | _ => false
         end
      && match block_caption (Table rows caption) with
         | Some c => is_text c (dict_get "caption" data)
         | None => true
         end
  | _ => false
  end.

(** The image node already shows the caption of the block, when it has
    one, and its float configuration, when it floats. *)
Definition holds_image (b : block) (nd : node) : bool :=
  match block_caption b with
  | Some c =>
      match dict_get "data" nd with
      | Some (JDict data) => is_text c (dict_get "caption" data)
      | _ => false
      end
  | None => true
  end
  && match block_float b with
     | Some fa =>
         match dict_get "config" nd with
         | Some (JDict config) =>
             is_text "float" (dict_get "size" config)
             && is_text fa (dict_get "floatAlignment" config)
         | _ => false
         end
     | None => true
     end.

(** A tracked table or image node is no longer a placeholder: it shows
    what its block holds.  Other nodes are not concerned. *)
Definition holds_media (parsed_blocks : dict block) (node_id : string)
           (nd : node) : bool :=
  if node_type_is nd "table" && dict_mem "data" nd then
    match dict_get node_id parsed_blocks with
    | Some (Table rows caption) => holds_table rows caption nd
    | _ => true
    end
  else if node_type_is nd "image" && dict_mem "data" nd then
    match dict_get node_id parsed_blocks with
    | Some b => holds_image b nd
    | None => true
    end
  else true.

Definition patched_media (parsed_blocks : dict block) (nodes : dict node)
  : Prop :=
  Forall (fun e => holds_media parsed_blocks (fst e) (snd e) = true) nodes.

(** What the pass counts on a node that holds final content: one for a
    tracked table node, and on a tracked image node one for the caption
    and one for the float alignment. *)
Definition media_count (parsed_blocks : dict block) (node_id : string)
           (nd : node) : nat :=
  if node_type_is nd "table" && dict_mem "data" nd then
    match dict_get node_id parsed_blocks with
    | Some (Table _ _) => 1
    | _ => 0
    end
  else if node_type_is nd "image" && dict_mem "data" nd then
    match dict_get node_id parsed_blocks with
    | Some b =>
        (match block_caption b with Some _ => 1 | None => 0 end)
        + (match block_float b with Some _ => 1 | None => 0 end)
    | None => 0
    end
  else 0.

Definition media_patches (parsed_blocks : dict block) (nodes : dict node)
  : nat :=
  list_sum (map (fun e => media_count parsed_blocks (fst e) (snd e)) nodes).

(** A patched one-cell table node, tracked by its table block. *)
Definition table_node : node :=
  [ ("type", JStr "table");
    ("data", JDict [ ("numRows", JNum 1); ("numColumns", JNum 1);
                     ("cells", JDict [("0", JDict [("0",
                        JDict [("value", JStr "x")])])]) ]) ].

Definition table_document : dict node := [("n-1", table_node)].

(** The same table node as Phase 1 leaves it, without cells. *)
Definition empty_table_document : dict node :=
  [ ("n-1", [ ("type", JStr "table");
              ("data", JDict [ ("numRows", JNum 1);
                               ("numColumns", JNum 1) ]) ]) ].
Definition table_blocks : dict block := [("n-1", Table [["x"]] None)].

(** A patched text node, tracked by its text block. *)
Definition text_document : dict node :=
  [ ("n-1", [ ("type", JStr "text");
              ("data", JDict [("text", JStr "Hello")]) ]) ].
Definition text_blocks : dict block :=
  [("n-1", Text "paragraph" "Hello" None None)].

(** A document as Phase 1 leaves it: a text placeholder, the placeholder
    of a code block, an empty table and an image; and the blocks that
    track its nodes. *)
Definition draft_document : dict node :=
  [ ("n-1", [ ("type", JStr "text");
              ("data", JDict [("text", JStr "PLACEHOLDER_TEXT_0")]) ]);
    ("n-2", [ ("type", JStr "text");
              ("data", JDict [("text", JStr "PLACEHOLDER_CODE_1")]) ]);
    ("n-3", [ ("type", JStr "table");
              ("data", JDict [ ("numRows", JNum 2);
                               ("numColumns", JNum 2) ]) ]);
    ("n-4", [ ("type", JStr "image");
              ("data", JDict [("image", JStr "r-1")]) ]) ].

Definition draft_tracking : dict block :=
  [ ("n-1", Text "paragraph" "Hello" (Some "center") (Some "center"));
    ("n-2", Code "SELECT 1" "sql");
    ("n-3", Table [["a"; "b"]; ["c"]] (Some "Figures"));
    ("n-4", Image "photo.png" (Some "A photo") (Some "float") (Some "start")
                  None) ].

(** The same document with the content of the blocks in its nodes. *)
Definition patched_document : dict node :=
  [ ("n-1", [ ("type", JStr "text");
              ("data", JDict [ ("text", JStr "Hello");
                               ("textAlignment", JStr "center") ]) ]);
    ("n-2", [ ("type", JStr "code");
              ("data", JDict [ ("content", JStr "SELECT 1");
                               ("lang", JStr "sql");
                               ("lineNumbers", JBool true) ]) ]);
    ("n-3", [ ("type", JStr "table");
              ("data", JDict
                 [ ("numRows", JNum 2);
                   ("numColumns", JNum 2);
                   ("cells", JDict
                      [ ("0", JDict [ ("0", JDict [("value", JStr "a")]);
                                      ("1", JDict [("value", JStr "b")]) ]);
                        ("1", JDict [ ("0", JDict [("value", JStr "c")]) ])
                      ]);
                   ("caption", JStr "Figures") ]) ]);
    ("n-4", [ ("type", JStr "image");
              ("data", JDict [ ("image", JStr "r-1");
                               ("caption", JStr "A photo") ]);
              ("config", JDict [ ("size", JStr "float");
                                 ("floatAlignment", JStr "start") ]) ]) ].

End Publish.

(* ================================================================== *)
(** * List engine: Stage C rendering and the list pipeline *)
(* ================================================================== *)

Module ListRender.

Import Py ListEngine.
Open Scope string_scope.

(** A root entry of [parent_items]: its text and its children's texts. *)
Definition parent : Type := (string * list string)%type.

(** [current_parent['children'].append(text)]: [current_parent] is the
    entry appended last, when there is one. *)
Fixpoint append_child (text : string) (parent_items : list parent)
  : list parent :=
  match parent_items with
  | [] => []
  | [(t, children)] => [(t, children ++ [text])%list]
  | p :: rest => p :: append_child text rest
  end.

(** The first pass of [generate_list_html], one item at a time. *)
Definition place_item (min_lvl : Z) (parent_items : list parent)
           (item : group_item) : list parent :=
  if (level item =? min_lvl)%Z
  then (parent_items ++ [(text item, [])])%list
  else append_child (text item) parent_items.

Definition build_parents (min_lvl : Z) (items : list group_item)
  : list parent :=
  fold_left (place_item min_lvl) items [].

Definition list_tag (ty : option string) : string :=
  if opt_string_is ty "numbered-list" then "ol" else "ul".

Definition render_parent (ty : option string) (p : parent) : string :=
  let '(t, children) := p in
  "<li>" ++ t
  ++ match children with
     | [] => ""
     | _ =>
         "<" ++ list_tag ty ++ ">"
         ++ String.concat ""
              (map (fun child => "<li>" ++ child ++ "</li>") children)
         ++ "</" ++ list_tag ty ++ ">"
     end
  ++ "</li>".

Definition group_html (g : group) : string :=
  let min_lvl := min_level (items g) in
  String.concat ""
    (map (render_parent (type g)) (build_parents min_lvl (items g))).

Definition generate_list_html (flattened_lists : dict group) : dict string :=
  fold_left (fun acc e => dict_set (fst e) (group_html (snd e)) acc)
            flattened_lists [].

(** A list block: what [create_text_block(group['type'], html)] holds,
    with the ['document_position'] added to it.  The type is that of the
    group, [None] when the group has no item at level 0. *)
Record list_block := mk_list_block {
  text_type : option string;
  html : string;
  position : Z
}.

Definition process_docx_lists (all_list_items : dict (list list_item))
  : list list_block :=
  let grouped_lists := group_list_items all_list_items in
  let flattened_lists := flatten_list_hierarchy grouped_lists in
  let html_content := generate_list_html flattened_lists in
  let blocks :=
    map (fun e =>
           let html := match dict_get (fst e) html_content with
                       | Some h => h
                       | None => ""
                       end in
           mk_list_block (type (snd e)) html (document_position (snd e)))
        flattened_lists in
  sort_by position blocks.

(** ** [get_predominant_list_type] *)

(** [type_counts[item_type] = type_counts.get(item_type, 0) + 1]. *)
Definition count_type (type_counts : dict nat) (item_type : string)
  : dict nat :=
  dict_set item_type
           (match dict_get item_type type_counts with
            | Some n => n
            | None => 0%nat
            end + 1)%nat
           type_counts.

Definition type_of_item (it : list_item) : string :=
  match li_type it with Some t => t | None => "bullet-list" end.

Definition count_types (its : list list_item) : dict nat :=
  fold_left (fun acc it => count_type acc (type_of_item it)) its [].

(** [max(type_counts.items(), key=lambda x: x[1])[0]], [default] when the
    dictionary is empty. *)
Definition most_common (type_counts : dict nat) : option string :=
  match type_counts with
  | [] => None
  | e :: rest => Some (fst (CodeDetector.max_by_score e rest))
  end.

(** [item['level'] == 0] for every item; [None] is the KeyError of an
    item without level. *)
Fixpoint root_items (its : list list_item) : option (list list_item) :=
  match its with
  | [] => Some []
  | it :: rest =>
      match li_level it, root_items rest with
      | Some l, Some roots =>
          Some (if (l =? 0)%Z then it :: roots else roots)
      | _, _ => None
      end
  end.

Definition get_predominant_list_type (list_items : list list_item)
  : option string :=
  match root_items list_items with
  | None => None
  | Some (r :: roots) => most_common (count_types (r :: roots))
  | Some [] =>
      match most_common (count_types list_items) with
      | Some t => Some t
      | None => Some "bullet-list"
      end
  end.

(** ** [integrate_list_blocks] *)

Section Integrate.

Variable B : Type.
(** [block.get('document_position')]. *)
Variable document_position : B -> option Z.

(** The inner [while]: the pending list blocks due at index [i]. *)
Fixpoint take_due (i : Z) (pending : list B) : list B * list B :=
  match pending with
  | [] => ([], [])
  | b :: rest =>
      match document_position b with
      | Some pos =>
          if (pos <=? i)%Z
          then let '(due, later) := take_due i rest in (b :: due, later)
          else ([], pending)
      | None => ([], pending)
      end
  end.

Fixpoint integrate_from (i : nat) (content_blocks pending : list B)
  : list B :=
  match content_blocks with
  | [] => pending
  | block :: rest =>
      let '(due, later) := take_due (Z.of_nat i) pending in
      (due ++ block :: integrate_from (S i) rest later)%list
  end.

Definition integrate_list_blocks (content_blocks list_blocks : list B)
  : list B :=
  match list_blocks with
  | [] => content_blocks
  | _ =>
      let sorted_list_blocks :=
        sort_by (fun b => match document_position b with
                          | Some pos => pos
                          | None => 0%Z
                          end) list_blocks in
      integrate_from 0 content_blocks sorted_list_blocks
  end.

End Integrate.

(** ** [convert_list_for_storymap] *)

Record entry := mk_entry { entry_text : string; entry_level : Z }.

Record list_data := mk_list_data {
  data_type : option string;
  data_items : list entry
}.

(** A node of the tree: a root entry and its children. *)
Definition tree_node : Type := (entry * list entry)%type.

Fixpoint add_child (child : entry) (tree : list tree_node)
  : list tree_node :=
  match tree with
  | [] => []
  | [(root, children)] => [(root, children ++ [child])%list]
  | n :: rest => n :: add_child child rest
  end.

Definition entries_min_level (its : list entry) : Z :=
  match its with
  | [] => 0%Z
  | i :: rest => fold_left (fun m j => Z.min m (entry_level j)) rest
                           (entry_level i)
  end.

(** The loop of lines 1325-1361.  [seen_child] is the truth value of
    [current_level], set at the first direct child and never reset;
    [current_node] is the last node of the tree. *)
Definition convert_step (min_lvl : Z) (st : list tree_node * bool)
           (item : entry) : list tree_node * bool :=
  let '(tree, seen_child) := st in
  let lvl := entry_level item in
  if (lvl =? min_lvl)%Z then
    ((tree ++ [(mk_entry (entry_text item) lvl, [])])%list, seen_child)
  else if (lvl =? min_lvl + 1)%Z && nonempty tree then
    (add_child (mk_entry (entry_text item) lvl) tree, true)
  else if (min_lvl + 1 <? lvl)%Z && seen_child then
    let indent := repeat "" (lvl - (min_lvl + 1)) ++ " " in
    let flattened_text := indent ++ entry_text item in
    (add_child (mk_entry flattened_text (min_lvl + 1)) tree, seen_child)
  else st.

Definition flatten_tree (tree : list tree_node) : list entry :=
  flat_map (fun n => fst n :: snd n) tree.

Definition convert_list_for_storymap (ld : list_data) : list_data :=
  match data_items ld, data_type ld with
  | [], _ => ld
  | _, None => ld
  | its, Some _ =>
      let min_lvl := entries_min_level its in
      let '(tree, _) := fold_left (convert_step min_lvl) its ([], false) in
      mk_list_data (data_type ld) (flatten_tree tree)
  end.

(** ** Vocabulary of the statements *)

(** The texts of the entries, root by root. *)
Definition tree_texts (parent_items : list parent) : list string :=
  flat_map (fun p => fst p :: snd p) parent_items.

(** The items from the first one at the root level on. *)
Fixpoint from_first_root (min_lvl : Z) (its : list group_item)
  : list group_item :=
  match its with
  | [] => []
  | it :: rest =>
      if (level it =? min_lvl)%Z then its else from_first_root min_lvl rest
  end.

(** How many children each root entry has. *)
Definition shape (parent_items : list parent) : list nat :=
  map (fun p => List.length (snd p)) parent_items.

(** [l] interleaves [l1] and [l2], keeping the order of each. *)
Inductive Merge {A} : list A -> list A -> list A -> Prop :=
| Merge_nil : Merge [] [] []
| Merge_left x l1 l2 l : Merge l1 l2 l -> Merge (x :: l1) l2 (x :: l)
| Merge_right x l1 l2 l : Merge l1 l2 l -> Merge l1 (x :: l2) (x :: l).

(** Non-decreasing keys. *)
Fixpoint sorted_by {A} (key : A -> Z) (l : list A) : Prop :=
  match l with
  | [] => True
  | x :: rest => Forall (fun y => (key x <= key y)%Z) rest /\ sorted_by key rest
  end.

(** Two numbered and one bulleted root item, and a bulleted nested
    one. *)
Definition mixed_items : list list_item :=
  [ mk_list_item (Some "a") (Some 0%Z) (Some "numbered-list") (Some 1%Z);
    mk_list_item (Some "b") (Some 1%Z) (Some "bullet-list") (Some 2%Z);
    mk_list_item (Some "c") (Some 0%Z) (Some "bullet-list") (Some 3%Z);
    mk_list_item (Some "d") (Some 0%Z) (Some "numbered-list") (Some 4%Z) ].

End ListRender.

(* ================================================================== *)
(** * Tables of the document *)
(* ================================================================== *)

Module TableReader.

Import Py Regex Blocks Classifier.
Open Scope string_scope.

(** What the code reads of a [w:tbl] element: its [w:tr] elements, the
    [w:tc] elements of each, and the [w:p] elements of each cell. *)
Definition cell : Type := list paragraph.
Definition tr : Type := list cell.
Definition tbl : Type := list tr.

Definition create_table_block (rows : list (list string))
           (caption : option string) : block :=
  Table rows caption.

Section Table.

Variable hyperlink_rels : dict string.

(** Lines 2006-2015: the paragraphs of a cell that have text, one per
    line. *)
Definition cell_step (cell_content : string) (p : paragraph) : string :=
  let para_text := fst (extract_formatted_text hyperlink_rels p) in
  if truthy para_text then
    (if truthy cell_content then cell_content ++ String newline ""
     else cell_content) ++ para_text
  else cell_content.

Definition cell_content (c : cell) : string := fold_left cell_step c "".

(** Lines 1999-2020: a row without cells is left out. *)
Definition row_cells (row : tr) : list (list string) :=
  let cells := map cell_content row in
  match cells with
  | [] => []
  | _ => [cells]
  end.

Definition process_docx_table (element : tbl) : option block :=
  let rows := flat_map row_cells element in
  match rows with
  | [] => None
  | _ => Some (create_table_block rows None)
  end.

End Table.

(** ** Vocabulary of the statements *)

(** The texts of a cell's paragraphs that are not empty. *)
Definition paragraph_texts (hyperlink_rels : dict string) (c : cell)
  : list string :=
  filter truthy
         (map (fun p => fst (extract_formatted_text hyperlink_rels p)) c).

(** A paragraph holding one run with the given text. *)
Definition plain (s : string) : paragraph :=
  mk_paragraph None None None None false
    [mk_run false false false false None None [Some s] false None None].

(** A table of one row: a cell of two lines and a cell without text. *)
Definition small_table : tbl :=
  [ [ [plain "a"; plain ""; plain "b"]; [] ]; [] ].

End TableReader.

(* ================================================================== *)
(** * The scan of the document body *)
(* ================================================================== *)

Module Body.

Import Py Regex Blocks ListEngine ListRender Classifier TableReader.
Open Scope string_scope.

(** What [get_paragraph_list_info] reads of a [w:numPr] element: the
    value of its [w:ilvl] through [int] ([Some None] when [int] raises
    ValueError, the default ['0'] when the attribute is missing), and
    the value of its [w:numId], if it has one. *)
Record num_pr := mk_num_pr {
  ilvl : option (option Z);
  numId : option (option string)
}.

(** A child of the body, by its tag.  Of an [mc:AlternateContent] the
    scan reads the first drawing under its first [mc:Choice]; of a
    paragraph, what the classifier reads of it, its first [w:numPr] and
    [str(paragraph)]. *)
Inductive element :=
| El_alternate (choice_drawing : option ImageResolver.drawing)
| El_p (p : paragraph) (numPr : option num_pr) (repr : string)
| El_tbl (t : tbl)
| El_drawing (d : ImageResolver.drawing)
| El_other.

(** ["".join([t.text or "" for t in text_elements])] over the [w:t]
    elements of the paragraph, which are those of its runs. *)
Definition text_content (p : paragraph) : string :=
  String.concat ""
    (flat_map (fun x => map (fun e => match e with Some s => s | None => "" end)
                            (texts x))
              (runs p)).

Definition style_name (p : paragraph) : option string :=
  match pStyle p with Some v => v | None => None end.

(** [previous_element_type in ['image', 'table']]. *)
Definition image_or_table (previous_element_type : option string) : bool :=
  opt_string_is previous_element_type "image"
  || opt_string_is previous_element_type "table".

(** Lines 1190-1227.  The style looked up again at line 1197 is the one
    the caller found. *)
Definition is_caption_paragraph (p : paragraph) (style_name : option string)
           (previous_element_type : option string) : bool :=
  if negb (truthy_opt style_name) then false
  else
    match style_name with
    | None => false
    | Some sn =>
        let style_lower := lower sn in
        let is_caption_style :=
          contains "caption" style_lower || contains "popisek" style_lower in
        if negb is_caption_style then false
        else if image_or_table previous_element_type && is_caption_style
        then true
        else false
    end.

Record list_info := mk_list_info {
  is_list_item : bool;
  info_level : Z;
  list_type : option string;
  info_num_id : option string
}.

(** [^(\d+|[a-zA-Z]|[ivxIVX]+)[\.\)\:]] *)
Definition ordered_start : regex :=
  cat [Bol;
       alts [plus cls_d;
             Set_ [CRange "a" "z"; CRange "A" "Z"];
             plus (Set_ [ch "i"; ch "v"; ch "x"; ch "I"; ch "V"; ch "X"])];
       Set_ [ch "."; ch ")"; ch ":"]].

(** [re.match(pattern, s)] as a truth value. *)
Definition re_match (r : regex) (s : string) : bool :=
  match match_here no_flags r None s with
  | Some _ => true
  | None => false
  end.

(** Lines 1230-1301. *)
Definition get_paragraph_list_info (p : paragraph) (numPr : option num_pr)
           (repr : string) : list_info :=
  let result := mk_list_info false 0 None None in
  match numPr with
  | None => result
  | Some num_pr =>
      let level := match ilvl num_pr with
                   | Some (Some l) => l
                   | _ => 0%Z
                   end in
      match numId num_pr with
      | None => result
      | Some num_id_val =>
          if negb (truthy_opt num_id_val) then result
          else
            let text_clean := strip (text_content p) in
            let is_ordered :=
              if contains "order" (lower text_clean)
                 || contains "number" (lower text_clean)
              then true
              else if re_match ordered_start text_clean then true
              else contains "decimal" repr || contains "number" repr in
            let list_type :=
              if is_ordered then "numbered-list" else "bullet-list" in
            mk_list_info true level (Some list_type) num_id_val
      end
  end.

(** An entry of [blocks]: a block of the classifier, the table reader or
    the image resolver, or a list block.  [added_caption] is the
    ['caption'] key assigned later to a dictionary that was built without
    one; image and table blocks are built with that key. *)
Inductive body_block :=
| Parsed (b : block) (added_caption : option string)
| ListBlock (l : list_block) (added_caption : option string).

(** ['caption' not in previous_block]. *)
Definition lacks_caption_key (bb : body_block) : bool :=
  match bb with
  | Parsed (Image _ _ _ _ _) _ => false
  | Parsed (Table _ _) _ => false
  | Parsed _ None | ListBlock _ None => true
  | Parsed _ (Some _) | ListBlock _ (Some _) => false
  end.

(** [previous_block['caption'] = caption_text]. *)
Definition set_caption (caption_text : string) (bb : body_block)
  : body_block :=
  match bb with
  | Parsed (Image path _ display float_alignment dimensions) c =>
      Parsed (Image path (Some caption_text) display float_alignment
                    dimensions) c
  | Parsed (Table rows _) c => Parsed (Table rows (Some caption_text)) c
  | Parsed b _ => Parsed b (Some caption_text)
  | ListBlock l _ => ListBlock l (Some caption_text)
  end.

Fixpoint update_at {A} (i : nat) (f : A -> A) (l : list A) : list A :=
  match l, i with
  | [], _ => []
  | x :: t, O => f x :: t
  | x :: t, S j => x :: update_at j f t
  end.

(** The variables of the scan.  [previous_block] names a dictionary that
    is also an entry of [blocks], so that an assignment through it shows
    in [blocks]: it is kept as the index of that entry. *)
Record scan := mk_scan {
  blocks : list body_block;
  current_list_items : list list_item;
  current_list_type : option string;
  in_list_context : bool;
  previous_element_type : option string;
  previous_block : option nat;
  pending_caption : option string;
  image_has_caption : bool;
  element_count : Z
}.

Definition initial : scan :=
  mk_scan [] [] None false None None None false 0.

(** [element_count += 1]. *)
Definition count_element (st : scan) : scan :=
  mk_scan (blocks st) (current_list_items st) (current_list_type st)
          (in_list_context st) (previous_element_type st) (previous_block st)
          (pending_caption st) (image_has_caption st) (element_count st + 1).

(** [blocks.append(b); previous_element_type = ty; previous_block = b],
    with the caption flag reset for an image. *)
Definition append_block (b : block) (ty : string) (st : scan) : scan :=
  mk_scan (blocks st ++ [Parsed b None])%list (current_list_items st)
          (current_list_type st) (in_list_context st) (Some ty)
          (Some (List.length (blocks st))) (pending_caption st)
          (if String.eqb ty "image" then false else image_has_caption st)
          (element_count st).

(** [previous_block['caption'] = c], and "mark that this image has a
    caption". *)
Definition caption_previous (i : nat) (c : string) (st : scan) : scan :=
  mk_scan (update_at i (set_caption c) (blocks st)) (current_list_items st)
          (current_list_type st) (in_list_context st)
          (previous_element_type st) (previous_block st) (pending_caption st)
          (if opt_string_is (previous_element_type st) "image" then true
           else image_has_caption st)
          (element_count st).

Definition set_pending (c : option string) (st : scan) : scan :=
  mk_scan (blocks st) (current_list_items st) (current_list_type st)
          (in_list_context st) (previous_element_type st) (previous_block st)
          c (image_has_caption st) (element_count st).

(** Lines 601-610: "process any pending caption first". *)
Definition take_pending (st : scan) : scan :=
  match pending_caption st with
  | Some c =>
      if truthy c then
        let st1 :=
          match previous_block st with
          | Some i =>
              match nth_error (blocks st) i with
              | Some bb =>
                  if lacks_caption_key bb then caption_previous i c st
                  else st
              | None => st
              end
          | None => st
          end in
        set_pending None st1
      else st
  | None => st
  end.

(** [item['level']] of every collected item; [None] is the KeyError of an
    item without level. *)
Fixpoint levels (its : list list_item) : option (list Z) :=
  match its with
  | [] => Some []
  | it :: rest =>
      match li_level it, levels rest with
      | Some l, Some ls => Some (l :: ls)
      | _, _ => None
      end
  end.

(** "Process the collected list", as it stands three times in the code:
    the type and the least level are computed and handed over, the list
    blocks are appended, and the collection starts afresh.  [None] when
    one of the computations raises. *)
Definition flush (st : scan) : option scan :=
  if in_list_context st && nonempty (current_list_items st) then
    let num_id_to_type :=
      if truthy_opt (current_list_type st) then current_list_type st
      else get_predominant_list_type (current_list_items st) in
    let num_id_level_map := levels (current_list_items st) in
    match num_id_to_type, num_id_level_map with
    | Some _, Some _ =>
        let list_blocks :=
          process_docx_lists [("current_list", current_list_items st)] in
        Some (mk_scan (blocks st
                       ++ map (fun l => ListBlock l None) list_blocks)%list
                      [] None false (previous_element_type st)
                      (previous_block st) (pending_caption st)
                      (image_has_caption st) (element_count st))
    | _, _ => None
    end
  else Some st.

Section Scan.

Variable process_docx_image : ImageResolver.drawing -> option block.
Variable hyperlink_rels : dict string.

(** Lines 652-675: a list paragraph joins the collection. *)
Definition collect_item (p : paragraph) (info : list_info) (st : scan)
  : scan :=
  let text_content := fst (extract_formatted_text hyperlink_rels p) in
  let level := info_level info in
  let '(ctx, cur_type) :=
    if negb (in_list_context st)
    then (true, if (level =? 0)%Z then list_type info else None)
    else if (level =? 0)%Z
    then (in_list_context st,
          match current_list_type st with
          | None => list_type info
          | Some t => Some t
          end)
    else (in_list_context st, current_list_type st) in
  mk_scan (blocks st)
          (current_list_items st
           ++ [mk_list_item (Some text_content) (Some level) (list_type info)
                            (Some (element_count st))])%list
          cur_type ctx (Some "list") None (pending_caption st)
          (image_has_caption st) (element_count st).

(** Lines 699-711: a paragraph that is no list item. *)
Definition add_paragraph (p : paragraph) (st : scan) : scan :=
  match process_docx_paragraph process_docx_image hyperlink_rels p with
  | Some paragraph_block =>
      if String.eqb (block_type paragraph_block) "image"
      then append_block paragraph_block "image" st
      else append_block paragraph_block "text" st
  | None => st
  end.

(** The body of [for element in body], with its [try] and [except]: an
    exception leaves the variables as they are at that point and the scan
    goes on with the next element. *)
Definition step (st : scan) (el : element) : scan :=
  let st := count_element st in
  match el with
  | El_alternate choice_drawing =>
      match choice_drawing with
      | Some dr =>
          match process_docx_image dr with
          | Some image_block => append_block image_block "image" st
          | None => st
          end
      | None => st
      end
  | El_p p numPr repr =>
      let st := take_pending st in
      let caption_case :=
        if image_or_table (previous_element_type st)
           && (negb (opt_string_is (previous_element_type st) "image")
               || negb (image_has_caption st))
        then is_caption_paragraph p (style_name p) (previous_element_type st)
        else false in
      if caption_case then
        let caption_text := fst (extract_formatted_text hyperlink_rels p) in
        match previous_block st with
        | Some i => caption_previous i caption_text st
        | None => set_pending (Some caption_text) st
        end
      else
        let info := get_paragraph_list_info p numPr repr in
        if is_list_item info then collect_item p info st
        else
          match flush st with
          | Some st => add_paragraph p st
          | None => st
          end
  | El_tbl t =>
      match flush st with
      | Some st =>
          match process_docx_table hyperlink_rels t with
          | Some table_block => append_block table_block "table" st
          | None => st
          end
      | None => st
      end
  | El_drawing d =>
      match process_docx_image d with
      | Some image_block => append_block image_block "image" st
      | None => st
      end
  | El_other => st
  end.

(** [process_docx_body]: the blocks, or [None] when the last "process the
    collected list", which no [try] guards, raises. *)
Definition process_docx_body (body : list element)
  : option (list body_block) :=
  match flush (fold_left step body initial) with
  | Some st => Some (blocks st)
  | None => None
  end.

End Scan.

(** ** Vocabulary of the statements *)

(** A block without the caption it may carry. *)
Definition uncaptioned (bb : body_block) : body_block :=
  match bb with
  | Parsed (Image path _ display float_alignment dimensions) _ =>
      Parsed (Image path None display float_alignment dimensions) None
  | Parsed (Table rows _) _ => Parsed (Table rows None) None
  | Parsed b _ => Parsed b None
  | ListBlock l _ => ListBlock l None
  end.

(** The caption a block carries. *)
Definition caption_of (bb : body_block) : option string :=
  match bb with
  | Parsed (Image _ caption _ _ _) _ => caption
  | Parsed (Table _ caption) _ => caption
  | Parsed _ c | ListBlock _ c => c
  end.

(** A paragraph with a caption style. *)
Definition caption_style (p : paragraph) : bool :=
  match style_name p with
  | Some sn =>
      truthy sn
      && (contains "caption" (lower sn) || contains "popisek" (lower sn))
  | None => false
  end.

(** The paragraph is a list item. *)
Definition list_paragraph (el : element) : bool :=
  match el with
  | El_p p numPr repr => is_list_item (get_paragraph_list_info p numPr repr)
  | _ => false
  end.

(** The item that the scan collects for a list paragraph met as the
    [n]-th element. *)
Definition item_of (hyperlink_rels : dict string) (n : Z) (el : element)
  : list_item :=
  match el with
  | El_p p numPr repr =>
      let info := get_paragraph_list_info p numPr repr in
      mk_list_item (Some (fst (extract_formatted_text hyperlink_rels p)))
                   (Some (info_level info)) (list_type info) (Some n)
  | _ => mk_list_item None None None None
  end.

Fixpoint items_from (hyperlink_rels : dict string) (n : Z)
         (els : list element) : list list_item :=
  match els with
  | [] => []
  | el :: rest =>
      item_of hyperlink_rels n el :: items_from hyperlink_rels (n + 1) rest
  end.

(** A paragraph that the scan takes for a caption when it follows an
    image without caption or a table. *)
Definition caption_paragraph (el : element) : bool :=
  match el with
  | El_p p _ _ => caption_style p
  | _ => false
  end.

(** The text extracted from a paragraph element. *)
Definition extracted (hyperlink_rels : dict string) (el : element) : string :=
  match el with
  | El_p p _ _ => fst (extract_formatted_text hyperlink_rels p)
  | _ => ""
  end.

(** What holds of the variables throughout the scan: no caption is
    pending, every collected item has a level, and after an image or a
    table the previous block is an entry of [blocks]. *)
Definition scan_ok (st : scan) : Prop :=
  pending_caption st = None
  /\ Forall (fun it => li_level it <> None) (current_list_items st)
  /\ (image_or_table (previous_element_type st) = true ->
      exists i, previous_block st = Some i
                /\ (i < List.length (blocks st))%nat).

(** A list paragraph, a drawing and a table for the examples. *)
Definition bullet (s : string) : element :=
  El_p (plain s) (Some (mk_num_pr None (Some (Some "1")))) "".

Definition captioned (s : string) : element :=
  El_p (mk_paragraph (Some (Some "Caption")) None None None false
          [mk_run false false false false None None [Some s] false None None])
       None "".

End Body.

(* ================================================================== *)
(** * Image dimensions in the resources *)
(* ================================================================== *)

Module Resources.

Import Py Blocks Publish.
Open Scope string_scope.

(** The node loop of lines 2749-2762 for one resource: the dimensions of
    the first image node that refers to the resource and is tracked with
    dimensions.  The outer [None] stands for the TypeError of a test or
    an index on a value that does not allow it. *)
Fixpoint find_dimensions (parsed_blocks : dict block) (resource_id : string)
         (nodes : dict node) : option (option (Z * Z)) :=
  match nodes with
  | [] => Some None
  | (node_id, nd) :: rest =>
      if node_type_is nd "image" && dict_mem "data" nd then
        match dict_get "data" nd with
        | Some data =>
            match py_in "image" data with
            | None => None
            | Some false => find_dimensions parsed_blocks resource_id rest
            | Some true =>
                match py_getitem "image" data with
                | None => None
                | Some image_ref =>
                    if is_str resource_id image_ref then
                      match dict_get node_id parsed_blocks with
                      | Some (Image _ _ _ _ (Some dimensions)) =>
                          Some (Some dimensions)
                      | _ => find_dimensions parsed_blocks resource_id rest
                      end
                    else find_dimensions parsed_blocks resource_id rest
                end
            end
        | None => find_dimensions parsed_blocks resource_id rest
        end
      else find_dimensions parsed_blocks resource_id rest
  end.

(** The body of [for resource_id, resource in ...items()]: the resource
    as the body leaves it and what it adds to [images_updated]. *)
Definition update_resource (parsed_blocks : dict block) (nodes : dict node)
           (resource_id : string) (resource : dict json)
  : option (dict json * nat) :=
  if node_type_is resource "image" && dict_mem "data" resource then
    match dict_get "data" resource with
    | Some data =>
        match py_in "resourceId" data with
        | None => None
        | Some false => Some (resource, 0%nat)
        | Some true =>
            (* [resource['data'].get('resourceId', '')]: only an object
               has [get]; a string or an array raises AttributeError *)
            match data with
            | JDict _ =>
                match find_dimensions parsed_blocks resource_id nodes with
                | None => None
                | Some None => Some (resource, 0%nat)
                | Some (Some (width, height)) =>
                    match py_setitem "width" (JNum width) data with
                    | Some data1 =>
                        match py_setitem "height" (JNum height) data1 with
                        | Some data2 =>
                            Some (dict_set "data" data2 resource, 1%nat)
                        | None => None
                        end
                    | None => None
                    end
                end
            | _ => None
            end
        end
    | None => Some (resource, 0%nat)
    end
  else Some (resource, 0%nat).

(** [update_image_dimensions(main_data, parsed_blocks, image_dimensions)]:
    the resources of [main_data] after the call and [images_updated], or
    [None] when it raises.  The third argument is not read. *)
Fixpoint update_resources (parsed_blocks : dict block) (nodes : dict node)
         (resources : dict (dict json)) (images_updated : nat)
  : option (dict (dict json) * nat) :=
  match resources with
  | [] => Some ([], images_updated)
  | (resource_id, resource) :: rest =>
      match update_resource parsed_blocks nodes resource_id resource with
      | Some (resource', n) =>
          match update_resources parsed_blocks nodes rest
                                 (images_updated + n) with
          | Some (rest', total) =>
              Some ((resource_id, resource') :: rest', total)
          | None => None
          end
      | None => None
      end
  end.

Definition update_image_dimensions (nodes : dict node)
           (resources : dict (dict json)) (parsed_blocks : dict block)
  : option (dict (dict json) * nat) :=
  update_resources parsed_blocks nodes resources 0.

(** ** Vocabulary of the statements *)

(** The image node refers to the resource and is tracked with these
    dimensions. *)
Definition shows (parsed_blocks : dict block) (nodes : dict node)
           (resource_id : string) (dimensions : Z * Z) : Prop :=
  exists node_id nd data path caption display fa,
    In (node_id, nd) nodes
    /\ node_type_is nd "image" = true
    /\ dict_get "data" nd = Some (JDict data)
    /\ dict_get "image" data = Some (JStr resource_id)
    /\ dict_get node_id parsed_blocks
       = Some (Image path caption display fa (Some dimensions)).

(** The resource with the two numbers written into its data. *)
Definition sized (dimensions : Z * Z) (resource resource' : dict json)
  : Prop :=
  exists data,
    dict_get "data" resource = Some (JDict data)
    /\ resource'
       = dict_set "data"
           (JDict (dict_set "height" (JNum (snd dimensions))
                            (dict_set "width" (JNum (fst dimensions)) data)))
           resource.

(** One image resource, its node and the block tracked for the node. *)
Definition photo_resources : dict (dict json) :=
  [("r-1", [("type", JStr "image");
            ("data", JDict [("resourceId", JStr "photo.png")])])].
Definition photo_nodes : dict node :=
  [("n-1", [("type", JStr "image"); ("data", JDict [("image", JStr "r-1")])])].
Definition photo_blocks : dict block :=
  [("n-1", Image "photo.png" None None None (Some (640, 480)%Z))].

End Resources.

(* ================================================================== *)
(** * File names for the debug output *)
(* ================================================================== *)

Module SafeName.

Import Py Regex.
Open Scope string_scope.

(** [re.sub(pattern, repl, s)] for a replacement without group
    references: every match, leftmost first and not overlapping, is
    replaced; an empty match is replaced, too, and the scan moves one
    character on. *)
Fixpoint sub_from (fuel : nat) (f : flags) (r : regex) (repl : string)
         (prev : option ascii) (s : string) : string :=
  match fuel with
  | O => s
  | S fuel' =>
      match match_here f r prev s with
      | Some rest =>
          let n := (String.length s - String.length rest)%nat in
          match n, s with
          | O, EmptyString => repl
          | O, String c t =>
              repl ++ String c (sub_from fuel' f r repl (Some c) t)
          | _, _ =>
              repl ++ sub_from fuel' f r repl (last_char prev (take n s)) rest
          end
      | None =>
          match s with
          | EmptyString => EmptyString
          | String c t => String c (sub_from fuel' f r repl (Some c) t)
          end
      end
  end.

Definition re_sub (r : regex) (repl : string) (s : string) : string :=
  sub_from (S (String.length s)) no_flags r repl None s.

(** [s.replace(a, b)] for single characters. *)
Fixpoint replace (a b : ascii) (s : string) : string :=
  match s with
  | EmptyString => EmptyString
  | String c t => String (if Ascii.eqb c a then b else c) (replace a b t)
  end.

Definition backslash : ascii := ascii_of_nat 92.

(** The set of "unsafe characters": backslash, slash, star, question
    mark, colon, double quote, angle brackets and bar. *)
Definition unsafe : list citem :=
  [ch backslash; ch "/"; ch "*"; ch "?"; ch ":"; ch Json.quote; ch "<";
   ch ">"; ch "|"].

(** [__+] *)
Definition underscores : regex := Seq (Lit "_") (plus (Lit "_")).

(** Lines 182-194; [date_suffix] is [datetime.now().strftime('%Y-%m-%d')]. *)
Definition create_safe_filename (date_suffix : string) (title : string)
  : string :=
  if negb (truthy title) then "storymap"
  else
    let safe_title := re_sub (Set_ unsafe) "" (strip title) in
    let safe_title := replace " " "_" safe_title in
    let safe_title := re_sub underscores "_" safe_title in
    safe_title ++ "_" ++ date_suffix.

(** ** Vocabulary of the statements *)

(** The text without the underscores it starts with. *)
Fixpoint drop_underscores (s : string) : string :=
  match s with
  | String c t => if Ascii.eqb c "_" then drop_underscores t else s
  | EmptyString => EmptyString
  end.

(** The text without the characters of [banned]. *)
Fixpoint without (banned : list ascii) (s : string) : string :=
  match s with
  | EmptyString => EmptyString
  | String c t =>
      if existsb (Ascii.eqb c) banned then without banned t
      else String c (without banned t)
  end.

(** The text with every run of underscores shortened to one: an
    underscore goes when the next character is an underscore. *)
Fixpoint collapse (s : string) : string :=
  match s with
  | EmptyString => EmptyString
  | String c t =>
      if Ascii.eqb c "_"
         && match t with String d _ => Ascii.eqb d "_" | EmptyString => false end
      then collapse t
      else String c (collapse t)
  end.

End SafeName.

(* ================================================================== *)
(** * Credentials and debug settings *)
(* ================================================================== *)

Module Config.

Import Py Publish.
Open Scope string_scope.

(** Truthiness of a JSON value as Python sees it after [json.load]. *)
Definition json_truthy (j : json) : bool :=
  match j with
  | JNull => false
  | JBool b => b
  | JNum n => negb (Z.eqb n 0)
  | JStr s => truthy s
  | JList l => match l with [] => false | _ => true end
  | JDict d => match d with [] => false | _ => true end
  end.

Definition required_fields : list string :=
  ["username"; "password"; "arcgis_url"].

(** Lines 301-324, for a file whose content, when it parses, is a JSON
    object: [parsed] is [None] when the file cannot be read or parsed. *)
Definition load_config (parsed : option (dict json)) : option (dict json) :=
  match parsed with
  | None => None
  | Some config =>
      if forallb (fun field => dict_mem field config) required_fields
      then Some config
      else None
  end.

(** [credentials.update(config)]. *)
Definition update (credentials config : dict json) : dict json :=
  fold_left (fun acc e => dict_set (fst e) (snd e) acc) config credentials.

(** [if value: credentials[key] = value] for a parameter. *)
Definition set_parameter (key : string) (value : option string)
           (credentials : dict json) : dict json :=
  match value with
  | Some v => if truthy v then dict_set key (JStr v) credentials
              else credentials
  | None => credentials
  end.

Definition value_truthy (credentials : dict json) (key : string) : bool :=
  match dict_get key credentials with
  | Some j => json_truthy j
  | None => false
  end.

(** Lines 266-298.  [config_file] is [None] when no path is given or no
    file is there, and otherwise what [load_config] gets to read.  [None]
    as a result is the ValueError for missing credentials. *)
Definition get_credentials (config_file : option (option (dict json)))
           (username password arcgis_url : option string)
  : option (dict json) :=
  let credentials :=
    [("username", JNull); ("password", JNull); ("arcgis_url", JNull);
     ("debug", JStr "none"); ("full_debug_output_folder", JNull)] in
  let credentials := set_parameter "username" username credentials in
  let credentials := set_parameter "password" password credentials in
  let credentials := set_parameter "arcgis_url" arcgis_url credentials in
  let credentials :=
    match config_file with
    | Some parsed =>
        match load_config parsed with
        | Some config =>
            if json_truthy (JDict config) then update credentials config
            else credentials
        | None => credentials
        end
    | None => credentials
    end in
  if forallb (value_truthy credentials) required_fields
  then Some credentials
  else None.

(** How lines 143-147 of [initialize_debug_settings] leave the global
    [DEBUG_LEVEL]: set to a level, or, when the warning about an invalid
    level cannot be logged, still at the value read from the credentials
    while the TypeError of [log_message] goes up to the caller. *)
Inductive level_setting :=
| LevelSet (DEBUG_LEVEL : string)
| LevelRaised (DEBUG_LEVEL : json).

(** Lines 143-147.  A value that is none of the three names is reported
    through [log_message] before it is replaced, and [log_message] looks
    the current [DEBUG_LEVEL], which is that value, up in a dictionary
    (line 224): a list or an object cannot be hashed, so the call raises
    and line 147 is not reached. *)
Definition debug_level (credentials : dict json) : level_setting :=
  match dict_get "debug" credentials with
  | Some (JStr s) =>
      if existsb (String.eqb s) ["none"; "basic"; "full"] then LevelSet s
      else LevelSet "none"
  | Some (JList l) => LevelRaised (JList l)
  | Some (JDict d) => LevelRaised (JDict d)
  | Some _ => LevelSet "none"
  | None => LevelSet "none"
  end.

(** [level_priority.get(level, 0)]. *)
Definition level_priority (level : string) : nat :=
  if String.eqb level "none" then 0
  else if String.eqb level "basic" then 1
  else if String.eqb level "full" then 2
  else 0.

(** Lines 222-228 of [log_message], for a [DEBUG_LEVEL] that is a
    string: whether the message is displayed. *)
Definition should_display (DEBUG_LEVEL min_level : string)
           (is_error is_warning : bool) : bool :=
  let current_level := level_priority DEBUG_LEVEL in
  let required_level := level_priority min_level in
  (required_level <=? current_level)%nat || is_error || is_warning.

(** ** Vocabulary of the statements *)

(** A configuration that names a user and sets the debug level. *)
Definition sample_config : dict json :=
  [("username", JStr "ann"); ("password", JStr "pw");
   ("arcgis_url", JStr "https://example.org"); ("debug", JStr "full")].

End Config.

(* ================================================================== *)
(** * The legacy list renderer *)
(* ================================================================== *)

Module ListStructure.

Import Py ListEngine ListRender.
Open Scope string_scope.

(** The arguments of [create_text_block(list_type, html)]. *)
Record list_text := mk_list_text {
  list_text_type : option string;
  list_html : string
}.

(** The first pass of lines 1415-1425: [current_parent] is the entry of
    [hierarchy] appended last. *)
Definition hierarchy_step (min_lvl : Z) (hierarchy : list parent)
           (item : entry) : list parent :=
  if (entry_level item =? min_lvl)%Z
  then (hierarchy ++ [(entry_text item, [])])%list
  else if nonempty hierarchy && (entry_level item =? min_lvl + 1)%Z
  then append_child (entry_text item) hierarchy
  else hierarchy.

(** Lines 1393-1456.  The outer [None] is the ValueError of [min] on no
    items, the inner one the early [return None]. *)
Definition process_list_structure (ld : list_data)
  : option (option list_text) :=
  match data_items ld, data_type ld with
  | [], _ => Some None
  | _, None => Some None
  | _, Some _ =>
      let ld := convert_list_for_storymap ld in
      let list_type := data_type ld in
      match data_items ld with
      | [] => None
      | its =>
          let min_lvl := entries_min_level its in
          let hierarchy := fold_left (hierarchy_step min_lvl) its [] in
          let html :=
            String.concat "" (map (render_parent list_type) hierarchy) in
          Some (Some (mk_list_text list_type html))
      end
  end.

End ListStructure.

(* ================================================================== *)
(** * Debug file paths and links *)
(* ================================================================== *)

Module DebugPaths.

Import Py.
Open Scope string_scope.

Section Paths.

(** [os.path.join] and [os.path.exists]; the files do not change while
    the names are tried. *)
Variable join : string -> string -> string.
Variable exists_ : string -> bool.

Variable base_filename : string.
Variable output_folder : string.

(** The two paths tried for a counter. *)
Definition numbered_paths (counter : nat) : string * string :=
  (join output_folder
        (base_filename ++ "_" ++ str_of_nat counter ++ ".txt"),
   join output_folder
        (base_filename ++ "_" ++ str_of_nat counter ++ ".json")).

Definition plain_paths : string * string :=
  (join output_folder (base_filename ++ ".txt"),
   join output_folder (base_filename ++ ".json")).

(** The [while] loop of lines 203-207, run for at most [fuel] tests of
    its condition; [None] when they do not suffice. *)
Fixpoint try_paths (fuel : nat) (paths : string * string) (counter : nat)
  : option (string * string) :=
  match fuel with
  | O => None
  | S fuel' =>
      if exists_ (fst paths) || exists_ (snd paths)
      then try_paths fuel' (numbered_paths counter) (S counter)
      else Some paths
  end.

Definition generate_debug_file_paths (fuel : nat) : option (string * string) :=
  try_paths fuel plain_paths 2.

(** ** Vocabulary of the statements *)

Definition taken (paths : string * string) : bool :=
  exists_ (fst paths) || exists_ (snd paths).

End Paths.

(** A folder that holds the log of an earlier run and a stray JSON file
    numbered 2. *)
Definition slash_join (folder name : string) : string :=
  folder ++ "/" ++ name.
Definition earlier_runs (path : string) : bool :=
  String.eqb path "out/map.txt" || String.eqb path "out/map_2.json".

End DebugPaths.

Module Links.

Import Py Classifier.
Open Scope string_scope.

(** Lines 3262-3279. *)
Definition format_link_for_storymap (url link_text : string) : string :=
  let url :=
    if truthy url
       && negb (startswith url "http://" || startswith url "https://"
                || startswith url "#")
    then "https://" ++ url else url in
  "<a href=" ++ dq ++ url ++ dq ++ " rel=" ++ dq ++ "noopener noreferrer"
  ++ dq ++ " target=" ++ dq ++ "_blank" ++ dq ++ ">" ++ link_text ++ "</a>".

(** ** Vocabulary of the statements *)

(** The run without character formatting. *)
Definition unstyled (x : run) : run :=
  mk_run false false false false None None (texts x) (br x) (sz x)
         (hyperlink x).

(** A linked run. *)
Definition linked_run : run :=
  mk_run false false false false None None [Some "here"] false None
         (Some (Some "rId5")).

End Links.

(* ================================================================== *)
(** * The HTML reader *)
(* ================================================================== *)

Module HtmlReader.

Import Py Regex Blocks TableReader.
Open Scope string_scope.

(** What the code reads of a child of the body: its name, [get_text()],
    [str(element)], the [src] and [alt] attributes, the texts of its [li]
    children and, for each [tr] child, the texts of its [td] and [th]
    children. *)
Record element := mk_element {
  name : string;
  get_text : string;
  repr : string;
  src : option string;
  alt : option string;
  li_texts : list string;
  tr_cells : list (list string)
}.

(** Lines 2846-2856.  The message of the log is formatted with
    [os.path.basename(image_path)], which raises TypeError for a path that
    is [None]: that is the result [None]. *)
Definition create_image_block (image_path : option string)
           (caption display float_alignment : option string)
  : option block :=
  match image_path with
  | Some path => Some (Image path caption display float_alignment None)
  | None => None
  end.

Definition create_separator_block : block := Separator.

Definition in_names (x : string) (l : list string) : bool :=
  existsb (String.eqb x) l.

(** Lines 394-442.  The outer [None] is an exception, the inner one the
    result [None]. *)
Definition process_html_element (e : element) : option (option block) :=
  let tag_name := lower (name e) in
  if negb (truthy tag_name) then Some None
  else if in_names tag_name ["h1"; "h2"]
  then Some (Some (create_text_block "h2" (get_text e) None))
  else if String.eqb tag_name "h3"
  then Some (Some (create_text_block "h3" (get_text e) None))
  else if String.eqb tag_name "h4"
  then Some (Some (create_text_block "h4" (get_text e) None))
  else if String.eqb tag_name "p"
  then Some (Some (create_text_block "paragraph" (repr e) None))
  else if String.eqb tag_name "img"
  then match create_image_block (src e) (alt e) (Some "standard") None with
       | Some b => Some (Some b)
       | None => None
       end
  else if String.eqb tag_name "hr"
  then Some (Some create_separator_block)
  else if String.eqb tag_name "pre"
  then Some (Some (create_code_block (get_text e)))
  else if in_names tag_name ["ul"; "ol"]
  then
    let list_type :=
      if String.eqb tag_name "ul" then "bullet-list" else "numbered-list" in
    Some (Some (create_text_block list_type
                  (String.concat (String newline "") (li_texts e)) None))
  else if String.eqb tag_name "table"
  then
    let rows :=
      flat_map (fun tr => match map strip tr with
                          | [] => []
                          | cells => [cells]
                          end)
               (tr_cells e) in
    match rows with
    | [] => Some None
    | _ => Some (Some (create_table_block rows None))
    end
  else Some None.

(** The loop of lines 377-381; [None] when an element raises. *)
Fixpoint collect (elements : list element) : option (list block) :=
  match elements with
  | [] => Some []
  | e :: rest =>
      match process_html_element e with
      | None => None
      | Some found =>
          match collect rest with
          | None => None
          | Some blocks =>
              Some (match found with
                    | Some b => b :: blocks
                    | None => blocks
                    end)
          end
      end
  end.

(** Lines 361-391.  [body] is [None] when the file cannot be read or has
    no body; every exception ends in the empty list. *)
Definition parse_html (body : option (list element)) : list block :=
  match body with
  | None => []
  | Some elements =>
      match collect elements with
      | Some blocks => blocks
      | None => []
      end
  end.

(** ** Vocabulary of the statements *)

(** An image element without [src]. *)
Definition sourceless_image (e : element) : bool :=
  String.eqb (lower (name e)) "img"
  && match src e with None => true | Some _ => false end.

(** The block of an element that does not raise. *)
Definition block_of (e : element) : list block :=
  match process_html_element e with
  | Some (Some b) => [b]
  | _ => []
  end.

(** An empty paragraph and an image without source. *)
Definition empty_p : element :=
  mk_element "p" "" "<p></p>" None None [] [].
Definition broken_img : element :=
  mk_element "img" "" "<img/>" None (Some "a picture") [] [].

End HtmlReader.

(* ================================================================== *)
(** * The cells of a patched table *)
(* ================================================================== *)

Module TablePatch.

Import Py Blocks Publish.
Open Scope string_scope.

(** The object of a row: one entry per cell, keyed by the column index. *)
Fixpoint cell_entries (col_idx : nat) (row : list string) : dict json :=
  match row with
  | [] => []
  | cell_value :: rest =>
      (str_of_nat col_idx, JDict [("value", JStr cell_value)])
      :: cell_entries (S col_idx) rest
  end.

(** The object of the cells: one entry per row, keyed by the row index. *)
Fixpoint row_entries (row_idx : nat) (rows : list (list string))
  : dict json :=
  match rows with
  | [] => []
  | row :: rest =>
      (str_of_nat row_idx, JDict (cell_entries 0 row))
      :: row_entries (S row_idx) rest
  end.

(** The data of a table node with the size, the cells and the caption of
    a table block written into it. *)
Definition patched_data (rows : list (list string)) (caption : option string)
           (data : dict json) : dict json :=
  let data := dict_set "numRows" (JNum (Z.of_nat (List.length rows))) data in
  let data :=
    dict_set "numColumns" (JNum (Z.of_nat (max_row_length rows))) data in
  let data := dict_set "cells" (JDict (row_entries 0 rows)) data in
  match block_caption (Table rows caption) with
  | Some c => dict_set "caption" (JStr c) data
  | None => data
  end.

(** A table node as the platform creates it, without cells. *)
Definition fresh_table_node : node :=
  [("type", JStr "table");
   ("data", JDict [("numRows", JNum 2); ("numColumns", JNum 2)])].

End TablePatch.

(* ================================================================== *)
(** * The patch pass on placeholders *)
(* ================================================================== *)

Module Pass.

Import Py Blocks Publish.
Open Scope string_scope.

(** A text node that waits for its content: it is tracked by a code
    block, or it shows a placeholder marker and is tracked by a text
    block with content. *)
Definition awaiting (parsed_blocks : dict block) (node_id : string)
           (nd : node) : bool :=
  node_type_is nd "text"
  && match dict_get node_id parsed_blocks with
     | Some (Code _ _) => true
     | Some (Text _ text_content _ _) =>
         negb (is_empty_content text_content)
         && match dict_get "data" nd with
            | Some (JDict data) =>
                match dict_get "text" data with
                | Some (JStr marker) => startswith marker "PLACEHOLDER_TEXT_"
                | _ => false
                end
            | _ => false
            end
     | _ => false
     end.

(** The node with the content of the block tracked for it. *)
Definition patch_of (parsed_blocks : dict block) (node_id : string)
           (nd : node) : node :=
  match dict_get node_id parsed_blocks with
  | Some (Code code_content language) =>
      dict_set "data"
        (JDict [("content", JStr code_content);
                ("lang", JStr (match dict_get (lower language)
                                              language_mapping with
                               | Some l => l
                               | None => "txt"
                               end));
                ("lineNumbers", JBool true)])
        (dict_set "type" (JStr "code") nd)
  | Some (Text _ text_content alignment _) =>
      match dict_get "data" nd with
      | Some (JDict data) =>
          let with_text := dict_set "text" (JStr text_content) data in
          dict_set "data"
            (JDict match (match alignment with
                          | Some al =>
                              if truthy al then dict_get al alignment_map
                              else None
                          | None => None
                          end) with
                   | Some v => dict_set "textAlignment" (JStr v) with_text
                   | None => with_text
                   end)
            nd
      | _ => nd
      end
  | _ => nd
  end.

(** A heading and a code block behind their placeholders. *)
Definition draft_nodes : dict node :=
  [("n-0", [("type", JStr "text");
            ("data", JDict [("text", JStr "PLACEHOLDER_TEXT_0")])]);
   ("n-1", [("type", JStr "text");
            ("data", JDict [("text", JStr "PLACEHOLDER_CODE_1")])])].
Definition draft_blocks : dict block :=
  [("n-0", Text "h2" "Title" None None); ("n-1", Code "x = 1" "py")].

End Pass.

(* ================================================================== *)
(** * Properties *)
(* ================================================================== *)

(** ** Dictionaries and decimal keys *)

Section DictFacts.

Import Py.
Local Open Scope list_scope.
Variable V : Type.
Implicit Types (d : dict V) (k : string) (v : V).

Lemma dict_set_fresh d k v :
  ~ In k (keys d) -> dict_set k v d = d ++ [(k, v)].
Proof.
  induction d as [|[k' v'] t IH]; simpl; intros Hk; [reflexivity|].
  destruct (String.eqb k k') eqn:E.
  - apply String.eqb_eq in E. subst. exfalso. apply Hk. now left.
  - rewrite IH; [reflexivity|]. intros Hin. apply Hk. now right.
Qed.

Lemma dict_set_keys d k v :
  keys (dict_set k v d) = if dict_mem k d then keys d else keys d ++ [k].
Proof.
  unfold dict_mem.
  induction d as [|[k' v'] t IH]; simpl; [reflexivity|].
  destruct (String.eqb k k') eqn:E; simpl.
  - reflexivity.
  - rewrite IH. destruct (dict_get k t); reflexivity.
Qed.

Lemma dict_mem_In d k : dict_mem k d = true <-> In k (keys d).
Proof.
  unfold dict_mem.
  induction d as [|[k' v'] t IH]; simpl.
  - split; [discriminate|tauto].
  - destruct (String.eqb k k') eqn:E.
    + apply String.eqb_eq in E. subst. split; auto.
    + rewrite IH. split; [now right|].
      intros [H|H]; [|assumption].
      subst. rewrite String.eqb_refl in E. discriminate.
Qed.

Lemma dict_set_keys_NoDup d k v :
  NoDup (keys d) -> NoDup (keys (dict_set k v d)).
Proof.
  intros Hd. rewrite dict_set_keys.
  destruct (dict_mem k d) eqn:E; [assumption|].
  apply NoDup_app; [assumption|repeat constructor; simpl; tauto|].
  intros a Ha [Hb|[]]. subst a.
  apply dict_mem_In in Ha. congruence.
Qed.

Lemma dict_set_values_Forall (P : V -> Prop) d k v :
  P v -> Forall P (values d) -> Forall P (values (dict_set k v d)).
Proof.
  intros Hv. induction d as [|[k' v'] t IH]; simpl; intros Hd.
  - now constructor.
  - inversion Hd; subst. destruct (String.eqb k k'); simpl.
    + now constructor.
    + constructor; auto.
Qed.

Lemma dict_get_set_same d k v : dict_get k (dict_set k v d) = Some v.
Proof.
  induction d as [|[k' v'] t IH]; simpl.
  - now rewrite String.eqb_refl.
  - destruct (String.eqb k k') eqn:E; simpl; rewrite E; [reflexivity|exact IH].
Qed.

End DictFacts.

Section DictFold.

Import Py.
Local Open Scope list_scope.
Variables (V W : Type) (f : V -> W).

(** Rebuilding a dictionary entry by entry, as a [for k, v in d.items()]
    loop that assigns [out[k] = f v] does. *)
Local Abbreviation rebuild d acc :=
  (fold_left (fun acc0 e => dict_set (fst e) (f (snd e)) acc0) d acc).

Lemma rebuild_NoDup d : forall acc,
  NoDup (keys acc) -> NoDup (keys (rebuild d acc)).
Proof.
  induction d as [|e t IH]; simpl; intros acc H; [assumption|].
  apply IH. now apply dict_set_keys_NoDup.
Qed.

Lemma rebuild_image (P : W -> Prop) d : forall acc,
  (forall v, In v (values d) -> P (f v)) ->
  Forall P (values acc) -> Forall P (values (rebuild d acc)).
Proof.
  induction d as [|e t IH]; simpl; intros acc Hf H; [assumption|].
  apply IH; [intros; apply Hf; now right|].
  apply dict_set_values_Forall; [apply Hf; now left|assumption].
Qed.

Lemma rebuild_map d : forall acc,
  NoDup (keys acc ++ keys d) ->
  rebuild d acc = acc ++ map (fun e => (fst e, f (snd e))) d.
Proof.
  induction d as [|[k v] t IH]; simpl; intros acc H.
  - now rewrite app_nil_r.
  - assert (Hk : ~ In k (keys acc)).
    { intros Hin. apply NoDup_remove_2 in H. apply H.
      apply in_or_app. now left. }
    rewrite dict_set_fresh by assumption.
    rewrite IH.
    + now rewrite <- app_assoc.
    + unfold keys in *. rewrite map_app. simpl. rewrite <- app_assoc. exact H.
Qed.

End DictFold.

Section Decimal.

Import Py.

Lemma str_of_nat_inj n m : str_of_nat n = str_of_nat m -> n = m.
Proof.
  unfold str_of_nat. intros H.
  assert (E : Some (Nat.to_uint n) = Some (Nat.to_uint m)).
  { rewrite <- !NilEmpty.usu. now rewrite H. }
  injection E as E.
  rewrite <- (Unsigned.of_to n), <- (Unsigned.of_to m). now rewrite E.
Qed.

Lemma append_inj_l (p a b : string) : (p ++ a = p ++ b)%string -> a = b.
Proof. induction p; simpl; intros H; [assumption|]. injection H as H. auto. Qed.

End Decimal.

(** ** Stage A: the grouping loop *)

Section GroupingFacts.

Import Py ListEngine.
Local Open Scope list_scope.
Local Open Scope Z_scope.

Lemma group_id_inj n m : group_id n = group_id m -> n = m.
Proof.
  unfold group_id. intros H. apply append_inj_l in H.
  now apply str_of_nat_inj.
Qed.

Lemma group_id_fresh n : ~ In (group_id n) (map group_id (seq 0 n)).
Proof.
  intros H. apply in_map_iff in H as [m [E Hm]].
  apply group_id_inj in E. apply in_seq in Hm. lia.
Qed.

Lemma nonempty_true {A} (l : list A) : l <> [] -> nonempty l = true.
Proof. destruct l; [congruence|reflexivity]. Qed.

Lemma group_flags_app gs hs :
  group_flags (gs ++ hs) = group_flags gs ++ group_flags hs.
Proof. unfold group_flags. now rewrite flat_map_app. Qed.

Lemma core_items_app gs hs :
  core_items (gs ++ hs) = core_items gs ++ core_items hs.
Proof. unfold core_items. now rewrite map_app, concat_app, map_app. Qed.

Lemma start_new_group_wf st prev x :
  wf_state st prev -> start_new_group st x = starts_after prev x.
Proof.
  intros (_ & Hne & Hid & Hlv).
  unfold start_new_group, starts_after.
  rewrite (nonempty_true Hne), Hid, Hlv. simpl.
  rewrite andb_true_r.
  destruct (item_level x =? 0); simpl; [|reflexivity].
  destruct (item_level prev =? 0); simpl; [|reflexivity].
  now rewrite String.eqb_sym.
Qed.

(** One iteration: the invariant is kept, one flag and one item are added,
    and no empty group is ever stored. *)
Lemma group_step_spec st prev x :
  wf_state st prev ->
  let st' := group_step st x in
  wf_state st' x
  /\ group_flags (all_groups st')
     = group_flags (all_groups st) ++ [starts_after prev x]
  /\ core_items (all_groups st') = core_items (all_groups st) ++ [flat_core x]
  /\ (Forall (fun g => items g <> []) (all_groups st) ->
      Forall (fun g => items g <> []) (all_groups st')).
Proof.
  intros Hwf. pose proof Hwf as (Hk & Hne & Hid & Hlv).
  unfold group_step. rewrite (start_new_group_wf x Hwf).
  rewrite (nonempty_true Hne).
  destruct (starts_after prev x) eqn:Hs; cbv zeta; unfold all_groups; simpl.
  - (* the open group is stored under a fresh key *)
    assert (Hfresh : ~ In (group_id (group_counter st))
                          (keys (grouped_lists st))).
    { rewrite Hk. apply group_id_fresh. }
    rewrite dict_set_fresh by exact Hfresh.
    unfold wf_state, values, keys in *.
    cbn [grouped_lists group_counter current_group current_num_id last_level].
    rewrite !map_app, Hk, seq_S, map_app. simpl.
    rewrite !group_flags_app, !core_items_app, <- !app_assoc.
    unfold group_flags, core_items.
    destruct (item_level x =? 0); simpl; repeat split;
      try discriminate; try reflexivity;
      intros HF; apply Forall_app in HF as [HF1 HF2];
      apply Forall_app; (split; [exact HF1|]);
      inversion HF2; subst;
      (constructor; [assumption|]);
      (constructor; [simpl; discriminate|constructor]).
  - destruct st as [gl gc [ty pos its] cid ll].
    unfold wf_state, all_groups in *.
    cbn [grouped_lists group_counter current_group current_num_id
         last_level items type document_position] in *.
    rewrite !group_flags_app, !core_items_app.
    assert (Hfl : forall ty', group_flags [mk_group ty' pos (its ++ [mk_group_item (item_text x) (item_level x) (item_type x) (List.length its)])]
                  = group_flags [mk_group ty pos its] ++ [false]).
    { intros ty'. destruct its as [|a t]; [congruence|].
      unfold group_flags. simpl. now rewrite !app_nil_r, map_app. }
    assert (Hco : forall ty', core_items [mk_group ty' pos (its ++ [mk_group_item (item_text x) (item_level x) (item_type x) (List.length its)])]
                  = core_items [mk_group ty pos its] ++ [flat_core x]).
    { intros ty'. unfold core_items. simpl. now rewrite !app_nil_r, map_app. }
    assert (Hnn : its ++ [mk_group_item (item_text x) (item_level x) (item_type x) (List.length its)] <> []).
    { destruct its; discriminate. }
    destruct ty; [|destruct (item_level x =? 0)];
      cbn [items type document_position];
      rewrite Hfl, Hco, <- !app_assoc;
      (repeat split; try assumption; try reflexivity);
      intros HF; apply Forall_app in HF as [HF1 HF2];
      apply Forall_app; (split; [exact HF1|]);
      (constructor; [exact Hnn|constructor]).
Qed.

Lemma group_loop_spec l : forall st prev,
  wf_state st prev ->
  let st' := fold_left group_step l st in
  (exists last, wf_state st' last)
  /\ group_flags (all_groups st')
     = group_flags (all_groups st) ++ boundaries_from prev l
  /\ core_items (all_groups st') = core_items (all_groups st) ++ map flat_core l
  /\ (Forall (fun g => items g <> []) (all_groups st) ->
      Forall (fun g => items g <> []) (all_groups st')).
Proof.
  induction l as [|x t IH]; intros st prev Hwf; simpl.
  - rewrite !app_nil_r. repeat split; eauto.
  - destruct (group_step_spec x Hwf) as (Hwf' & Hf & Hc & Hn).
    destruct (IH _ _ Hwf') as (Hl & Hf2 & Hc2 & Hn2).
    repeat split.
    + exact Hl.
    + rewrite Hf2, Hf. now rewrite <- app_assoc.
    + rewrite Hc2, Hc. now rewrite <- app_assoc.
    + auto.
Qed.

Lemma finish_wf st last :
  wf_state st last -> values (finish st) = all_groups st.
Proof.
  intros (Hk & Hne & _). unfold finish, all_groups.
  rewrite (nonempty_true Hne).
  rewrite dict_set_fresh by (rewrite Hk; apply group_id_fresh).
  unfold values. now rewrite map_app.
Qed.

(** The first iteration runs on the empty open group and never stores it. *)
Lemma first_step_wf x :
  let st := group_step (initial_state x) x in
  wf_state st x
  /\ group_flags (all_groups st) = [true]
  /\ core_items (all_groups st) = [flat_core x]
  /\ Forall (fun g => items g <> []) (all_groups st).
Proof.
  unfold group_step, start_new_group, initial_state. simpl.
  rewrite andb_false_r. cbv zeta. unfold all_groups. simpl.
  repeat split.
  - destruct (item_level x =? 0); simpl; discriminate.
  - unfold group_flags. simpl. now destruct (item_level x =? 0).
  - unfold core_items. simpl. now destruct (item_level x =? 0).
  - constructor; [|constructor]. destruct (item_level x =? 0); simpl; discriminate.
Qed.

(** The whole loop, read off its result. *)
Lemma group_flat_items_spec l :
  group_flags (values (group_flat_items l)) = boundaries l
  /\ core_items (values (group_flat_items l)) = map flat_core l
  /\ Forall (fun g => items g <> []) (values (group_flat_items l)).
Proof.
  destruct l as [|x t]; [simpl; repeat split; constructor|].
  unfold group_flat_items. cbn [fold_left].
  destruct (first_step_wf x) as (Hwf & Hf & Hc & Hn).
  destruct (group_loop_spec t Hwf) as ([last Hl] & Hf2 & Hc2 & Hn2).
  rewrite (finish_wf Hl). repeat split.
  - rewrite Hf2, Hf. reflexivity.
  - rewrite Hc2, Hc. reflexivity.
  - auto.
Qed.

Lemma insert_by_length {A} (key : A -> Z) x l :
  List.length (insert_by key x l) = S (List.length l).
Proof.
  induction l as [|y t IH]; simpl; [reflexivity|].
  destruct (key x <=? key y); simpl; [reflexivity|]. now rewrite IH.
Qed.

Lemma sort_by_length {A} (key : A -> Z) (l : list A) :
  List.length (sort_by key l) = List.length l.
Proof.
  induction l as [|x t IH]; simpl; [reflexivity|].
  now rewrite insert_by_length, IH.
Qed.

Lemma fold_add_length {A} (f : A -> nat) (l : list A) : forall acc,
  fold_left (fun a e => (a + f e)%nat) l acc
  = (acc + fold_right (fun e a => (f e + a)%nat) 0%nat l)%nat.
Proof.
  induction l as [|x t IH]; simpl; intros acc; [lia|]. rewrite IH. lia.
Qed.

Lemma total_items_flatten d :
  total_items d = List.length (flatten_items d).
Proof.
  unfold total_items, flatten_items.
  rewrite (fold_add_length (fun e => List.length (snd e))). simpl.
  induction d as [|[k its] t IH]; simpl; [reflexivity|].
  rewrite List.length_app, List.length_map. now rewrite IH.
Qed.

Lemma total_items_in_groups_core gl :
  total_items_in_groups gl = List.length (core_items (values gl)).
Proof.
  unfold total_items_in_groups, core_items.
  rewrite (fold_add_length (fun g => List.length (items g))). simpl.
  rewrite List.length_map.
  induction (values gl) as [|g t IH]; simpl; [reflexivity|].
  now rewrite List.length_app, IH.
Qed.

End GroupingFacts.

(** ** Stage B: flattening *)

Section FlatteningFacts.

Import Py ListEngine.
Local Open Scope list_scope.
Local Open Scope Z_scope.

Local Abbreviation fold_min l m :=
  (fold_left (fun m0 j => Z.min m0 (level j)) l m).

Lemma fold_min_le_init l : forall m, fold_min l m <= m.
Proof.
  induction l as [|x t IH]; simpl; intros m; [lia|].
  specialize (IH (Z.min m (level x))). lia.
Qed.

Lemma fold_min_le_all l : forall m it, In it l -> fold_min l m <= level it.
Proof.
  induction l as [|x t IH]; simpl; intros m it Hin; [contradiction|].
  destruct Hin as [->|Hin].
  - pose proof (fold_min_le_init t (Z.min m (level it))). lia.
  - now apply IH.
Qed.

Lemma fold_min_attained l : forall m,
  fold_min l m = m \/ exists it, In it l /\ level it = fold_min l m.
Proof.
  induction l as [|x t IH]; simpl; intros m; [now left|].
  destruct (IH (Z.min m (level x))) as [E|(it & Hin & E)].
  - rewrite E. destruct (Z.min_spec m (level x)) as [[_ ->]|[_ ->]].
    + now left.
    + right. exists x. split; [now left|reflexivity].
  - right. exists it. split; [now right|assumption].
Qed.

Lemma min_level_le its it : In it its -> min_level its <= level it.
Proof.
  destruct its as [|x t]; simpl; [contradiction|].
  intros [->|Hin].
  - apply fold_min_le_init.
  - now apply fold_min_le_all.
Qed.

Lemma min_level_attained its :
  its <> [] -> exists it, In it its /\ level it = min_level its.
Proof.
  destruct its as [|x t]; [congruence|]. intros _. simpl.
  destruct (fold_min_attained t (level x)) as [E|(it & Hin & E)].
  - exists x. split; [now left|now rewrite E].
  - exists it. split; [now right|assumption].
Qed.

Lemma min_level_unique its m :
  (forall it, In it its -> m <= level it) ->
  (exists it, In it its /\ level it = m) ->
  min_level its = m.
Proof.
  intros Hle (it & Hin & E).
  assert (Hne : its <> []) by (destruct its; [contradiction|discriminate]).
  destruct (min_level_attained Hne) as (it' & Hin' & E').
  pose proof (min_level_le _ _ Hin). pose proof (Hle _ Hin'). lia.
Qed.

Lemma flatten_item_upper m it : level (flatten_item m it) <= m + 1.
Proof.
  unfold flatten_item. destruct (1 <? level it - m) eqn:E; simpl; [lia|].
  apply Z.ltb_ge in E. lia.
Qed.

Lemma flatten_item_lower m it : m <= level it -> m <= level (flatten_item m it).
Proof.
  unfold flatten_item. destruct (1 <? level it - m); simpl; lia.
Qed.

Lemma flatten_item_idem m it :
  flatten_item m (flatten_item m it) = flatten_item m it.
Proof.
  unfold flatten_item. destruct (1 <? level it - m) eqn:E; simpl.
  - replace (m + 1 - m) with 1 by lia. reflexivity.
  - now rewrite E.
Qed.

Lemma flatten_item_root m it : level it = m -> flatten_item m it = it.
Proof.
  intros E. unfold flatten_item. rewrite E.
  replace (m - m) with 0 by lia. reflexivity.
Qed.

(** Flattening keeps the root level of a group. *)
Lemma min_level_flatten its :
  min_level (map (flatten_item (min_level its)) its) = min_level its.
Proof.
  destruct its as [|x t] eqn:Hits; [reflexivity|]. rewrite <- Hits.
  assert (Hne : its <> []) by (rewrite Hits; discriminate).
  apply min_level_unique.
  - intros it Hin. apply in_map_iff in Hin as (it0 & <- & Hin0).
    apply flatten_item_lower. now apply min_level_le.
  - destruct (min_level_attained Hne) as (it & Hin & E).
    exists it. split; [|assumption].
    apply in_map_iff. exists it. split; [|assumption].
    now apply flatten_item_root.
Qed.

Lemma flatten_group_idem g : flatten_group (flatten_group g) = flatten_group g.
Proof.
  unfold flatten_group. simpl. rewrite min_level_flatten.
  f_equal. rewrite map_map. apply map_ext. intros it. apply flatten_item_idem.
Qed.

Lemma flatten_group_bounded g :
  Forall (fun it => level it <= min_level (items (flatten_group g)) + 1)
         (items (flatten_group g)).
Proof.
  unfold flatten_group. simpl. rewrite min_level_flatten.
  apply Forall_forall. intros it Hin.
  apply in_map_iff in Hin as (it0 & <- & _). apply flatten_item_upper.
Qed.

(** [s * n] is [s] written [n] times over, and nothing for [n <= 0]. *)
Lemma repeat_nat_concat (s : string) (k : nat) :
  repeat_nat s k = String.concat "" (List.repeat s k).
Proof.
  induction k as [|k IH]; [reflexivity|].
  cbn [repeat_nat List.repeat String.concat]. rewrite IH.
  destruct k as [|k]; [|reflexivity].
  cbn [List.repeat String.concat]. clear IH.
  induction s as [|c t IHs]; [reflexivity|]. simpl. now rewrite IHs.
Qed.

Lemma repeat_concat (s : string) (n : Z) :
  repeat s n = String.concat "" (List.repeat s (Z.to_nat n)).
Proof. apply repeat_nat_concat. Qed.

Lemma flatten_item_cases m it :
  if 1 <? level it - m
  then level (flatten_item m it) = m + 1
       /\ text (flatten_item m it)
          = (String.concat ""
               (List.repeat "--- " (Z.to_nat (level it - m - 1)))
             ++ text it)%string
       /\ original_type (flatten_item m it) = original_type it
       /\ group_index (flatten_item m it) = group_index it
  else flatten_item m it = it.
Proof.
  unfold flatten_item. destruct (1 <? level it - m); cbn [level text
    original_type group_index]; [|reflexivity].
  rewrite repeat_concat. auto.
Qed.

Lemma flatten_items_cases m its :
  Forall2
    (fun it it' =>
       if 1 <? level it - m
       then level it' = m + 1
            /\ text it'
               = (String.concat ""
                    (List.repeat "--- " (Z.to_nat (level it - m - 1)))
                  ++ text it)%string
            /\ original_type it' = original_type it
            /\ group_index it' = group_index it
       else it' = it)
    its (map (flatten_item m) its).
Proof.
  induction its as [|it t IH]; simpl; constructor; [|exact IH].
  apply flatten_item_cases.
Qed.

Lemma dict_get_map_values {V W} (f : V -> W) k (d : dict V) :
  dict_get k (map (fun e => (fst e, f (snd e))) d)
  = option_map f (dict_get k d).
Proof.
  induction d as [|[k' v] t IH]; simpl; [reflexivity|].
  now destruct (String.eqb k k').
Qed.

Lemma flatten_list_hierarchy_map grouped :
  NoDup (keys grouped) ->
  flatten_list_hierarchy grouped
  = map (fun e => (fst e, flatten_group (snd e))) grouped.
Proof.
  intros H. unfold flatten_list_hierarchy.
  rewrite rebuild_map; [reflexivity|exact H].
Qed.

Lemma map_fixed_values (d : dict group) :
  Forall (fun g => flatten_group g = g) (values d) ->
  map (fun e => (fst e, flatten_group (snd e))) d = d.
Proof.
  induction d as [|[k g] t IH]; simpl; intros H; [reflexivity|].
  inversion H; subst. rewrite IH by assumption. simpl in *. congruence.
Qed.

End FlatteningFacts.

(** ** The list engine, claim by claim *)

Section ListEngineClaims.

Import Py ListEngine.
Local Open Scope list_scope.
Local Open Scope Z_scope.

(** C1, as the design document words it, fails on the code.  With one root
    item of numbering id 1, one nested item of id 2 and one root item of
    id 3, the documented rule opens a second group at the third item (its
    id differs from the last root item's); [group_list_items] returns a
    single group, because the item right before it is not at level 0. *)
Lemma claimed_boundaries_refuted :
  let flat := sort_by element_index (flatten_items interleaved_lists) in
  claimed_boundaries flat = [true; false; true]
  /\ group_flags (values (group_list_items interleaved_lists))
     = [true; false; false]
  /\ List.length (values (group_list_items interleaved_lists)) = 1%nat
  /\ group_flags (values (group_flat_items flat)) <> claimed_boundaries flat.
Proof.
  cbv zeta. repeat split; try reflexivity.
  vm_compute. discriminate.
Qed.

(** C1 (amended).  For every sequence of list items, Stage A keeps the
    items in order and starts a new group exactly at an item that is at
    level 0 and whose immediate predecessor is also at level 0 with a
    different numbering id; an item that follows a deeper-level item never
    starts a group, whatever its numbering id. *)
Theorem groups_start_at_adjacent_roots (flat_items : list flat_item) :
  group_flags (values (group_flat_items flat_items)) = boundaries flat_items
  /\ core_items (values (group_flat_items flat_items))
     = map flat_core flat_items
  /\ (forall prev cur : flat_item,
        starts_after prev cur
        = (item_level cur =? 0) && (item_level prev =? 0)
          && negb (String.eqb (num_id cur) (num_id prev))).
Proof.
  destruct (group_flat_items_spec flat_items) as (Hf & Hc & _).
  repeat split; assumption.
Qed.

(** C9.  Stage A neither loses nor duplicates items: the groups hold as
    many items as the input mapping, and no group is empty. *)
Theorem grouping_preserves_item_count (all_list_items : dict (list list_item)) :
  total_items_in_groups (group_list_items all_list_items)
  = total_items all_list_items
  /\ Forall (fun g => items g <> [])
            (values (group_list_items all_list_items)).
Proof.
  unfold group_list_items.
  destruct (group_flat_items_spec
              (sort_by element_index (flatten_items all_list_items)))
    as (_ & Hc & Hn).
  split; [|exact Hn].
  rewrite total_items_in_groups_core, Hc, List.length_map.
  now rewrite sort_by_length, total_items_flatten.
Qed.

(** C2.  Stage B computes the minimum level of each group and rewrites
    exactly the items more than one level below it: such an item moves to
    [min_level + 1] and its text gains the prefix ["--- "] written
    [relative_level - 1] times, where [relative_level] is its level less
    the minimum; every other item, and the group's type and position, are
    unchanged.  The worked example flattens to levels 0,1,1,1 with "C"
    turned into "--- C"; in a group with root level 1, items at levels 4,
    3 and 2 all move to level 2, with the prefix written twice, once and
    not at all. *)
Theorem flatten_rewrites_deep_items
  (grouped : dict group) (gid : string) (g : group) :
  NoDup (keys grouped) ->
  dict_get gid grouped = Some g ->
  let m := min_level (items g) in
  (forall it, In it (items g) -> m <= level it)
  /\ (items g <> [] -> exists it, In it (items g) /\ level it = m)
  /\ (exists g',
        dict_get gid (flatten_list_hierarchy grouped) = Some g'
        /\ type g' = type g
        /\ document_position g' = document_position g
        /\ Forall2
             (fun it it' =>
                if 1 <? level it - m
                then level it' = m + 1
                     /\ text it'
                        = (String.concat ""
                             (List.repeat "--- "
                                (Z.to_nat (level it - m - 1)))
                           ++ text it)%string
                     /\ original_type it' = original_type it
                     /\ group_index it' = group_index it
                else it' = it)
             (items g) (items g'))
  /\ flatten_list_hierarchy [("group_0"%string, example_group)]
     = [("group_0"%string,
         mk_group (Some "numbered-list"%string) 1
           [ mk_group_item "A" 0 "numbered-list" 0;
             mk_group_item "B" 1 "numbered-list" 1;
             mk_group_item "--- C" 1 "numbered-list" 2;
             mk_group_item "D" 1 "numbered-list" 3 ])]
  /\ flatten_list_hierarchy [("group_0"%string, deep_group)]
     = [("group_0"%string,
         mk_group (Some "bullet-list"%string) 7
           [ mk_group_item "A" 1 "bullet-list" 0;
             mk_group_item "--- --- B" 2 "bullet-list" 1;
             mk_group_item "--- C" 2 "bullet-list" 2;
             mk_group_item "D" 2 "bullet-list" 3;
             mk_group_item "E" 1 "bullet-list" 4 ])].
Proof.
  intros Hnd Hget m. repeat split.
  - intros it Hin. now apply min_level_le.
  - apply min_level_attained.
  - exists (flatten_group g). repeat split.
    + rewrite flatten_list_hierarchy_map by assumption.
      rewrite dict_get_map_values, Hget. reflexivity.
    + unfold flatten_group. simpl. apply flatten_items_cases.
Qed.

(** The theorem at a dictionary of two groups, read at the second key:
    the item three levels below the root gets the prefix twice. *)
Lemma flatten_rewrites_deep_items_witness :
  NoDup (keys [("group_0"%string, example_group);
               ("group_1"%string, deep_group)])
  /\ exists g',
       dict_get "group_1"
         (flatten_list_hierarchy [("group_0"%string, example_group);
                                  ("group_1"%string, deep_group)])
       = Some g'
       /\ type g' = type deep_group
       /\ map level (items g') = [1; 2; 2; 2; 1]
       /\ map text (items g')
          = ["A"; "--- --- B"; "--- C"; "D"; "E"]%string.
Proof.
  assert (Hnd : NoDup (keys [("group_0"%string, example_group);
                             ("group_1"%string, deep_group)])).
  { repeat constructor; simpl; intuition discriminate. }
  split; [exact Hnd|].
  destruct (@flatten_rewrites_deep_items
              [("group_0"%string, example_group);
               ("group_1"%string, deep_group)]
              "group_1" deep_group Hnd eq_refl)
    as (_ & _ & (g' & Hg & Ht & _ & Hitems) & _).
  exists g'. split; [exact Hg|]. split; [exact Ht|].
  destruct g' as [ty pos its]. cbn [items] in *.
  repeat match goal with
         | H : Forall2 _ _ _ |- _ => inversion H; clear H; subst
         end.
  repeat match goal with
         | H : if ?c then _ else _ |- _ =>
             let b := eval vm_compute in c in
             change c with b in H; cbv beta iota in H
         end.
  repeat match goal with
         | H : _ /\ _ |- _ => destruct H
         end.
  subst. cbn [map level text].
  repeat match goal with
         | H : level _ = _ |- _ => rewrite H
         | H : text _ = _ |- _ => rewrite H
         end.
  split; reflexivity.
Defined.

(** C6.  Stage B is idempotent, and after one pass no item lies more than
    one level below the root level of its group, which the pass keeps. *)
Theorem flatten_idempotent (grouped : dict group) :
  flatten_list_hierarchy (flatten_list_hierarchy grouped)
  = flatten_list_hierarchy grouped
  /\ Forall (fun g => Forall (fun it => level it <= min_level (items g) + 1)
                             (items g))
            (values (flatten_list_hierarchy grouped))
  /\ (forall g, min_level (items (flatten_group g)) = min_level (items g)).
Proof.
  repeat split.
  - rewrite (@flatten_list_hierarchy_map (flatten_list_hierarchy grouped)).
    + apply map_fixed_values. unfold flatten_list_hierarchy.
      apply rebuild_image; [|constructor].
      intros v _. apply flatten_group_idem.
    + unfold flatten_list_hierarchy. apply rebuild_NoDup. constructor.
  - unfold flatten_list_hierarchy.
    apply rebuild_image; [|constructor].
    intros v _. apply flatten_group_bounded.
  - intros g. unfold flatten_group. simpl. apply min_level_flatten.
Qed.

End ListEngineClaims.

(** ** The code language detector on the documented snippets *)

Section DetectorClaims.

Import Py Regex CodeDetector.
Local Open Scope string_scope.

(** C7.  The detector answers [sql] for the SELECT statement (decided by
    the SQL check), [json] for the one-member object (the SQL and Arcade
    checks stay silent, the JSON check answers), [py] for the function
    definition (SQL, Arcade and JSON stay silent) and the plain-text tag
    [txt] for "hello world" (no check answers). *)
Theorem detector_on_documented_snippets :
  detect_code_language sql_snippet = "sql"
  /\ detect_code_language json_snippet = "json"
  /\ detect_code_language python_snippet = "py"
  /\ detect_code_language plain_snippet = "txt"
  /\ check_sql sql_snippet (lower sql_snippet) = Some "sql"
  /\ (check_sql json_snippet (lower json_snippet) = None
      /\ check_arcade json_snippet (lower json_snippet) = None
      /\ check_json json_snippet = Some "json")
  /\ (check_sql python_snippet (lower python_snippet) = None
      /\ check_arcade python_snippet (lower python_snippet) = None
      /\ check_json python_snippet = None
      /\ check_python python_snippet (lower python_snippet) = Some "py")
  /\ (check_keywords plain_snippet plain_snippet = None
      /\ check_text_about_code plain_snippet plain_snippet = None).
Proof. repeat split; vm_compute; reflexivity. Qed.

End DetectorClaims.

(** ** The display mode of an image *)

Section ImageClaims.

Import Py ImageResolver.
Local Open Scope string_scope.
Local Open Scope Z_scope.

Lemma wide_test (width height : Z) :
  (1200 <? width) && Qle_bool (16 # 9) (aspect_ratio width height) = true
  <-> 1200 < width /\ 0 < height /\ 16 * height <= 9 * width.
Proof.
  unfold aspect_ratio. rewrite andb_true_iff, Z.ltb_lt.
  destruct (0 <? height) eqn:Hh.
  - apply Z.ltb_lt in Hh. rewrite Qle_bool_iff. unfold Qle.
    cbn [Qnum Qden]. rewrite Z2Pos.id by assumption.
    split; intros H; repeat split; lia.
  - apply Z.ltb_ge in Hh. split.
    + intros [_ H]. vm_compute in H. discriminate.
    + lia.
Qed.

Lemma display_of (width height : Z) (dr : option drawing) :
  fst (determine_image_display width height dr)
  = if (1200 <? width) && Qle_bool (16 # 9) (aspect_ratio width height)
    then "wide"
    else if (width <? 800)
            || match dr with Some d0 => wrap_elems d0 | None => false end
         then "float" else "standard".
Proof.
  unfold determine_image_display.
  destruct dr as [d0|]; [destruct (wrap_elems d0)|]; reflexivity.
Qed.

Lemma alignment_of (width height : Z) (dr : option drawing) :
  snd (determine_image_display width height dr)
  = match dr with
    | Some d0 => if wrap_elems d0 then Some (wrapped_alignment d0) else None
    | None => None
    end.
Proof.
  unfold determine_image_display.
  destruct dr as [d0|]; [destruct (wrap_elems d0)|]; reflexivity.
Qed.

Lemma wrapped_alignment_flat (d0 : drawing) :
  wrapped_alignment d0
  = match pos_h d0 with
    | None => "end"
    | Some ph =>
        let explicit_left :=
          match align ph with
          | Some (Some txt) => String.eqb (lower txt) "left"
          | _ => false
          end in
        match relativeFrom ph with
        | Some rel =>
            if in_list rel ["right"; "rightMargin"] then "end"
            else if in_list rel ["left"; "leftMargin"] then "start"
                 else if explicit_left then "start" else "end"
        | None => if explicit_left then "start" else "end"
        end
    end.
Proof.
  unfold wrapped_alignment.
  destruct (pos_h d0) as [ph|]; [|reflexivity].
  destruct (align ph) as [[[|a txt]|]|], (relativeFrom ph) as [rel|];
    cbv zeta; cbn [truthy]; try reflexivity;
    repeat match goal with
           | |- context [if ?c then _ else _] => destruct c
           end; reflexivity.
Qed.

(** C8, as worded, fails on the code: a readable 500 x 500 image without
    a drawing element is displayed as [float], and the code returns no
    float alignment for it where the documented rule gives [end]. *)
Lemma narrow_image_has_no_alignment :
  fst (determine_image_display 500 500 None) = "float"
  /\ snd (determine_image_display 500 500 None) = None
  /\ snd (determine_image_display 500 500 None)
     <> Some (claimed_float_alignment None).
Proof. repeat split; vm_compute; discriminate. Qed.

(** C8 (amended).  For a readable image of [width] x [height] pixels the
    display mode is [wide] exactly when width > 1200 and width/height is
    at least 16/9; otherwise [float] exactly when width < 800 or the
    drawing carries a wrapping marker; otherwise [standard].  A float
    alignment is returned exactly when a wrapping marker is present: it
    is [end] by default, [start] for an explicit left alignment, and a
    [relativeFrom] of left/leftMargin or right/rightMargin decides over
    both. *)
Theorem display_mode_rule (width height : Z) (dr : option drawing) :
  let wrapped := match dr with Some d0 => wrap_elems d0 | None => false end in
  let wide := 1200 < width /\ 0 < height /\ 16 * height <= 9 * width in
  let display := fst (determine_image_display width height dr) in
  let float_alignment := snd (determine_image_display width height dr) in
  (display = "wide" <-> wide)
  /\ (display = "float" <-> ~ wide /\ (width < 800 \/ wrapped = true))
  /\ (display = "standard" <-> ~ wide /\ ~ (width < 800 \/ wrapped = true))
  /\ float_alignment
     = match dr with
       | Some d0 =>
           if wrap_elems d0 then
             Some (match pos_h d0 with
                   | None => "end"
                   | Some ph =>
                       let explicit_left :=
                         match align ph with
                         | Some (Some txt) => String.eqb (lower txt) "left"
                         | _ => false
                         end in
                       match relativeFrom ph with
                       | Some rel =>
                           if in_list rel ["right"; "rightMargin"] then "end"
                           else if in_list rel ["left"; "leftMargin"]
                                then "start"
                                else if explicit_left then "start" else "end"
                       | None => if explicit_left then "start" else "end"
                       end
                   end)
           else None
       | None => None
       end.
Proof.
  cbv zeta. rewrite display_of, alignment_of.
  pose proof (wide_test width height) as Hw.
  split; [|split; [|split]].
  - destruct ((1200 <? width)
              && Qle_bool (16 # 9) (aspect_ratio width height)).
    + split; [intros _; now apply Hw|reflexivity].
    + split; [|intros W; apply Hw in W; discriminate].
      destruct ((width <? 800) || _); discriminate.
  - destruct ((1200 <? width)
              && Qle_bool (16 # 9) (aspect_ratio width height)).
    + split; [discriminate|]. intros [NW _]. exfalso. apply NW.
      now apply Hw.
    + assert (NW : ~ (1200 < width /\ 0 < height /\ 16 * height <= 9 * width))
        by (intros W; apply Hw in W; discriminate).
      rewrite <- (Z.ltb_lt width 800), <- orb_true_iff.
      destruct ((width <? 800) || _); split; try discriminate; try tauto.
  - destruct ((1200 <? width)
              && Qle_bool (16 # 9) (aspect_ratio width height)).
    + split; [discriminate|]. intros [NW _]. exfalso. apply NW.
      now apply Hw.
    + assert (NW : ~ (1200 < width /\ 0 < height /\ 16 * height <= 9 * width))
        by (intros W; apply Hw in W; discriminate).
      rewrite <- (Z.ltb_lt width 800), <- orb_true_iff.
      destruct ((width <? 800) || _); split; try discriminate; try tauto.
  - destruct dr as [d0|]; [|reflexivity].
    destruct (wrap_elems d0); [|reflexivity].
    now rewrite wrapped_alignment_flat.
Qed.

End ImageClaims.

(** ** The block classifier *)

Section ClassifierClaims.

Import Py Regex Blocks Classifier.
Local Open Scope string_scope.

Variable process_docx_image : ImageResolver.drawing -> option block.
Variable hyperlink_rels : dict string.

Lemma truthy_true (s : string) : s <> "" -> truthy s = true.
Proof. destruct s; [congruence|reflexivity]. Qed.


(** A blank extraction ends the classification at lines 1548-1554. *)
Lemma blank_text_outcome (p : paragraph) :
  drawing p = None ->
  strip (fst (extract_formatted_text hyperlink_rels p)) = "" ->
  process_docx_paragraph process_docx_image hyperlink_rels p
  = let alignment := snd (extract_formatted_text hyperlink_rels p) in
    if truthy_opt alignment
    then Some (create_text_block "paragraph" "" alignment)
    else None.
Proof.
  intros Hd Hs. unfold process_docx_paragraph. rewrite Hd.
  destruct (extract_formatted_text hyperlink_rels p) as [text alignment].
  simpl in *. rewrite Hs. simpl. now rewrite orb_true_r.
Qed.

(** The nested conditionals of the code are the rule table in
    [code_order]. *)
Lemma process_docx_paragraph_is_cascade (p : paragraph) :
  process_docx_paragraph process_docx_image hyperlink_rels p
  = cascade code_order process_docx_image hyperlink_rels p.
Proof.
  unfold process_docx_paragraph, cascade.
  destruct (drawing p); [reflexivity|].
  destruct (extract_formatted_text hyperlink_rels p) as [text alignment].
  destruct (negb (truthy text) || negb (truthy (strip text))); [reflexivity|].
  unfold code_order, first_match, outline_rule, style_number_rule,
    font_size_rule, style_keyword_rule, content_rule, style_of.
  destruct (check_heading_formatting p), (truthy_size (get_font_size p));
    cbn [andb].
  all: destruct (get_paragraph_outline_level p) as [l|].
  all: try (destruct (l =? 0)%Z; [reflexivity|];
            destruct (l =? 1)%Z; [reflexivity|];
            destruct (l =? 2)%Z; [reflexivity|]).
  all: destruct (pStyle p) as [[st|]|]; [destruct (truthy st)| |].
  all: repeat match goal with
              | |- context [match style_number ?x with _ => _ end] =>
                  destruct (style_number x)
              | |- context [if ?c then _ else _] => destruct c
              end; reflexivity.
Qed.

Lemma size_threshold_mono (a c : Z) (q : Q) :
  (a <= c)%Z ->
  Qle_bool (inject_Z c) q = true -> Qle_bool (inject_Z a) q = true.
Proof.
  intros Hac H. apply Qle_bool_iff in H. apply Qle_bool_iff.
  apply Qle_trans with (inject_Z c); [|assumption].
  now rewrite Zle_Qle in Hac.
Qed.

Lemma size_at_least_nonzero (a : Z) (q : Q) :
  (0 < a)%Z -> Qle_bool (inject_Z a) q = true -> Qeq_bool q 0 = false.
Proof.
  intros Ha H. apply Qle_bool_iff in H.
  destruct (Qeq_bool q 0) eqn:E; [|reflexivity].
  apply Qeq_bool_iff in E. rewrite E in H.
  change 0%Q with (inject_Z 0) in H. rewrite <- Zle_Qle in H. lia.
Qed.

End ClassifierClaims.

Section ClassifierTheorems.

Import Py Regex Blocks Classifier.
Local Open Scope string_scope.

Variable process_docx_image : ImageResolver.drawing -> option block.
Variable hyperlink_rels : dict string.


(** C3 (amended).  The classifier is a first-match cascade in the order
    outline level, style number, font size, style-name keyword, short-text
    heuristics: the font-size rule runs before the style-name keywords.
    So for a paragraph without drawing and with text, whose outline level
    and style number select no heading and whose style name carries a
    quote keyword and no heading keyword, the block is a heading when all
    sized runs share one font size of 14pt or more (h2 from 20pt, h3 from
    16pt, h4 from 14pt) and a quote otherwise, bold runs or not. *)
Theorem quote_keyword_after_font_size (p : paragraph) (st : string) :
  drawing p = None ->
  pStyle p = Some (Some st) ->
  strip (fst (extract_formatted_text hyperlink_rels p)) <> "" ->
  outline_silent p = true ->
  style_number_silent st = true ->
  has_heading_keyword st = false ->
  has_quote_keyword st = true ->
  (forall p' : paragraph,
      process_docx_paragraph process_docx_image hyperlink_rels p'
      = cascade code_order process_docx_image hyperlink_rels p')
  /\ process_docx_paragraph process_docx_image hyperlink_rels p
     = let text := fst (extract_formatted_text hyperlink_rels p) in
       let alignment := snd (extract_formatted_text hyperlink_rels p) in
       let font_size := get_font_size p in
       Some (create_text_block
               (if size_at_least font_size 20 then "h2"
                else if size_at_least font_size 16 then "h3"
                else if size_at_least font_size 14 then "h4"
                else "quote")
               text alignment).
Proof.
  intros Hd Hst Htxt Ho Hn Hh Hq.
  split; [intros p'; apply process_docx_paragraph_is_cascade|].
  unfold process_docx_paragraph. rewrite Hd, Hst.
  destruct (extract_formatted_text hyperlink_rels p) as [text alignment].
  cbn [fst snd] in *.
  assert (Ht1 : truthy (strip text) = true) by now apply truthy_true.
  assert (Ht0 : truthy text = true).
  { destruct text; [exfalso; apply Htxt; reflexivity|reflexivity]. }
  rewrite Ht0, Ht1. cbn [negb orb].
  (* the outline level selects nothing *)
  unfold outline_silent in Ho.
  assert (Eo : match get_paragraph_outline_level p with
               | Some outline_level =>
                   if (outline_level =? 0)%Z then Some "h2"
                   else if (outline_level =? 1)%Z then Some "h3"
                   else if (outline_level =? 2)%Z then Some "h4" else None
               | None => None
               end = None).
  { destruct (get_paragraph_outline_level p) as [l|]; [|reflexivity].
    destruct (l =? 0)%Z, (l =? 1)%Z, (l =? 2)%Z; simpl in Ho;
      try discriminate; reflexivity. }
  rewrite Eo.
  (* nor does the number in the style id *)
  assert (Hst_true : truthy st = true).
  { destruct st; [vm_compute in Hq; discriminate|reflexivity]. }
  rewrite Hst_true.
  unfold style_number_silent in Hn.
  assert (En : match style_number st with
               | Some heading_level =>
                   if (heading_level =? 1)%Z then Some "h2"
                   else if (heading_level =? 2)%Z then Some "h3"
                   else if (heading_level =? 3)%Z then Some "h4" else None
               | None => None
               end = None).
  { destruct (style_number st) as [n|]; [|reflexivity].
    destruct (n =? 1)%Z, (n =? 2)%Z, (n =? 3)%Z; simpl in Hn;
      try discriminate; reflexivity. }
  rewrite En.
  unfold has_heading_keyword in Hh. unfold has_quote_keyword in Hq.
  rewrite Hh, Hq.
  (* the font-size rule *)
  unfold check_heading_formatting.
  destruct (get_font_size p) as [q|]; cbn [truthy_size size_at_least].
  - pose proof (@size_threshold_mono 16 20 q ltac:(lia)) as M1.
    pose proof (@size_threshold_mono 14 16 q ltac:(lia)) as M2.
    pose proof (@size_at_least_nonzero 14 q ltac:(lia)) as M3.
    destruct (Qle_bool (inject_Z 14) q) eqn:E14.
    + rewrite (M3 eq_refl). cbn [negb andb]. rewrite orb_true_r. cbn [orb].
      destruct (Qle_bool (inject_Z 20) q); [reflexivity|].
      destruct (Qle_bool (inject_Z 16) q); reflexivity.
    + destruct (Qle_bool (inject_Z 16) q) eqn:E16;
        [specialize (M2 eq_refl); discriminate|].
      destruct (Qle_bool (inject_Z 20) q) eqn:E20;
        [specialize (M1 eq_refl); discriminate|].
      destruct (check_is_bold p || negb (Qeq_bool q 0) && false || spacing p);
        [destruct (negb (Qeq_bool q 0))|]; reflexivity.
  - rewrite !andb_false_r.
    destruct (check_is_bold p || false || spacing p); reflexivity.
Qed.

End ClassifierTheorems.

Section ClassifierExamples.

Import Py Regex Blocks Classifier.
Local Open Scope string_scope.

(** C3, as worded, fails on the code: a paragraph styled [Quote], with no
    outline level and no digit in its style id, whose only run is set in
    14pt, is a quote under the documented order of the rules, and the code
    classifies it as a heading (h4). *)
Lemma quote_14pt_is_classified_h4 :
  outline_silent quote_14pt = true
  /\ style_number_silent "Quote" = true
  /\ has_quote_keyword "Quote" = true
  /\ text_type_of (cascade documented_order (fun _ => None) [] quote_14pt)
     = Some "quote"
  /\ text_type_of (process_docx_paragraph (fun _ => None) [] quote_14pt)
     = Some "h4"
  /\ process_docx_paragraph (fun _ => None) [] quote_14pt
     <> cascade documented_order (fun _ => None) [] quote_14pt.
Proof. repeat split; vm_compute; discriminate. Qed.

(** The amended rule on a bold 12pt paragraph styled [Quote]: a quote. *)
Lemma quote_keyword_after_font_size_witness :
  strip (fst (extract_formatted_text [] quote_bold_12pt)) <> ""
  /\ check_is_bold quote_bold_12pt = true
  /\ process_docx_paragraph (fun _ => None) [] quote_bold_12pt
     = Some (Text "quote" "<strong>To be</strong>" None None).
Proof.
  assert (H : strip (fst (extract_formatted_text [] quote_bold_12pt)) <> "")
    by (vm_compute; discriminate).
  split; [exact H|]. split; [reflexivity|].
  rewrite (proj2 (@quote_keyword_after_font_size (fun _ => None) []
                    quote_bold_12pt "Quote" eq_refl eq_refl H eq_refl eq_refl
                    eq_refl eq_refl)).
  reflexivity.
Defined.


End ClassifierExamples.

(** ** Publish, Phase 1 *)

Section Phase1Facts.

Import Py Blocks Publish.
Local Open Scope string_scope.
Local Open Scope list_scope.

Variable node_id_of : nat -> string.
Variable extract_image_dimensions : string -> option (Z * Z).

Local Abbreviation add_block :=
  (add_content_block node_id_of extract_image_dimensions).
Local Abbreviation add_blocks :=
  (add_content_blocks node_id_of extract_image_dimensions).

Lemma placeholder_key_text (b : block) (i j : nat) :
  placeholder_key (block_type b) j = placeholder_key "text" i ->
  block_type b = "text" /\ j = i.
Proof.
  unfold placeholder_key.
  destruct b; simpl; intros H; try discriminate.
  split; [reflexivity|].
  apply (append_inj_l "text_") in H. now apply str_of_nat_inj.
Qed.

(** A block that is not skipped adds one node and one key; a skipped one
    changes nothing. *)
Lemma add_block_effect (i : nat) (b : block) (st : phase1) :
  if skipped b then add_block i b st = st
  else List.length (story (add_block i b st)) = S (List.length (story st))
       /\ (forall k, In k (keys (placeholder_ids (add_block i b st))) ->
                     In k (keys (placeholder_ids st))
                     \/ k = placeholder_key (block_type b) i).
Proof.
  assert (Hadd : forall c key blk s,
    List.length (story (add_node node_id_of c key blk s))
    = S (List.length (story s))
    /\ (forall k, In k (keys (placeholder_ids (add_node node_id_of c key blk s))) ->
                  In k (keys (placeholder_ids s)) \/ k = key)).
  { intros c key blk s. unfold add_node. simpl. split.
    - rewrite List.length_app. simpl. lia.
    - intros k. rewrite dict_set_keys.
      destruct (dict_mem key (placeholder_ids s)); [now left|].
      intros Hin. apply in_app_or in Hin as [Hin|[<-|[]]]; auto. }
  unfold add_content_block, add_text_block, add_image_block, add_table_block,
    add_code_block, add_separator_block, skipped.
  destruct b as [ty txt al dt|path cap disp fa dims|rows cap|code lang|];
    cbn beta iota.
  - destruct (is_empty_content txt) eqn:E; [reflexivity|]. apply Hadd.
  - destruct (extract_image_dimensions path);
      match goal with
      | |- context [add_node _ ?c ?k ?blk ?s] => exact (Hadd c k blk s)
      end.
  - apply Hadd.
  - apply Hadd.
  - apply Hadd.
Qed.

Lemma add_blocks_keys (bs : list block) : forall n st k,
  In k (keys (placeholder_ids (add_blocks n bs st))) ->
  In k (keys (placeholder_ids st))
  \/ exists j b, nth_error bs j = Some b /\ skipped b = false
                 /\ k = placeholder_key (block_type b) (n + j).
Proof.
  induction bs as [|b rest IH]; simpl; intros n st k Hin; [now left|].
  apply IH in Hin as [Hin|(j & b' & Hn & Hs & Hk)].
  - pose proof (add_block_effect n b st) as He.
    destruct (skipped b) eqn:Es.
    + rewrite He in Hin. now left.
    + destruct He as [_ He]. apply He in Hin as [Hin|Hin]; [now left|].
      right. exists 0%nat, b. rewrite Nat.add_0_r. auto.
  - right. exists (S j), b'. rewrite Nat.add_succ_r. auto.
Qed.

Lemma add_blocks_count (bs : list block) : forall n st,
  List.length (story (add_blocks n bs st))
  = (List.length (story st)
     + List.length (filter (fun b => negb (skipped b)) bs))%nat.
Proof.
  induction bs as [|b rest IH]; simpl; intros n st; [lia|].
  rewrite IH. pose proof (add_block_effect n b st) as He.
  destruct (skipped b); simpl.
  - now rewrite He.
  - destruct He as [-> _]. lia.
Qed.

End Phase1Facts.

Section Phase1Claims.

Import Py Blocks Publish.
Local Open Scope string_scope.
Local Open Scope list_scope.

Variable node_id_of : nat -> string.
Variable extract_image_dimensions : string -> option (Z * Z).

(** C4 (amended).  A text block whose content is empty, whitespace only or
    the string "..." is skipped by Phase 1: the loop body leaves the story
    and the three dictionaries as they were, the placeholder dictionary
    never holds the key of that block, and the story holds one node per
    block that is not such a text block (and one for the description).
    A code block is never skipped: whatever its content, the loop body
    adds its placeholder node and records it under its key. *)
Theorem empty_text_block_creates_no_node
  (cover_dimensions : option (Z * Z)) (description : string)
  (content_blocks : list block) (i : nat)
  (text_type text_content : string) (alignment data : option string) :
  nth_error content_blocks i
  = Some (Text text_type text_content alignment data) ->
  is_empty_content text_content = true ->
  let result := create_storymap node_id_of extract_image_dimensions
                                cover_dimensions description content_blocks in
  (forall st,
      add_content_block node_id_of extract_image_dimensions i
        (Text text_type text_content alignment data) st = st)
  /\ dict_mem (placeholder_key "text" i) (placeholder_ids result) = false
  /\ List.length (story result)
     = ((if truthy description then 1 else 0)
        + List.length (filter (fun b => negb (skipped b)) content_blocks))%nat
  /\ (forall st j code_content language,
        let st' := add_content_block node_id_of extract_image_dimensions j
                     (Code code_content language) st in
        let node_id := node_id_of (List.length (story st)) in
        story st'
        = story st
          ++ [(node_id,
               TextContent ("PLACEHOLDER_CODE_" ++ str_of_nat j) PARAGRAPH)]
        /\ dict_get (placeholder_key "code" j) (placeholder_ids st')
           = Some node_id
        /\ dict_get node_id (parsed_blocks st')
           = Some (Code code_content language)).
Proof.
  intros Hnth Hempty result. split; [|split; [|split]].
  - intros st. simpl. now rewrite Hempty.
  - destruct (dict_mem (placeholder_key "text" i) (placeholder_ids result))
      eqn:E; [|reflexivity].
    exfalso. apply dict_mem_In in E. unfold result, create_storymap in E.
    apply add_blocks_keys in E as [E|(j & b & Hn & Hs & Hk)].
    + destruct (truthy description); simpl in E; [|contradiction].
      destruct E as [E|[]]. discriminate.
    + symmetry in Hk. apply placeholder_key_text in Hk as [_ Hj].
      simpl in Hj. subst j. rewrite Hnth in Hn. injection Hn as <-.
      simpl in Hs. congruence.
  - unfold result, create_storymap. rewrite add_blocks_count.
    destruct (truthy description); reflexivity.
  - intros st j code_content language. cbv zeta.
    unfold add_content_block, add_code_block, add_node.
    cbn [story placeholder_ids parsed_blocks block_type].
    repeat split; apply dict_get_set_same.
Qed.

End Phase1Claims.

Section Phase1Examples.

Import Py Blocks Publish.
Local Open Scope string_scope.
Local Open Scope list_scope.

(** C4, as worded, fails on the code for code blocks: Phase 1 creates a
    placeholder node for a code block with empty content and records it. *)
Lemma empty_code_block_creates_node :
  let result := create_storymap numbered (fun _ => None) None ""
                                [Code "" "txt"] in
  is_empty_content "" = true
  /\ story result = [("n-0", TextContent "PLACEHOLDER_CODE_0" PARAGRAPH)]
  /\ placeholder_ids result = [("code_0", "n-0")]
  /\ parsed_blocks result = [("n-0", Code "" "txt")].
Proof. repeat split. Qed.

(** A whitespace-only paragraph between two headings. *)
Lemma empty_text_block_creates_no_node_witness :
  let blocks := [ Text "h2" "A" None None; Text "paragraph" "  " None None;
                  Text "h2" "B" None None ] in
  let result := create_storymap numbered (fun _ => None) None "" blocks in
  is_empty_content "  " = true
  /\ dict_mem (placeholder_key "text" 1) (placeholder_ids result) = false
  /\ List.length (story result) = 2%nat.
Proof.
  cbv zeta. split; [reflexivity|].
  pose proof (@empty_text_block_creates_no_node numbered (fun _ => None)
                None ""
                [ Text "h2" "A" None None; Text "paragraph" "  " None None;
                  Text "h2" "B" None None ]
                1 "paragraph" "  " None None eq_refl eq_refl)
    as (_ & Hkey & Hcount & _).
  split; [exact Hkey|exact Hcount].
Defined.

End Phase1Examples.

(** ** Publish, Phase 2 *)

Section Phase2Facts.

Import Py Blocks Publish.
Local Open Scope string_scope.
Local Open Scope list_scope.

Variable parsed_blocks : dict block.

Lemma node_type_text_only (nd : node) :
  node_type_is nd "text" = true ->
  node_type_is nd "table" = false /\ node_type_is nd "image" = false.
Proof.
  unfold node_type_is. destruct (dict_get "type" nd) as [j|]; [|discriminate].
  destruct j; simpl; try discriminate.
  intros H. apply String.eqb_eq in H. subst. split; reflexivity.
Qed.

(** A bound computation ends as its last step allows. *)
Lemma bind_never_popped {A} (c : M A) (k : A -> M step_end) (nd : node) :
  (forall a nd', snd (k a nd') <> Some Popped) ->
  snd (bind c k nd) <> Some Popped.
Proof.
  intros Hk. unfold bind. destruct (c nd) as [nd' [a|]]; [apply Hk|].
  simpl. discriminate.
Qed.

Lemma patch_table_never_popped (tracked : option block) (nd : node) :
  snd (patch_table tracked nd) <> Some Popped.
Proof.
  unfold patch_table.
  destruct tracked as [[]|]; try (simpl; discriminate).
  apply bind_never_popped. intros a nd'. simpl. discriminate.
Qed.

Lemma patch_image_never_popped (tracked : option block) (nd : node) :
  snd (patch_image tracked nd) <> Some Popped.
Proof.
  unfold patch_image. destruct tracked as [b|]; [|simpl; discriminate].
  apply bind_never_popped. intros n1 nd1.
  apply bind_never_popped. intros n2 nd2. simpl. discriminate.
Qed.

(** The text branch on a node with final content. *)
Lemma update_text_node_final (node_id : string) (nd : node) :
  node_type_is nd "text" = true ->
  final_node parsed_blocks node_id nd = true ->
  update_node parsed_blocks node_id nd = (nd, Some (Next 0)).
Proof.
  intros Ht Hf. unfold final_node in Hf. rewrite Ht in Hf.
  destruct (node_type_text_only nd Ht) as [Htab Himg].
  unfold update_node, bind, get_node. rewrite Ht, Htab, Himg.
  assert (Hbody :
    (let (nd', o) :=
       (if true && dict_mem "data" nd
        then fun nd0 : node =>
               let (nd'0, o0) := lift (dict_get "data" nd) nd0 in
               match o0 with
               | Some a => lift (py_in "text" a) nd'0
               | None => (nd'0, None)
               end
        else ret false) nd in
     match o with
     | Some a =>
         (if a then patch_text (dict_get node_id parsed_blocks)
          else if false && dict_mem "data" nd
               then patch_table (dict_get node_id parsed_blocks)
               else if false && dict_mem "data" nd
                    then patch_image (dict_get node_id parsed_blocks)
                    else ret (Next 0)) nd'
     | None => (nd', None)
     end) = (nd, Some (Next 0))).
  { unfold dict_mem.
    destruct (dict_get node_id parsed_blocks) as [[]|];
      try discriminate;
      (destruct (dict_get "data" nd) as [data|] eqn:Ed; [|reflexivity]);
      (destruct data as [| | | | |d]; try discriminate);
      cbn [andb lift ret py_in];
      unfold dict_mem;
      (destruct (dict_get "text" d) as [txt|] eqn:Etx; [|reflexivity]);
      (destruct txt as [| | |s| |]; try discriminate);
      unfold patch_text, bind, get_data, bind, get_node;
      rewrite Ed; cbn [lift ret py_getitem]; rewrite Etx;
      unfold lift, ret; cbn beta iota;
      apply negb_true_iff in Hf; rewrite Hf; reflexivity. }
  destruct (dict_get node_id parsed_blocks) as [[]|]; try exact Hbody.
  discriminate.
Qed.

(** Visiting a node that needs no patch leaves it as it is. *)
Lemma update_node_untouched (node_id : string) (nd : node) :
  final_node parsed_blocks node_id nd = true ->
  tracked_media parsed_blocks node_id nd = false ->
  update_node parsed_blocks node_id nd = (nd, Some (Next 0)).
Proof.
  intros Hf Hm.
  destruct (node_type_is nd "text") eqn:Ht;
    [now apply update_text_node_final|].
  unfold update_node, bind, get_node. rewrite Ht. cbn [andb ret].
  unfold tracked_media in Hm. apply orb_false_iff in Hm as [Hm1 Hm2].
  destruct (node_type_is nd "table" && dict_mem "data" nd) eqn:Etab.
  - cbn [andb] in Hm1. unfold patch_table.
    destruct (dict_get node_id parsed_blocks) as [[]|];
      try reflexivity; discriminate.
  - destruct (node_type_is nd "image" && dict_mem "data" nd) eqn:Eimg;
      [|reflexivity].
    cbn [andb] in Hm2. unfold patch_image.
    destruct (dict_get node_id parsed_blocks) as [b|]; [|reflexivity].
    destruct (block_caption b), (block_float b); try discriminate.
    reflexivity.
Qed.

(** Visiting a node with final content never pops it. *)
Lemma update_node_keeps (node_id : string) (nd : node) :
  final_node parsed_blocks node_id nd = true ->
  snd (update_node parsed_blocks node_id nd) <> Some Popped.
Proof.
  intros Hf.
  destruct (node_type_is nd "text") eqn:Ht.
  - rewrite update_text_node_final by assumption. simpl. discriminate.
  - unfold update_node, bind, get_node. rewrite Ht. cbn [andb ret].
    destruct (node_type_is nd "table" && dict_mem "data" nd);
      [apply patch_table_never_popped|].
    destruct (node_type_is nd "image" && dict_mem "data" nd);
      [apply patch_image_never_popped|].
    simpl. discriminate.
Qed.

Lemma not_media_untracked (node_id : string) (nd : node) :
  node_type_is nd "table" = false -> node_type_is nd "image" = false ->
  tracked_media parsed_blocks node_id nd = false.
Proof. intros H1 H2. unfold tracked_media. now rewrite H1, H2. Qed.

(** The loop on nodes with final content: every entry keeps its place and
    its key, the entries that need no patch are unchanged, and when none
    needs a patch the pass returns the count it started from. *)
Lemma update_nodes_final (todo : dict node) : forall done n,
  final_content parsed_blocks todo ->
  exists post,
    fst (update_nodes parsed_blocks done todo n) = done ++ post
    /\ Forall2 (fun e e' =>
                  fst e' = fst e
                  /\ (tracked_media parsed_blocks (fst e) (snd e) = false ->
                      snd e' = snd e))
               todo post
    /\ (Forall (fun e => tracked_media parsed_blocks (fst e) (snd e) = false)
               todo ->
        post = todo
        /\ snd (update_nodes parsed_blocks done todo n) = Returned n).
Proof.
  assert (Hrefl : forall l : dict node,
    Forall2 (fun e e' =>
               fst e' = fst e
               /\ (tracked_media parsed_blocks (fst e) (snd e) = false ->
                   snd e' = snd e)) l l).
  { induction l; constructor; auto. }
  induction todo as [|[node_id nd] rest IH]; intros done n Hfin.
  - exists []. simpl. rewrite app_nil_r. repeat split; constructor.
  - inversion Hfin as [|e l Hf Hrest]; subst. cbn [fst snd] in Hf.
    pose proof (update_node_keeps node_id nd Hf) as Hkeep.
    pose proof (update_node_untouched node_id nd Hf) as Hsame.
    cbn [update_nodes].
    destruct (update_node parsed_blocks node_id nd) as [nd' [[k|]|]] eqn:Eu.
    + destruct (IH (done ++ [(node_id, nd')]) (n + k)%nat Hrest)
        as (post & Hfst & Hrel & Hall).
      exists ((node_id, nd') :: post). split; [|split].
      * rewrite Hfst, <- app_assoc. reflexivity.
      * constructor; [|exact Hrel]. cbn [fst snd]. split; [reflexivity|].
        intros Hm. specialize (Hsame Hm). congruence.
      * intros Hun. inversion Hun as [|e l Hm Hun']; subst.
        cbn [fst snd] in Hm. specialize (Hsame Hm).
        injection Hsame as -> ->.
        destruct (Hall Hun') as [-> Hret].
        split; [reflexivity|]. rewrite Hret. f_equal. lia.
    + exfalso. apply Hkeep. reflexivity.
    + exists ((node_id, nd') :: rest). cbn [fst snd]. split; [|split].
      * reflexivity.
      * constructor; [|apply Hrefl]. cbn [fst snd]. split; [reflexivity|].
        intros Hm. specialize (Hsame Hm). discriminate.
      * intros Hun. inversion Hun as [|e l Hm Hun']; subst.
        cbn [fst snd] in Hm. specialize (Hsame Hm). discriminate.
Qed.

(** *** Writing what is already there *)

Lemma dict_set_same {V} (d : dict V) (k : string) (v : V) :
  dict_get k d = Some v -> dict_set k v d = d.
Proof.
  induction d as [|[k' v'] t IH]; simpl; [discriminate|].
  destruct (String.eqb k k') eqn:E.
  - intros H. injection H as ->. reflexivity.
  - intros H. now rewrite IH.
Qed.

Lemma is_num_get (n : nat) (j : option json) :
  is_num n j = true -> j = Some (JNum (Z.of_nat n)).
Proof.
  destruct j as [[]|]; try discriminate. simpl.
  intros H. apply Z.eqb_eq in H. now subst.
Qed.

Lemma is_text_get (s : string) (j : option json) :
  is_text s j = true -> j = Some (JStr s).
Proof.
  destruct j as [[]|]; try discriminate. simpl.
  intros H. apply String.eqb_eq in H. now subst.
Qed.

Lemma holds_cell_get (row_obj : dict json) (c : nat) (v : string) :
  holds_cell row_obj c v = true ->
  dict_get (str_of_nat c) row_obj = Some (JDict [("value", JStr v)]).
Proof.
  unfold holds_cell.
  destruct (dict_get (str_of_nat c) row_obj)
    as [[| | | | |[|[k [| | |s| |]] [|]]]|]; try discriminate.
  intros H. apply andb_true_iff in H as [H1 H2].
  apply String.eqb_eq in H1, H2. now subst.
Qed.

Lemma set_data_same (k : string) (v : json) (nd : node) (data : dict json) :
  dict_get "data" nd = Some (JDict data) ->
  dict_get k data = Some v ->
  set_data k v nd = (nd, Some tt).
Proof.
  intros Hd Hk. unfold set_data, bind, get_node, put_node.
  rewrite Hd. unfold lift, ret. cbn [py_setitem].
  now rewrite (@dict_set_same _ data k v Hk),
              (@dict_set_same _ nd "data" (JDict data) Hd).
Qed.

Lemma get_data_at (k : string) (v : json) (nd : node) (data : dict json) :
  dict_get "data" nd = Some (JDict data) ->
  dict_get k data = Some v ->
  get_data k nd = (nd, Some v).
Proof.
  intros Hd Hk. unfold get_data, bind, get_node.
  rewrite Hd. unfold lift, ret. cbn [py_getitem]. now rewrite Hk.
Qed.

Lemma set_config_same (k : string) (v : json) (nd : node)
      (config : dict json) :
  dict_get "config" nd = Some (JDict config) ->
  dict_get k config = Some v ->
  set_config k v nd = (nd, Some tt).
Proof.
  intros Hd Hk. unfold set_config, bind, get_node, put_node.
  rewrite Hd. unfold lift, ret. cbn [py_setitem].
  now rewrite (@dict_set_same _ config k v Hk),
              (@dict_set_same _ nd "config" (JDict config) Hd).
Qed.

Section PatchedTable.

Variables (nd : node) (data cells : dict json).
Hypothesis Hdata : dict_get "data" nd = Some (JDict data).
Hypothesis Hcells : dict_get "cells" data = Some (JDict cells).

Lemma set_cell_same (r c : nat) (v : string) (row_obj : dict json) :
  dict_get (str_of_nat r) cells = Some (JDict row_obj) ->
  holds_cell row_obj c v = true ->
  set_cell (str_of_nat r) (str_of_nat c) v nd = (nd, Some tt).
Proof.
  intros Hr Hc. apply holds_cell_get in Hc.
  unfold set_cell. unfold bind at 1.
  rewrite (@get_data_at "cells" (JDict cells) nd data Hdata Hcells).
  unfold bind, lift, ret. cbn [py_getitem]. rewrite Hr.
  cbn [py_setitem].
  rewrite (@dict_set_same _ row_obj (str_of_nat c) _ Hc).
  rewrite (@dict_set_same _ cells (str_of_nat r) _ Hr).
  exact (@set_data_same "cells" (JDict cells) nd data Hdata Hcells).
Qed.

Lemma set_cells_same (num_cols r : nat) (row_obj : dict json)
      (row : list string) : forall c,
  dict_get (str_of_nat r) cells = Some (JDict row_obj) ->
  all_from (holds_cell row_obj) c row = true ->
  set_cells num_cols (str_of_nat r) c row nd = (nd, Some tt).
Proof.
  induction row as [|v rest IH]; intros c Hr Hall; [reflexivity|].
  cbn [all_from] in Hall. apply andb_true_iff in Hall as [Hc Hrest].
  cbn [set_cells]. unfold bind.
  assert (E : (if (c <? num_cols)%nat
               then set_cell (str_of_nat r) (str_of_nat c) v
               else ret tt) nd = (nd, Some tt)).
  { destruct (c <? num_cols)%nat; [|reflexivity].
    now apply set_cell_same with (row_obj := row_obj). }
  rewrite E. now apply IH.
Qed.

Lemma set_rows_same (num_cols : nat) (rows : list (list string)) : forall r,
  all_from (holds_row cells) r rows = true ->
  set_rows num_cols r rows nd = (nd, Some tt).
Proof.
  induction rows as [|row rest IH]; intros r Hall; [reflexivity|].
  cbn [all_from] in Hall. apply andb_true_iff in Hall as [Hrow Hrest].
  unfold holds_row in Hrow.
  destruct (dict_get (str_of_nat r) cells) as [[| | | | |row_obj]|] eqn:Hr;
    try discriminate.
  cbn [set_rows]. unfold bind at 1.
  rewrite (@get_data_at "cells" (JDict cells) nd data Hdata Hcells).
  unfold bind at 1. unfold lift at 1. cbn [py_in]. unfold dict_mem.
  rewrite Hr. unfold ret at 1.
  unfold bind at 1. unfold ret at 1.
  unfold bind at 1.
  rewrite (@set_cells_same num_cols r row_obj row 0%nat Hr Hrow).
  now apply IH.
Qed.

End PatchedTable.

(** A table node that shows its table is rebuilt as it is. *)
Lemma update_table_same (rows : list (list string)) (caption : option string)
      (nd : node) :
  holds_table rows caption nd = true ->
  update_table rows caption nd = (nd, Some 1%nat).
Proof.
  unfold holds_table.
  destruct (dict_get "data" nd) as [[| | | | |data]|] eqn:Hd;
    try discriminate.
  intros H. apply andb_true_iff in H as [H Hcap].
  apply andb_true_iff in H as [H Hcells].
  apply andb_true_iff in H as [Hrows Hcols].
  apply is_num_get in Hrows, Hcols.
  destruct (dict_get "cells" data) as [[| | | | |cells]|] eqn:Hc;
    try discriminate.
  unfold update_table. unfold bind at 1.
  rewrite (@set_data_same "numRows" _ nd data Hd Hrows).
  unfold bind at 1.
  rewrite (@set_data_same "numColumns" _ nd data Hd Hcols).
  unfold bind at 1. unfold get_node at 1.
  unfold bind at 1. rewrite Hd. unfold lift at 1. unfold ret at 1.
  unfold bind at 1. unfold lift at 1. cbn [py_in]. unfold dict_mem.
  rewrite Hc. unfold ret at 1.
  unfold bind at 1. unfold ret at 1.
  unfold bind at 1.
  rewrite (@set_rows_same nd data cells Hd Hc _ rows 0%nat Hcells).
  unfold bind at 1.
  destruct (block_caption (Table rows caption)) as [c|].
  - apply is_text_get in Hcap.
    now rewrite (@set_data_same "caption" _ nd data Hd Hcap).
  - reflexivity.
Qed.

(** An image node that shows caption and float configuration is left as
    it is, and each of the two is counted. *)
Lemma patch_image_same (b : block) (nd : node) :
  holds_image b nd = true ->
  patch_image (Some b) nd
  = (nd, Some (Next ((match block_caption b with Some _ => 1 | None => 0 end)
                     + (match block_float b with Some _ => 1 | None => 0 end)))).
Proof.
  unfold holds_image. intros H. apply andb_true_iff in H as [Hcap Hfl].
  unfold patch_image. unfold bind at 1.
  assert (E1 : (match block_caption b with
                | Some c => set_data "caption" (JStr c) ;;; ret 1%nat
                | None => ret 0%nat
                end) nd
               = (nd, Some (match block_caption b with
                            | Some _ => 1%nat | None => 0%nat end))).
  { destruct (block_caption b) as [c|]; [|reflexivity].
    destruct (dict_get "data" nd) as [[| | | | |data]|] eqn:Hd;
      try discriminate.
    apply is_text_get in Hcap. unfold bind.
    now rewrite (@set_data_same "caption" _ nd data Hd Hcap). }
  rewrite E1. unfold bind at 1.
  assert (E2 : (match block_float b with
                | Some fa =>
                    nd0 <- get_node ;;
                    (if dict_mem "config" nd0 then ret tt
                     else put_node (dict_set "config" (JDict []) nd0)) ;;;
                    set_config "size" (JStr "float") ;;;
                    set_config "floatAlignment" (JStr fa) ;;;
                    ret 1%nat
                | None => ret 0%nat
                end) nd
               = (nd, Some (match block_float b with
                            | Some _ => 1%nat | None => 0%nat end))).
  { destruct (block_float b) as [fa|]; [|reflexivity].
    destruct (dict_get "config" nd) as [[| | | | |config]|] eqn:Hc;
      try discriminate.
    apply andb_true_iff in Hfl as [Hs Hf].
    apply is_text_get in Hs, Hf.
    unfold bind at 1. unfold get_node at 1.
    unfold bind at 1. unfold dict_mem. rewrite Hc. unfold ret at 1.
    unfold bind at 1.
    rewrite (@set_config_same "size" _ nd config Hc Hs).
    unfold bind at 1.
    now rewrite (@set_config_same "floatAlignment" _ nd config Hc Hf). }
  rewrite E2. reflexivity.
Qed.

Lemma node_type_one (nd : node) (a b : string) :
  node_type_is nd a = true -> node_type_is nd b = true -> a = b.
Proof.
  unfold node_type_is. destruct (dict_get "type" nd) as [[]|];
    try discriminate.
  simpl. intros H1 H2. apply String.eqb_eq in H1, H2. congruence.
Qed.

Lemma table_not_image (nd : node) :
  node_type_is nd "table" = true -> node_type_is nd "image" = false.
Proof.
  intros H. destruct (node_type_is nd "image") eqn:E; [|reflexivity].
  pose proof (@node_type_one nd "table" "image" H E). discriminate.
Qed.

(** Visiting a node of a patched document leaves it as it is and counts
    what [media_count] says. *)
Lemma update_node_patched (node_id : string) (nd : node) :
  final_node parsed_blocks node_id nd = true ->
  holds_media parsed_blocks node_id nd = true ->
  update_node parsed_blocks node_id nd
  = (nd, Some (Next (media_count parsed_blocks node_id nd))).
Proof.
  intros Hf Hm.
  destruct (node_type_is nd "text") eqn:Ht.
  - destruct (node_type_text_only nd Ht) as [Htab Himg].
    rewrite update_text_node_final by assumption.
    unfold media_count. now rewrite Htab, Himg.
  - unfold update_node, bind, get_node. rewrite Ht. cbn [andb ret].
    unfold holds_media in Hm. unfold media_count.
    destruct (node_type_is nd "table" && dict_mem "data" nd) eqn:Etab.
    + unfold patch_table.
      destruct (dict_get node_id parsed_blocks) as [[]|]; try reflexivity.
      unfold bind. now rewrite update_table_same.
    + destruct (node_type_is nd "image" && dict_mem "data" nd) eqn:Eimg;
        [|reflexivity].
      destruct (dict_get node_id parsed_blocks) as [b|]; [|reflexivity].
      now apply patch_image_same.
Qed.

Lemma media_count_zero (node_id : string) (nd : node) :
  media_count parsed_blocks node_id nd = 0%nat
  <-> tracked_media parsed_blocks node_id nd = false.
Proof.
  unfold media_count, tracked_media.
  destruct (node_type_is nd "table") eqn:Etab.
  - rewrite (table_not_image nd Etab). cbn [andb orb].
    destruct (dict_mem "data" nd); cbn [andb orb]; [|tauto].
    destruct (dict_get node_id parsed_blocks) as [[]|];
      split; intros H; try reflexivity; discriminate.
  - cbn [andb orb].
    destruct (node_type_is nd "image" && dict_mem "data" nd);
      cbn [andb]; [|tauto].
    destruct (dict_get node_id parsed_blocks) as [b|]; [|tauto].
    destruct (block_caption b), (block_float b);
      split; intros H; try reflexivity; discriminate.
Qed.

Lemma media_patches_zero (nodes : dict node) :
  media_patches parsed_blocks nodes = 0%nat
  <-> Forall (fun e => tracked_media parsed_blocks (fst e) (snd e) = false)
             nodes.
Proof.
  unfold media_patches, list_sum.
  induction nodes as [|[node_id nd] rest IH].
  - split; [constructor|reflexivity].
  - cbn [map list_sum fold_right fst snd]. split.
    + intros H. constructor.
      * apply media_count_zero. cbn [fst snd]. lia.
      * apply IH. lia.
    + intros H. inversion H as [|e l H1 H2]; subst.
      apply media_count_zero in H1. apply IH in H2. cbn [fst snd] in H1. lia.
Qed.

(** The loop on a patched document. *)
Lemma update_nodes_patched (todo : dict node) : forall done n,
  final_content parsed_blocks todo ->
  patched_media parsed_blocks todo ->
  update_nodes parsed_blocks done todo n
  = (done ++ todo, Returned (n + media_patches parsed_blocks todo)).
Proof.
  induction todo as [|[node_id nd] rest IH]; intros done n Hfin Hpat.
  - cbn [update_nodes]. rewrite app_nil_r. unfold media_patches.
    cbn [map list_sum fold_right]. now rewrite Nat.add_0_r.
  - inversion Hfin as [|e l Hf Hrest]; subst.
    inversion Hpat as [|e l Hm Hprest]; subst. cbn [fst snd] in Hf, Hm.
    cbn [update_nodes].
    rewrite (update_node_patched node_id nd Hf Hm).
    rewrite (IH _ _ Hrest Hprest). rewrite <- app_assoc. cbn [app].
    unfold media_patches, list_sum. cbn [map fold_right fst snd].
    f_equal. f_equal. lia.
Qed.

End Phase2Facts.

Section Phase2Claims.

Import Py Blocks Publish.
Local Open Scope string_scope.
Local Open Scope list_scope.

(** C5, as worded, fails on the code: on a document whose only node is an
    already patched table node, tracked by its table block, no text is a
    placeholder marker, the pass leaves the node map as it is, and yet it
    counts one replacement. *)
Lemma table_is_patched_again :
  final_content table_blocks table_document
  /\ update_storymap_content table_document table_blocks
     = (table_document, Returned 1)
  /\ snd (update_storymap_content table_document table_blocks) <> Returned 0.
Proof.
  split; [repeat constructor|]. split; [reflexivity|].
  vm_compute. discriminate.
Qed.

(** C5 (amended).  On a document whose nodes hold final content, the
    patch pass deletes no node: every node keeps its place and its id,
    and every node that is not a tracked table node or a tracked image
    node with a caption or a float alignment is left unchanged, which
    covers all text and code nodes; when no such table or image node is
    tracked, the pass makes zero replacements and leaves the node map
    unchanged.  When the tracked table and image nodes, too, already show
    what their blocks hold, the pass leaves the whole node map unchanged
    and returns; the replacements it reports are then one for every
    tracked table node, one for every tracked image caption and one for
    every tracked float alignment, which is zero exactly when no such
    node is tracked.  A tracked table node that is still empty is no
    final content in this sense: the pass fills it. *)
Theorem content_patch_on_final_content
  (nodes : dict node) (parsed_blocks : dict block) :
  final_content parsed_blocks nodes ->
  let result := update_storymap_content nodes parsed_blocks in
  Forall2 (fun e e' =>
             fst e' = fst e
             /\ (tracked_media parsed_blocks (fst e) (snd e) = false ->
                 snd e' = snd e))
          nodes (fst result)
  /\ (forall node_id nd,
        node_type_is nd "table" = false -> node_type_is nd "image" = false ->
        tracked_media parsed_blocks node_id nd = false)
  /\ (Forall (fun e => tracked_media parsed_blocks (fst e) (snd e) = false)
             nodes ->
      result = (nodes, Returned 0))
  /\ (patched_media parsed_blocks nodes ->
      result = (nodes, Returned (media_patches parsed_blocks nodes)))
  /\ (media_patches parsed_blocks nodes = 0%nat
      <-> Forall (fun e => tracked_media parsed_blocks (fst e) (snd e)
                           = false) nodes)
  /\ (final_content table_blocks empty_table_document
      /\ ~ patched_media table_blocks empty_table_document
      /\ update_storymap_content empty_table_document table_blocks
         = (table_document, Returned 1)
      /\ table_document <> empty_table_document).
Proof.
  intros Hfin result.
  destruct (@update_nodes_final parsed_blocks nodes [] 0%nat Hfin)
    as (post & Hfst & Hrel & Hall).
  unfold result, update_storymap_content. cbn [app] in Hfst.
  split; [|split; [|split; [|split; [|split]]]].
  - rewrite Hfst. exact Hrel.
  - intros node_id nd. apply not_media_untracked.
  - intros Hun. destruct (Hall Hun) as [Hpost Hret].
    destruct (update_nodes parsed_blocks [] nodes 0) as [nodes' out].
    cbn [fst snd] in *. congruence.
  - intros Hpat.
    exact (@update_nodes_patched parsed_blocks nodes [] 0%nat Hfin Hpat).
  - apply media_patches_zero.
  - split; [repeat constructor|]. split; [|split].
    + intros H. inversion H as [|e l He _]; subst. discriminate He.
    + reflexivity.
    + discriminate.
Qed.

(** The pass run twice on a document as Phase 1 leaves it, with a text,
    a code, a table and an image node: the first run patches all four and
    counts five replacements; its result holds final content, and the
    second run leaves it unchanged, counting the table, the caption and
    the float alignment again.  On a patched text node alone the count is
    zero. *)
Lemma content_patch_on_final_content_witness :
  update_storymap_content draft_document draft_tracking
  = (patched_document, Returned 5)
  /\ final_content draft_tracking patched_document
  /\ patched_media draft_tracking patched_document
  /\ update_storymap_content patched_document draft_tracking
     = (patched_document, Returned 3)
  /\ update_storymap_content text_document text_blocks
     = (text_document, Returned 0).
Proof.
  assert (Hfin : final_content draft_tracking patched_document)
    by (repeat constructor).
  assert (Hpat : patched_media draft_tracking patched_document)
    by (repeat constructor).
  assert (Htext : final_content text_blocks text_document)
    by (repeat constructor).
  split; [reflexivity|]. split; [exact Hfin|]. split; [exact Hpat|].
  split.
  - exact (proj1 (proj2 (proj2 (proj2
             (@content_patch_on_final_content patched_document
                draft_tracking Hfin))))
             Hpat).
  - apply (proj1 (proj2 (proj2 (@content_patch_on_final_content
                                  text_document text_blocks Htext)))).
    repeat constructor.
Defined.

End Phase2Claims.

(** ** Sorting *)

From Stdlib Require Import Permutation FinFun.

Section SortFacts.

Import Py ListEngine ListRender.
Local Open Scope list_scope.

Variable A : Type.
Variable key : A -> Z.

Lemma insert_by_perm (x : A) (l : list A) :
  Permutation (insert_by key x l) (x :: l).
Proof.
  induction l as [|y t IH]; simpl; [reflexivity|].
  destruct (key x <=? key y)%Z; [reflexivity|].
  rewrite IH. apply perm_swap.
Qed.

Lemma sort_by_perm (l : list A) : Permutation (sort_by key l) l.
Proof.
  induction l as [|x t IH]; simpl; [reflexivity|].
  rewrite insert_by_perm. now constructor.
Qed.

Lemma insert_by_sorted (x : A) (l : list A) :
  sorted_by key l -> sorted_by key (insert_by key x l).
Proof.
  induction l as [|y t IH]; simpl; intros Hs.
  - split; [constructor|exact I].
  - destruct Hs as [Hy Ht].
    destruct (key x <=? key y)%Z eqn:E.
    + apply Z.leb_le in E. simpl. repeat split; try assumption.
      constructor; [assumption|].
      eapply Forall_impl; [|exact Hy]. simpl. intros a Ha. lia.
    + apply Z.leb_gt in E. simpl. split; [|now apply IH].
      assert (Hp : Permutation (x :: t) (insert_by key x t))
        by (symmetry; apply insert_by_perm).
      apply (Permutation_Forall Hp).
      constructor; [lia|assumption].
Qed.

Lemma sort_by_sorted (l : list A) : sorted_by key (sort_by key l).
Proof.
  induction l as [|x t IH]; simpl; [exact I|].
  now apply insert_by_sorted.
Qed.

End SortFacts.

(** ** Stage C and the list pipeline *)

Section RenderFacts.

Import Py ListEngine ListRender.
Local Open Scope list_scope.
Local Open Scope Z_scope.

Lemma append_child_texts (t : string) (ps : list parent) :
  ps <> [] -> tree_texts (append_child t ps) = tree_texts ps ++ [t].
Proof.
  induction ps as [|[r cs] rest IH]; [congruence|]. intros _.
  destruct rest as [|p' rest'].
  - simpl. now rewrite !app_nil_r.
  - change (append_child t ((r, cs) :: p' :: rest'))
      with ((r, cs) :: append_child t (p' :: rest')).
    unfold tree_texts in *. cbn [flat_map]. rewrite IH by discriminate.
    now rewrite <- app_assoc.
Qed.

Lemma append_child_nonempty (t : string) (ps : list parent) :
  ps <> [] -> append_child t ps <> [].
Proof.
  destruct ps as [|[r cs] [|p' rest']]; [congruence| |]; intros _;
    discriminate.
Qed.

Lemma tree_texts_snoc (ps : list parent) (t : string) :
  tree_texts (ps ++ [(t, [])]) = tree_texts ps ++ [t].
Proof. unfold tree_texts. rewrite flat_map_app. reflexivity. Qed.

(** The first pass, from any state of [parent_items]. *)
Lemma build_texts (m : Z) (its : list group_item) : forall acc,
  tree_texts (fold_left (place_item m) its acc)
  = tree_texts acc
    ++ map text (match acc with
                 | [] => from_first_root m its
                 | _ => its
                 end).
Proof.
  induction its as [|it rest IH]; intros acc.
  - simpl. destruct acc; now rewrite app_nil_r.
  - cbn [fold_left]. rewrite IH. unfold place_item.
    destruct (level it =? m) eqn:E.
    + rewrite tree_texts_snoc, <- app_assoc. cbn [from_first_root].
      rewrite E. destruct acc; reflexivity.
    + destruct acc as [|p ps].
      * cbn [append_child from_first_root]. now rewrite E.
      * rewrite append_child_texts by discriminate.
        rewrite <- app_assoc.
        destruct (append_child (text it) (p :: ps)) eqn:Ea; [|reflexivity].
        exfalso. revert Ea. apply append_child_nonempty. discriminate.
Qed.

Lemma append_child_fst (t : string) (ps : list parent) :
  map fst (append_child t ps) = map fst ps.
Proof.
  induction ps as [|[r cs] rest IH]; [reflexivity|].
  destruct rest as [|p' rest']; [reflexivity|].
  change (append_child t ((r, cs) :: p' :: rest'))
    with ((r, cs) :: append_child t (p' :: rest')).
  cbn [map]. now rewrite IH.
Qed.

Lemma append_child_shape (t t' : string) (ps : list parent) : forall ps',
  shape ps = shape ps' ->
  shape (append_child t ps) = shape (append_child t' ps').
Proof.
  induction ps as [|[r cs] rest IH]; intros [|[r' cs'] rest'] H;
    try discriminate; [reflexivity|].
  unfold shape in H. cbn [map snd] in H. injection H as Hc Hr.
  destruct rest as [|p rest0], rest' as [|p' rest0']; try discriminate.
  - unfold shape. simpl. rewrite !List.length_app, Hc. reflexivity.
  - change (append_child t ((r, cs) :: p :: rest0))
      with ((r, cs) :: append_child t (p :: rest0)).
    change (append_child t' ((r', cs') :: p' :: rest0'))
      with ((r', cs') :: append_child t' (p' :: rest0')).
    unfold shape in *. cbn [map snd]. rewrite Hc. f_equal.
    now apply IH.
Qed.

Lemma flatten_item_root_test (m : Z) (it : group_item) :
  (level (flatten_item m it) =? m) = (level it =? m).
Proof.
  unfold flatten_item. destruct (1 <? level it - m) eqn:E; [|reflexivity].
  apply Z.ltb_lt in E. simpl.
  destruct (m + 1 =? m) eqn:E1; [apply Z.eqb_eq in E1; lia|].
  destruct (level it =? m) eqn:E2; [apply Z.eqb_eq in E2; lia|reflexivity].
Qed.

Lemma build_flattened (m : Z) (its : list group_item) : forall acc acc',
  map fst acc = map fst acc' -> shape acc = shape acc' ->
  map fst (fold_left (place_item m) (map (flatten_item m) its) acc)
  = map fst (fold_left (place_item m) its acc')
  /\ shape (fold_left (place_item m) (map (flatten_item m) its) acc)
     = shape (fold_left (place_item m) its acc').
Proof.
  induction its as [|it rest IH]; intros acc acc' Hf Hs; [now split|].
  cbn [map fold_left]. apply IH; unfold place_item;
    rewrite flatten_item_root_test; destruct (level it =? m) eqn:E.
  - rewrite !map_app. apply Z.eqb_eq in E.
    rewrite (flatten_item_root _ E). f_equal. exact Hf.
  - now rewrite !append_child_fst.
  - unfold shape in *. rewrite !map_app. f_equal. exact Hs.
  - now apply append_child_shape.
Qed.

(** ** Keys of the grouped lists *)

Lemma finish_keys (st : loop_state) (last : flat_item) :
  wf_state st last ->
  keys (finish st) = map group_id (seq 0 (S (group_counter st))).
Proof.
  intros (Hk & Hne & _). unfold finish. rewrite (nonempty_true Hne).
  rewrite dict_set_fresh by (rewrite Hk; apply group_id_fresh).
  unfold keys in *. rewrite map_app, Hk, seq_S, map_app. reflexivity.
Qed.

Lemma group_flat_items_keys (l : list flat_item) :
  NoDup (keys (group_flat_items l)).
Proof.
  destruct l as [|x t]; [constructor|].
  unfold group_flat_items. cbn [fold_left].
  destruct (first_step_wf x) as (Hwf & _).
  destruct (group_loop_spec t Hwf) as ([last Hl] & _).
  rewrite (finish_keys Hl).
  apply Injective_map_NoDup; [|apply seq_NoDup].
  intros a b. apply group_id_inj.
Qed.

Lemma generate_list_html_lookup (d : dict group) :
  NoDup (keys d) ->
  forall k g, In (k, g) d ->
  dict_get k (generate_list_html d) = Some (group_html g).
Proof.
  intros Hnd k g Hin. unfold generate_list_html.
  rewrite rebuild_map by exact Hnd. cbn [app].
  rewrite dict_get_map_values.
  assert (Hget : dict_get k d = Some g).
  { clear -Hnd Hin. induction d as [|[k' g'] t IH]; [contradiction|].
    simpl. inversion Hnd; subst. destruct Hin as [Heq|Hin].
    - injection Heq as -> ->. now rewrite String.eqb_refl.
    - destruct (String.eqb k k') eqn:E; [|now apply IH].
      apply String.eqb_eq in E. subst. exfalso.
      match goal with H : ~ In _ _ |- _ => apply H end.
      apply in_map_iff. exists (k', g). auto. }
  now rewrite Hget.
Qed.

(** The pipeline, read off the groups of Stage A. *)
Lemma process_docx_lists_blocks (d : dict (list list_item)) :
  Permutation
    (process_docx_lists d)
    (map (fun e => mk_list_block (type (snd e))
                     (group_html (flatten_group (snd e)))
                     (document_position (snd e)))
         (group_list_items d)).
Proof.
  unfold process_docx_lists. rewrite sort_by_perm.
  pose proof (group_flat_items_keys
                (sort_by element_index (flatten_items d))) as Hnd.
  fold (group_list_items d) in Hnd.
  rewrite (@flatten_list_hierarchy_map _ Hnd).
  assert (Hnd' : NoDup (keys (map (fun e => (fst e, flatten_group (snd e)))
                                  (group_list_items d)))).
  { unfold keys. rewrite map_map. exact Hnd. }
  rewrite map_map.
  match goal with |- Permutation ?a ?b => replace a with b; [reflexivity|] end.
  symmetry. apply map_ext_in. intros [k g] Hin. cbn [fst snd].
  rewrite (@generate_list_html_lookup _ Hnd' k (flatten_group g)).
  - reflexivity.
  - apply in_map_iff. exists (k, g). auto.
Qed.

(** ** One numbering id *)

Lemma same_id_loop (l : list flat_item) : forall st prev,
  wf_state st prev ->
  Forall (fun it => num_id it = num_id prev) l ->
  let st' := fold_left group_step l st in
  grouped_lists st' = grouped_lists st
  /\ group_counter st' = group_counter st
  /\ document_position (current_group st')
     = document_position (current_group st)
  /\ items (current_group st') <> [].
Proof.
  induction l as [|x t IH]; intros st prev Hwf Hall.
  - simpl. destruct Hwf as (_ & Hne & _). auto.
  - inversion Hall as [|y l' Hx Ht]; subst. cbn [fold_left].
    destruct (group_step_spec x Hwf) as (Hwf' & _).
    assert (Hno : start_new_group st x = false).
    { rewrite (start_new_group_wf x Hwf). unfold starts_after.
      rewrite Hx, String.eqb_refl. now rewrite andb_false_r. }
    assert (Hstep : grouped_lists (group_step st x) = grouped_lists st
                    /\ group_counter (group_step st x) = group_counter st
                    /\ document_position (current_group (group_step st x))
                       = document_position (current_group st)).
    { unfold group_step. rewrite Hno. cbv zeta.
      cbn [grouped_lists group_counter current_group].
      repeat split.
      destruct (type (current_group st)); cbn [type document_position];
        [reflexivity|].
      destruct (item_level x =? 0); reflexivity. }
    destruct Hstep as (H1 & H2 & H3).
    assert (Ht' : Forall (fun it => num_id it = num_id x) t).
    { eapply Forall_impl; [|exact Ht]. simpl. intros a Ha. congruence. }
    destruct (IH _ _ Hwf' Ht') as (G1 & G2 & G3 & G4).
    cbv zeta. rewrite G1, G2, G3. auto.
Qed.

Lemma single_id_groups (x : flat_item) (t : list flat_item) :
  Forall (fun it => num_id it = num_id x) t ->
  exists g,
    group_flat_items (x :: t) = [(group_id 0, g)]
    /\ document_position g = element_index x.
Proof.
  intros Hall. unfold group_flat_items. cbn [fold_left].
  destruct (first_step_wf x) as (Hwf & _).
  destruct (same_id_loop Hwf Hall) as (G1 & G2 & G3 & G4).
  cbv zeta in *. unfold finish. rewrite (nonempty_true G4), G1, G2.
  assert (E0 : grouped_lists (group_step (initial_state x) x) = []
               /\ group_counter (group_step (initial_state x) x) = 0%nat
               /\ document_position
                    (current_group (group_step (initial_state x) x))
                  = element_index x).
  { unfold group_step, start_new_group, initial_state. simpl.
    rewrite andb_false_r. cbv zeta. simpl.
    destruct (item_level x =? 0); auto. }
  destruct E0 as (E1 & E2 & E3). rewrite E1, E2. simpl.
  eexists. split; [reflexivity|]. now rewrite G3.
Qed.

End RenderFacts.

Section RenderTheorems.

Import Py ListEngine ListRender.
Local Open Scope list_scope.
Local Open Scope Z_scope.

Lemma from_first_root_suffix (m : Z) (its : list group_item) :
  exists skipped_items,
    its = skipped_items ++ from_first_root m its
    /\ Forall (fun it => level it <> m) skipped_items.
Proof.
  induction its as [|it rest (sk & Heq & Hsk)]; [exists []; now split|].
  cbn [from_first_root]. destruct (level it =? m) eqn:E.
  - exists []. now split.
  - exists (it :: sk). split; [simpl; now f_equal|].
    constructor; [now apply Z.eqb_neq|assumption].
Qed.

(** X1.  Stage C renders every item of a group from the first root-level
    item on, in order, as a root entry or as a child of the root entry
    before it; the items that come before the first root-level item
    (all deeper than the root level) are left out of the markup. *)
Theorem rendering_starts_at_first_root (g : group) :
  let m := min_level (items g) in
  tree_texts (build_parents m (items g))
  = map text (from_first_root m (items g))
  /\ (exists skipped_items,
        items g = skipped_items ++ from_first_root m (items g)
        /\ Forall (fun it => level it <> m) skipped_items)
  /\ map fst (build_parents m (items g))
     = map text (filter (fun it => level it =? m) (items g)).
Proof.
  cbv zeta. split; [|split].
  - unfold build_parents. now rewrite build_texts.
  - apply from_first_root_suffix.
  - unfold build_parents.
    assert (H : forall its acc,
      map fst (fold_left (place_item (min_level (items g))) its acc)
      = map fst acc
        ++ map text (filter (fun it => level it =? min_level (items g)) its)).
    { induction its as [|it rest IH]; intros acc; simpl;
        [now rewrite app_nil_r|].
      rewrite IH. unfold place_item.
      destruct (level it =? min_level (items g)).
      - rewrite map_app, <- app_assoc. reflexivity.
      - now rewrite append_child_fst. }
    now rewrite H.
Qed.

(** X2.  Stage B does not change what Stage C builds from a group: the
    root entries and the number of children under each are the same
    before and after flattening (only the texts of deep items change). *)
Theorem flattening_keeps_rendered_structure (g : group) :
  map fst (build_parents (min_level (items (flatten_group g)))
                         (items (flatten_group g)))
  = map fst (build_parents (min_level (items g)) (items g))
  /\ shape (build_parents (min_level (items (flatten_group g)))
                          (items (flatten_group g)))
     = shape (build_parents (min_level (items g)) (items g)).
Proof.
  unfold flatten_group. cbn [items]. rewrite min_level_flatten.
  unfold build_parents. now apply build_flattened.
Qed.

(** X3.  The list pipeline yields one block per group of Stage A, carrying
    the group's type, position and flattened markup, and the blocks come
    out in non-decreasing document position. *)
Theorem list_blocks_sorted_one_per_group (d : dict (list list_item)) :
  sorted_by position (process_docx_lists d)
  /\ Permutation
       (process_docx_lists d)
       (map (fun e => mk_list_block (type (snd e))
                        (group_html (flatten_group (snd e)))
                        (document_position (snd e)))
            (group_list_items d))
  /\ List.length (process_docx_lists d)
     = List.length (values (group_list_items d)).
Proof.
  split; [|split].
  - unfold process_docx_lists. apply sort_by_sorted.
  - apply process_docx_lists_blocks.
  - rewrite (Permutation_length (process_docx_lists_blocks d)).
    unfold values. now rewrite !List.length_map.
Qed.

(** X4.  Items collected under a single numbering id, as the body scan
    collects them, always come out as exactly one list block, placed at
    the smallest element index; no items give no block. *)
Theorem one_numbering_id_one_block (k : string) (its : list list_item) :
  map position (process_docx_lists [(k, its)])
  = match sort_by element_index (flatten_items [(k, its)]) with
    | [] => []
    | first :: _ => [element_index first]
    end.
Proof.
  pose proof (process_docx_lists_blocks [(k, its)]) as Hp.
  unfold group_list_items in Hp.
  assert (Hall : Forall (fun it => num_id it = k)
                        (sort_by element_index (flatten_items [(k, its)]))).
  { apply (Permutation_Forall
             (Permutation_sym (sort_by_perm element_index _))).
    unfold flatten_items. simpl. rewrite app_nil_r.
    apply Forall_forall. intros x Hx.
    apply in_map_iff in Hx as (it & <- & _). reflexivity. }
  destruct (sort_by element_index (flatten_items [(k, its)]))
    as [|first rest] eqn:Es.
  - simpl in Hp. apply Permutation_sym, Permutation_nil in Hp.
    now rewrite Hp.
  - inversion Hall as [|y l Hf Hr]; subst.
    assert (Hr' : Forall (fun it => num_id it = num_id first) rest).
    { eapply Forall_impl; [|exact Hr]. simpl. intros a Ha. congruence. }
    destruct (@single_id_groups first rest Hr') as (g0 & Hg & Hpos).
    rewrite Hg in Hp. cbn [map fst snd] in Hp.
    apply Permutation_sym, Permutation_length_1_inv in Hp.
    rewrite Hp. simpl. now rewrite Hpos.
Qed.

End RenderTheorems.

(** ** The predominant list type *)

Section PredominantFacts.

Import Py ListEngine ListRender.
Local Open Scope list_scope.

Lemma dict_get_set {V} (d : dict V) (k k' : string) (v : V) :
  dict_get k' (dict_set k v d)
  = if String.eqb k' k then Some v else dict_get k' d.
Proof.
  induction d as [|[k1 v1] t IH]; simpl; [reflexivity|].
  destruct (String.eqb k k1) eqn:E; simpl.
  - apply String.eqb_eq in E. subst k1.
    destruct (String.eqb k' k); reflexivity.
  - rewrite IH. destruct (String.eqb k' k1) eqn:E1; [|reflexivity].
    apply String.eqb_eq in E1. subst k1.
    destruct (String.eqb k' k) eqn:E2; [|reflexivity].
    apply String.eqb_eq in E2. subst. rewrite String.eqb_refl in E.
    discriminate.
Qed.

Lemma dict_get_of_In {V} (d : dict V) (k : string) (v : V) :
  NoDup (keys d) -> In (k, v) d -> dict_get k d = Some v.
Proof.
  induction d as [|[k' v'] t IH]; [contradiction|].
  simpl. intros Hnd Hin. inversion Hnd; subst.
  destruct Hin as [Heq|Hin].
  - injection Heq as -> ->. now rewrite String.eqb_refl.
  - destruct (String.eqb k k') eqn:E; [|now apply IH].
    apply String.eqb_eq in E. subst. exfalso.
    match goal with H : ~ In _ _ |- _ => apply H end.
    apply in_map_iff. exists (k', v). auto.
Qed.

Lemma dict_get_In {V} (d : dict V) (k : string) (v : V) :
  dict_get k d = Some v -> In (k, v) d.
Proof.
  induction d as [|[k' v'] t IH]; [discriminate|]. simpl.
  destruct (String.eqb k k') eqn:E.
  - apply String.eqb_eq in E. subst. intros H. injection H as ->. now left.
  - intros H. right. now apply IH.
Qed.

Local Abbreviation count l t := (count_occ string_dec l t).

(** The dictionary of counts holds, for each type seen, how often it was
    seen. *)
Lemma count_types_rep (its : list list_item) : forall acc seen,
  NoDup (keys acc) ->
  (forall t, dict_get t acc
             = if (count seen t =? 0)%nat then None else Some (count seen t)) ->
  let d := fold_left (fun a it => count_type a (type_of_item it)) its acc in
  NoDup (keys d)
  /\ forall t, dict_get t d
               = if (count (seen ++ map type_of_item its) t =? 0)%nat
                 then None
                 else Some (count (seen ++ map type_of_item its) t).
Proof.
  induction its as [|it rest IH]; intros acc seen Hnd Hrep.
  - simpl. rewrite app_nil_r. now split.
  - cbn [fold_left map].
    replace (seen ++ type_of_item it :: map type_of_item rest)
      with ((seen ++ [type_of_item it]) ++ map type_of_item rest)
      by now rewrite <- app_assoc.
    apply IH.
    + unfold count_type. now apply dict_set_keys_NoDup.
    + intros t. unfold count_type. rewrite dict_get_set.
      rewrite count_occ_app. simpl.
      destruct (string_dec (type_of_item it) t) as [Heq|Hne].
      * subst t. rewrite String.eqb_refl. rewrite Hrep.
        destruct (count seen (type_of_item it) + 1 =? 0)%nat eqn:E1;
          [apply Nat.eqb_eq in E1; lia|].
        destruct (count seen (type_of_item it) =? 0)%nat eqn:E0;
          [|reflexivity].
        apply Nat.eqb_eq in E0. now rewrite E0.
      * destruct (String.eqb t (type_of_item it)) eqn:E;
          [apply String.eqb_eq in E; congruence|].
        rewrite Nat.add_0_r. apply Hrep.
Qed.

Lemma max_by_score_in (l : list (string * nat)) : forall e,
  In (CodeDetector.max_by_score e l) (e :: l).
Proof.
  induction l as [|x t IH]; intros e; simpl; [now left|].
  destruct (snd e <? snd x)%nat.
  - right. apply IH.
  - destruct (IH e) as [H|H]; [now left|right; now right].
Qed.

Lemma max_by_score_max (l : list (string * nat)) : forall e x,
  In x (e :: l) -> (snd x <= snd (CodeDetector.max_by_score e l))%nat.
Proof.
  induction l as [|y t IH]; intros e x Hin; simpl.
  - destruct Hin as [<-|[]]. lia.
  - destruct (snd e <? snd y)%nat eqn:E.
    + apply Nat.ltb_lt in E. destruct Hin as [<-|[<-|Hin]].
      * specialize (IH y y (or_introl eq_refl)). lia.
      * apply IH. now left.
      * apply IH. now right.
    + apply Nat.ltb_ge in E. destruct Hin as [<-|[<-|Hin]].
      * apply IH. now left.
      * specialize (IH e e (or_introl eq_refl)). lia.
      * apply IH. now right.
Qed.

Lemma most_common_of_counts (pool : list list_item) :
  match most_common (count_types pool) with
  | None => pool = []
  | Some t =>
      In t (map type_of_item pool)
      /\ forall t', (count (map type_of_item pool) t'
                     <= count (map type_of_item pool) t)%nat
  end.
Proof.
  destruct (@count_types_rep pool [] [] (NoDup_nil _)) as [Hnd Hrep];
    [reflexivity|].
  cbn [app] in Hrep. fold (count_types pool) in Hnd, Hrep.
  unfold most_common.
  destruct (count_types pool) as [|e rest] eqn:Ed.
  - destruct pool as [|it pool']; [reflexivity|].
    specialize (Hrep (type_of_item it)). simpl in Hrep.
    destruct (string_dec (type_of_item it) (type_of_item it));
      [discriminate|congruence].
  - pose proof (max_by_score_in rest e) as Hin.
    pose proof (@max_by_score_max rest e) as Hmax.
    destruct (CodeDetector.max_by_score e rest) as [t n]. cbn [fst snd] in *.
    pose proof (@dict_get_of_In _ _ _ _ Hnd Hin) as Hget.
    rewrite Hrep in Hget.
    destruct (count (map type_of_item pool) t =? 0)%nat eqn:E0;
      [discriminate|].
    injection Hget as Hn. apply Nat.eqb_neq in E0. split.
    + apply (count_occ_In string_dec). lia.
    + intros t'. specialize (Hrep t').
      destruct (count (map type_of_item pool) t' =? 0)%nat eqn:E1.
      * apply Nat.eqb_eq in E1. lia.
      * apply dict_get_In in Hrep. specialize (Hmax _ Hrep).
        cbn [snd] in Hmax. lia.
Qed.

Lemma root_items_filter (its : list list_item) :
  Forall (fun it => li_level it <> None) its ->
  root_items its = Some (filter (fun it => opt_Z_is (li_level it) 0) its).
Proof.
  induction its as [|it rest IH]; intros H; [reflexivity|].
  inversion H; subst. simpl. rewrite IH by assumption.
  destruct (li_level it) as [l|]; [|congruence]. reflexivity.
Qed.

End PredominantFacts.

Section PredominantTheorem.

Import Py ListEngine ListRender.
Local Open Scope list_scope.
Local Open Scope string_scope.

(** X5.  When every item has a level, the predominant list type is the
    type that occurs most often among the level-0 items, or among all
    items when none is at level 0 (the first such type seen, on a tie),
    and [bullet-list] for no items at all. *)
Theorem predominant_type_is_most_common (its : list list_item) :
  Forall (fun it => li_level it <> None) its ->
  let roots := filter (fun it => opt_Z_is (li_level it) 0) its in
  let pool := match roots with [] => its | _ => roots end in
  let types := map type_of_item pool in
  exists t,
    get_predominant_list_type its = Some t
    /\ (pool = [] -> t = "bullet-list")
    /\ (pool <> [] -> In t types)
    /\ forall t', (count_occ string_dec types t'
                   <= count_occ string_dec types t)%nat.
Proof.
  intros Hlv. cbv zeta. unfold get_predominant_list_type.
  rewrite (root_items_filter Hlv).
  destruct (filter (fun it => opt_Z_is (li_level it) 0) its)
    as [|r roots] eqn:Er.
  - pose proof (most_common_of_counts its) as Hm.
    destruct (most_common (count_types its)) as [t|].
    + destruct Hm as [Hin Hmax]. exists t. repeat split; auto.
      intros ->. contradiction.
    + subst its. exists "bullet-list". repeat split; auto.
      intros H. congruence.
  - pose proof (most_common_of_counts (r :: roots)) as Hm.
    destruct (most_common (count_types (r :: roots))) as [t|];
      [|discriminate].
    destruct Hm as [Hin Hmax]. exists t. repeat split; auto.
    intros H. discriminate.
Qed.

(** Two numbered and one bulleted root item, and a bulleted nested one. *)
Lemma predominant_type_is_most_common_witness :
  Forall (fun it => li_level it <> None) mixed_items
  /\ exists t,
       get_predominant_list_type mixed_items = Some t
       /\ forall t',
            (count_occ string_dec
               (map type_of_item
                    (filter (fun it => opt_Z_is (li_level it) 0) mixed_items))
               t'
             <= count_occ string_dec
                  (map type_of_item
                       (filter (fun it => opt_Z_is (li_level it) 0)
                               mixed_items))
                  t)%nat.
Proof.
  assert (H : Forall (fun it => li_level it <> None) mixed_items)
    by (repeat constructor; discriminate).
  split; [exact H|].
  destruct (@predominant_type_is_most_common mixed_items H)
    as (t & Ht & _ & _ & Hmax).
  exists t. split; [exact Ht|exact Hmax].
Defined.

End PredominantTheorem.

(** ** Integrating list blocks *)

Section IntegrateFacts.

Import Py ListRender.
Local Open Scope list_scope.

Variable B : Type.
Variable document_position : B -> option Z.

Lemma Merge_nil_l (l : list B) : Merge [] l l.
Proof. induction l; constructor; assumption. Qed.

Lemma Merge_nil_r (l : list B) : Merge l [] l.
Proof. induction l; constructor; assumption. Qed.

Lemma Merge_length (a b l : list B) :
  Merge a b l -> List.length l = (List.length a + List.length b)%nat.
Proof. induction 1; simpl; lia. Qed.

Lemma Merge_app_right (due a b l : list B) :
  Merge a b l -> Merge a (due ++ b) (due ++ l).
Proof. intros H. induction due; simpl; [assumption|now constructor]. Qed.

Lemma take_due_split (i : Z) (pending : list B) :
  pending = fst (take_due document_position i pending)
            ++ snd (take_due document_position i pending).
Proof.
  induction pending as [|b rest IH]; simpl; [reflexivity|].
  destruct (document_position b) as [pos|]; [|reflexivity].
  destruct (pos <=? i)%Z; [|reflexivity].
  destruct (take_due document_position i rest) as [due later].
  simpl in *. now f_equal.
Qed.

(** The blocks taken before the content block at index [i] are due. *)
Lemma take_due_due (i : Z) (pending : list B) :
  Forall (fun b => exists pos, document_position b = Some pos /\ (pos <= i)%Z)
         (fst (take_due document_position i pending)).
Proof.
  induction pending as [|b rest IH]; simpl; [constructor|].
  destruct (document_position b) as [pos|] eqn:Ep; [|constructor].
  destruct (pos <=? i)%Z eqn:El; [|constructor].
  destruct (take_due document_position i rest) as [due later].
  simpl in *. constructor; [|assumption].
  exists pos. split; [assumption|now apply Z.leb_le].
Qed.

Lemma integrate_from_merge (content : list B) : forall i pending,
  Merge content pending (integrate_from document_position i content pending).
Proof.
  induction content as [|block rest IH]; intros i pending; simpl.
  - apply Merge_nil_l.
  - pose proof (take_due_split (Z.of_nat i) pending) as Hs.
    destruct (take_due document_position (Z.of_nat i) pending)
      as [due later].
    simpl in Hs. rewrite Hs. apply Merge_app_right.
    constructor. apply IH.
Qed.

End IntegrateFacts.

Section IntegrateTheorem.

Import Py ListRender.
Local Open Scope list_scope.

Variable B : Type.
Variable document_position : B -> option Z.

(** X6.  Integration loses and duplicates nothing: the result interleaves
    the content blocks, in their order, with the list blocks in the order
    of their document position (a missing position sorting as 0); without
    list blocks the content comes back unchanged. *)
Theorem integration_interleaves (content_blocks list_blocks : list B) :
  let key := fun b => match document_position b with
                      | Some pos => pos
                      | None => 0%Z
                      end in
  let result :=
    integrate_list_blocks document_position content_blocks list_blocks in
  Merge content_blocks (sort_by key list_blocks) result
  /\ Permutation (sort_by key list_blocks) list_blocks
  /\ sorted_by key (sort_by key list_blocks)
  /\ List.length result
     = (List.length content_blocks + List.length list_blocks)%nat
  /\ integrate_list_blocks document_position content_blocks []
     = content_blocks.
Proof.
  cbv zeta.
  assert (Hm : Merge content_blocks
                 (sort_by (fun b => match document_position b with
                                    | Some pos => pos
                                    | None => 0%Z
                                    end) list_blocks)
                 (integrate_list_blocks document_position content_blocks
                                        list_blocks)).
  { unfold integrate_list_blocks. destruct list_blocks as [|b rest].
    - simpl. apply Merge_nil_r.
    - apply integrate_from_merge. }
  split; [exact Hm|]. split; [apply sort_by_perm|].
  split; [apply sort_by_sorted|]. split; [|reflexivity].
  rewrite (Merge_length Hm), sort_by_length. reflexivity.
Qed.

End IntegrateTheorem.

(** ** The legacy conversion to two levels *)

Section ConvertFacts.

Import Py ListEngine ListRender.
Local Open Scope list_scope.
Local Open Scope Z_scope.

Variable m : Z.

Local Abbreviation two_level tree :=
  (Forall (fun n : tree_node =>
             entry_level (fst n) = m
             /\ Forall (fun c => entry_level c = m + 1) (snd n)) tree).

Lemma add_child_fst (c : entry) (tree : list tree_node) :
  map fst (add_child c tree) = map fst tree.
Proof.
  induction tree as [|[r cs] rest IH]; [reflexivity|].
  destruct rest as [|n rest']; [reflexivity|].
  change (add_child c ((r, cs) :: n :: rest'))
    with ((r, cs) :: add_child c (n :: rest')).
  cbn [map]. now rewrite IH.
Qed.

Lemma add_child_two_level (c : entry) (tree : list tree_node) :
  entry_level c = m + 1 -> two_level tree -> two_level (add_child c tree).
Proof.
  intros Hc. induction tree as [|[r cs] rest IH]; intros H; [constructor|].
  apply Forall_cons_iff in H as [[Hr Hcs] Hrest]. cbn [fst snd] in *.
  destruct rest as [|n rest'].
  - simpl. constructor; [|constructor]. split; [assumption|].
    apply Forall_app. split; [assumption|]. now constructor.
  - change (add_child c ((r, cs) :: n :: rest'))
      with ((r, cs) :: add_child c (n :: rest')).
    constructor; [now split|]. now apply IH.
Qed.

Lemma add_child_length (c : entry) (tree : list tree_node) :
  (List.length (flatten_tree (add_child c tree))
   <= S (List.length (flatten_tree tree)))%nat.
Proof.
  induction tree as [|[r cs] rest IH]; [simpl; lia|].
  destruct rest as [|n rest'].
  - unfold flatten_tree. simpl. rewrite !app_nil_r, List.length_app.
    simpl. lia.
  - change (add_child c ((r, cs) :: n :: rest'))
      with ((r, cs) :: add_child c (n :: rest')).
    unfold flatten_tree in *. cbn [flat_map fst snd].
    rewrite !List.length_app. simpl in *. rewrite !List.length_app in *.
    lia.
Qed.

Lemma flatten_tree_snoc (tree : list tree_node) (e : entry) :
  flatten_tree (tree ++ [(e, [])]) = flatten_tree tree ++ [e].
Proof. unfold flatten_tree. now rewrite flat_map_app. Qed.

Lemma convert_step_spec (tree : list tree_node) (seen : bool) (it : entry) :
  two_level tree ->
  let st' := convert_step m (tree, seen) it in
  two_level (fst st')
  /\ map fst (fst st')
     = map fst tree ++ (if entry_level it =? m then [it] else [])
  /\ (List.length (flatten_tree (fst st'))
      <= S (List.length (flatten_tree tree)))%nat.
Proof.
  intros Htl. cbv zeta. unfold convert_step.
  destruct (entry_level it =? m) eqn:E.
  - apply Z.eqb_eq in E.
    assert (Hit : mk_entry (entry_text it) (entry_level it) = it)
      by now destruct it.
    rewrite Hit. cbn [fst]. repeat split.
    + apply Forall_app. split; [assumption|].
      constructor; [|constructor]. split; [assumption|constructor].
    + now rewrite map_app.
    + rewrite flatten_tree_snoc, List.length_app. simpl. lia.
  - destruct ((entry_level it =? m + 1) && nonempty tree) eqn:E1.
    + apply andb_true_iff in E1 as [E1 _]. apply Z.eqb_eq in E1.
      cbn [fst]. repeat split.
      * now apply add_child_two_level.
      * now rewrite add_child_fst, app_nil_r.
      * apply add_child_length.
    + destruct ((m + 1 <? entry_level it) && seen); cbn [fst]; repeat split.
      * now apply add_child_two_level.
      * now rewrite add_child_fst, app_nil_r.
      * apply add_child_length.
      * assumption.
      * now rewrite app_nil_r.
      * lia.
Qed.

Lemma convert_loop (its : list entry) : forall tree seen,
  two_level tree ->
  let out := fst (fold_left (convert_step m) its (tree, seen)) in
  two_level out
  /\ map fst out
     = map fst tree ++ filter (fun e => entry_level e =? m) its
  /\ (List.length (flatten_tree out)
      <= List.length (flatten_tree tree) + List.length its)%nat.
Proof.
  induction its as [|it rest IH]; intros tree seen Htl.
  - simpl. rewrite app_nil_r. repeat split; [assumption|lia].
  - cbn [fold_left filter].
    destruct (convert_step_spec seen it Htl) as (S1 & S2 & S3).
    cbv zeta in S1, S2, S3.
    destruct (convert_step m (tree, seen) it) as [tree' seen'].
    cbn [fst] in S1, S2, S3.
    destruct (IH tree' seen' S1) as (H1 & H2 & H3).
    cbv zeta in *. repeat split; [assumption| |].
    + rewrite H2, S2, <- app_assoc.
      destruct (entry_level it =? m); reflexivity.
    + simpl. lia.
Qed.

Lemma flatten_two_level (tree : list tree_node) :
  two_level tree ->
  Forall (fun e => entry_level e = m \/ entry_level e = m + 1)
         (flatten_tree tree)
  /\ filter (fun e => entry_level e =? m) (flatten_tree tree) = map fst tree.
Proof.
  induction 1 as [|[r cs] rest [Hr Hcs] _ [IH1 IH2]]; [split; constructor|].
  cbn [fst snd] in *. unfold flatten_tree in *. cbn [flat_map fst snd].
  split.
  - constructor; [now left|]. apply Forall_app. split; [|assumption].
    eapply Forall_impl; [|exact Hcs]. simpl. auto.
  - cbn [map fst]. rewrite filter_app, IH2. cbn [filter]. cbn beta.
    rewrite (proj2 (Z.eqb_eq _ _) Hr). cbn [app]. f_equal.
    rewrite <- (app_nil_l (map fst rest)) at 2. f_equal.
    clear -Hcs. induction Hcs as [|c cs' Hc _ IH]; [reflexivity|].
    simpl. rewrite IH.
    destruct (entry_level c =? m) eqn:E; [|reflexivity].
    apply Z.eqb_eq in E. lia.
Qed.

End ConvertFacts.

Section ConvertTheorem.

Import Py ListEngine ListRender.
Local Open Scope list_scope.
Local Open Scope Z_scope.

(** X7.  The legacy conversion returns a list without type untouched.
    For a typed list it keeps the type, leaves only items at the root
    level or one below it, keeps all root-level items in order, and never
    adds an item. *)
Theorem conversion_leaves_two_levels (ld : list_data) :
  let out := convert_list_for_storymap ld in
  let m := entries_min_level (data_items ld) in
  match data_type ld with
  | None => out = ld
  | Some _ =>
      data_type out = data_type ld
      /\ (data_items ld <> [] ->
          Forall (fun e => entry_level e = m \/ entry_level e = m + 1)
                 (data_items out))
      /\ filter (fun e => entry_level e =? m) (data_items out)
         = filter (fun e => entry_level e =? m) (data_items ld)
      /\ (List.length (data_items out) <= List.length (data_items ld))%nat
  end.
Proof.
  cbv zeta. unfold convert_list_for_storymap.
  destruct ld as [[ty|] [|it rest]]; cbn [data_type data_items];
    try reflexivity.
  - split; [reflexivity|]. split; [intros H; congruence|].
    split; [reflexivity|]. simpl. lia.
  - destruct (@convert_loop (entries_min_level (it :: rest)) (it :: rest)
                [] false (Forall_nil _)) as (H1 & H2 & H3).
    cbv zeta in *.
    destruct (fold_left (convert_step (entries_min_level (it :: rest)))
                        (it :: rest) ([], false)) as [tree seen].
    cbn [fst snd data_type data_items] in *.
    destruct (flatten_two_level H1) as [F1 F2].
    split; [reflexivity|]. split; [intros _; exact F1|].
    split; [rewrite F2, H2; reflexivity|]. simpl in H3. simpl. lia.
Qed.

End ConvertTheorem.

(* ------------------------------------------------------------------ *)
(** ** From the detector to the published code node *)

Section DetectorRange.

Import Py Regex Blocks CodeDetector Publish.
Local Open Scope string_scope.
Local Open Scope list_scope.

(** The tags the detector can answer. *)
Lemma check_keywords_tags (code code_lower lang : string) :
  check_keywords code code_lower = Some lang ->
  In lang (map fst keyword_sets).
Proof.
  unfold check_keywords.
  set (words := findall no_flags (cat [WordB; plus cls_w; WordB]) code_lower).
  set (scores := flat_map _ keyword_sets).
  assert (Hs : forall e, In e scores -> In (fst e) (map fst keyword_sets)).
  { intros e He. unfold scores in He. apply in_flat_map in He
      as ([l kw] & Hin & He).
    destruct (0 <? _)%nat; [|contradiction].
    destruct He as [<-|[]]. apply in_map_iff. now exists (l, kw). }
  destruct scores as [|e t]; [discriminate|].
  pose proof (max_by_score_in t e) as Hin.
  destruct (max_by_score e t) as [l n].
  destruct (2 <=? n)%nat; [|discriminate].
  intros [= <-]. exact (Hs _ Hin).
Qed.

Lemma detect_code_language_tags (code_content : string) :
  In (detect_code_language code_content)
     ["txt"; "sql"; "arcade"; "json"; "py"; "cs"; "tsx"; "jsx"; "ts"; "js";
      "css"; "html"].
Proof.
  unfold detect_code_language.
  destruct (negb (truthy code_content) || _); [simpl; tauto|].
  set (code := strip code_content). set (code_lower := lower code).
  destruct (check_sql code code_lower) as [l|] eqn:E.
  { unfold check_sql in E. destruct (1 <=? _)%nat; [|discriminate].
    injection E as <-. simpl; tauto. }
  clear E. destruct (check_arcade code code_lower) as [l|] eqn:E.
  { unfold check_arcade in E. destruct (1 <=? _)%nat; [|discriminate].
    injection E as <-. simpl; tauto. }
  clear E. destruct (check_json code) as [l|] eqn:E.
  { unfold check_json in E. destruct (_ || _); [|discriminate].
    destruct (Json.loads_ok code); [|discriminate].
    injection E as <-. simpl; tauto. }
  clear E. destruct (check_python code code_lower) as [l|] eqn:E.
  { unfold check_python in E. destruct (1 <=? _)%nat; [|discriminate].
    injection E as <-. simpl; tauto. }
  clear E. destruct (check_csharp code code_lower) as [l|] eqn:E.
  { unfold check_csharp in E. destruct (1 <=? _)%nat; [|discriminate].
    injection E as <-. simpl; tauto. }
  clear E.
  destruct (check_javascript_typescript code code_lower) as [l|] eqn:E.
  { unfold check_javascript_typescript in E.
    destruct (_ || _); [|discriminate].
    destruct (search no_flags html_like code);
      destruct (1 <=? count_matches flags_IM ts_patterns code)%nat;
      injection E as <-; simpl; tauto. }
  clear E. destruct (check_css code code_lower) as [l|] eqn:E.
  { unfold check_css in E. destruct (_ && _); [|discriminate].
    destruct (_ || _); [|discriminate].
    injection E as <-. simpl; tauto. }
  clear E. destruct (check_html code code_lower) as [l|] eqn:E.
  { unfold check_html in E. destruct (_ && _); [|discriminate].
    destruct (_ && _); [injection E as <-; simpl; tauto|].
    destruct (existsb _ _); [|discriminate].
    injection E as <-. simpl; tauto. }
  clear E. destruct (check_keywords code code_lower) as [l|] eqn:E.
  { apply check_keywords_tags in E. simpl in E. simpl. tauto. }
  clear E. destruct (check_text_about_code code code_lower) as [l|] eqn:E;
    [|simpl; tauto].
  unfold check_text_about_code in E.
  destruct (_ || _); [|discriminate].
  repeat match type of E with
         | (if ?c then _ else _) = _ =>
             destruct c; [injection E as <-; simpl; tauto|]
         end.
  discriminate.
Qed.

(** X8.  Whatever the detector answers for the content of a code block,
    the code node that the patch pass builds from it carries one of the
    languages [txt], [sql], [json], [html] and [css]: the answers [sql],
    [json], [html] and [css] are kept, and every other answer of the
    detector (Python, C#, JavaScript, TypeScript, Arcade among them) is
    published as [txt]. *)
Theorem detected_language_published (code_content : string) (nd : node) :
  let lang := detect_code_language code_content in
  let published :=
    if in_list lang ["sql"; "json"; "html"; "css"] then lang else "txt" in
  create_code_block code_content = Code code_content lang
  /\ In lang ["txt"; "sql"; "arcade"; "json"; "py"; "cs"; "tsx"; "jsx"; "ts";
              "js"; "css"; "html"]
  /\ to_code code_content lang nd
     = (dict_set "data"
          (JDict [("content", JStr code_content); ("lang", JStr published);
                  ("lineNumbers", JBool true)])
          (dict_set "type" (JStr "code") nd),
        Some (Next 1)).
Proof.
  cbv zeta. split; [reflexivity|].
  pose proof (detect_code_language_tags code_content) as Hin.
  split; [exact Hin|].
  unfold to_code, bind, get_node, put_node, ret.
  repeat (destruct Hin as [<-|Hin]; [reflexivity|]).
  destruct Hin.
Qed.

End DetectorRange.

(* ------------------------------------------------------------------ *)
(** ** What the classifier can return, and what Phase 1 makes of it *)

Section ClassifierShape.

Import Py Regex Blocks Classifier Publish.
Local Open Scope string_scope.
Local Open Scope list_scope.

Variable process_docx_image : ImageResolver.drawing -> option block.
Variable hyperlink_rels : dict string.

Lemma blank_iff (text : string) :
  negb (truthy text) || negb (truthy (strip text)) = true
  <-> strip text = "".
Proof.
  split.
  - destruct text as [|c s]; [reflexivity|]. cbn [truthy negb orb].
    destruct (strip (String c s)); [reflexivity|discriminate].
  - intros ->. apply orb_true_r.
Qed.

Lemma rule_answers (text : string) (alignment : option string)
      (p : paragraph) (b : block) :
  first_match code_order p text alignment = Some b ->
  (exists ty, In ty ["h2"; "h3"; "h4"; "quote"]
              /\ b = create_text_block ty text alignment)
  \/ b = create_code_block text.
Proof.
  assert (T : forall ty, In ty ["h2"; "h3"; "h4"; "quote"] ->
              forall b', Some (create_text_block ty text alignment) = Some b' ->
              (exists ty, In ty ["h2"; "h3"; "h4"; "quote"]
                          /\ b' = create_text_block ty text alignment)
              \/ b' = create_code_block text).
  { intros ty Hty b' [= <-]. left. now exists ty. }
  unfold code_order, first_match, outline_rule, style_number_rule,
    font_size_rule, style_keyword_rule, content_rule.
  repeat match goal with
         | |- Some (create_text_block ?ty _ _) = Some _ -> _ =>
             apply (T ty); simpl; tauto
         | |- Some (create_code_block _) = Some _ -> _ =>
             intros [= <-]; now right
         | |- None = Some _ -> _ => discriminate
         | |- context [match get_paragraph_outline_level ?x with _ => _ end] =>
             destruct (get_paragraph_outline_level x)
         | |- context [match style_of ?x with _ => _ end] =>
             destruct (style_of x)
         | |- context [match style_number ?x with _ => _ end] =>
             destruct (style_number x)
         | |- context [if ?c then _ else _] => destruct c
         end.
Qed.

(** X9.  A paragraph with a drawing is handed to the image resolver.  For
    any other paragraph the classifier returns nothing exactly when the
    extracted text is blank and there is no alignment; a blank text with
    an alignment gives a [paragraph] block with empty text; otherwise the
    block carries the extracted markup unchanged, as a text block of type
    [paragraph], [h2], [h3], [h4] or [quote] with the extracted alignment,
    or as a code block whose language is the detector's answer.  No other
    kind of block comes out of a paragraph without a drawing. *)
Theorem classifier_output_shape (p : paragraph) :
  let text := fst (extract_formatted_text hyperlink_rels p) in
  let alignment := snd (extract_formatted_text hyperlink_rels p) in
  match drawing p with
  | Some dr =>
      process_docx_paragraph process_docx_image hyperlink_rels p
      = process_docx_image dr
  | None =>
      match process_docx_paragraph process_docx_image hyperlink_rels p with
      | None => strip text = "" /\ truthy_opt alignment = false
      | Some (Text ty t a d) =>
          a = alignment
          /\ d = (if truthy_opt alignment then alignment else None)
          /\ ((strip text = "" /\ truthy_opt alignment = true
               /\ ty = "paragraph" /\ t = "")
              \/ (strip text <> "" /\ t = text
                  /\ In ty ["paragraph"; "h2"; "h3"; "h4"; "quote"]))
      | Some (Code c l) =>
          strip text <> "" /\ c = text
          /\ l = CodeDetector.detect_code_language text
      | Some _ => False
      end
  end.
Proof.
  cbv zeta. rewrite process_docx_paragraph_is_cascade. unfold cascade.
  destruct (drawing p); [reflexivity|].
  destruct (extract_formatted_text hyperlink_rels p) as [text alignment].
  cbn [fst snd].
  destruct (negb (truthy text) || negb (truthy (strip text))) eqn:B.
  - apply blank_iff in B.
    destruct (truthy_opt alignment) eqn:A; [|now split].
    unfold create_text_block. rewrite A.
    split; [reflexivity|]. split; [reflexivity|]. left. now repeat split.
  - assert (N : strip text <> "").
    { intros H. apply blank_iff in H. congruence. }
    destruct (first_match code_order p text alignment) as [b|] eqn:F.
    + apply rule_answers in F as [(ty & Hty & ->)| ->].
      * unfold create_text_block. split; [reflexivity|].
        split; [reflexivity|]. right. split; [exact N|].
        split; [reflexivity|]. now right.
      * unfold create_code_block. now repeat split.
    + unfold create_text_block. split; [reflexivity|].
      split; [reflexivity|]. right. split; [exact N|].
      split; [reflexivity|]. now left.
Qed.

Variable node_id_of : nat -> string.
Variable extract_image_dimensions : string -> option (Z * Z).

(** X10.  A paragraph whose extracted text is blank never reaches the
    story: when the classifier keeps it for its alignment, the block has
    empty text and Phase 1 passes over it, leaving the story and the three
    dictionaries as they were. *)
Theorem blank_paragraph_adds_no_node (p : paragraph) (b : block) :
  drawing p = None ->
  strip (fst (extract_formatted_text hyperlink_rels p)) = "" ->
  process_docx_paragraph process_docx_image hyperlink_rels p = Some b ->
  b = Text "paragraph" "" (snd (extract_formatted_text hyperlink_rels p))
                          (snd (extract_formatted_text hyperlink_rels p))
  /\ forall i st,
       add_content_block node_id_of extract_image_dimensions i b st = st.
Proof.
  intros Hd Hs Hb. rewrite (blank_text_outcome _ _ _ Hd Hs) in Hb.
  cbv zeta in Hb.
  destruct (truthy_opt (snd (extract_formatted_text hyperlink_rels p)))
    eqn:A; [|discriminate].
  injection Hb as <-. unfold create_text_block. rewrite A.
  split; [reflexivity|]. intros i st. reflexivity.
Qed.

End ClassifierShape.

Section ClassifierShapeExamples.

Import Py Blocks Classifier Publish.
Local Open Scope string_scope.
Local Open Scope list_scope.

(** The centred paragraph without text: kept by the classifier, passed
    over by Phase 1. *)
Lemma blank_paragraph_adds_no_node_witness :
  process_docx_paragraph (fun _ => None) [] empty_centered
  = Some (Text "paragraph" "" (Some "center") (Some "center"))
  /\ add_content_block numbered (fun _ => None) 0
       (Text "paragraph" "" (Some "center") (Some "center"))
       (mk_phase1 [] [] [] [])
     = mk_phase1 [] [] [] [].
Proof.
  split; [reflexivity|].
  exact (proj2 (@blank_paragraph_adds_no_node (fun _ => None) [] numbered
                  (fun _ => None) empty_centered
                  (Text "paragraph" "" (Some "center") (Some "center"))
                  eq_refl eq_refl eq_refl) 0%nat (mk_phase1 [] [] [] [])).
Defined.

End ClassifierShapeExamples.

(* ------------------------------------------------------------------ *)
(** ** Tables: from the document to the story *)

Section TableFacts.

Import Py Regex Blocks Classifier TableReader Publish.
Local Open Scope list_scope.
Local Open Scope string_scope.

Variable hyperlink_rels : dict string.

Lemma append_assoc (a b c : string) : (a ++ b) ++ c = a ++ b ++ c.
Proof. induction a as [|x a IH]; simpl; [reflexivity|now rewrite IH]. Qed.

Lemma concat_snoc (sep : string) (l : list string) (x : string) :
  l <> [] ->
  String.concat sep (l ++ [x])%list = String.concat sep l ++ sep ++ x.
Proof.
  induction l as [|a [|b t] IH]; intros Hne; [congruence|reflexivity|].
  change ((a :: b :: t) ++ [x])%list with (a :: (b :: t) ++ [x])%list.
  change (String.concat sep (a :: (b :: t) ++ [x])%list)
    with (a ++ sep ++ String.concat sep ((b :: t) ++ [x])%list).
  rewrite IH by discriminate.
  change (String.concat sep (a :: b :: t))
    with (a ++ sep ++ String.concat sep (b :: t)).
  now rewrite !append_assoc.
Qed.

Lemma truthy_concat (sep : string) (l : list string) :
  l <> [] -> Forall (fun s => truthy s = true) l ->
  truthy (String.concat sep l) = true.
Proof.
  destruct l as [|a [|b t]]; intros Hne Hall; [congruence| |].
  - now inversion Hall.
  - inversion Hall as [|? ? Ha _]; subst.
    change (String.concat sep (a :: b :: t))
      with (a ++ sep ++ String.concat sep (b :: t)).
    destruct a; [discriminate|reflexivity].
Qed.

Lemma filter_truthy_all (l : list string) :
  Forall (fun s => truthy s = true) (filter truthy l).
Proof.
  apply Forall_forall. intros s Hs. now apply filter_In in Hs.
Qed.

(** The loop over the paragraphs of a cell builds the join of the texts
    seen so far. *)
Lemma cell_loop (c : cell) : forall seen,
  fold_left (cell_step hyperlink_rels) c
            (String.concat (String newline "")
                           (paragraph_texts hyperlink_rels seen))
  = String.concat (String newline "")
                  (paragraph_texts hyperlink_rels (seen ++ c)%list).
Proof.
  induction c as [|p rest IH]; intros seen; [now rewrite app_nil_r|].
  cbn [fold_left].
  replace (seen ++ p :: rest)%list with ((seen ++ [p]) ++ rest)%list
    by now rewrite <- app_assoc.
  rewrite <- IH. f_equal.
  unfold cell_step, paragraph_texts. rewrite map_app, filter_app.
  cbn [map filter].
  destruct (truthy (fst (extract_formatted_text hyperlink_rels p))) eqn:T;
    [|now rewrite app_nil_r].
  fold (paragraph_texts hyperlink_rels seen).
  destruct (paragraph_texts hyperlink_rels seen) as [|a t] eqn:E;
    [reflexivity|].
  rewrite truthy_concat;
    [|discriminate|rewrite <- E; apply filter_truthy_all].
  rewrite concat_snoc by discriminate. now rewrite append_assoc.
Qed.

Lemma cell_content_join (c : cell) :
  cell_content hyperlink_rels c
  = String.concat (String newline "") (paragraph_texts hyperlink_rels c).
Proof. exact (cell_loop c []). Qed.

Lemma rows_of_table (element : tbl) :
  flat_map (row_cells hyperlink_rels) element
  = map (map (cell_content hyperlink_rels))
        (filter (fun row => negb (Nat.eqb (List.length row) 0)) element).
Proof.
  induction element as [|row rest IH]; [reflexivity|].
  cbn [flat_map filter]. rewrite IH.
  destruct row; reflexivity.
Qed.

Lemma max_row_length_ge (rows : list (list string)) : forall m row,
  In row rows ->
  (List.length row <= fold_left (fun m row => Nat.max m (List.length row))
                                rows m)%nat
  /\ (m <= fold_left (fun m row => Nat.max m (List.length row)) rows m)%nat.
Proof.
  induction rows as [|r rest IH]; intros m row Hin; [destruct Hin|].
  cbn [fold_left].
  assert (Hm : forall k,
    (k <= fold_left (fun m row => Nat.max m (List.length row)) rest k)%nat).
  { clear. induction rest as [|r rest IH]; intros k; simpl; [lia|].
    specialize (IH (Nat.max k (List.length r))). lia. }
  destruct Hin as [->|Hin].
  - specialize (Hm (Nat.max m (List.length row))). lia.
  - destruct (IH (Nat.max m (List.length r)) row Hin) as [H1 H2]. lia.
Qed.

End TableFacts.

Section TableTheorems.

Import Py Regex Blocks Classifier TableReader Publish.
Local Open Scope list_scope.
Local Open Scope string_scope.

Variable hyperlink_rels : dict string.

(** X11.  The table reader keeps the rows that have at least one cell, in
    order, and answers nothing when no row has one; the text of a cell is
    the texts of its paragraphs that are not empty, joined by line
    breaks; the block has no caption. *)
Theorem table_rows_and_cells (element : tbl) :
  let kept := filter (fun row => negb (Nat.eqb (List.length row) 0)) element in
  process_docx_table hyperlink_rels element
  = match kept with
    | [] => None
    | _ =>
        Some (Table
                (map (map (fun c =>
                             String.concat (String newline "")
                                           (paragraph_texts hyperlink_rels c)))
                     kept)
                None)
    end.
Proof.
  cbv zeta. unfold process_docx_table. rewrite rows_of_table.
  match goal with
  | |- context [filter ?f element] =>
      destruct (filter f element) as [|row rest]; [reflexivity|]
  end.
  cbn [map]. unfold create_table_block. do 2 f_equal. f_equal.
  - apply map_ext. intros c. apply cell_content_join.
  - apply map_ext. intros r. apply map_ext. intros c.
    apply cell_content_join.
Qed.

Variable node_id_of : nat -> string.
Variable extract_image_dimensions : string -> option (Z * Z).

(** X12.  A table block read from the document has at least one row and
    no row without cells, so Phase 1 never falls back on two columns for
    it: the table node is created with the number of rows and the length
    of the longest row, which is at least one and is the column count
    that the patch pass computes, too. *)
Theorem parsed_table_dimensions (element : tbl) (rows : list (list string))
        (caption : option string) (key : string) (st : phase1) :
  process_docx_table hyperlink_rels element = Some (Table rows caption) ->
  rows <> [] /\ Forall (fun row => row <> []) rows
  /\ (1 <= max_row_length rows)%nat
  /\ Forall (fun row => (List.length row <= max_row_length rows)%nat) rows
  /\ story (add_table_block node_id_of rows caption key st)
     = (story st
        ++ [(node_id_of (List.length (story st)),
             TableContent (List.length rows) (max_row_length rows) None)])%list.
Proof.
  unfold process_docx_table. rewrite rows_of_table.
  match goal with
  | |- context [filter ?f element] =>
      destruct (filter f element) as [|row rest] eqn:E; [discriminate|]
  end.
  unfold create_table_block. intros [= <- <-].
  assert (Hne : Forall (fun row => row <> [])
                       (map (map (cell_content hyperlink_rels))
                            (row :: rest))).
  { apply Forall_forall. intros r Hr.
    apply in_map_iff in Hr as (r0 & <- & Hr0).
    rewrite <- E in Hr0. apply filter_In in Hr0 as [_ Hr0].
    destruct r0; [discriminate|]. discriminate. }
  assert (Hle : Forall (fun r => (List.length r
                                  <= max_row_length
                                       (map (map (cell_content hyperlink_rels))
                                            (row :: rest)))%nat)
                       (map (map (cell_content hyperlink_rels))
                            (row :: rest))).
  { apply Forall_forall. intros r Hr.
    now apply (max_row_length_ge _ 0%nat r Hr). }
  split; [discriminate|]. split; [exact Hne|]. split; [|split].
  - apply Forall_cons_iff in Hne as [Hrow _].
    apply Forall_cons_iff in Hle as [Hlen _].
    cbn [map] in *. destruct (map (cell_content hyperlink_rels) row);
      [congruence|]. simpl in Hlen. lia.
  - exact Hle.
  - reflexivity.
Qed.

End TableTheorems.

Section TableExamples.

Import Py Regex Blocks Classifier TableReader Publish.
Local Open Scope list_scope.
Local Open Scope string_scope.

(** A table of one row with two cells, and an empty row that is left
    out. *)
Lemma parsed_table_dimensions_witness :
  process_docx_table [] small_table
  = Some (Table [["a" ++ String newline "" ++ "b"; ""]] None)
  /\ (1 <= max_row_length [["a" ++ String newline "" ++ "b"; ""]])%nat
  /\ story (add_table_block numbered
              [["a" ++ String newline "" ++ "b"; ""]] None "table_0"
              (mk_phase1 [] [] [] []))
     = [("n-0", TableContent 1 2 None)].
Proof.
  split; [reflexivity|].
  destruct (@parsed_table_dimensions [] numbered small_table
              [["a" ++ String newline "" ++ "b"; ""]] None "table_0"
              (mk_phase1 [] [] [] []) eq_refl) as (_ & _ & H1 & _ & H2).
  split; [exact H1|exact H2].
Defined.

End TableExamples.

(* ------------------------------------------------------------------ *)
(** ** Phase 2 on the blocks that Phase 1 tracked *)

Section PhasesFacts.

Import Py Blocks Publish.
Local Open Scope string_scope.
Local Open Scope list_scope.

Lemma bind_popped {A} (c : M A) (k : A -> M step_end) (nd : node) :
  snd (bind c k nd) = Some Popped ->
  exists a nd', c nd = (nd', Some a) /\ snd (k a nd') = Some Popped.
Proof.
  unfold bind. destruct (c nd) as [nd' [a|]]; [|discriminate].
  intros H. now exists a, nd'.
Qed.

(** The text branch pops the node only for a tracked text block with
    empty content. *)
Lemma patch_text_popped (tracked : option block) (nd : node) :
  snd (patch_text tracked nd) = Some Popped ->
  exists ty t a d,
    tracked = Some (Text ty t a d) /\ is_empty_content t = true.
Proof.
  unfold patch_text. intros H.
  apply bind_popped in H as (cur & nd' & _ & H).
  destruct cur as [| | |s| |]; try discriminate.
  destruct (startswith s "PLACEHOLDER_TEXT_"); [|discriminate].
  destruct tracked as [[ty t a d| | | |]|]; try discriminate.
  destruct (is_empty_content t) eqn:E; [now exists ty, t, a, d|].
  exfalso. revert H. apply bind_never_popped. intros u1 nd1.
  apply bind_never_popped. intros u2 nd2. simpl. discriminate.
Qed.

Lemma update_node_popped (tracked_blocks : dict block) (node_id : string)
      (nd : node) :
  snd (update_node tracked_blocks node_id nd) = Some Popped ->
  exists ty t a d,
    dict_get node_id tracked_blocks = Some (Text ty t a d)
    /\ is_empty_content t = true.
Proof.
  unfold update_node. intros H.
  apply bind_popped in H as (nd0 & nd1 & Hget & H).
  unfold get_node in Hget. injection Hget as <- <-.
  assert (Hrest :
    snd ((has_text <-
            (if node_type_is nd "text" && dict_mem "data" nd
             then data <- lift (dict_get "data" nd) ;;
                  lift (py_in "text" data)
             else ret false) ;;
          if has_text then patch_text (dict_get node_id tracked_blocks)
          else if node_type_is nd "table" && dict_mem "data" nd
               then patch_table (dict_get node_id tracked_blocks)
          else if node_type_is nd "image" && dict_mem "data" nd
               then patch_image (dict_get node_id tracked_blocks)
          else ret (Next 0)) nd) = Some Popped ->
    exists ty t a d,
      dict_get node_id tracked_blocks = Some (Text ty t a d)
      /\ is_empty_content t = true).
  { intros H'. apply bind_popped in H' as (has_text & nd2 & _ & H').
    destruct has_text; [now apply patch_text_popped in H'|].
    exfalso. revert H'.
    destruct (node_type_is nd "table" && dict_mem "data" nd);
      [apply patch_table_never_popped|].
    destruct (node_type_is nd "image" && dict_mem "data" nd);
      [apply patch_image_never_popped|].
    simpl. discriminate. }
  destruct (node_type_is nd "text");
    [|exact (Hrest H)].
  destruct (dict_get node_id tracked_blocks) as [[| | |code lang|]|];
    try exact (Hrest H).
  exfalso. revert H. unfold to_code. apply bind_never_popped.
  intros nd2 nd2'. apply bind_never_popped. intros u nd3. simpl.
  discriminate.
Qed.

Variable node_id_of : nat -> string.
Variable extract_image_dimensions : string -> option (Z * Z).

(** Phase 1 records a text block only when its content is not empty. *)
Lemma add_blocks_tracked (P : block -> Prop) :
  (forall ty t a d, is_empty_content t = false -> P (Text ty t a d)) ->
  (forall b, block_type b <> "text" -> P b) ->
  forall bs n st,
    Forall P (values (parsed_blocks st)) ->
    Forall P (values (parsed_blocks
                        (add_content_blocks node_id_of
                           extract_image_dimensions n bs st))).
Proof.
  intros Htext Hother. induction bs as [|b rest IH]; intros n st Hst;
    [exact Hst|].
  cbn [add_content_blocks]. apply IH.
  unfold add_content_block, add_text_block, add_image_block, add_table_block,
    add_code_block, add_separator_block, add_node.
  destruct b as [ty txt al dt|path cap disp fa dims|rows cap|code lang|];
    cbn beta iota.
  - destruct (is_empty_content txt) eqn:E; [exact Hst|].
    cbn [parsed_blocks]. apply dict_set_values_Forall; [|exact Hst].
    now apply Htext.
  - cbn [parsed_blocks story]. apply dict_set_values_Forall; [|exact Hst].
    apply Hother. discriminate.
  - cbn [parsed_blocks]. apply dict_set_values_Forall; [|exact Hst].
    apply Hother. discriminate.
  - cbn [parsed_blocks]. apply dict_set_values_Forall; [|exact Hst].
    apply Hother. discriminate.
  - cbn [parsed_blocks]. apply dict_set_values_Forall; [|exact Hst].
    apply Hother. discriminate.
Qed.

End PhasesFacts.

Section PhasesTheorem.

Import Py Blocks Publish.
Local Open Scope string_scope.
Local Open Scope list_scope.

Variable node_id_of : nat -> string.
Variable extract_image_dimensions : string -> option (Z * Z).

(** X13.  Phase 1 tracks no text block with empty content, the
    description apart, which it tracks whenever it is not the empty
    string.  So when the patch pass runs on the blocks Phase 1 tracked,
    the branch that deletes a node can only be taken at a node tracked by
    the description block, and only for a description of white space or
    of three dots. *)
Theorem deletion_needs_blank_description
  (cover_dimensions : option (Z * Z)) (description : string)
  (content_blocks : list block) (node_id : string) (nd : node) :
  let tracked :=
    parsed_blocks (create_storymap node_id_of extract_image_dimensions
                                   cover_dimensions description
                                   content_blocks) in
  snd (update_node tracked node_id nd) = Some Popped ->
  dict_get node_id tracked = Some (Text "paragraph" description None None)
  /\ is_empty_content description = true
  /\ description <> "".
Proof.
  cbv zeta. intros H.
  apply update_node_popped in H as (ty & t & a & d & Hget & He).
  set (P := fun b : block =>
              match b with
              | Text _ t _ _ =>
                  is_empty_content t = false
                  \/ (b = Text "paragraph" description None None
                      /\ truthy description = true)
              | _ => True
              end).
  assert (HP : Forall P (values (parsed_blocks
                 (create_storymap node_id_of extract_image_dimensions
                    cover_dimensions description content_blocks)))).
  { unfold create_storymap. apply add_blocks_tracked.
    - intros ty' t' a' d' E. now left.
    - intros [] Hb; simpl; try exact I. now contradiction Hb.
    - destruct (truthy description) eqn:T; [|constructor].
      unfold add_description_block, add_node. cbn [parsed_blocks dict_set values map].
      constructor; [|constructor]. right. now split. }
  pose proof (dict_get_In _ _ Hget) as Hin0.
  assert (Hin : In (Text ty t a d) (values (parsed_blocks
                 (create_storymap node_id_of extract_image_dimensions
                    cover_dimensions description content_blocks)))).
  { unfold values. apply in_map_iff. now exists (node_id, Text ty t a d). }
  clear Hin0.
  rewrite Forall_forall in HP. specialize (HP _ Hin). simpl in HP.
  destruct HP as [HP|[HP T]]; [congruence|].
  injection HP as -> -> -> ->.
  split; [exact Hget|]. split; [exact He|].
  intros ->. discriminate.
Qed.

End PhasesTheorem.

Section PhasesExamples.

Import Py Blocks Publish.
Local Open Scope string_scope.
Local Open Scope list_scope.

(** A description of one space, and a text node that still shows a
    placeholder marker under the id of the description node. *)
Lemma deletion_needs_blank_description_witness :
  dict_get "n-0"
    (parsed_blocks (create_storymap numbered (fun _ => None) None " " []))
  = Some (Text "paragraph" " " None None)
  /\ is_empty_content " " = true
  /\ " " <> "".
Proof.
  exact (@deletion_needs_blank_description numbered (fun _ => None) None " "
           [] "n-0"
           [("type", JStr "text");
            ("data", JDict [("text", JStr "PLACEHOLDER_TEXT_0")])]
           eq_refl).
Defined.

End PhasesExamples.

(* ------------------------------------------------------------------ *)
(** ** The scan of the document body *)

Section BodyFacts.

Import Py Regex Blocks ListEngine ListRender Classifier TableReader Body.
Local Open Scope string_scope.
Local Open Scope list_scope.

Variable process_docx_image : ImageResolver.drawing -> option block.
Variable hyperlink_rels : dict string.

Local Abbreviation step := (Body.step process_docx_image hyperlink_rels).
Local Abbreviation scan_body :=
  (fun body st => fold_left step body st).

(** *** One numbering id gives at most one list block *)

Lemma single_key_blocks (k : string) (its : list list_item) :
  match its with
  | [] => process_docx_lists [(k, its)] = []
  | _ => exists lb, process_docx_lists [(k, its)] = [lb]
  end.
Proof.
  pose proof (process_docx_lists_blocks [(k, its)]) as Hp.
  unfold group_list_items in Hp.
  assert (Hall : Forall (fun it => num_id it = k)
                        (sort_by element_index (flatten_items [(k, its)]))).
  { apply (Permutation_Forall
             (Permutation_sym (sort_by_perm element_index _))).
    unfold flatten_items. simpl. rewrite app_nil_r.
    apply Forall_forall. intros x Hx.
    apply in_map_iff in Hx as (it & <- & _). reflexivity. }
  assert (Hlen : List.length (sort_by element_index (flatten_items [(k, its)]))
                 = List.length its).
  { rewrite sort_by_length. unfold flatten_items. simpl.
    now rewrite app_nil_r, List.length_map. }
  destruct (sort_by element_index (flatten_items [(k, its)]))
    as [|first rest] eqn:Es.
  - destruct its; [|discriminate].
    simpl in Hp. now apply Permutation_sym, Permutation_nil in Hp.
  - destruct its as [|it0 its0]; [discriminate|].
    inversion Hall as [|y l Hf Hr]; subst.
    assert (Hr' : Forall (fun it => num_id it = num_id first) rest).
    { eapply Forall_impl; [|exact Hr]. simpl. intros a Ha. congruence. }
    destruct (@single_id_groups first rest Hr') as (g0 & Hg & Hpos).
    rewrite Hg in Hp. cbn [map fst snd] in Hp.
    apply Permutation_sym, Permutation_length_1_inv in Hp.
    eexists. exact Hp.
Qed.

Lemma single_key_blocks_length (k : string) (its : list list_item) :
  (List.length (process_docx_lists [(k, its)]) <= 1)%nat.
Proof.
  pose proof (single_key_blocks k its) as H.
  destruct its; [rewrite H; simpl; lia|].
  destruct H as (lb & ->). simpl. lia.
Qed.

(** *** Flushing the collected list *)

Lemma count_type_nonempty (d : dict nat) (t : string) : count_type d t <> [].
Proof.
  unfold count_type. destruct d as [|[k v] r]; simpl; [discriminate|].
  destruct (String.eqb t k); discriminate.
Qed.

Lemma count_types_nonempty (it : list_item) (its : list list_item) :
  count_types (it :: its) <> [].
Proof.
  unfold count_types. cbn [fold_left].
  assert (H : forall l acc, acc <> [] ->
            fold_left (fun acc it => count_type acc (type_of_item it)) l acc
            <> []).
  { induction l as [|x l IH]; intros acc Hacc; [exact Hacc|].
    simpl. apply IH, count_type_nonempty. }
  apply H, count_type_nonempty.
Qed.

Lemma most_common_some (d : dict nat) : d <> [] -> most_common d <> None.
Proof. destruct d; [congruence|discriminate]. Qed.

Lemma root_items_some (its : list list_item) :
  Forall (fun it => li_level it <> None) its ->
  exists roots, root_items its = Some roots.
Proof.
  induction 1 as [|it rest Hit _ (roots & IH)]; [now exists []|].
  simpl. destruct (li_level it) as [l|]; [|congruence].
  rewrite IH. eexists. reflexivity.
Qed.

Lemma levels_some (its : list list_item) :
  Forall (fun it => li_level it <> None) its ->
  exists ls, levels its = Some ls.
Proof.
  induction 1 as [|it rest Hit _ (ls & IH)]; [now exists []|].
  simpl. destruct (li_level it) as [l|]; [|congruence].
  rewrite IH. eexists. reflexivity.
Qed.

Lemma predominant_some (its : list list_item) :
  Forall (fun it => li_level it <> None) its ->
  exists t, get_predominant_list_type its = Some t.
Proof.
  intros H. unfold get_predominant_list_type.
  destruct (root_items_some H) as ([|r roots] & ->).
  - destruct (most_common (count_types its)); eexists; reflexivity.
  - pose proof (most_common_some (@count_types_nonempty r roots)) as Hm.
    destruct (most_common (count_types (r :: roots))); [|congruence].
    eexists. reflexivity.
Qed.

(** With a level in every collected item, the flush appends the list
    blocks and starts afresh. *)
Lemma flush_effect (st : scan) :
  Forall (fun it => li_level it <> None) (current_list_items st) ->
  flush st
  = Some (if in_list_context st && nonempty (current_list_items st)
          then mk_scan
                 (blocks st
                  ++ map (fun l => ListBlock l None)
                         (process_docx_lists
                            [("current_list", current_list_items st)]))
                 [] None false (previous_element_type st)
                 (previous_block st) (pending_caption st)
                 (image_has_caption st) (element_count st)
          else st).
Proof.
  intros H. unfold flush.
  destruct (in_list_context st && nonempty (current_list_items st));
    [|reflexivity].
  destruct (levels_some H) as (ls & ->).
  destruct (predominant_some H) as (t & Ht).
  destruct (truthy_opt (current_list_type st)) eqn:T.
  - destruct (current_list_type st); [reflexivity|discriminate].
  - now rewrite Ht.
Qed.

Lemma flush_ok (st : scan) :
  scan_ok st -> exists st', flush st = Some st' /\ scan_ok st'.
Proof.
  intros (Hp & Hl & Hb). rewrite (flush_effect _ Hl).
  eexists. split; [reflexivity|].
  destruct (in_list_context st && nonempty (current_list_items st));
    [|now repeat split].
  repeat split; cbn [pending_caption current_list_items
                     previous_element_type previous_block blocks];
    [exact Hp|constructor|].
  intros Hit. destruct (Hb Hit) as (i & Hi & Hlt).
  exists i. split; [exact Hi|]. rewrite List.length_app. lia.
Qed.

(** *** The invariant *)

Lemma update_at_length {A} (f : A -> A) (l : list A) : forall i,
  List.length (update_at i f l) = List.length l.
Proof.
  induction l as [|x t IH]; intros [|i]; simpl; auto.
Qed.

Lemma append_block_ok (b : block) (ty : string) (st : scan) :
  scan_ok st -> scan_ok (append_block b ty st).
Proof.
  intros (Hp & Hl & Hb). repeat split; cbn; [exact Hp|exact Hl|].
  intros _. eexists. split; [reflexivity|].
  rewrite List.length_app. simpl. lia.
Qed.

Lemma caption_previous_ok (i : nat) (c : string) (st : scan) :
  scan_ok st -> scan_ok (caption_previous i c st).
Proof.
  intros (Hp & Hl & Hb). repeat split; cbn; [exact Hp|exact Hl|].
  intros Hit. destruct (Hb Hit) as (j & Hj & Hlt).
  exists j. split; [exact Hj|]. now rewrite update_at_length.
Qed.

Lemma count_element_ok (st : scan) : scan_ok st -> scan_ok (count_element st).
Proof. intros (Hp & Hl & Hb). now repeat split. Qed.

Lemma take_pending_id (st : scan) :
  pending_caption st = None -> take_pending st = st.
Proof. unfold take_pending. now intros ->. Qed.

Lemma add_paragraph_ok (p : paragraph) (st : scan) :
  scan_ok st -> scan_ok (add_paragraph process_docx_image hyperlink_rels p st).
Proof.
  intros H. unfold add_paragraph.
  destruct (process_docx_paragraph _ _ p) as [b|]; [|exact H].
  destruct (String.eqb (block_type b) "image"); now apply append_block_ok.
Qed.

Lemma step_ok (st : scan) (el : element) : scan_ok st -> scan_ok (step st el).
Proof.
  intros H0. pose proof (count_element_ok H0) as H. unfold Body.step.
  set (st1 := count_element st) in *. clearbody st1. clear H0 st.
  destruct el as [[dr|]|p numPr repr|t|d|].
  - destruct (process_docx_image dr); [now apply append_block_ok|exact H].
  - exact H.
  - rewrite (take_pending_id _ (proj1 H)).
    match goal with |- scan_ok (if ?c then _ else _) => destruct c eqn:C end.
    + assert (C' : image_or_table (previous_element_type st1) = true).
      { destruct (image_or_table (previous_element_type st1));
          [reflexivity|simpl in C; discriminate]. }
      pose proof H as (Hp & Hl & Hb). destruct (Hb C') as (i & Hi & Hlt).
      rewrite Hi. now apply caption_previous_ok.
    + destruct (is_list_item (get_paragraph_list_info p numPr repr)).
      * destruct H as (Hp & Hl & Hb). unfold collect_item.
        destruct (if negb (in_list_context st1) then _ else _) as [ctx ty].
        repeat split; cbn; [exact Hp| |discriminate].
        apply Forall_app. split; [exact Hl|].
        constructor; [discriminate|constructor].
      * destruct (flush_ok H) as (st' & -> & H').
        now apply add_paragraph_ok.
  - destruct (flush_ok H) as (st' & -> & H').
    destruct (process_docx_table hyperlink_rels t);
      [now apply append_block_ok|exact H'].
  - destruct (process_docx_image d); [now apply append_block_ok|exact H].
  - exact H.
Qed.

Lemma initial_ok : scan_ok initial.
Proof. repeat split; [constructor|discriminate]. Qed.

Lemma scan_body_ok (body : list element) : forall st,
  scan_ok st -> scan_ok (scan_body body st).
Proof.
  induction body as [|el rest IH]; intros st H; [exact H|].
  simpl. apply IH, step_ok, H.
Qed.

End BodyFacts.

Section BodyTotal.

Import Py Regex Blocks ListEngine ListRender Classifier TableReader Body.
Local Open Scope string_scope.
Local Open Scope list_scope.

Variable process_docx_image : ImageResolver.drawing -> option block.
Variable hyperlink_rels : dict string.

(** X14.  Whatever the body holds, the scan ends with a list of blocks:
    no computation of the type or the least level of a collected list
    raises, in the loop or after it, because every collected item has a
    level.  And no caption is ever left pending: a caption is only looked
    for after an image or a table, and then the previous block is at
    hand, so that the branch that stores a caption for the next element
    is never taken. *)
Theorem body_scan_total (body : list element) :
  let st := fold_left (step process_docx_image hyperlink_rels) body initial in
  pending_caption st = None
  /\ flush st <> None
  /\ Forall (fun it => li_level it <> None) (current_list_items st)
  /\ exists content_blocks,
       process_docx_body process_docx_image hyperlink_rels body
       = Some content_blocks.
Proof.
  cbv zeta.
  pose proof (@scan_body_ok process_docx_image hyperlink_rels body initial
                initial_ok) as H.
  destruct (flush_ok H) as (st' & Hf & _).
  split; [exact (proj1 H)|]. split; [congruence|].
  split; [exact (proj1 (proj2 H))|].
  unfold process_docx_body. rewrite Hf. eexists. reflexivity.
Qed.

End BodyTotal.

Section BodyRuns.

Import Py Regex Blocks ListEngine ListRender Classifier TableReader Body.
Local Open Scope string_scope.
Local Open Scope list_scope.

Variable process_docx_image : ImageResolver.drawing -> option block.
Variable hyperlink_rels : dict string.

Local Abbreviation step := (Body.step process_docx_image hyperlink_rels).

(** *** Blocks are only appended, captions apart *)

Lemma uncaptioned_set_caption (c : string) (bb : body_block) :
  uncaptioned (set_caption c bb) = uncaptioned bb.
Proof. destruct bb as [[]|]; reflexivity. Qed.

Lemma uncaptioned_update_at (c : string) (l : list body_block) : forall i,
  map uncaptioned (update_at i (set_caption c) l) = map uncaptioned l.
Proof.
  induction l as [|x t IH]; intros [|i]; simpl; try reflexivity.
  - now rewrite uncaptioned_set_caption.
  - now rewrite IH.
Qed.

Lemma take_pending_blocks (st : scan) :
  map uncaptioned (blocks (take_pending st)) = map uncaptioned (blocks st).
Proof.
  unfold take_pending. destruct (pending_caption st) as [c|]; [|reflexivity].
  destruct (truthy c); [|reflexivity].
  destruct (previous_block st) as [i|]; [|reflexivity].
  destruct (nth_error (blocks st) i) as [bb|]; [|reflexivity].
  destruct (lacks_caption_key bb); [|reflexivity].
  cbn [set_pending caption_previous blocks]. apply uncaptioned_update_at.
Qed.

Lemma flush_blocks (st st' : scan) :
  flush st = Some st' ->
  exists appended,
    blocks st' = blocks st ++ appended /\ (List.length appended <= 1)%nat.
Proof.
  unfold flush.
  destruct (in_list_context st && nonempty (current_list_items st)).
  - destruct (if truthy_opt (current_list_type st) then _ else _);
      [|discriminate].
    destruct (levels (current_list_items st)); [|discriminate].
    intros [= <-]. cbn [blocks]. eexists. split; [reflexivity|].
    rewrite List.length_map. apply single_key_blocks_length.
  - intros [= <-]. exists []. rewrite app_nil_r. split; [reflexivity|].
    simpl. lia.
Qed.

Lemma step_blocks (st : scan) (el : element) :
  exists appended,
    map uncaptioned (blocks (step st el))
    = map uncaptioned (blocks st) ++ appended
    /\ (List.length appended <= 2)%nat.
Proof.
  assert (Hsame : forall s, blocks s = blocks (count_element st) ->
            exists appended,
              map uncaptioned (blocks s)
              = map uncaptioned (blocks st) ++ appended
              /\ (List.length appended <= 2)%nat).
  { intros s ->. exists []. rewrite app_nil_r. split; [reflexivity|].
    simpl. lia. }
  assert (Happ : forall b ty, exists appended,
            map uncaptioned (blocks (append_block b ty (count_element st)))
            = map uncaptioned (blocks st) ++ appended
            /\ (List.length appended <= 2)%nat).
  { intros b ty. cbn [append_block blocks count_element]. rewrite map_app.
    eexists. split; [reflexivity|]. simpl. lia. }
  unfold Body.step.
  destruct el as [[dr|]|p numPr repr|t|d|].
  - destruct (process_docx_image dr); [apply Happ|now apply Hsame].
  - now apply Hsame.
  - pose proof (take_pending_blocks (count_element st)) as Ht.
    set (st1 := take_pending (count_element st)) in *.
    cbn [count_element blocks] in Ht.
    match goal with
    | |- context [if ?c then _ else _] => destruct c
    end.
    + destruct (previous_block st1) as [i|].
      * cbn [caption_previous blocks]. rewrite uncaptioned_update_at, Ht.
        exists []. rewrite app_nil_r. split; [reflexivity|]. simpl. lia.
      * cbn [set_pending blocks]. rewrite Ht.
        exists []. rewrite app_nil_r. split; [reflexivity|]. simpl. lia.
    + destruct (is_list_item (get_paragraph_list_info p numPr repr)).
      * unfold collect_item.
        destruct (if negb (in_list_context st1) then _ else _) as [ctx ty].
        cbn [blocks]. rewrite Ht.
        exists []. rewrite app_nil_r. split; [reflexivity|]. simpl. lia.
      * destruct (flush st1) as [st2|] eqn:F.
        -- apply flush_blocks in F as (app1 & F & Hlen).
           unfold add_paragraph.
           destruct (process_docx_paragraph _ _ p) as [b|].
           ++ destruct (String.eqb (block_type b) "image");
                cbn [append_block blocks]; rewrite F, !map_app, Ht,
                  <- app_assoc;
                (eexists; split; [reflexivity|]);
                rewrite List.length_app, List.length_map; simpl; lia.
           ++ rewrite F, map_app, Ht. eexists. split; [reflexivity|].
              rewrite List.length_map. lia.
        -- rewrite Ht. exists []. rewrite app_nil_r.
           split; [reflexivity|]. simpl. lia.
  - destruct (flush (count_element st)) as [st2|] eqn:F.
    + apply flush_blocks in F as (app1 & F & Hlen).
      cbn [count_element blocks] in F.
      destruct (process_docx_table hyperlink_rels t) as [b|].
      * cbn [append_block blocks]. rewrite F, !map_app, <- app_assoc.
        eexists. split; [reflexivity|].
        rewrite List.length_app, List.length_map. simpl. lia.
      * rewrite F, map_app. eexists. split; [reflexivity|].
        rewrite List.length_map. lia.
    + now apply Hsame.
  - destruct (process_docx_image d); [apply Happ|now apply Hsame].
  - now apply Hsame.
Qed.

(** *** A run of list paragraphs *)

Lemma in_context_after (p : paragraph) (info : list_info) (st : scan) :
  let st' := collect_item hyperlink_rels p info st in
  in_list_context st' = true
  /\ blocks st' = blocks st
  /\ current_list_items st'
     = current_list_items st
       ++ [mk_list_item (Some (fst (extract_formatted_text hyperlink_rels p)))
                        (Some (info_level info)) (list_type info)
                        (Some (element_count st))]
  /\ pending_caption st' = pending_caption st
  /\ previous_element_type st' = Some "list"
  /\ element_count st' = element_count st.
Proof.
  cbv zeta. unfold collect_item.
  destruct (in_list_context st) eqn:C; cbn [negb].
  - destruct (info_level info =? 0)%Z; cbn; rewrite ?C; now repeat split.
  - cbn. now repeat split.
Qed.

Lemma list_run (els : list element) : forall st,
  Forall (fun el => list_paragraph el = true) els ->
  pending_caption st = None ->
  image_or_table (previous_element_type st) = false ->
  let st' := fold_left step els st in
  blocks st' = blocks st
  /\ current_list_items st'
     = current_list_items st
       ++ items_from hyperlink_rels (element_count st + 1) els
  /\ (els <> [] -> in_list_context st' = true)
  /\ pending_caption st' = None
  /\ image_or_table (previous_element_type st') = false.
Proof.
  induction els as [|el rest IH]; intros st Hall Hp Hprev; cbv zeta.
  - simpl. rewrite app_nil_r. now repeat split.
  - apply Forall_cons_iff in Hall as [Hel Hrest].
    destruct el as [?|p numPr repr|?|?|]; try discriminate.
    cbn [list_paragraph] in Hel.
    assert (Hstep : step st (El_p p numPr repr)
                    = collect_item hyperlink_rels p
                        (get_paragraph_list_info p numPr repr)
                        (count_element st)).
    { unfold Body.step.
      rewrite take_pending_id by exact Hp.
      cbn [count_element previous_element_type]. rewrite Hprev.
      cbn [andb]. now rewrite Hel. }
    cbn [fold_left]. rewrite Hstep.
    destruct (in_context_after p (get_paragraph_list_info p numPr repr)
                (count_element st)) as (C1 & C2 & C3 & C4 & C5 & C6).
    cbv zeta in *.
    set (st1 := collect_item hyperlink_rels p
                  (get_paragraph_list_info p numPr repr) (count_element st))
      in *.
    assert (Hp1 : pending_caption st1 = None) by (rewrite C4; exact Hp).
    assert (Hprev1 : image_or_table (previous_element_type st1) = false)
      by (rewrite C5; reflexivity).
    destruct (IH st1 Hrest Hp1 Hprev1) as (I1 & I2 & I3 & I4 & I5).
    cbv zeta in *.
    split; [rewrite I1, C2; reflexivity|].
    split.
    { rewrite I2, C3, C6. cbn [count_element current_list_items element_count
                                items_from item_of].
      now rewrite <- app_assoc. }
    split; [|now split].
    intros _. destruct rest as [|el' rest']; [exact C1|].
    apply I3. discriminate.
Qed.

(** *** Captions *)

Lemma is_caption_style (p : paragraph) (previous_element_type : option string) :
  image_or_table previous_element_type = true ->
  is_caption_paragraph p (style_name p) previous_element_type
  = caption_style p.
Proof.
  intros H. unfold is_caption_paragraph, caption_style.
  destruct (style_name p) as [sn|]; [|reflexivity]. cbn [truthy_opt].
  destruct (truthy sn); [|reflexivity]. cbn [negb andb]. rewrite H.
  now destruct (contains "caption" (lower sn) || contains "popisek" (lower sn)).
Qed.

Lemma set_caption_twice (c1 c2 : string) (bb : body_block) :
  set_caption c2 (set_caption c1 bb) = set_caption c2 bb.
Proof. destruct bb as [[]|]; reflexivity. Qed.

(** After a table, every caption paragraph in a row is assigned to the
    table block in turn. *)
Lemma table_caption_run (caps : list element) : forall st bb,
  Forall (fun el => caption_paragraph el = true) caps ->
  blocks st = [bb] ->
  previous_element_type st = Some "table" ->
  previous_block st = Some 0%nat ->
  pending_caption st = None ->
  in_list_context st = false ->
  let st' := fold_left step caps st in
  blocks st'
  = [fold_left (fun b el => set_caption (extracted hyperlink_rels el) b)
               caps bb]
  /\ in_list_context st' = false.
Proof.
  induction caps as [|el rest IH]; intros st bb Hall Hb Ht Hpb Hp Hc;
    cbv zeta; [now split|].
  apply Forall_cons_iff in Hall as [Hel Hrest].
  destruct el as [?|p numPr repr|?|?|]; try discriminate.
  cbn [caption_paragraph] in Hel.
  assert (Hstep : step st (El_p p numPr repr)
                  = caption_previous 0
                      (fst (extract_formatted_text hyperlink_rels p))
                      (count_element st)).
  { unfold Body.step. rewrite take_pending_id by exact Hp.
    cbn [count_element previous_element_type previous_block
         image_has_caption]. rewrite Ht, Hpb.
    cbn [image_or_table opt_string_is String.eqb Ascii.eqb Bool.eqb andb orb
         negb].
    rewrite is_caption_style by reflexivity. now rewrite Hel. }
  cbn [fold_left]. rewrite Hstep.
  apply IH; try assumption; cbn; rewrite ?Hb; auto.
Qed.

End BodyRuns.

Section BodyTheorems.

Import Py Regex Blocks ListEngine ListRender Classifier TableReader Body.
Local Open Scope string_scope.
Local Open Scope list_scope.

Variable process_docx_image : ImageResolver.drawing -> option block.
Variable hyperlink_rels : dict string.

Local Abbreviation step := (Body.step process_docx_image hyperlink_rels).
Local Abbreviation process_docx_body :=
  (Body.process_docx_body process_docx_image hyperlink_rels).

(** X15.  The scan never removes, reorders or replaces a block it has
    emitted: going on with more elements extends the list of blocks, the
    captions apart, and each element adds at most two blocks (the block
    of a collected list and its own). *)
Theorem emitted_blocks_stay (body more : list element) :
  exists appended,
    map uncaptioned (blocks (fold_left step (body ++ more) initial))
    = map uncaptioned (blocks (fold_left step body initial)) ++ appended
    /\ (List.length appended <= 2 * List.length more)%nat.
Proof.
  rewrite fold_left_app. generalize (fold_left step body initial).
  induction more as [|el rest IH]; intros st.
  - exists []. rewrite app_nil_r. split; [reflexivity|]. simpl. lia.
  - cbn [fold_left].
    destruct (IH (step st el)) as (app2 & H2 & L2).
    destruct (@step_blocks process_docx_image hyperlink_rels st el)
      as (app1 & H1 & L1).
    exists (app1 ++ app2). rewrite H2, H1, <- app_assoc.
    split; [reflexivity|]. rewrite List.length_app. simpl. lia.
Qed.

(** X16.  A run of list paragraphs is emitted as one list block when a
    table ends it, before the table block.  A drawing that is a child of
    the body does not end the run: its image block is emitted at once and
    the list block comes after it, although the list stands first in the
    document. *)
Theorem drawing_overtakes_list
  (els : list element) (d : ImageResolver.drawing) (image_block : block)
  (t : tbl) (table_block : block) :
  els <> [] ->
  Forall (fun el => list_paragraph el = true) els ->
  process_docx_image d = Some image_block ->
  process_docx_table hyperlink_rels t = Some table_block ->
  exists lb,
    process_docx_lists [("current_list", items_from hyperlink_rels 1 els)]
    = [lb]
    /\ process_docx_body (els ++ [El_tbl t])
       = Some [ListBlock lb None; Parsed table_block None]
    /\ process_docx_body (els ++ [El_drawing d])
       = Some [Parsed image_block None; ListBlock lb None].
Proof.
  intros Hne Hall Himg Htab.
  destruct (@list_run process_docx_image hyperlink_rels els initial Hall
              eq_refl eq_refl) as (R1 & R2 & R3 & R4 & R5).
  cbv zeta in *. specialize (R3 Hne).
  pose proof (@scan_body_ok process_docx_image hyperlink_rels els initial
                initial_ok) as Hok.
  set (st := fold_left step els initial) in *.
  cbn [initial blocks current_list_items element_count app] in R1, R2.
  change (0 + 1)%Z with 1%Z in R2.
  pose proof (single_key_blocks "current_list"
                (items_from hyperlink_rels 1 els)) as Hone.
  destruct (items_from hyperlink_rels 1 els) as [|it its] eqn:Eits.
  { destruct els; [congruence|discriminate]. }
  destruct Hone as (lb & Hlb). exists lb. split; [exact Hlb|].
  assert (Hflush : forall s,
            current_list_items s = it :: its ->
            in_list_context s = true ->
            flush s
            = Some (mk_scan (blocks s ++ [ListBlock lb None]) [] None false
                            (previous_element_type s) (previous_block s)
                            (pending_caption s) (image_has_caption s)
                            (element_count s))).
  { intros s Hits Hctx. rewrite flush_effect.
    - rewrite Hctx, Hits. cbn [andb nonempty]. now rewrite Hlb.
    - rewrite Hits, <- R2. exact (proj1 (proj2 Hok)). }
  split.
  - unfold Body.process_docx_body. rewrite fold_left_app. cbn [fold_left].
    fold st. unfold Body.step.
    rewrite (Hflush (count_element st)); [|exact R2|exact R3].
    rewrite Htab. cbn [count_element append_block flush in_list_context
                       andb blocks]. rewrite R1. reflexivity.
  - unfold Body.process_docx_body. rewrite fold_left_app. cbn [fold_left].
    fold st. unfold Body.step. rewrite Himg.
    rewrite (Hflush (append_block image_block "image" (count_element st)));
      [|exact R2|exact R3].
    cbn [count_element append_block blocks]. rewrite R1. reflexivity.
Qed.

(** X17.  After a table every caption paragraph in a row is taken as its
    caption, so the table block ends up with the text of the last one and
    none of them becomes a block.  After an image only the first caption
    paragraph is taken: the paragraph after it goes through the list
    detection and the classifier as any other, whatever its style. *)
Theorem captions_after_table_and_image
  (t : tbl) (table_block : block) (caps : list element)
  (d : ImageResolver.drawing) (image_block : block)
  (cap : element) (p : paragraph) (repr : string) :
  process_docx_table hyperlink_rels t = Some table_block ->
  process_docx_image d = Some image_block ->
  Forall (fun el => caption_paragraph el = true) caps ->
  caption_paragraph cap = true ->
  process_docx_body (El_tbl t :: caps)
  = Some [fold_left (fun b el => set_caption (extracted hyperlink_rels el) b)
                    caps (Parsed table_block None)]
  /\ process_docx_body [El_drawing d; cap; El_p p None repr]
     = Some (set_caption (extracted hyperlink_rels cap)
                         (Parsed image_block None)
             :: match process_docx_paragraph process_docx_image
                        hyperlink_rels p with
                | Some b => [Parsed b None]
                | None => []
                end).
Proof.
  intros Htab Himg Hcaps Hcap. split.
  - unfold Body.process_docx_body. cbn [fold_left].
    assert (Hfirst : step initial (El_tbl t)
                     = append_block table_block "table"
                                    (count_element initial)).
    { unfold Body.step. cbn [flush count_element initial in_list_context
                             andb]. now rewrite Htab. }
    rewrite Hfirst.
    destruct (@table_caption_run process_docx_image hyperlink_rels caps
                (append_block table_block "table" (count_element initial))
                (Parsed table_block None) Hcaps eq_refl eq_refl eq_refl
                eq_refl eq_refl) as (B & C).
    cbv zeta in *. unfold flush. rewrite C. cbn [andb]. now rewrite B.
  - destruct cap as [?|pc numPr reprc|?|?|]; try discriminate.
    cbn [caption_paragraph] in Hcap.
    unfold Body.process_docx_body. cbn [fold_left].
    unfold Body.step at 3. rewrite Himg.
    unfold Body.step at 2.
    rewrite take_pending_id by reflexivity.
    cbn [count_element append_block initial previous_element_type
         previous_block image_has_caption blocks String.eqb Ascii.eqb
         Bool.eqb image_or_table opt_string_is andb orb negb].
    rewrite is_caption_style by reflexivity. rewrite Hcap.
    unfold Body.step.
    rewrite take_pending_id by reflexivity.
    cbn [count_element caption_previous previous_element_type
         previous_block image_has_caption blocks String.eqb Ascii.eqb
         Bool.eqb image_or_table opt_string_is andb orb negb
         get_paragraph_list_info is_list_item flush in_list_context
         current_list_items app length update_at extracted].
    unfold add_paragraph.
    destruct (process_docx_paragraph process_docx_image hyperlink_rels p)
      as [b|]; [|reflexivity].
    destruct (String.eqb (block_type b) "image"); reflexivity.
Qed.

End BodyTheorems.

Section BodyExamples.

Import Py Regex Blocks ListEngine ListRender Classifier TableReader Body.
Local Open Scope string_scope.
Local Open Scope list_scope.

(** Two list paragraphs, then a table or a drawing. *)
Lemma drawing_overtakes_list_witness :
  exists lb,
    process_docx_lists
      [("current_list", items_from [] 1 [bullet "a"; bullet "b"])] = [lb]
    /\ process_docx_body
         (fun _ => Some (Image "i.png" None None None None)) []
         ([bullet "a"; bullet "b"] ++ [El_tbl small_table])
       = Some [ListBlock lb None;
               Parsed (Table [[("a" ++ String newline "" ++ "b")%string; ""]] None)
                      None]
    /\ process_docx_body
         (fun _ => Some (Image "i.png" None None None None)) []
         ([bullet "a"; bullet "b"]
          ++ [El_drawing (ImageResolver.mk_drawing false None)])
       = Some [Parsed (Image "i.png" None None None None) None;
               ListBlock lb None].
Proof.
  apply (@drawing_overtakes_list
           (fun _ => Some (Image "i.png" None None None None)) []
           [bullet "a"; bullet "b"] (ImageResolver.mk_drawing false None)
           (Image "i.png" None None None None) small_table
           (Table [[("a" ++ String newline "" ++ "b")%string; ""]] None)).
  - discriminate.
  - constructor; [reflexivity|]. constructor; [reflexivity|constructor].
  - reflexivity.
  - reflexivity.
Defined.

(** Two captions after a table, and two paragraphs after an image. *)
Lemma captions_after_table_and_image_witness :
  process_docx_body (fun _ => Some (Image "i.png" None None None None)) []
    [El_tbl small_table; captioned "one"; captioned "two"]
  = Some [Parsed (Table [[("a" ++ String newline "" ++ "b")%string; ""]] (Some "two"))
                 None]
  /\ process_docx_body (fun _ => Some (Image "i.png" None None None None)) []
       [El_drawing (ImageResolver.mk_drawing false None); captioned "one";
        captioned "two"]
     = Some [Parsed (Image "i.png" (Some "one") None None None) None;
             Parsed (Text "paragraph" "two" None None) None].
Proof.
  apply (@captions_after_table_and_image
           (fun _ => Some (Image "i.png" None None None None)) []
           small_table
           (Table [[("a" ++ String newline "" ++ "b")%string; ""]] None)
           [captioned "one"; captioned "two"]
           (ImageResolver.mk_drawing false None)
           (Image "i.png" None None None None) (captioned "one")
           (mk_paragraph (Some (Some "Caption")) None None None false
              [mk_run false false false false None None [Some "two"] false
                      None None])
           "").
  - reflexivity.
  - reflexivity.
  - constructor; [reflexivity|]. constructor; [reflexivity|constructor].
  - reflexivity.
Defined.

End BodyExamples.

(* ------------------------------------------------------------------ *)
(** ** Phase 2 on a placeholder *)

Section PatchFacts.

Import Py Blocks Publish.
Local Open Scope string_scope.
Local Open Scope list_scope.

Lemma dict_set_twice {V} (d : dict V) (k : string) (v1 v2 : V) :
  dict_set k v2 (dict_set k v1 d) = dict_set k v2 d.
Proof.
  induction d as [|[k' v'] t IH]; simpl.
  - now rewrite String.eqb_refl.
  - destruct (String.eqb k k') eqn:E; simpl; rewrite E; [reflexivity|].
    now rewrite IH.
Qed.

Lemma not_empty_content (t : string) :
  is_empty_content t = false ->
  negb (truthy t) || String.eqb (strip t) "" = false.
Proof.
  unfold is_empty_content. intros H.
  apply orb_false_iff in H as [H _]. exact H.
Qed.

Lemma set_data_on (k : string) (v : json) (nd : node) (data : dict json) :
  dict_get "data" nd = Some (JDict data) ->
  set_data k v nd = (dict_set "data" (JDict (dict_set k v data)) nd, Some tt).
Proof.
  intros H. unfold set_data, bind, get_node, lift, put_node.
  rewrite H. reflexivity.
Qed.

End PatchFacts.

Section PatchTheorem.

Import Py Blocks Publish.
Local Open Scope string_scope.
Local Open Scope list_scope.

(** X18.  A text node that shows a placeholder marker and is tracked by a
    text block with content gets exactly the tracked text (the
    replacement of a blank text by one space never applies there), and
    the text alignment when the block's alignment is one of [center],
    [right], [justify] and [left]; nothing else of the node changes and
    one replacement is counted.  The number in the marker is not read:
    the block is found by the id of the node. *)
Theorem placeholder_text_replaced
  (tracked_blocks : dict block) (node_id : string) (nd : node)
  (data : dict json) (marker ty t : string) (a d : option string) :
  node_type_is nd "text" = true ->
  dict_get "data" nd = Some (JDict data) ->
  dict_get "text" data = Some (JStr marker) ->
  startswith marker "PLACEHOLDER_TEXT_" = true ->
  dict_get node_id tracked_blocks = Some (Text ty t a d) ->
  is_empty_content t = false ->
  let with_text := dict_set "text" (JStr t) data in
  let with_alignment :=
    match (match a with
           | Some al => if truthy al then dict_get al alignment_map else None
           | None => None
           end) with
    | Some v => dict_set "textAlignment" (JStr v) with_text
    | None => with_text
    end in
  update_node tracked_blocks node_id nd
  = (dict_set "data" (JDict with_alignment) nd, Some (Next 1)).
Proof.
  intros Hty Hdata Htext Hmark Htr Hne. cbv zeta.
  assert (Hm1 : dict_mem "data" nd = true)
    by (unfold dict_mem; now rewrite Hdata).
  assert (Hm2 : dict_mem "text" data = true)
    by (unfold dict_mem; now rewrite Htext).
  unfold update_node, bind, get_node, lift, ret. rewrite Hty, Htr, Hm1.
  cbn [andb]. rewrite Hdata. cbn beta iota. cbn [py_in]. rewrite Hm2.
  unfold patch_text, get_data, bind, get_node, lift, ret. rewrite Hdata.
  cbn beta iota. cbn [py_getitem]. rewrite Htext. cbn beta iota.
  rewrite Hmark, Hne, (@not_empty_content t Hne).
  rewrite (@set_data_on "text" (JStr t) nd data Hdata).
  assert (Hd1 : dict_get "data"
                  (dict_set "data" (JDict (dict_set "text" (JStr t) data)) nd)
                = Some (JDict (dict_set "text" (JStr t) data)))
    by apply dict_get_set_same.
  destruct a as [al|]; [destruct (truthy al)|].
  - destruct (dict_get al alignment_map) as [v|].
    + rewrite (@set_data_on "textAlignment" (JStr v) _ _ Hd1).
      now rewrite dict_set_twice.
    + reflexivity.
  - reflexivity.
  - reflexivity.
Qed.

(** A centred paragraph behind its marker. *)
Lemma placeholder_text_replaced_witness :
  update_node [("n-1", Text "paragraph" "Hello" (Some "center") None)] "n-1"
    [("type", JStr "text");
     ("data", JDict [("text", JStr "PLACEHOLDER_TEXT_7")])]
  = ([("type", JStr "text");
      ("data", JDict [("text", JStr "Hello");
                      ("textAlignment", JStr "center")])],
     Some (Next 1)).
Proof.
  exact (@placeholder_text_replaced
           [("n-1", Text "paragraph" "Hello" (Some "center") None)] "n-1"
           [("type", JStr "text");
            ("data", JDict [("text", JStr "PLACEHOLDER_TEXT_7")])]
           [("text", JStr "PLACEHOLDER_TEXT_7")] "PLACEHOLDER_TEXT_7"
           "paragraph" "Hello" (Some "center") None
           eq_refl eq_refl eq_refl eq_refl eq_refl eq_refl).
Defined.

End PatchTheorem.

(* ------------------------------------------------------------------ *)
(** ** What Phase 1 tracks *)

Section TrackingFacts.

Import Py Blocks Publish.
Local Open Scope string_scope.
Local Open Scope list_scope.

Variable node_id_of : nat -> string.
Variable extract_image_dimensions : string -> option (Z * Z).
Hypothesis node_id_inj : forall n m, node_id_of n = node_id_of m -> n = m.

Local Abbreviation add_block :=
  (add_content_block node_id_of extract_image_dimensions).
Local Abbreviation add_blocks :=
  (add_content_blocks node_id_of extract_image_dimensions).
Local Abbreviation stored b :=
  (match b with
   | Text ty t a _ => Text ty t a None
   | Image path caption display fa dims =>
       Image path caption display fa
             (match extract_image_dimensions path with
              | Some wh => Some wh
              | None => dims
              end)
   | _ => b
   end).
Local Abbreviation kept bs := (filter (fun b => negb (skipped b)) bs).

Lemma placeholder_key_inj (b b' : block) (i j : nat) :
  placeholder_key (block_type b) i = placeholder_key (block_type b') j ->
  i = j.
Proof.
  unfold placeholder_key.
  destruct b, b'; simpl; intros H; try discriminate.
  - apply (append_inj_l "text_") in H. now apply str_of_nat_inj.
  - apply (append_inj_l "image_") in H. now apply str_of_nat_inj.
  - apply (append_inj_l "table_") in H. now apply str_of_nat_inj.
  - apply (append_inj_l "code_") in H. now apply str_of_nat_inj.
  - apply (append_inj_l "separator_") in H. now apply str_of_nat_inj.
Qed.

Lemma placeholder_key_not_description (b : block) (i : nat) :
  placeholder_key (block_type b) i <> "description".
Proof. unfold placeholder_key. destruct b; simpl; discriminate. Qed.

(** The step of the loop for a block that is not skipped. *)
Lemma add_block_tracks (i : nat) (b : block) (st : phase1) :
  skipped b = false ->
  let node_id := node_id_of (List.length (story st)) in
  (exists c, story (add_block i b st) = story st ++ [(node_id, c)])
  /\ placeholder_ids (add_block i b st)
     = dict_set (placeholder_key (block_type b) i) node_id
                (placeholder_ids st)
  /\ parsed_blocks (add_block i b st)
     = dict_set node_id (stored b) (parsed_blocks st).
Proof.
  intros Hs. cbv zeta.
  unfold add_content_block, add_text_block, add_image_block, add_table_block,
    add_code_block, add_separator_block, add_node.
  destruct b as [ty txt al dt|path cap disp fa dims|rows cap|code lang|];
    cbn beta iota.
  - simpl in Hs. rewrite Hs. cbn. split; [eexists; reflexivity|now split].
  - cbn. split; [eexists; reflexivity|now split].
  - cbn. split; [eexists; reflexivity|now split].
  - cbn. split; [eexists; reflexivity|now split].
  - cbn. split; [eexists; reflexivity|now split].
Qed.

Lemma add_block_skipped (i : nat) (b : block) (st : phase1) :
  skipped b = true -> add_block i b st = st.
Proof.
  intros Hs. pose proof (add_block_effect node_id_of extract_image_dimensions
                           i b st) as H.
  now rewrite Hs in H.
Qed.

(** What is tracked stays tracked while the loop goes on. *)
Lemma add_blocks_keep (bs : list block) : forall n st k v id blk,
  dict_get k (placeholder_ids st) = Some v ->
  (forall b j, (n <= j)%nat -> k <> placeholder_key (block_type b) j) ->
  dict_get id (parsed_blocks st) = Some blk ->
  (forall m, (List.length (story st) <= m)%nat -> id <> node_id_of m) ->
  dict_get k (placeholder_ids (add_blocks n bs st)) = Some v
  /\ dict_get id (parsed_blocks (add_blocks n bs st)) = Some blk.
Proof.
  induction bs as [|b rest IH]; intros n st k v id blk Hk Hfk Hid Hfid;
    [now split|].
  cbn [add_content_blocks].
  destruct (skipped b) eqn:Hs.
  - rewrite add_block_skipped by exact Hs.
    apply IH; auto. intros b' j Hj. apply Hfk. lia.
  - destruct (@add_block_tracks n _ st Hs) as ((c & Hst) & Hpi & Hpb).
    cbv zeta in *.
    apply IH.
    + rewrite Hpi, dict_get_set.
      destruct (String.eqb k (placeholder_key (block_type b) n)) eqn:E;
        [|exact Hk].
      apply String.eqb_eq in E. exfalso. now apply (Hfk b n (le_n n)).
    + intros b' j Hj. apply Hfk. lia.
    + rewrite Hpb, dict_get_set.
      destruct (String.eqb id (node_id_of (List.length (story st)))) eqn:E;
        [|exact Hid].
      apply String.eqb_eq in E. exfalso.
      now apply (Hfid (List.length (story st)) (le_n _)).
    + intros m Hm. apply Hfid. rewrite Hst, List.length_app in Hm.
      simpl in Hm. lia.
Qed.

Lemma add_blocks_round_trip (bs : list block) : forall n st i b,
  nth_error bs i = Some b -> skipped b = false ->
  let m := (List.length (story st) + List.length (kept (firstn i bs)))%nat in
  dict_get (placeholder_key (block_type b) (n + i))
           (placeholder_ids (add_blocks n bs st))
  = Some (node_id_of m)
  /\ dict_get (node_id_of m) (parsed_blocks (add_blocks n bs st))
     = Some (stored b).
Proof.
  induction bs as [|b0 rest IH]; intros n st i b Hnth Hs;
    [destruct i; discriminate|].
  cbn [add_content_blocks]. destruct i as [|i].
  - injection Hnth as ->. cbn [firstn filter List.length].
    rewrite !Nat.add_0_r.
    destruct (@add_block_tracks n _ st Hs) as ((c & Hst) & Hpi & Hpb).
    cbv zeta in *.
    apply add_blocks_keep.
    + rewrite Hpi. apply dict_get_set_same.
    + intros b' j Hj E. apply placeholder_key_inj in E. lia.
    + rewrite Hpb. apply dict_get_set_same.
    + intros m Hm E. apply node_id_inj in E.
      rewrite Hst, List.length_app in Hm. simpl in Hm. lia.
  - cbn [nth_error] in Hnth. cbn [firstn filter].
    destruct (IH (S n) (add_block n b0 st) i b Hnth Hs) as [H1 H2].
    cbv zeta in *.
    replace (n + S i)%nat with (S n + i)%nat by lia.
    assert (Hlen : (List.length (story (add_block n b0 st))
                    + List.length (kept (firstn i rest))
                    = List.length (story st)
                      + List.length
                          (if negb (skipped b0)
                           then b0 :: kept (firstn i rest)
                           else kept (firstn i rest)))%nat).
    { destruct (skipped b0) eqn:Hs0.
      - rewrite add_block_skipped by exact Hs0. reflexivity.
      - destruct (@add_block_tracks n _ st Hs0) as ((c & Hst) & _).
        rewrite Hst, List.length_app. simpl. lia. }
    rewrite <- Hlen. now split.
Qed.

End TrackingFacts.

Section TrackingTheorem.

Import Py Blocks Publish.
Local Open Scope string_scope.
Local Open Scope list_scope.

Variable node_id_of : nat -> string.
Variable extract_image_dimensions : string -> option (Z * Z).

(** X19.  When the platform gives every node an id of its own, each
    content block that Phase 1 does not pass over can be found again at
    the end: its placeholder key leads to the id of its node, which is
    the id given to the node at the block's rank among the blocks not
    passed over (after the description, if there is one), and that id
    leads to the block as Phase 1 stored it (a text block without its
    [data], an image block with the dimensions read from its file). *)
Theorem tracked_blocks_round_trip
  (cover_dimensions : option (Z * Z)) (description : string)
  (content_blocks : list block) (i : nat) (b : block) :
  (forall n m, node_id_of n = node_id_of m -> n = m) ->
  nth_error content_blocks i = Some b ->
  skipped b = false ->
  let result := create_storymap node_id_of extract_image_dimensions
                                cover_dimensions description content_blocks in
  let rank :=
    ((if truthy description then 1 else 0)
     + List.length (filter (fun b => negb (skipped b))
                           (firstn i content_blocks)))%nat in
  dict_get (placeholder_key (block_type b) i) (placeholder_ids result)
  = Some (node_id_of rank)
  /\ dict_get (node_id_of rank) (parsed_blocks result)
     = Some (match b with
             | Text ty t a _ => Text ty t a None
             | Image path caption display fa dims =>
                 Image path caption display fa
                       (match extract_image_dimensions path with
                        | Some wh => Some wh
                        | None => dims
                        end)
             | _ => b
             end).
Proof.
  intros Hinj Hnth Hs. cbv zeta. unfold create_storymap.
  match goal with
  | |- context [add_content_blocks _ _ 0 content_blocks ?s] =>
      pose proof (@add_blocks_round_trip node_id_of extract_image_dimensions
                    Hinj content_blocks 0%nat s i b Hnth Hs) as H
  end.
  cbv zeta in H. cbn [Nat.add] in H.
  destruct (truthy description); exact H.
Qed.

End TrackingTheorem.

Section TrackingExamples.

Import Py Blocks Publish.
Local Open Scope string_scope.
Local Open Scope list_scope.

Lemma numbered_inj (n m : nat) : numbered n = numbered m -> n = m.
Proof.
  unfold numbered. intros H. apply (append_inj_l "n-") in H.
  now apply str_of_nat_inj.
Qed.

(** A heading after a blank paragraph and a description. *)
Lemma tracked_blocks_round_trip_witness :
  let result :=
    create_storymap numbered (fun _ => None) None "About"
      [Text "paragraph" " " None None; Text "h2" "Title" None None] in
  dict_get "text_1" (placeholder_ids result) = Some "n-1"
  /\ dict_get "n-1" (parsed_blocks result)
     = Some (Text "h2" "Title" None None).
Proof.
  exact (@tracked_blocks_round_trip numbered (fun _ => None) None "About"
           [Text "paragraph" " " None None; Text "h2" "Title" None None]
           1%nat (Text "h2" "Title" None None) numbered_inj eq_refl eq_refl).
Defined.

End TrackingExamples.

(* ------------------------------------------------------------------ *)
(** ** Image dimensions in the resources *)

Section ResourcesFacts.

Import Py Blocks Publish Resources.
Local Open Scope string_scope.
Local Open Scope list_scope.

Variable parsed_blocks : dict block.

Lemma is_str_eq (k : string) (j : json) : is_str k j = true -> j = JStr k.
Proof.
  destruct j; simpl; try discriminate. intros H.
  apply String.eqb_eq in H. now subst.
Qed.

Lemma find_dimensions_shows (resource_id : string) (nodes : dict node)
      (dimensions : Z * Z) :
  find_dimensions parsed_blocks resource_id nodes = Some (Some dimensions) ->
  shows parsed_blocks nodes resource_id dimensions.
Proof.
  induction nodes as [|[node_id nd] rest IH]; [discriminate|].
  assert (Hrest : find_dimensions parsed_blocks resource_id rest
                  = Some (Some dimensions) ->
                  shows parsed_blocks ((node_id, nd) :: rest) resource_id
                        dimensions).
  { intros H. destruct (IH H) as (i & n & dt & p & c & ds & fa & Hin & Hr).
    exists i, n, dt, p, c, ds, fa. split; [now right|exact Hr]. }
  cbn [find_dimensions].
  destruct (node_type_is nd "image") eqn:Ty; cbn [andb]; [|exact Hrest].
  destruct (dict_mem "data" nd); [|exact Hrest].
  destruct (dict_get "data" nd) as [data|] eqn:Ed; [|exact Hrest].
  destruct (py_in "image" data) as [[|]|]; [|exact Hrest|discriminate].
  destruct (py_getitem "image" data) as [image_ref|] eqn:Eg; [|discriminate].
  destruct (is_str resource_id image_ref) eqn:Es; [|exact Hrest].
  apply is_str_eq in Es. subst image_ref.
  destruct data as [| | | | |d]; try discriminate. cbn [py_getitem] in Eg.
  destruct (dict_get node_id parsed_blocks) as [[| p c ds fa [wh|] | | |]|]
    eqn:Eb; try exact Hrest.
  intros [= <-].
  exists node_id, nd, d, p, c, ds, fa. split; [now left|]. now repeat split.
Qed.

Lemma update_resource_cases (nodes : dict node) (resource_id : string)
      (resource resource' : dict json) (n : nat) :
  update_resource parsed_blocks nodes resource_id resource
  = Some (resource', n) ->
  (resource' = resource /\ n = 0%nat)
  \/ (n = 1%nat /\ node_type_is resource "image" = true
      /\ exists dimensions,
           shows parsed_blocks nodes resource_id dimensions
           /\ sized dimensions resource resource').
Proof.
  unfold update_resource.
  destruct (node_type_is resource "image") eqn:Ty; cbn [andb];
    [|intros [= <- <-]; now left].
  destruct (dict_mem "data" resource); [|intros [= <- <-]; now left].
  destruct (dict_get "data" resource) as [data|] eqn:Ed;
    [|intros [= <- <-]; now left].
  destruct (py_in "resourceId" data) as [[|]|];
    [|intros [= <- <-]; now left|discriminate].
  destruct data as [| | | | |d]; try discriminate.
  destruct (find_dimensions parsed_blocks resource_id nodes)
    as [[[w h]|]|] eqn:Ef; [|intros [= <- <-]; now left|discriminate].
  cbn [py_setitem]. intros [= <- <-]. right.
  split; [reflexivity|]. split; [reflexivity|].
  exists (w, h). split; [now apply find_dimensions_shows|].
  exists d. now split.
Qed.

Lemma update_resources_frame (nodes : dict node)
      (resources : dict (dict json)) : forall images_updated resources' total,
  update_resources parsed_blocks nodes resources images_updated
  = Some (resources', total) ->
  (images_updated <= total)%nat
  /\ (total - images_updated
      <= List.length (filter (fun e => node_type_is (snd e) "image")
                             resources))%nat
  /\ Forall2 (fun e e' =>
                fst e' = fst e
                /\ (snd e' = snd e
                    \/ exists dimensions,
                         shows parsed_blocks nodes (fst e) dimensions
                         /\ sized dimensions (snd e) (snd e')))
             resources resources'.
Proof.
  induction resources as [|[resource_id resource] rest IH];
    intros images_updated resources' total.
  - intros [= <- <-]. split; [lia|]. split; [simpl; lia|constructor].
  - cbn [update_resources].
    destruct (update_resource parsed_blocks nodes resource_id resource)
      as [[resource1 n]|] eqn:E; [|discriminate].
    destruct (update_resources parsed_blocks nodes rest (images_updated + n))
      as [[rest' total']|] eqn:Er; [|discriminate].
    intros [= <- <-]. destruct (IH _ _ _ Er) as (H1 & H2 & H3).
    apply update_resource_cases in E as [[-> ->]|(-> & Ty & dims & Hs & Hz)].
    + cbn [filter snd]. split; [lia|]. split.
      * destruct (node_type_is resource "image"); simpl; lia.
      * constructor; [|exact H3]. split; [reflexivity|now left].
    + cbn [filter snd]. rewrite Ty. split; [lia|]. split; [simpl; lia|].
      constructor; [|exact H3]. split; [reflexivity|]. right. now exists dims.
Qed.

End ResourcesFacts.

Section ResourcesTheorem.

Import Py Blocks Publish Resources.
Local Open Scope string_scope.
Local Open Scope list_scope.

(** X20.  When the update of the image dimensions returns, the resources
    have the same ids in the same order; each resource is as it was or
    has, in its data, the width and height tracked for an image node that
    refers to it; and the number of updates it reports is at most the
    number of image resources, each being updated at most once. *)
Theorem dimensions_update_frame
  (nodes : dict node) (resources resources' : dict (dict json))
  (parsed_blocks : dict block) (images_updated : nat) :
  update_image_dimensions nodes resources parsed_blocks
  = Some (resources', images_updated) ->
  keys resources' = keys resources
  /\ (images_updated
      <= List.length (filter (fun e => node_type_is (snd e) "image")
                             resources))%nat
  /\ Forall2 (fun e e' =>
                snd e' = snd e
                \/ exists dimensions,
                     shows parsed_blocks nodes (fst e) dimensions
                     /\ sized dimensions (snd e) (snd e'))
             resources resources'.
Proof.
  unfold update_image_dimensions. intros H.
  apply update_resources_frame in H as (_ & H2 & H3).
  split; [|split].
  - unfold keys. clear H2. induction H3 as [|e e' l l' [He _] _ IH];
      [reflexivity|]. simpl. now rewrite He, IH.
  - lia.
  - eapply Forall2_impl; [|exact H3]. intros e e' [_ H]. exact H.
Qed.

(** One image resource that takes the size of the tracked image. *)
Lemma dimensions_update_frame_witness :
  update_image_dimensions photo_nodes photo_resources photo_blocks
  = Some ([("r-1", [("type", JStr "image");
                    ("data", JDict [("resourceId", JStr "photo.png");
                                    ("width", JNum 640);
                                    ("height", JNum 480)])])],
          1%nat)
  /\ (1 <= List.length (filter (fun e => node_type_is (snd e) "image")
                               photo_resources))%nat.
Proof.
  split; [reflexivity|].
  exact (proj1 (proj2 (@dimensions_update_frame photo_nodes photo_resources
                         _ photo_blocks 1%nat eq_refl))).
Defined.

End ResourcesTheorem.

(* ------------------------------------------------------------------ *)
(** ** File names for the debug output *)

Section SafeNameFacts.

Import Py Regex SafeName.
Local Open Scope string_scope.

Lemma lit_no_flags (a c : ascii) : lit_matches no_flags a c = Ascii.eqb a c.
Proof. unfold lit_matches. simpl. apply orb_false_r. Qed.

Lemma loop_underscores (fuel : nat) : forall u p,
  (String.length u < fuel)%nat ->
  (fix loop (fuel : nat) (prev : option ascii) (s : string) {struct fuel}
     : option string :=
     match fuel with
     | O => Some s
     | S fuel' =>
         or_else
           (run no_flags (Lit "_") prev s
                (fun p t => if (String.length t <? String.length s)%nat
                            then loop fuel' p t else None))
           (Some s)
     end) fuel p u
  = Some (drop_underscores u).
Proof.
  induction fuel as [|fuel IH]; intros u p H; [lia|].
  destruct u as [|a t]; [reflexivity|].
  cbn [run drop_underscores]. rewrite lit_no_flags.
  destruct (Ascii.eqb a "_"); [|reflexivity].
  assert (L : (String.length t <? String.length (String a t))%nat = true)
    by (apply Nat.ltb_lt; simpl; lia).
  rewrite L. rewrite IH by (simpl in H; lia). reflexivity.
Qed.

Lemma star_underscores (u : string) (p : option ascii) :
  run no_flags (Star true (Lit "_")) p u (fun _ t => Some t)
  = Some (drop_underscores u).
Proof. exact (@loop_underscores (S (String.length u)) u p (Nat.lt_succ_diag_r _)). Qed.

Lemma match_underscores (prev : option ascii) (s : string) :
  match_here no_flags underscores prev s
  = match s with
    | String a (String b u) =>
        if Ascii.eqb a "_" && Ascii.eqb b "_"
        then Some (drop_underscores u) else None
    | _ => None
    end.
Proof.
  unfold match_here, underscores, plus.
  destruct s as [|a [|b u]]; cbn [run]; rewrite ?lit_no_flags.
  - reflexivity.
  - destruct (Ascii.eqb a "_"); reflexivity.
  - destruct (Ascii.eqb a "_"); [|reflexivity]. cbn [andb].
    destruct (Ascii.eqb b "_"); [|reflexivity].
    exact (@star_underscores u (Some b)).
Qed.

Lemma drop_length (u : string) :
  (String.length (drop_underscores u) <= String.length u)%nat.
Proof.
  induction u as [|a t IH]; simpl; [lia|].
  destruct (Ascii.eqb a "_"); simpl; lia.
Qed.

Lemma drop_head (u : string) : startswith (drop_underscores u) "_" = false.
Proof.
  induction u as [|a t IH]; [reflexivity|]. cbn [drop_underscores].
  destruct (Ascii.eqb a "_") eqn:E; [exact IH|].
  cbn [startswith]. rewrite Ascii.eqb_sym, E. reflexivity.
Qed.

Lemma drop_chars (u : string) (c : ascii) :
  In c (list_ascii_of_string (drop_underscores u)) ->
  In c (list_ascii_of_string u).
Proof.
  induction u as [|a t IH]; [easy|]. cbn [drop_underscores].
  destruct (Ascii.eqb a "_"); [|easy].
  intros H. right. now apply IH.
Qed.

Lemma starts_underscore (a : ascii) (t : string) :
  startswith (String a t) "_" = Ascii.eqb a "_".
Proof.
  destruct t; cbn [startswith]; now rewrite andb_true_r, Ascii.eqb_sym.
Qed.

Lemma contains_cons (a : ascii) (t : string) :
  contains "__" (String a t)
  = (Ascii.eqb a "_" && startswith t "_") || contains "__" t.
Proof.
  cbn [contains startswith]. now rewrite (Ascii.eqb_sym "_" a).
Qed.

Lemma copy_case (a : ascii) (t out : string) :
  contains "__" out = false ->
  (startswith out "_" = true -> startswith t "_" = true) ->
  Forall (fun c => c = "_"%char \/ In c (list_ascii_of_string t))
         (list_ascii_of_string out) ->
  Ascii.eqb a "_" && startswith t "_" = false ->
  contains "__" (String a out) = false
  /\ (startswith (String a out) "_" = true ->
      startswith (String a t) "_" = true)
  /\ Forall (fun c => c = "_"%char \/ In c (list_ascii_of_string (String a t)))
             (list_ascii_of_string (String a out)).
Proof.
  intros Hc Hs Hf Hno. split; [|split].
  - rewrite contains_cons, Hc, orb_false_r.
    destruct (Ascii.eqb a "_"); [|reflexivity]. cbn [andb] in *.
    destruct (startswith out "_"); [|reflexivity].
    rewrite Hs in Hno by reflexivity. discriminate.
  - now rewrite !starts_underscore.
  - cbn [list_ascii_of_string]. constructor; [right; now left|].
    eapply Forall_impl; [|exact Hf]. intros c [->|Hin]; [now left|].
    right. now right.
Qed.

Lemma sub_underscores (fuel : nat) : forall s prev,
  (String.length s < fuel)%nat ->
  let out := sub_from fuel no_flags underscores "_" prev s in
  contains "__" out = false
  /\ (startswith out "_" = true -> startswith s "_" = true)
  /\ Forall (fun c => c = "_"%char \/ In c (list_ascii_of_string s))
             (list_ascii_of_string out).
Proof.
  induction fuel as [|fuel IH]; intros s prev H; [lia|].
  cbv zeta. cbn [sub_from]. rewrite match_underscores.
  destruct s as [|a [|b u]].
  - repeat split; [discriminate|constructor].
  - destruct (IH "" (Some a)) as (I1 & I2 & I3);
      [cbn [String.length] in H |- *; lia|].
    apply copy_case; auto. now rewrite andb_false_r.
  - destruct (Ascii.eqb a "_" && Ascii.eqb b "_") eqn:E.
    + apply andb_true_iff in E as [Ea Eb].
      apply Ascii.eqb_eq in Ea, Eb. subst a b.
      pose proof (drop_length u) as Hl.
      destruct (String.length (String "_" (String "_" u))
                - String.length (drop_underscores u))%nat as [|n] eqn:En;
        [cbn [String.length] in En; lia|].
      match goal with
      | |- context [sub_from fuel no_flags underscores "_" ?p
                             (drop_underscores u)] =>
          destruct (IH (drop_underscores u) p) as (I1 & I2 & I3);
            [cbn [String.length] in H; lia|]
      end.
      cbv zeta in *.
      change ("_" ++ ?x) with (String "_" x).
      split; [|split].
      * rewrite contains_cons, I1, orb_false_r. cbn [andb Ascii.eqb Bool.eqb].
        match goal with
        | |- startswith ?o "_" = false =>
            destruct (startswith o "_") eqn:Es; [|reflexivity]
        end.
        rewrite drop_head in I2. symmetry. now apply I2.
      * intros _. reflexivity.
      * cbn [list_ascii_of_string]. constructor; [now left|].
        eapply Forall_impl; [|exact I3]. intros c [->|Hin]; [now left|].
        right. right. right. now apply drop_chars.
    + destruct (IH (String b u) (Some a)) as (I1 & I2 & I3);
        [cbn [String.length] in H |- *; lia|].
      apply copy_case; auto. now rewrite starts_underscore.
Qed.

(** *** Removing a set of characters *)

Lemma sub_class (items : list citem) (fuel : nat) : forall s prev,
  (String.length s < fuel)%nat ->
  Forall (fun c => in_set no_flags c items = false
                   /\ In c (list_ascii_of_string s))
         (list_ascii_of_string
            (sub_from fuel no_flags (Set_ items) "" prev s)).
Proof.
  induction fuel as [|fuel IH]; intros s prev H; [lia|].
  cbn [sub_from]. unfold match_here. cbn [run].
  destruct s as [|a t]; [constructor|].
  assert (Ht : forall p,
            Forall (fun c => in_set no_flags c items = false
                             /\ In c (list_ascii_of_string (String a t)))
                   (list_ascii_of_string
                      (sub_from fuel no_flags (Set_ items) "" p t))).
  { intros p. eapply Forall_impl; [|apply (IH t p)].
    - intros c [H1 H2]. split; [exact H1|now right].
    - cbn [String.length] in H. lia. }
  destruct (in_set no_flags a items) eqn:E.
  - destruct (String.length (String a t) - String.length t)%nat
      as [|n] eqn:En; [cbn [String.length] in En; lia|].
    cbn [append]. apply Ht.
  - cbn [list_ascii_of_string]. constructor; [|apply Ht].
    split; [exact E|now left].
Qed.

Lemma replace_chars (a b : ascii) (s : string) :
  Forall (fun c => c = b \/ (In c (list_ascii_of_string s) /\ c <> a))
         (list_ascii_of_string (replace a b s)).
Proof.
  induction s as [|x t IH]; [constructor|].
  cbn [replace list_ascii_of_string]. constructor.
  - destruct (Ascii.eqb x a) eqn:E; [now left|].
    right. split; [now left|]. now apply Ascii.eqb_neq.
  - eapply Forall_impl; [|exact IH]. intros c [->|[H1 H2]]; [now left|].
    right. split; [now right|exact H2].
Qed.

(** *** The two substitutions, said without regular expressions *)

Lemma unsafe_characters (c : ascii) :
  in_set no_flags c unsafe
  = existsb (Ascii.eqb c)
      [ascii_of_nat 92; "/"; "*"; "?"; ":"; ascii_of_nat 34; "<"; ">";
       "|"]%char.
Proof. destruct c as [[] [] [] [] [] [] [] []]; reflexivity. Qed.

Lemma sub_set_without (items : list citem) (banned : list ascii) :
  (forall c, in_set no_flags c items = existsb (Ascii.eqb c) banned) ->
  forall fuel s prev,
    (String.length s < fuel)%nat ->
    sub_from fuel no_flags (Set_ items) "" prev s = without banned s.
Proof.
  intros Hset. induction fuel as [|fuel IH]; intros s prev H; [lia|].
  cbn [sub_from]. unfold match_here. cbn [run].
  destruct s as [|a t]; [reflexivity|].
  cbn [without]. rewrite <- Hset.
  assert (Ht : forall p,
            sub_from fuel no_flags (Set_ items) "" p t = without banned t).
  { intros p. apply IH. cbn [String.length] in H. lia. }
  destruct (in_set no_flags a items).
  - destruct (String.length (String a t) - String.length t)%nat
      as [|n] eqn:En; [cbn [String.length] in En; lia|].
    cbn [append]. apply Ht.
  - now rewrite Ht.
Qed.

Lemma collapse_run (u : string) :
  collapse (String "_" u) = String "_" (collapse (drop_underscores u)).
Proof.
  induction u as [|d u' IH]; [reflexivity|].
  cbn [drop_underscores].
  destruct (Ascii.eqb d "_") eqn:E.
  - apply Ascii.eqb_eq in E. subst d. rewrite <- IH. reflexivity.
  - change (collapse (String "_" (String d u')))
      with (if Ascii.eqb "_" "_" && Ascii.eqb d "_"
            then collapse (String d u')
            else String "_" (collapse (String d u'))).
    rewrite E, andb_false_r. reflexivity.
Qed.

Lemma sub_collapse (fuel : nat) : forall s prev,
  (String.length s < fuel)%nat ->
  sub_from fuel no_flags underscores "_" prev s = collapse s.
Proof.
  induction fuel as [|fuel IH]; intros s prev H; [lia|].
  cbn [sub_from]. rewrite match_underscores.
  destruct s as [|a [|b u]].
  - reflexivity.
  - rewrite IH by (cbn [String.length] in H |- *; lia).
    cbn [collapse]. now rewrite andb_false_r.
  - destruct (Ascii.eqb a "_" && Ascii.eqb b "_") eqn:E.
    + apply andb_true_iff in E as [Ea Eb].
      apply Ascii.eqb_eq in Ea, Eb. subst a b.
      pose proof (drop_length u) as Hl.
      destruct (String.length (String "_" (String "_" u))
                - String.length (drop_underscores u))%nat as [|n] eqn:En;
        [cbn [String.length] in En; lia|].
      rewrite IH by (cbn [String.length] in H; lia).
      change ("_" ++ ?x) with (String "_" x).
      rewrite <- collapse_run.
      change (collapse (String "_" (String "_" u)))
        with (if Ascii.eqb "_" "_" && Ascii.eqb "_" "_"
              then collapse (String "_" u)
              else String "_" (collapse (String "_" u))).
      reflexivity.
    + rewrite IH by (cbn [String.length] in H |- *; lia).
      change (collapse (String a (String b u)))
        with (if Ascii.eqb a "_" && Ascii.eqb b "_"
              then collapse (String b u)
              else String a (collapse (String b u))).
      now rewrite E.
Qed.

Lemma contains_app (sub u v : string) :
  contains sub (u ++ sub ++ v) = true.
Proof.
  induction u as [|a t IH].
  - assert (S : forall s w, startswith (s ++ w) s = true).
    { induction s as [|c s IHs]; intros w; [now destruct w|].
      cbn [append startswith]. now rewrite Ascii.eqb_refl, IHs. }
    cbn [append]. destruct (sub ++ v) eqn:E.
    + cbn [contains]. rewrite <- E, S. reflexivity.
    + cbn [contains]. rewrite <- E, S. reflexivity.
  - cbn [append contains]. rewrite IH. apply orb_true_r.
Qed.

Lemma existsb_eqb_In (c : ascii) (l : list ascii) :
  existsb (Ascii.eqb c) l = false -> ~ In c l.
Proof.
  induction l as [|a t IH]; cbn [existsb]; [tauto|].
  intros H. apply orb_false_iff in H as [H1 H2].
  intros [->|Hin]; [now rewrite Ascii.eqb_refl in H1|now apply IH].
Qed.

End SafeNameFacts.

Section SafeNameTheorem.

Import Py Regex SafeName.
Local Open Scope string_scope.

(** X21.  The file name is [storymap] for an empty title, without a
    date.  Otherwise it is the cleaned title, an underscore and the date,
    where the cleaned title is the stripped title without the characters
    backslash, slash, star, question mark, colon, double quote, angle
    brackets and bar, with an underscore for every space and with every
    run of underscores shortened to one.  So the cleaned title holds none
    of these nine characters, no space, and no two underscores in a row.
    The file name itself can still hold two underscores in a row, where a
    cleaned title that ends with an underscore meets the one before the
    date. *)
Theorem safe_filename_is_safe (date_suffix title : string) :
  let cleaned :=
    collapse
      (replace " " "_"
         (without [ascii_of_nat 92; "/"; "*"; "?"; ":"; ascii_of_nat 34;
                   "<"; ">"; "|"]%char
                  (strip title))) in
  create_safe_filename date_suffix title
  = (if truthy title then cleaned ++ "_" ++ date_suffix else "storymap")
  /\ Forall (fun c => ~ In c [ascii_of_nat 92; "/"; "*"; "?"; ":";
                              ascii_of_nat 34; "<"; ">"; "|"; " "]%char)
            (list_ascii_of_string cleaned)
  /\ (forall u v, cleaned <> u ++ "__" ++ v)
  /\ create_safe_filename "2024-05-01"
       ("  a\b/c*d?e:f" ++ String (ascii_of_nat 34) "g<h>i|j  k _ l ")
     = "abcdefghij_k_l_2024-05-01"
  /\ create_safe_filename date_suffix "a_" = "a__" ++ date_suffix.
Proof.
  set (banned := [ascii_of_nat 92; "/"; "*"; "?"; ":"; ascii_of_nat 34;
                  "<"; ">"; "|"]%char).
  assert (E : re_sub underscores "_"
                (replace " " "_" (re_sub (Set_ unsafe) "" (strip title)))
              = collapse (replace " " "_" (without banned (strip title)))).
  { unfold re_sub.
    rewrite (@sub_set_without unsafe banned unsafe_characters
               _ (strip title) None (Nat.lt_succ_diag_r _)).
    apply sub_collapse. apply Nat.lt_succ_diag_r. }
  cbv zeta. split; [|split; [|split; [|split]]].
  - unfold create_safe_filename. destruct (truthy title); [|reflexivity].
    cbn [negb]. now rewrite E.
  - rewrite <- E. unfold re_sub.
    set (s1 := sub_from _ no_flags (Set_ unsafe) "" None (strip title)).
    pose proof (@sub_class unsafe (S (String.length (strip title)))
                  (strip title) None (Nat.lt_succ_diag_r _)) as H1.
    fold s1 in H1.
    pose proof (replace_chars " " "_" s1) as H2.
    destruct (@sub_underscores (S (String.length (replace " " "_" s1)))
                (replace " " "_" s1) None (Nat.lt_succ_diag_r _))
      as (_ & _ & H3).
    cbv zeta in H3. rewrite Forall_forall in H1, H2, H3.
    apply Forall_forall. intros c Hc.
    assert (Hu : ~ In "_"%char (banned ++ [" "%char])).
    { apply existsb_eqb_In. reflexivity. }
    change (~ In c (banned ++ [" "%char])).
    destruct (H3 c Hc) as [->|Hin]; [exact Hu|].
    destruct (H2 c Hin) as [->|[Hin1 Hsp]]; [exact Hu|].
    destruct (H1 c Hin1) as [Hns _]. rewrite unsafe_characters in Hns.
    apply existsb_eqb_In in Hns. intros Hb.
    apply in_app_or in Hb as [Hb|[Hb|[]]]; [now apply Hns|].
    now apply Hsp.
  - intros u v Huv. rewrite <- E in Huv. unfold re_sub in Huv.
    pose proof (proj1 (@sub_underscores _ _ None (Nat.lt_succ_diag_r
                  (String.length
                     (replace " " "_"
                        (sub_from (S (String.length (strip title))) no_flags
                                  (Set_ unsafe) "" None (strip title)))))))
      as Hc.
    cbv zeta in Hc. rewrite Huv, contains_app in Hc. discriminate.
  - reflexivity.
  - destruct date_suffix; reflexivity.
Qed.

End SafeNameTheorem.

(* ------------------------------------------------------------------ *)
(** ** Credentials and debug settings *)

Section ConfigFacts.

Import Py Blocks Publish Config.
Local Open Scope string_scope.
Local Open Scope list_scope.

Lemma dict_mem_keys {V} (d1 d2 : dict V) (k : string) :
  keys d1 = keys d2 -> dict_mem k d1 = dict_mem k d2.
Proof.
  intros H. destruct (dict_mem k d1) eqn:E1, (dict_mem k d2) eqn:E2;
    try reflexivity.
  - apply dict_mem_In in E1. rewrite H in E1. apply dict_mem_In in E1.
    congruence.
  - apply dict_mem_In in E2. rewrite <- H in E2. apply dict_mem_In in E2.
    congruence.
Qed.

(** Two dictionaries with the same keys, each once, and the same value
    under every key are the same dictionary. *)
Lemma dict_ext {V} (d1 : dict V) : forall d2,
  keys d1 = keys d2 -> NoDup (keys d1) ->
  (forall k, dict_get k d1 = dict_get k d2) -> d1 = d2.
Proof.
  induction d1 as [|[k1 v1] t1 IH]; intros [|[k2 v2] t2] Hk Hnd Hg;
    try discriminate; [reflexivity|].
  simpl in Hk. injection Hk as -> Hk. inversion Hnd as [|? ? Hnot Hnd']; subst.
  pose proof (Hg k2) as H2. simpl in H2. rewrite String.eqb_refl in H2.
  injection H2 as ->. f_equal. apply IH; [exact Hk|exact Hnd'|].
  intros k. specialize (Hg k). simpl in Hg.
  destruct (String.eqb k k2) eqn:E; [|exact Hg].
  apply String.eqb_eq in E. subst k.
  assert (N1 : dict_mem k2 t1 = false).
  { destruct (dict_mem k2 t1) eqn:M; [|reflexivity].
    apply dict_mem_In in M. contradiction. }
  pose proof N1 as N2. rewrite (@dict_mem_keys _ t1 t2 k2 Hk) in N2.
  unfold dict_mem in N1, N2.
  destruct (dict_get k2 t1), (dict_get k2 t2); congruence.
Qed.

(** An update makes dictionaries agree that differ under its keys only. *)
Lemma update_agree (config : dict json) : forall d1 d2,
  keys d1 = keys d2 -> NoDup (keys d1) ->
  (forall k, dict_mem k config = false -> dict_get k d1 = dict_get k d2) ->
  update d1 config = update d2 config.
Proof.
  induction config as [|[k v] rest IH]; intros d1 d2 Hk Hnd Hg.
  - simpl. apply dict_ext; auto.
  - unfold update. cbn [fold_left fst snd]. apply IH.
    + rewrite !dict_set_keys, (@dict_mem_keys _ d1 d2 k Hk). now rewrite Hk.
    + now apply dict_set_keys_NoDup.
    + intros k' Hk'. rewrite !dict_get_set.
      destruct (String.eqb k' k) eqn:E; [reflexivity|].
      apply Hg. unfold dict_mem in *. cbn [dict_get]. now rewrite E.
Qed.

End ConfigFacts.

Section ConfigTheorems.

Import Py Blocks Publish Config.
Local Open Scope string_scope.
Local Open Scope list_scope.

(** X22.  When the configuration file is loaded, that is, when it parses
    and has the three required fields, the user name, password and URL
    given as parameters have no effect at all: the credentials, and
    whether they are found missing, are what the configuration file
    gives on its own. *)
Theorem config_file_overrides_parameters
  (parsed : option (dict json)) (config : dict json)
  (username password arcgis_url : option string) :
  load_config parsed = Some config ->
  get_credentials (Some parsed) username password arcgis_url
  = get_credentials (Some parsed) None None None.
Proof.
  intros Hload. unfold get_credentials. rewrite Hload.
  assert (Hreq : dict_mem "username" config = true
                 /\ dict_mem "password" config = true
                 /\ dict_mem "arcgis_url" config = true).
  { unfold load_config in Hload. destruct parsed as [c|]; [|discriminate].
    destruct (forallb (fun field => dict_mem field c) required_fields)
      eqn:F; [|discriminate].
    injection Hload as ->. cbn [forallb required_fields] in F.
    apply andb_true_iff in F as [F1 F]. apply andb_true_iff in F as [F2 F].
    apply andb_true_iff in F as [F3 _]. auto. }
  destruct Hreq as (R1 & R2 & R3).
  assert (Hne : json_truthy (JDict config) = true).
  { destruct config; [discriminate|reflexivity]. }
  rewrite Hne. cbn [set_parameter].
  match goal with
  | |- (if forallb (value_truthy (update ?d1 config)) _ then _ else _)
       = (if forallb (value_truthy (update ?d2 config)) _ then _ else _) =>
      assert (E : update d1 config = update d2 config)
  end.
  { apply update_agree.
    - destruct username as [u|], password as [p|], arcgis_url as [a|];
        cbn [set_parameter];
        repeat match goal with
               | |- context [truthy ?x] => destruct (truthy x)
               end; reflexivity.
    - destruct username as [u|], password as [p|], arcgis_url as [a|];
        cbn [set_parameter];
        repeat match goal with
               | |- context [truthy ?x] => destruct (truthy x)
               end;
        repeat constructor; simpl; intuition discriminate.
    - intros k Hk.
      assert (N1 : String.eqb k "username" = false).
      { destruct (String.eqb k "username") eqn:E; [|reflexivity].
        apply String.eqb_eq in E. congruence. }
      assert (N2 : String.eqb k "password" = false).
      { destruct (String.eqb k "password") eqn:E; [|reflexivity].
        apply String.eqb_eq in E. congruence. }
      assert (N3 : String.eqb k "arcgis_url" = false).
      { destruct (String.eqb k "arcgis_url") eqn:E; [|reflexivity].
        apply String.eqb_eq in E. congruence. }
      destruct username as [u|], password as [p|], arcgis_url as [a|];
        cbn [set_parameter];
        repeat match goal with
               | |- context [truthy ?x] => destruct (truthy x)
               end;
        cbn [dict_set dict_get String.eqb Ascii.eqb Bool.eqb andb];
        rewrite ?N1, ?N2, ?N3; reflexivity. }
  now rewrite E.
Qed.

(** The parameters name one user, the configuration file another. *)
Lemma config_file_overrides_parameters_witness :
  get_credentials (Some (Some sample_config)) (Some "bob") None None
  = Some [("username", JStr "ann"); ("password", JStr "pw");
          ("arcgis_url", JStr "https://example.org"); ("debug", JStr "full");
          ("full_debug_output_folder", JNull)].
Proof.
  rewrite (@config_file_overrides_parameters (Some sample_config)
             sample_config (Some "bob") None None eq_refl).
  reflexivity.
Defined.

(** X23.  Without a configuration file the debug level is always set
    to [none], whatever the parameters: a message is then displayed
    exactly when it is an error or a warning or its level is none of
    [basic] and [full].  For any credentials, a level that is set is one
    of the three names, and no level is set, the call raising instead
    with [DEBUG_LEVEL] left at the value read, exactly when the value
    under [debug] is a list or an object.  Under [full] every message is
    displayed, and a message displayed under [none] is displayed under
    [basic]. *)
Theorem debug_needs_config_file
  (username password arcgis_url : option string) (credentials : dict json)
  (any : dict json) (min_level : string) (is_error is_warning : bool) :
  get_credentials None username password arcgis_url = Some credentials ->
  debug_level credentials = LevelSet "none"
  /\ should_display "none" min_level is_error is_warning
     = (negb (String.eqb min_level "basic" || String.eqb min_level "full")
        || is_error || is_warning)
  /\ (forall l, debug_level any = LevelSet l ->
                In l ["none"; "basic"; "full"])
  /\ (forall j, debug_level any = LevelRaised j
                <-> dict_get "debug" any = Some j
                    /\ ((exists l, j = JList l) \/ (exists d, j = JDict d)))
  /\ should_display "full" min_level is_error is_warning = true
  /\ implb (should_display "none" min_level is_error is_warning)
           (should_display "basic" min_level is_error is_warning) = true.
Proof.
  intros H.
  assert (Hd : debug_level credentials = LevelSet "none").
  { unfold get_credentials in H.
    match type of H with
    | (if ?c then _ else _) = _ => destruct c; [|discriminate]
    end.
    injection H as <-.
    destruct username as [u|], password as [p|], arcgis_url as [a|];
      cbn [set_parameter];
      repeat match goal with
             | |- context [truthy ?x] => destruct (truthy x)
             end; reflexivity. }
  split; [exact Hd|]. split; [|split; [|split; [|split]]].
  - unfold should_display, level_priority.
    destruct (String.eqb min_level "none") eqn:E1.
    { apply String.eqb_eq in E1. subst. reflexivity. }
    destruct (String.eqb min_level "basic"); [reflexivity|].
    destruct (String.eqb min_level "full"); reflexivity.
  - intros l. unfold debug_level.
    destruct (dict_get "debug" any) as [[| | |s| |]|];
      try discriminate;
      try (intros E; injection E as <-; simpl; tauto).
    cbn [existsb].
    destruct (String.eqb s "none") eqn:E1;
      [apply String.eqb_eq in E1; subst;
       intros E; injection E as <-; simpl; tauto|].
    destruct (String.eqb s "basic") eqn:E2;
      [apply String.eqb_eq in E2; subst;
       intros E; injection E as <-; simpl; tauto|].
    destruct (String.eqb s "full") eqn:E3;
      [apply String.eqb_eq in E3; subst;
       intros E; injection E as <-; simpl; tauto|].
    intros E; injection E as <-; simpl; tauto.
  - intros j. unfold debug_level.
    destruct (dict_get "debug" any) as [[| | |s|l|d]|]; split;
      try (intros E; discriminate E);
      try (intros [E [[x ->]|[x ->]]]; discriminate E).
    + destruct (existsb (String.eqb s) ["none"; "basic"; "full"]);
        discriminate.
    + intros E. injection E as <-. split; [reflexivity|]. left. now exists l.
    + intros [E _]. now injection E as <-.
    + intros E. injection E as <-. split; [reflexivity|]. right. now exists d.
    + intros [E _]. now injection E as <-.
  - unfold should_display, level_priority.
    destruct (String.eqb min_level "none"); [reflexivity|].
    destruct (String.eqb min_level "basic"); [reflexivity|].
    destruct (String.eqb min_level "full"); reflexivity.
  - unfold should_display, level_priority.
    destruct (String.eqb min_level "none"); [reflexivity|].
    destruct (String.eqb min_level "basic");
      [now destruct is_error, is_warning|].
    destruct (String.eqb min_level "full");
      now destruct is_error, is_warning.
Qed.

(** Credentials from the parameters alone. *)
Lemma debug_needs_config_file_witness :
  debug_level [("username", JStr "bob"); ("password", JStr "pw");
               ("arcgis_url", JStr "https://example.org");
               ("debug", JStr "none"); ("full_debug_output_folder", JNull)]
  = LevelSet "none".
Proof.
  exact (proj1 (@debug_needs_config_file (Some "bob") (Some "pw")
                  (Some "https://example.org") _ [] "basic" false false
                  eq_refl)).
Defined.

End ConfigTheorems.

(* ------------------------------------------------------------------ *)
(** ** The legacy list renderer *)

Section ListStructureFacts.

Import Py ListEngine ListRender ListStructure.
Local Open Scope list_scope.
Local Open Scope Z_scope.

Variable m : Z.

Lemma fold_min_floor (l : list entry) : forall x,
  m <= x -> Forall (fun e => m <= entry_level e) l ->
  m <= fold_left (fun a j => Z.min a (entry_level j)) l x.
Proof.
  induction l as [|e rest IH]; intros x Hx Hall; [exact Hx|].
  apply Forall_cons_iff in Hall as [He Hrest]. simpl.
  apply IH; [lia|exact Hrest].
Qed.

Lemma fold_min_below (l : list entry) : forall x,
  fold_left (fun a j => Z.min a (entry_level j)) l x <= x.
Proof.
  induction l as [|e rest IH]; intros x; simpl; [lia|].
  specialize (IH (Z.min x (entry_level e))). lia.
Qed.

Lemma fold_min_in (l : list entry) : forall x,
  fold_left (fun a j => Z.min a (entry_level j)) l x = x
  \/ exists e, In e l
               /\ entry_level e
                  = fold_left (fun a j => Z.min a (entry_level j)) l x.
Proof.
  induction l as [|e rest IH]; intros x; [now left|]. simpl.
  destruct (IH (Z.min x (entry_level e))) as [H|(e' & Hin & H)].
  - destruct (Z.min_spec x (entry_level e)) as [[_ Hm]|[_ Hm]].
    + left. congruence.
    + right. exists e. split; [now left|congruence].
  - right. exists e'. split; [now right|exact H].
Qed.

Lemma entries_min_attained (it : entry) (rest : list entry) :
  exists e, In e (it :: rest)
            /\ entry_level e = entries_min_level (it :: rest).
Proof.
  unfold entries_min_level.
  destruct (fold_min_in rest (entry_level it)) as [H|(e & Hin & H)].
  - exists it. split; [now left|now rewrite H].
  - exists e. split; [now right|exact H].
Qed.

(** The least level of a list that starts at level [m] and stays at [m]
    or one below. *)
Lemma entries_min_two_level (r : entry) (rest : list entry) :
  entry_level r = m ->
  Forall (fun e => entry_level e = m \/ entry_level e = m + 1) rest ->
  entries_min_level (r :: rest) = m.
Proof.
  intros Hr Hall. unfold entries_min_level.
  pose proof (fold_min_below rest (entry_level r)) as H1.
  assert (H2 : m <= fold_left (fun a j => Z.min a (entry_level j)) rest
                              (entry_level r)).
  { apply fold_min_floor; [lia|].
    eapply Forall_impl; [|exact Hall]. simpl. lia. }
  lia.
Qed.

(** The second pass drops nothing of a list of two levels that starts
    with a root item. *)
Lemma hierarchy_texts (its : list entry) : forall acc,
  Forall (fun e => entry_level e = m \/ entry_level e = m + 1) its ->
  match acc, its with
  | [], it :: _ => entry_level it = m
  | _, _ => True
  end ->
  let hierarchy := fold_left (hierarchy_step m) its acc in
  tree_texts hierarchy = tree_texts acc ++ map entry_text its
  /\ map fst hierarchy
     = map fst acc
       ++ map entry_text (filter (fun e => entry_level e =? m) its).
Proof.
  induction its as [|it rest IH]; intros acc Hall Hfirst; cbv zeta.
  - simpl. now rewrite !app_nil_r.
  - apply Forall_cons_iff in Hall as [Hit Hrest]. cbn [fold_left filter map].
    unfold hierarchy_step at 2 4.
    destruct (entry_level it =? m) eqn:E.
    + destruct (IH (acc ++ [(entry_text it, [])]) Hrest) as [H1 H2].
      { destruct acc; [simpl|]; destruct rest; exact I. }
      cbv zeta in *. rewrite H1, H2, tree_texts_snoc, map_app.
      cbn [map fst]. now rewrite <- !app_assoc.
    + assert (Hl : entry_level it = m + 1).
      { destruct Hit as [H|H]; [|exact H]. apply Z.eqb_neq in E. lia. }
      destruct acc as [|p ps].
      { apply Z.eqb_neq in E. contradiction. }
      cbn [nonempty andb]. rewrite (proj2 (Z.eqb_eq _ _) Hl).
      destruct (IH (append_child (entry_text it) (p :: ps)) Hrest)
        as [H1 H2].
      { destruct (append_child (entry_text it) (p :: ps)) eqn:Ea; [|exact I].
        exfalso. revert Ea. apply append_child_nonempty. discriminate. }
      cbv zeta in *.
      rewrite H1, H2, append_child_texts, append_child_fst by discriminate.
      now rewrite <- app_assoc.
Qed.

End ListStructureFacts.

Section ListStructureTheorem.

Import Py ListEngine ListRender ListStructure.
Local Open Scope list_scope.
Local Open Scope Z_scope.

(** X24.  The legacy list renderer returns nothing for a list without
    items or without type.  Otherwise it never fails on the converted
    list, which is not empty, and its second pass drops nothing of it:
    the markup is built from root entries that hold, in order, every item
    of the converted list, and the root entries are the items of the
    least level of the list it was given. *)
Theorem legacy_renderer_keeps_conversion (ld : list_data) :
  match data_items ld, data_type ld with
  | _ :: _, Some ty =>
      exists hierarchy,
        process_list_structure ld
        = Some (Some (mk_list_text
                        (Some ty)
                        (String.concat ""
                           (map (render_parent (Some ty)) hierarchy))))
        /\ tree_texts hierarchy
           = map entry_text (data_items (convert_list_for_storymap ld))
        /\ map fst hierarchy
           = map entry_text
               (filter (fun e => entry_level e
                                 =? entries_min_level (data_items ld))
                       (data_items ld))
  | _, _ => process_list_structure ld = Some None
  end.
Proof.
  destruct ld as [[ty|] [|it rest]]; cbn [data_type data_items];
    try reflexivity.
  unfold process_list_structure, convert_list_for_storymap.
  cbn [data_type data_items].
  set (m := entries_min_level (it :: rest)).
  destruct (@convert_loop m (it :: rest) [] false (Forall_nil _))
    as (H1 & H2 & _).
  cbv zeta in *.
  destruct (fold_left (convert_step m) (it :: rest) ([], false))
    as [tree seen].
  cbn [fst snd data_type data_items app map] in *.
  destruct (@flatten_two_level m tree H1) as [F1 F2].
  destruct (entries_min_attained it rest) as (e & Hin & He). fold m in He.
  assert (Hroots : filter (fun e => entry_level e =? m) (it :: rest) <> []).
  { intros Hnil.
    assert (Hf : In e (filter (fun e => entry_level e =? m) (it :: rest))).
    { apply filter_In. split; [exact Hin|]. now apply Z.eqb_eq. }
    rewrite Hnil in Hf. contradiction. }
  destruct tree as [|[r cs] tree'].
  { exfalso. apply Hroots. now rewrite <- H2. }
  pose proof H1 as H1'. apply Forall_cons_iff in H1' as [[Hr _] _].
  cbn [fst] in Hr.
  unfold flatten_tree in *. cbn [flat_map fst snd app] in *.
  apply Forall_cons_iff in F1 as [_ F1'].
  rewrite (@entries_min_two_level m r _ Hr F1').
  destruct (@hierarchy_texts m (r :: cs ++ flat_map (fun n => fst n :: snd n)
                                                    tree') [])
    as [T1 T2].
  { constructor; [now left|exact F1']. }
  { exact Hr. }
  cbv zeta in *. eexists. split; [reflexivity|]. split; [exact T1|].
  rewrite T2. cbn [map app]. now rewrite F2, H2.
Qed.

End ListStructureTheorem.

(* ------------------------------------------------------------------ *)
(** ** Debug file paths *)

Section PathsTheorem.

Import Py DebugPaths.
Local Open Scope string_scope.

Variable join : string -> string -> string.
Variable exists_ : string -> bool.
Variable base_filename : string.
Variable output_folder : string.

Local Abbreviation numbered_paths :=
  (DebugPaths.numbered_paths join base_filename output_folder).
Local Abbreviation plain_paths :=
  (DebugPaths.plain_paths join base_filename output_folder).
Local Abbreviation taken := (DebugPaths.taken exists_).
Local Abbreviation try_paths :=
  (DebugPaths.try_paths join exists_ base_filename output_folder).

Lemma try_paths_numbered (gap : nat) : forall counter fuel,
  (forall j, (counter <= j < counter + gap)%nat ->
             taken (numbered_paths j) = true) ->
  taken (numbered_paths (counter + gap)) = false ->
  (gap < fuel)%nat ->
  try_paths fuel (numbered_paths counter) (S counter)
  = Some (numbered_paths (counter + gap)).
Proof.
  induction gap as [|gap IH]; intros counter fuel Hbusy Hfree Hfuel.
  - destruct fuel as [|fuel]; [lia|]. rewrite Nat.add_0_r in *.
    cbn [DebugPaths.try_paths]. unfold DebugPaths.taken in Hfree.
    now rewrite Hfree.
  - destruct fuel as [|fuel]; [lia|]. cbn [DebugPaths.try_paths].
    pose proof (Hbusy counter ltac:(lia)) as Hc.
    unfold DebugPaths.taken in Hc. rewrite Hc.
    replace (counter + S gap)%nat with (S counter + gap)%nat in * by lia.
    apply IH; [|exact Hfree|lia].
    intros j Hj. apply Hbusy. lia.
Qed.

(** X25.  The search for free file names tries the plain names first
    and then the names numbered 2, 3, ... in turn.  When the plain names
    and the names of every number below [first_free] are taken (one of
    the two files is there) and those numbered [first_free] are free, a
    search that is allowed [first_free] tests of the loop condition ends,
    and it ends with the names numbered [first_free].  Whenever the
    search ends, the names it returns are not taken. *)
Theorem first_free_paths_found (first_free fuel : nat) :
  (2 <= first_free)%nat ->
  taken plain_paths = true ->
  (forall j, (2 <= j < first_free)%nat -> taken (numbered_paths j) = true) ->
  taken (numbered_paths first_free) = false ->
  (first_free <= fuel)%nat ->
  generate_debug_file_paths join exists_ base_filename output_folder fuel
  = Some (numbered_paths first_free)
  /\ (forall paths more,
        generate_debug_file_paths join exists_ base_filename output_folder
                                  more = Some paths ->
        taken paths = false).
Proof.
  intros H2 Hplain Hbusy Hfree Hfuel. split.
  - unfold generate_debug_file_paths. destruct fuel as [|fuel]; [lia|].
    cbn [DebugPaths.try_paths]. unfold DebugPaths.taken in Hplain.
    rewrite Hplain.
    replace first_free with (2 + (first_free - 2))%nat in Hfree |- * by lia.
    apply try_paths_numbered; [|exact Hfree|lia].
    intros j Hj. apply Hbusy. lia.
  - unfold generate_debug_file_paths. intros paths more.
    generalize plain_paths, 2%nat.
    induction more as [|more IH]; intros p c; [discriminate|].
    cbn [DebugPaths.try_paths].
    destruct (exists_ (fst p) || exists_ (snd p)) eqn:E; [apply IH|].
    intros [= <-]. exact E.
Qed.

End PathsTheorem.

Section PathsExample.

Import Py DebugPaths.
Local Open Scope string_scope.

(** The plain log is there and so is a JSON file numbered 2: the names
    numbered 3 are returned. *)
Lemma first_free_paths_found_witness :
  generate_debug_file_paths slash_join earlier_runs "map" "out" 5
  = Some ("out/map_3.txt", "out/map_3.json").
Proof.
  refine (proj1 (@first_free_paths_found slash_join earlier_runs "map" "out"
                   3 5 _ eq_refl _ eq_refl _)).
  - lia.
  - intros j Hj. assert (j = 2%nat) as -> by lia. reflexivity.
  - lia.
Defined.

End PathsExample.

(* ------------------------------------------------------------------ *)
(** ** Links *)

Section LinksTheorem.

Import Py Blocks Classifier Links.
Local Open Scope string_scope.

(** X26.  The markup that the run formatter builds for a run inside a
    hyperlink with a known target is the markup of
    [format_link_for_storymap] for that target and the text of the run,
    before the character formatting is wrapped around it: the two places
    of the code that build links agree. *)
Theorem link_markup_agrees (hyperlink_rels : dict string) (x : run)
        (url : string) :
  hyperlink_target hyperlink_rels x = Some url ->
  format_run hyperlink_rels (unstyled x)
  = format_link_for_storymap url (run_text x).
Proof.
  intros H. unfold format_run, unstyled.
  assert (Ht : hyperlink_target hyperlink_rels
                 (mk_run false false false false None None (texts x) (br x)
                         (sz x) (hyperlink x)) = Some url) by exact H.
  rewrite Ht. reflexivity.
Qed.

(** A link to a target without scheme. *)
Lemma link_markup_agrees_witness :
  format_run [("rId5", "example.org")] linked_run
  = format_link_for_storymap "example.org" "here".
Proof.
  exact (@link_markup_agrees [("rId5", "example.org")] linked_run
           "example.org" eq_refl).
Defined.

End LinksTheorem.

(* ------------------------------------------------------------------ *)
(** ** The HTML reader *)

Section HtmlFacts.

Import Py Regex Blocks TableReader Publish HtmlReader.
Local Open Scope list_scope.
Local Open Scope string_scope.

Lemma raises_iff_sourceless (e : element) :
  process_html_element e = None <-> sourceless_image e = true.
Proof.
  unfold process_html_element, sourceless_image, create_image_block.
  destruct (String.eqb (lower (name e)) "img") eqn:E.
  - apply String.eqb_eq in E. rewrite E. cbn.
    destruct (src e); split; intros H; try discriminate; reflexivity.
  - cbn [andb]. split; [|discriminate].
    repeat match goal with
           | |- context [if ?c then _ else _] => destruct c
           end; try discriminate.
    all: destruct (flat_map _ (tr_cells e)); discriminate.
Qed.

Lemma collect_spec (elements : list element) :
  collect elements
  = if existsb sourceless_image elements then None
    else Some (flat_map block_of elements).
Proof.
  induction elements as [|e rest IH]; [reflexivity|].
  cbn [collect existsb flat_map]. rewrite IH. unfold block_of.
  destruct (process_html_element e) as [found|] eqn:P.
  - destruct (sourceless_image e) eqn:S.
    + apply raises_iff_sourceless in S. congruence.
    + cbn [orb]. destruct (existsb sourceless_image rest); [reflexivity|].
      destruct found; reflexivity.
  - apply raises_iff_sourceless in P. now rewrite P.
Qed.

Lemma lstrip_head (c : ascii) (s : string) :
  is_space c = false -> lstrip (String c s) = String c s.
Proof. intros H. cbn [lstrip]. now rewrite H. Qed.

Lemma rstrip_head (c : ascii) (s : string) :
  is_space c = false -> exists r, rstrip (String c s) = String c r.
Proof.
  intros H. cbn [rstrip]. destruct (rstrip s).
  - rewrite H. now exists "".
  - eexists. reflexivity.
Qed.

End HtmlFacts.

Section HtmlTheorems.

Import Py Regex Blocks TableReader Publish HtmlReader.
Local Open Scope list_scope.
Local Open Scope string_scope.

(** X27.  The HTML reader is all or nothing: one image element without
    [src] among the children of the body makes it return no block at
    all, whatever the other elements are; without such an element it
    returns the blocks of the elements it supports, in order, and never
    more blocks than elements. *)
Theorem html_reader_all_or_nothing (elements : list element) :
  parse_html (Some elements)
  = (if existsb sourceless_image elements then []
     else flat_map block_of elements)
  /\ (List.length (parse_html (Some elements)) <= List.length elements)%nat.
Proof.
  assert (H : parse_html (Some elements)
              = if existsb sourceless_image elements then []
                else flat_map block_of elements).
  { unfold parse_html. rewrite collect_spec.
    now destruct (existsb sourceless_image elements). }
  split; [exact H|]. rewrite H.
  destruct (existsb sourceless_image elements); [simpl; lia|].
  clear H. induction elements as [|e rest IH]; [simpl; lia|].
  cbn [flat_map]. rewrite List.length_app. unfold block_of at 1.
  destruct (process_html_element e) as [[b|]|]; simpl; lia.
Qed.

Variable node_id_of : nat -> string.
Variable extract_image_dimensions : string -> option (Z * Z).

(** X28.  A paragraph element of an HTML file becomes a text block whose
    text is the markup of the element with its tags, so that Phase 1
    never passes over it, not even when the paragraph is empty: it adds
    a node for it. *)
Theorem html_paragraph_always_published
  (e : element) (rest : string) (i : nat) (st : phase1) :
  lower (name e) = "p" ->
  repr e = String "<" rest ->
  process_html_element e
  = Some (Some (Text "paragraph" (repr e) None None))
  /\ skipped (Text "paragraph" (repr e) None None) = false
  /\ List.length
       (story (add_content_block node_id_of extract_image_dimensions i
                 (Text "paragraph" (repr e) None None) st))
     = S (List.length (story st)).
Proof.
  intros Hname Hrepr.
  assert (Hs : skipped (Text "paragraph" (repr e) None None) = false).
  { cbn [skipped]. unfold is_empty_content. rewrite Hrepr.
    unfold strip. rewrite lstrip_head by reflexivity.
    destruct (@rstrip_head "<" rest eq_refl) as (r & ->). reflexivity. }
  split; [|split; [exact Hs|]].
  - unfold process_html_element. rewrite Hname. reflexivity.
  - pose proof (add_block_effect node_id_of extract_image_dimensions i
                  (Text "paragraph" (repr e) None None) st) as H.
    rewrite Hs in H. exact (proj1 H).
Qed.

End HtmlTheorems.

Section HtmlExamples.

Import Py Regex Blocks TableReader Publish HtmlReader.
Local Open Scope list_scope.
Local Open Scope string_scope.

(** An empty paragraph is published with its tags. *)
Lemma html_paragraph_always_published_witness :
  process_html_element empty_p
  = Some (Some (Text "paragraph" "<p></p>" None None))
  /\ List.length
       (story (add_content_block numbered (fun _ => None) 0
                 (Text "paragraph" "<p></p>" None None)
                 (mk_phase1 [] [] [] [])))
     = 1%nat.
Proof.
  destruct (@html_paragraph_always_published numbered (fun _ => None) empty_p
              "p></p>" 0%nat (mk_phase1 [] [] [] []) eq_refl eq_refl)
    as (H1 & _ & H3).
  split; [exact H1|exact H3].
Defined.

End HtmlExamples.

(* ------------------------------------------------------------------ *)
(** ** The cells of a patched table *)

Section TablePatchFacts.

Import Py Blocks Publish TablePatch.
Local Open Scope string_scope.
Local Open Scope list_scope.

Local Abbreviation with_data nd D := (dict_set "data" (JDict D) nd).

Lemma with_data_get (nd : node) (D : dict json) :
  dict_get "data" (with_data nd D) = Some (JDict D).
Proof. apply dict_get_set_same. Qed.

Lemma set_data_with (k : string) (v : json) (nd : node) (D : dict json) :
  set_data k v (with_data nd D) = (with_data nd (dict_set k v D), Some tt).
Proof.
  rewrite (@set_data_on k v _ D (with_data_get nd D)).
  now rewrite dict_set_twice.
Qed.

Lemma get_data_with (k : string) (j : json) (nd : node) (D : dict json) :
  dict_get k D = Some j ->
  get_data k (with_data nd D) = (with_data nd D, Some j).
Proof.
  intros H. unfold get_data, bind, get_node, lift.
  rewrite with_data_get. unfold ret. cbv beta iota. cbn [py_getitem].
  now rewrite H.
Qed.

Lemma dict_get_last {V} (d : dict V) (k : string) (v : V) :
  ~ In k (keys d) -> dict_get k (d ++ [(k, v)]) = Some v.
Proof.
  induction d as [|[k' v'] t IH]; intros H; simpl.
  - now rewrite String.eqb_refl.
  - destruct (String.eqb k k') eqn:E.
    + apply String.eqb_eq in E. subst. exfalso. apply H. now left.
    + apply IH. intros Hin. apply H. now right.
Qed.

Lemma dict_set_last {V} (d : dict V) (k : string) (v v' : V) :
  ~ In k (keys d) -> dict_set k v' (d ++ [(k, v)]) = d ++ [(k, v')].
Proof.
  induction d as [|[k0 v0] t IH]; intros H; simpl.
  - now rewrite String.eqb_refl.
  - destruct (String.eqb k k0) eqn:E.
    + apply String.eqb_eq in E. subst. exfalso. apply H. now left.
    + rewrite IH; [reflexivity|]. intros Hin. apply H. now right.
Qed.

Lemma cell_entries_keys (row : list string) : forall i k,
  In k (keys (cell_entries i row)) ->
  exists j, (i <= j < i + List.length row)%nat /\ k = str_of_nat j.
Proof.
  induction row as [|v rest IH]; intros i k H; [destruct H|].
  destruct H as [<-|H].
  - exists i. simpl. split; [lia|reflexivity].
  - apply IH in H as (j & Hj & ->). exists j. simpl. split; [lia|reflexivity].
Qed.

Lemma cell_entries_snoc (row : list string) (v : string) : forall i,
  cell_entries i (row ++ [v])
  = cell_entries i row
    ++ [(str_of_nat (i + List.length row), JDict [("value", JStr v)])].
Proof.
  induction row as [|x rest IH]; intros i; simpl.
  - now rewrite Nat.add_0_r.
  - rewrite IH. now rewrite Nat.add_succ_r.
Qed.

Lemma row_entries_keys (rows : list (list string)) : forall i k,
  In k (keys (row_entries i rows)) ->
  exists j, (i <= j < i + List.length rows)%nat /\ k = str_of_nat j.
Proof.
  induction rows as [|v rest IH]; intros i k H; [destruct H|].
  destruct H as [<-|H].
  - exists i. simpl. split; [lia|reflexivity].
  - apply IH in H as (j & Hj & ->). exists j. simpl. split; [lia|reflexivity].
Qed.

Lemma row_entries_snoc (rows : list (list string)) (row : list string) :
  forall i,
  row_entries i (rows ++ [row])
  = row_entries i rows
    ++ [(str_of_nat (i + List.length rows), JDict (cell_entries 0 row))].
Proof.
  induction rows as [|x rest IH]; intros i; simpl.
  - now rewrite Nat.add_0_r.
  - rewrite IH. now rewrite Nat.add_succ_r.
Qed.

Lemma fresh_cell_key (done : list string) :
  ~ In (str_of_nat (List.length done)) (keys (cell_entries 0 done)).
Proof.
  intros H. apply cell_entries_keys in H as (j & Hj & E).
  apply str_of_nat_inj in E. lia.
Qed.

Lemma fresh_row_key (done : list (list string)) :
  ~ In (str_of_nat (List.length done)) (keys (row_entries 0 done)).
Proof.
  intros H. apply row_entries_keys in H as (j & Hj & E).
  apply str_of_nat_inj in E. lia.
Qed.

Section Cells.

Variable nd : node.
Variable D0 : dict json.
Variable num_cols : nat.

Local Abbreviation state C := (with_data nd (dict_set "cells" (JDict C) D0)).

Lemma cells_of_state (C : dict json) :
  get_data "cells" (state C) = (state C, Some (JDict C)).
Proof. apply get_data_with, dict_get_set_same. Qed.

Lemma put_cells (C C' : dict json) :
  set_data "cells" (JDict C') (state C) = (state C', Some tt).
Proof. rewrite set_data_with. now rewrite dict_set_twice. Qed.

Lemma set_cell_on (C : dict json) (r c v : string) (rowobj : dict json) :
  dict_get r C = Some (JDict rowobj) ->
  set_cell r c v (state C)
  = (state (dict_set r (JDict (dict_set c (JDict [("value", JStr v)]) rowobj))
                     C),
     Some tt).
Proof.
  intros H. unfold set_cell, bind. rewrite cells_of_state.
  unfold lift, ret. cbv beta iota. cbn [py_getitem]. rewrite H.
  cbv beta iota. cbn [py_setitem]. cbv beta iota. apply put_cells.
Qed.

(** Writing the cells of a row that is the last entry of the cells. *)
Lemma set_cells_row (todo : list string) : forall above done,
  (List.length done + List.length todo <= num_cols)%nat ->
  set_cells num_cols (str_of_nat (List.length above)) (List.length done) todo
    (state (row_entries 0 above
            ++ [(str_of_nat (List.length above),
                 JDict (cell_entries 0 done))]))
  = (state (row_entries 0 above
            ++ [(str_of_nat (List.length above),
                 JDict (cell_entries 0 (done ++ todo)))]),
     Some tt).
Proof.
  induction todo as [|v rest IH]; intros above done Hlen.
  - now rewrite app_nil_r.
  - cbn [set_cells]. cbn [List.length] in Hlen.
    assert (Hc : (List.length done <? num_cols)%nat = true)
      by (apply Nat.ltb_lt; lia).
    rewrite Hc. unfold bind.
    rewrite (@set_cell_on _ _ _ _ (cell_entries 0 done))
      by (apply dict_get_last, fresh_row_key).
    rewrite (@dict_set_last _ _ _ _ _ (fresh_row_key above)).
    rewrite (@dict_set_fresh _ _ _ _ (fresh_cell_key done)).
    replace (cell_entries 0 done
             ++ [(str_of_nat (List.length done), JDict [("value", JStr v)])])
      with (cell_entries 0 (done ++ [v]))
      by (rewrite cell_entries_snoc; reflexivity).
    replace (S (List.length done)) with (List.length (done ++ [v]))
      by (rewrite List.length_app; simpl; lia).
    fold (@bind unit unit).
    rewrite IH by (rewrite List.length_app; simpl; lia).
    now rewrite <- app_assoc.
Qed.

Lemma set_rows_all (todo : list (list string)) : forall above,
  Forall (fun row => (List.length row <= num_cols)%nat) todo ->
  set_rows num_cols (List.length above) todo (state (row_entries 0 above))
  = (state (row_entries 0 (above ++ todo)), Some tt).
Proof.
  induction todo as [|row rest IH]; intros above Hall.
  - now rewrite app_nil_r.
  - apply Forall_cons_iff in Hall as [Hrow Hrest].
    cbn [set_rows]. unfold bind at 1. rewrite cells_of_state.
    unfold bind at 1. cbn [lift py_in].
    assert (Hm : dict_mem (str_of_nat (List.length above))
                          (row_entries 0 above) = false).
    { destruct (dict_mem _ (row_entries 0 above)) eqn:M; [|reflexivity].
      apply dict_mem_In in M. now apply fresh_row_key in M. }
    rewrite Hm. unfold lift at 1, ret at 1. cbv beta iota.
    unfold bind at 1. unfold bind at 1. cbn [lift py_setitem].
    unfold ret at 1. cbv beta iota. rewrite put_cells.
    rewrite (@dict_set_fresh _ _ _ _ (fresh_row_key above)).
    unfold bind at 1.
    pose proof (@set_cells_row row above [] Hrow) as Hs.
    cbn [List.length cell_entries app] in Hs. rewrite Hs. clear Hs.
    replace (row_entries 0 above
             ++ [(str_of_nat (List.length above), JDict (cell_entries 0 row))])
      with (row_entries 0 (above ++ [row]))
      by (rewrite row_entries_snoc; reflexivity).
    replace (S (List.length above)) with (List.length (above ++ [row]))
      by (rewrite List.length_app; simpl; lia).
    rewrite IH by exact Hrest. now rewrite <- app_assoc.
Qed.

End Cells.

Lemma table_not_text (nd : node) :
  node_type_is nd "table" = true -> node_type_is nd "text" = false.
Proof.
  unfold node_type_is. destruct (dict_get "type" nd) as [[]|]; try discriminate.
  cbn [is_str]. intros H. apply String.eqb_eq in H. now subst.
Qed.

Lemma update_table_fresh (rows : list (list string)) (caption : option string)
      (nd : node) (data : dict json) :
  dict_get "data" nd = Some (JDict data) ->
  dict_mem "cells" data = false ->
  update_table rows caption nd
  = (with_data nd (patched_data rows caption data), Some 1%nat).
Proof.
  intros Hd Hc. unfold update_table, patched_data.
  set (D1 := dict_set "numRows" (JNum (Z.of_nat (List.length rows))) data).
  set (D2 := dict_set "numColumns" (JNum (Z.of_nat (max_row_length rows))) D1).
  assert (Hc2 : dict_mem "cells" D2 = false).
  { unfold dict_mem in *. unfold D2, D1. rewrite !dict_get_set.
    cbn [String.eqb Ascii.eqb Bool.eqb andb]. exact Hc. }
  unfold bind at 1. rewrite (@set_data_on _ _ nd data Hd). fold D1.
  unfold bind at 1. rewrite set_data_with. fold D2.
  unfold bind at 1, get_node. unfold bind at 1. rewrite with_data_get.
  unfold lift at 1, ret at 1. cbv beta iota. unfold bind at 1.
  cbn [py_in]. rewrite Hc2. unfold lift at 1, ret at 1. cbv beta iota.
  unfold bind at 1. rewrite set_data_with.
  unfold bind at 1.
  pose proof (@set_rows_all nd D2 (max_row_length rows) rows []) as Hs.
  cbn [List.length row_entries app] in Hs. rewrite Hs; clear Hs.
  - unfold bind at 1.
    destruct (block_caption (Table rows caption)) as [c|].
    + rewrite set_data_with. reflexivity.
    + reflexivity.
  - apply Forall_forall. intros r Hr.
    now apply (max_row_length_ge _ 0%nat r Hr).
Qed.

Lemma cell_entries_get (row : list string) : forall i c v,
  nth_error row c = Some v ->
  dict_get (str_of_nat (i + c)) (cell_entries i row)
  = Some (JDict [("value", JStr v)]).
Proof.
  induction row as [|x rest IH]; intros i c v H; [destruct c; discriminate|].
  destruct c as [|c]; cbn [cell_entries dict_get nth_error] in *.
  - injection H as ->. now rewrite Nat.add_0_r, String.eqb_refl.
  - destruct (String.eqb (str_of_nat (i + S c)) (str_of_nat i)) eqn:E.
    + apply String.eqb_eq, str_of_nat_inj in E. lia.
    + replace (i + S c)%nat with (S i + c)%nat by lia. now apply IH.
Qed.

Lemma row_entries_get (rows : list (list string)) : forall i r row,
  nth_error rows r = Some row ->
  dict_get (str_of_nat (i + r)) (row_entries i rows)
  = Some (JDict (cell_entries 0 row)).
Proof.
  induction rows as [|x rest IH]; intros i r row H; [destruct r; discriminate|].
  destruct r as [|r]; cbn [row_entries dict_get nth_error] in *.
  - injection H as ->. now rewrite Nat.add_0_r, String.eqb_refl.
  - destruct (String.eqb (str_of_nat (i + S r)) (str_of_nat i)) eqn:E.
    + apply String.eqb_eq, str_of_nat_inj in E. lia.
    + replace (i + S r)%nat with (S i + r)%nat by lia. now apply IH.
Qed.

End TablePatchFacts.

Section TablePatchTheorem.

Import Py Blocks Publish TablePatch.
Local Open Scope string_scope.
Local Open Scope list_scope.

(** X29.  A table node without cells that is tracked by a table block
    gets the number of rows, the length of the longest row, one cell for
    every cell of the block and the caption, if the block has one;
    nothing else of the node changes and one replacement is counted.
    Every cell of the block can be read back from the cells under its row
    and column index: no cell is left out by the test on the column
    index and none overwrites another. *)
Theorem table_patch_writes_rows
  (tracked_blocks : dict block) (node_id : string) (nd : node)
  (data : dict json) (rows : list (list string)) (caption : option string) :
  node_type_is nd "table" = true ->
  dict_get "data" nd = Some (JDict data) ->
  dict_mem "cells" data = false ->
  dict_get node_id tracked_blocks = Some (Table rows caption) ->
  update_node tracked_blocks node_id nd
  = (dict_set "data" (JDict (patched_data rows caption data)) nd,
     Some (Next 1))
  /\ forall r row c v,
       nth_error rows r = Some row -> nth_error row c = Some v ->
       dict_get (str_of_nat r) (row_entries 0 rows)
       = Some (JDict (cell_entries 0 row))
       /\ dict_get (str_of_nat c) (cell_entries 0 row)
          = Some (JDict [("value", JStr v)]).
Proof.
  intros Hty Hd Hc Htr. split.
  - assert (Hm : dict_mem "data" nd = true)
      by (unfold dict_mem; now rewrite Hd).
    unfold update_node, bind, get_node.
    rewrite (table_not_text _ Hty), Hty, Hm. cbn [andb]. unfold ret at 1.
    cbv beta iota. rewrite Htr. unfold patch_table, bind.
    now rewrite (@update_table_fresh rows caption nd data Hd Hc).
  - intros r row c v Hr Hv. split.
    + exact (@row_entries_get rows 0%nat r row Hr).
    + exact (@cell_entries_get row 0%nat c v Hv).
Qed.

(** A table of two rows of different length, with a caption. *)
Lemma table_patch_writes_rows_witness :
  update_node [("n-1", Table [["a"; "b"]; ["c"]] (Some "Sizes"))] "n-1"
              fresh_table_node
  = ([("type", JStr "table");
      ("data",
       JDict [("numRows", JNum 2); ("numColumns", JNum 2);
              ("cells",
               JDict [("0", JDict [("0", JDict [("value", JStr "a")]);
                                   ("1", JDict [("value", JStr "b")])]);
                      ("1", JDict [("0", JDict [("value", JStr "c")])])]);
              ("caption", JStr "Sizes")])],
     Some (Next 1)).
Proof.
  exact (proj1 (@table_patch_writes_rows
                  [("n-1", Table [["a"; "b"]; ["c"]] (Some "Sizes"))] "n-1"
                  fresh_table_node
                  [("numRows", JNum 2); ("numColumns", JNum 2)]
                  [["a"; "b"]; ["c"]] (Some "Sizes")
                  eq_refl eq_refl eq_refl eq_refl)).
Defined.

End TablePatchTheorem.

(* ------------------------------------------------------------------ *)
(** ** The patch pass on placeholders *)

Section PassFacts.

Import Py Blocks Publish Pass.
Local Open Scope string_scope.
Local Open Scope list_scope.

Variable parsed_blocks : dict block.

Lemma update_node_awaiting (node_id : string) (nd : node) :
  awaiting parsed_blocks node_id nd = true ->
  update_node parsed_blocks node_id nd
  = (patch_of parsed_blocks node_id nd, Some (Next 1)).
Proof.
  unfold awaiting, patch_of. intros H.
  apply andb_true_iff in H as [Hty H].
  destruct (dict_get node_id parsed_blocks) as [[ty t a d| | |c l|]|] eqn:Htr;
    try discriminate.
  - apply andb_true_iff in H as [Hne H]. apply negb_true_iff in Hne.
    destruct (dict_get "data" nd) as [[| | | | |data]|] eqn:Hdata;
      try discriminate.
    destruct (dict_get "text" data) as [[| | |marker| |]|] eqn:Htext;
      try discriminate.
    assert (Hm1 : dict_mem "data" nd = true)
      by (unfold dict_mem; now rewrite Hdata).
    assert (Hm2 : dict_mem "text" data = true)
      by (unfold dict_mem; now rewrite Htext).
    unfold update_node, bind, get_node, lift, ret. rewrite Hty, Htr, Hm1.
    cbn [andb]. rewrite Hdata. cbn beta iota. cbn [py_in]. rewrite Hm2.
    unfold patch_text, get_data, bind, get_node, lift, ret. rewrite Hdata.
    cbn beta iota. cbn [py_getitem]. rewrite Htext. cbn beta iota.
    rewrite H, Hne, (@not_empty_content t Hne).
    rewrite (@set_data_on "text" (JStr t) nd data Hdata).
    assert (Hd1 : dict_get "data"
                    (dict_set "data" (JDict (dict_set "text" (JStr t) data))
                              nd)
                  = Some (JDict (dict_set "text" (JStr t) data)))
      by apply dict_get_set_same.
    destruct a as [al|]; [destruct (truthy al)|].
    + destruct (dict_get al alignment_map) as [v|].
      * rewrite (@set_data_on "textAlignment" (JStr v) _ _ Hd1).
        now rewrite dict_set_twice.
      * reflexivity.
    + reflexivity.
    + reflexivity.
  - unfold update_node, bind, get_node. rewrite Hty, Htr. reflexivity.
Qed.

Lemma pass_loop (todo : dict node) : forall done n,
  Forall (fun e => awaiting parsed_blocks (fst e) (snd e) = true) todo ->
  update_nodes parsed_blocks done todo n
  = (done ++ map (fun e => (fst e, patch_of parsed_blocks (fst e) (snd e)))
                 todo,
     Returned (n + List.length todo)).
Proof.
  induction todo as [|[node_id nd] rest IH]; intros done n Hall.
  - simpl. now rewrite app_nil_r, Nat.add_0_r.
  - apply Forall_cons_iff in Hall as [Hnd Hrest]. cbn [fst snd] in Hnd.
    cbn [update_nodes]. rewrite (update_node_awaiting _ _ Hnd).
    rewrite IH by exact Hrest. cbn [map fst snd List.length].
    rewrite <- app_assoc. cbn [app]. f_equal. f_equal. lia.
Qed.

End PassFacts.

Section PassTheorem.

Import Py Blocks Publish Pass.
Local Open Scope string_scope.
Local Open Scope list_scope.

(** X30.  On a document all of whose nodes wait for their content (text
    nodes tracked by a code block, or showing a placeholder marker and
    tracked by a text block with content), the patch pass ends without
    exception, keeps every node in its place under its id, gives each
    node the content of the block tracked for it, and counts one
    replacement per node. *)
Theorem pass_replaces_every_placeholder
  (nodes : dict node) (parsed_blocks : dict block) :
  Forall (fun e => awaiting parsed_blocks (fst e) (snd e) = true) nodes ->
  update_storymap_content nodes parsed_blocks
  = (map (fun e => (fst e, patch_of parsed_blocks (fst e) (snd e))) nodes,
     Returned (List.length nodes)).
Proof.
  intros H. unfold update_storymap_content.
  now rewrite (@pass_loop parsed_blocks nodes [] 0%nat H).
Qed.

(** A heading and a Python snippet: the snippet is published as [txt]. *)
Lemma pass_replaces_every_placeholder_witness :
  update_storymap_content draft_nodes draft_blocks
  = ([("n-0", [("type", JStr "text");
               ("data", JDict [("text", JStr "Title")])]);
      ("n-1", [("type", JStr "code");
               ("data", JDict [("content", JStr "x = 1");
                               ("lang", JStr "txt");
                               ("lineNumbers", JBool true)])])],
     Returned 2).
Proof.
  refine (@pass_replaces_every_placeholder draft_nodes draft_blocks _).
  constructor; [reflexivity|]. constructor; [reflexivity|constructor].
Defined.

End PassTheorem.
